(** * intelligent-study-assistant: the study planner and the chatbot client

    A shallow embedding of [src/models/study_planner.py]
    (class [IntelligentStudyPlanner]) and of [StudyChatbot.ask] from
    [src/models/chatbot.py], followed by the properties the specification
    states about them.

    Conventions of the embedding.
    - The planner is embedded twice.  [StudyPlanner] models a float by the
      exact rational it denotes: its operations are exact, and binary64
      rounding error, infinities and NaN are outside it.  It carries the
      properties of the structure of a plan: the day count, the end of the
      learning loop, the rendering, the order of the sessions.
      [Planner64] computes with IEEE 754 binary64 numbers as CPython does,
      raises what its arithmetic raises, and carries the properties that
      state the planner's figures.
    - A Python [dict] with arbitrary string keys is an association list in
      insertion order; a dict with a fixed key set is a record, and a key
      that a branch of the code leaves out is an [option] field.
    - Exceptions are the [Raise] results of the [result] monad.
    - The wall clock and [repr] of a float, which are not functions of the
      modelled values, are parameters of the planner sections.
    - A [str] of the chatbot client is a sequence of Unicode code points,
      and what the client prints is kept in a console. *)

From Stdlib Require Import ZArith QArith Qround Qreduction Qabs Qminmax.
From Stdlib Require Import List String Ascii Bool Lia Lqa DecimalString.
From Stdlib Require Floats.
Import ListNotations.

Set Implicit Arguments.

Local Open Scope string_scope.
Local Open Scope Q_scope.

(** ** Exceptions and results *)

Inductive exn : Type :=
| KeyError (key : string)
| ZeroDivisionError
| IndexError
| Diverged.   (* a [while] loop that did not finish within its fuel *)

Inductive result (A : Type) : Type :=
| Ok (a : A)
| Raise (e : exn).

Arguments Ok {A} a.
Arguments Raise {A} e.

Definition bind {A B : Type} (c : result A) (k : A -> result B) : result B :=
  match c with
  | Ok a => k a
  | Raise e => Raise e
  end.

Notation "x <- c ;; k" := (bind c (fun x => k))
  (at level 61, c at next level, right associativity).

(** ** Python numbers *)

Module Py.

Inductive num : Type :=
| PyInt (z : Z)
| PyFloat (q : Q).

Definition num_Q (n : num) : Q :=
  match n with
  | PyInt z => inject_Z z
  | PyFloat q => q
  end.

Definition Qlt_bool (x y : Q) : bool := negb (Qle_bool y x).

Definition num_add (a b : num) : num :=
  match a, b with
  | PyInt x, PyInt y => PyInt (x + y)
  | _, _ => PyFloat (Qred (num_Q a + num_Q b))
  end.

Definition num_sub (a b : num) : num :=
  match a, b with
  | PyInt x, PyInt y => PyInt (x - y)
  | _, _ => PyFloat (Qred (num_Q a - num_Q b))
  end.

Definition num_mul (a b : num) : num :=
  match a, b with
  | PyInt x, PyInt y => PyInt (x * y)
  | _, _ => PyFloat (Qred (num_Q a * num_Q b))
  end.

(** [a / b]: true division, always a float. *)
Definition num_truediv (a b : num) : result num :=
  if Qeq_bool (num_Q b) 0 then Raise ZeroDivisionError
  else Ok (PyFloat (Qred (num_Q a / num_Q b))).

(** [a // b]: floor division, an int on ints and a whole float otherwise. *)
Definition num_floordiv (a b : num) : result num :=
  if Qeq_bool (num_Q b) 0 then Raise ZeroDivisionError
  else match a, b with
       | PyInt x, PyInt y => Ok (PyInt (x / y))
       | _, _ => Ok (PyFloat (inject_Z (Qfloor (num_Q a / num_Q b))))
       end.

Definition num_lt (a b : num) : bool := Qlt_bool (num_Q a) (num_Q b).
Definition num_gt (a b : num) : bool := Qlt_bool (num_Q b) (num_Q a).
Definition num_le (a b : num) : bool := Qle_bool (num_Q a) (num_Q b).
Definition num_ge (a b : num) : bool := Qle_bool (num_Q b) (num_Q a).

(** [min(a, b, c)]: the first of the smallest arguments. *)
Definition py_min2 (m x : num) : num := if num_lt x m then x else m.
Definition py_min3 (a b c : num) : num := py_min2 (py_min2 a b) c.

(** Rounding to the nearest integer, ties to the even one. *)
Definition round_half_even (q : Q) : Z :=
  let f := Qfloor q in
  match (q - inject_Z f ?= 1 # 2)%Q with
  | Lt => f
  | Gt => (f + 1)%Z
  | Eq => if Z.even f then f else (f + 1)%Z
  end.

(** [round(x, 1)]: an int is returned as it is, a float is rounded to one
    decimal place. *)
Definition round1 (x : num) : num :=
  match x with
  | PyInt z => PyInt z
  | PyFloat q => PyFloat (Qred (inject_Z (round_half_even (q * 10)) / 10))
  end.

(** [int(x)]: truncation toward zero. *)
Definition Qtruncate (q : Q) : Z :=
  if Qle_bool 0%Q q then Qfloor q else Qceiling q.

Definition int_of (x : num) : Z :=
  match x with
  | PyInt z => z
  | PyFloat q => Qtruncate q
  end.

(** [sum(xs)]: left to right from the int 0. *)
Definition py_sum (xs : list num) : num := fold_left num_add xs (PyInt 0).

(** ** Strings *)

Definition nl : string := String "010"%char EmptyString.

Definition str_of_Z (z : Z) : string := NilZero.string_of_int (Z.to_int z).

(** [format(x, ".1f")]: the decimal rounded to one place, ties to even. *)
Definition fmt_1f (x : num) : string :=
  let q := num_Q x in
  let n := Z.abs (round_half_even (q * 10)) in
  ((if Qlt_bool q 0 then "-" else "")
     ++ str_of_Z (n / 10) ++ "." ++ str_of_Z (n mod 10))%string.

Definition is_lower (c : ascii) : bool :=
  let n := nat_of_ascii c in (97 <=? n)%nat && (n <=? 122)%nat.
Definition is_upper (c : ascii) : bool :=
  let n := nat_of_ascii c in (65 <=? n)%nat && (n <=? 90)%nat.
Definition to_upper (c : ascii) : ascii :=
  if is_lower c then ascii_of_nat (nat_of_ascii c - 32) else c.
Definition to_lower (c : ascii) : ascii :=
  if is_upper c then ascii_of_nat (nat_of_ascii c + 32) else c.

(** [s.upper()] on ASCII text. *)
Fixpoint upper (s : string) : string :=
  match s with
  | EmptyString => EmptyString
  | String c s' => String (to_upper c) (upper s')
  end.

(** [s.title()] on ASCII text: a letter that follows a non-letter is put in
    upper case, every other letter in lower case. *)
Fixpoint title_from (prev_cased : bool) (s : string) : string :=
  match s with
  | EmptyString => EmptyString
  | String c s' =>
      let cased := is_lower c || is_upper c in
      String (if prev_cased then to_lower c else to_upper c)
             (title_from cased s')
  end.
Definition title (s : string) : string := title_from false s.

(** [sep.join(xs)]. *)
Fixpoint join (sep : string) (xs : list string) : string :=
  match xs with
  | [] => EmptyString
  | [x] => x
  | x :: rest => (x ++ sep ++ join sep rest)%string
  end.

(** [x in xs] on a list of strings. *)
Fixpoint str_in (x : string) (xs : list string) : bool :=
  match xs with
  | [] => false
  | y :: ys => String.eqb x y || str_in x ys
  end.

(** ** Dictionaries keyed by strings, in insertion order *)

Definition dict (V : Type) : Type := list (string * V).

Fixpoint dict_get {V : Type} (d : dict V) (k : string) : option V :=
  match d with
  | [] => None
  | (k', v) :: d' => if String.eqb k k' then Some v else dict_get d' k
  end.

(** [d[k] = v]: an existing key keeps its place, a new one goes last. *)
Fixpoint dict_set {V : Type} (d : dict V) (k : string) (v : V) : dict V :=
  match d with
  | [] => [(k, v)]
  | (k', v') :: d' =>
      if String.eqb k k' then (k', v) :: d' else (k', v') :: dict_set d' k v
  end.

(** [d[k]], raising [KeyError]. *)
Definition dict_item {V : Type} (d : dict V) (k : string) : result V :=
  match dict_get d k with
  | Some v => Ok v
  | None => Raise (KeyError k)
  end.

Definition dict_values {V : Type} (d : dict V) : list V := map snd d.

(** [profile.get(key, default)] on an optional record field. *)
Definition get_default {A : Type} (field : option A) (default : A) : A :=
  match field with
  | Some a => a
  | None => default
  end.

(** [plan[key]] on an optional record field. *)
Definition item {A : Type} (key : string) (field : option A) : result A :=
  match field with
  | Some a => Ok a
  | None => Raise (KeyError key)
  end.

(** [range(n)]. *)
Definition range (n : Z) : list Z := map Z.of_nat (seq 0 (Z.to_nat n)).

End Py.

(** * The study planner ([IntelligentStudyPlanner]) *)

Module StudyPlanner.
Import Py.

(** ** Tables of [__init__] *)

Record PaceInfo : Type := {
  hours_per_topic : num;
  revision_ratio : num
}.

Record SessionPattern : Type := {
  session_length : num;
  break_length : num;
  long_break : num
}.

Definition self_learning_pace : dict PaceInfo :=
  [ ("slow", {| hours_per_topic := PyInt 4; revision_ratio := PyFloat 0.4 |});
    ("moderate",
      {| hours_per_topic := PyFloat 2.5; revision_ratio := PyFloat 0.3 |});
    ("fast",
      {| hours_per_topic := PyFloat 1.5; revision_ratio := PyFloat 0.2 |}) ].

Definition self_session_patterns : dict SessionPattern :=
  [ ("pomodoro",
      {| session_length := PyInt 25; break_length := PyInt 5;
         long_break := PyInt 15 |});
    ("deep_work",
      {| session_length := PyInt 90; break_length := PyInt 20;
         long_break := PyInt 30 |});
    ("short_burst",
      {| session_length := PyInt 15; break_length := PyInt 5;
         long_break := PyInt 10 |}) ].

(** ** Data model *)

(** The profile dict: a key that is absent is [None]. *)
Record StudentProfile : Type := {
  learning_pace : option string;
  study_pattern : option string;
  daily_available_hours : option num;
  preferred_times : option (list string);
  weak_areas : option (list string)
}.

(** A session dict; the revision sessions of the last day and of the plain
    revision days have no ["is_weak_area"] key. *)
Record Session : Type := {
  topic : string;
  duration_minutes : num;
  activities : list string;
  is_weak_area : option bool
}.

Record DaySchedule : Type := {
  day : Z;
  date : string;
  phase : string;
  preferred_time : string;
  sessions : list Session;
  total_hours : num
}.

(** The dict returned by [generate_personalized_plan]: each branch of the
    code fills the keys of its own and leaves the others out. *)
Record Plan : Type := {
  feasible : option bool;
  subject : option string;
  student_profile : option StudentProfile;
  total_topics : option Z;
  deadline : option string;
  total_hours_needed : option num;
  total_hours_available : option num;
  buffer_hours : option num;
  daily_plan : option (list DaySchedule);
  study_tips : option (list string);
  message : option string;
  hours_short : option num;
  suggestions : option (list string)
}.

Definition len {A : Type} (xs : list A) : Z := Z.of_nat (List.length xs).

(** [xs[i % len(xs)]]. *)
Definition cyclic_item {A : Type} (xs : list A) (i : Z) : result A :=
  if (len xs =? 0)%Z then Raise ZeroDivisionError
  else match nth_error xs (Z.to_nat (i mod len xs)) with
       | Some x => Ok x
       | None => Raise IndexError
       end.

(** [minutes / 60]. *)
Definition hours_of_minutes (minutes : num) : result num :=
  num_truediv minutes (PyInt 60).

(** ** [_calculate_topic_times] *)

(** The body of the [for topic in topics] loop: the value stored for
    [topic]. *)
Definition topic_hours (base_hours : num) (weak_areas : list string)
    (difficulty_levels : option (dict string)) (topic : string) : num :=
  let hours := base_hours in
  let hours :=
    if str_in topic weak_areas then num_mul hours (PyFloat 1.5) else hours in
  let hours :=
    match difficulty_levels with
    | Some levels =>
        match dict_get levels topic with
        | Some diff =>
            if String.eqb diff "hard" then num_mul hours (PyFloat 1.3)
            else if String.eqb diff "easy" then num_mul hours (PyFloat 0.7)
            else hours
        | None => hours
        end
    | None => hours
    end in
  round1 hours.

Definition _calculate_topic_times (topics : list string) (pace : string)
    (weak_areas : list string) (difficulty_levels : option (dict string))
  : result (dict num) :=
  pace_info <- dict_item self_learning_pace pace;;
  let base_hours := hours_per_topic pace_info in
  Ok (fold_left
        (fun topic_times topic =>
           dict_set topic_times topic
             (topic_hours base_hours weak_areas difficulty_levels topic))
        topics []).

(** ** [_generate_activities] *)

Definition _generate_activities (topic : string) (duration_hours : num)
    (is_weak : bool) : list string :=
  let activities :=
    if num_ge duration_hours (PyFloat 1.5) then
      [ "Watch tutorial/lecture on " ++ topic ++ " (30 min)";
        "Read textbook chapter on " ++ topic ++ " (25 min)";
        "Take notes and summarize key concepts (20 min)";
        "Practice problems/examples (25 min)";
        "Create flashcards for " ++ topic ++ " (10 min)" ]
    else if num_ge duration_hours (PyInt 1) then
      [ "Study " ++ topic ++ " theory (30 min)";
        "Practice 3-5 problems on " ++ topic ++ " (20 min)";
        "Review and summarize (10 min)" ]
    else
      [ "Quick review of " ++ topic ++ " concepts";
        "Practice 2-3 problems" ] in
  if is_weak then
    (activities ++ ["Extra focus needed - spend more time on examples"])%list
  else activities.

(** ** [_generate_revision_sessions] *)

Definition final_review_activities : list string :=
  [ "Quick review of all topics (1 hour)";
    "Take full mock test (1.5 hours)";
    "Review mistakes and weak areas (30 min)" ].

Definition intensive_session (time_per_topic : num) (topic : string)
  : Session :=
  {| topic := topic;
     duration_minutes := time_per_topic;
     activities :=
       [ "Intensive review of " ++ topic;
         "Practice difficult problems on " ++ topic;
         "Clarify doubts" ];
     is_weak_area := Some true |}.

Definition plain_revision_session (time_per_topic : num) (topic : string)
  : Session :=
  {| topic := topic;
     duration_minutes := time_per_topic;
     activities :=
       [ "Review " ++ topic ++ " notes"; "Practice mixed problems" ];
     is_weak_area := None |}.

Definition _generate_revision_sessions (topics weak_areas : list string)
    (daily_hours : num) (phase : string) : result (list Session) :=
  if String.eqb phase "Final Review & Mock Test" then
    Ok [ {| topic := "All Topics";
            duration_minutes := PyInt (int_of (num_mul daily_hours (PyInt 30)));
            activities := final_review_activities;
            is_weak_area := None |} ]
  else if String.eqb phase "Intensive Revision" then
    time_per_topic <-
      num_floordiv (num_mul daily_hours (PyInt 60))
                   (PyInt (Z.max (len weak_areas) 1));;
    Ok (map (intensive_session time_per_topic) weak_areas)
  else
    time_per_topic <-
      num_floordiv (num_mul daily_hours (PyInt 60)) (PyInt (len topics));;
    Ok (map (plain_revision_session time_per_topic) topics).

(** ** The learning-phase [while] loop of [_create_daily_schedule] *)

(** The variables the loop reads and writes. *)
Record LoopState : Type := {
  hours_remaining : num;
  topics_queue : list string;
  topic_progress : dict num;
  day_schedule : DaySchedule
}.

(** [day_schedule["sessions"].append(session)] followed by
    [day_schedule["total_hours"] += session_hours]. *)
Definition add_session (d : DaySchedule) (session : Session)
    (session_hours : num) : DaySchedule :=
  {| day := day d;
     date := date d;
     phase := phase d;
     preferred_time := preferred_time d;
     sessions := (sessions d ++ [session])%list;
     total_hours := num_add (total_hours d) session_hours |}.

Section DayLoop.

Variable session_info : SessionPattern.
Variable topic_times : dict num.
Variable weak_areas : list string.

(** [hours_remaining > 0 and topics_queue]. *)
Definition loop_guard (st : LoopState) : bool :=
  num_gt (hours_remaining st) (PyInt 0)
  && match topics_queue st with [] => false | _ :: _ => true end.

(** [topics_queue.pop(0)], everything else unchanged. *)
Definition pop_topic (st : LoopState) : LoopState :=
  {| hours_remaining := hours_remaining st;
     topics_queue := tl (topics_queue st);
     topic_progress := topic_progress st;
     day_schedule := day_schedule st |}.

(** One iteration of the loop body.  The two dict entries the source reads
    again after the session ([topic_progress[current_topic]] just written and
    [topic_times[current_topic]]) are the values [logged + session_hours] and
    [allotted] already at hand. *)
Definition loop_body (st : LoopState) : result LoopState :=
  match topics_queue st with
  | [] => Raise IndexError
  | current_topic :: rest =>
      allotted <- dict_item topic_times current_topic;;
      logged <- dict_item (topic_progress st) current_topic;;
      let time_needed := num_sub allotted logged in
      pattern_hours <- hours_of_minutes (session_length session_info);;
      let session_hours :=
        py_min3 pattern_hours (hours_remaining st) time_needed in
      if num_gt session_hours (PyFloat 0.1) then
        let session :=
          {| topic := current_topic;
             duration_minutes :=
               PyInt (int_of (num_mul session_hours (PyInt 60)));
             activities :=
               _generate_activities current_topic session_hours
                 (str_in current_topic weak_areas);
             is_weak_area := Some (str_in current_topic weak_areas) |} in
        let progress := num_add logged session_hours in
        let remaining := num_sub (hours_remaining st) session_hours in
        remaining <-
          (if num_gt remaining (PyInt 0) then
             break_hours <- hours_of_minutes (break_length session_info);;
             Ok (num_sub remaining break_hours)
           else Ok remaining);;
        Ok {| hours_remaining := remaining;
              topics_queue :=
                if num_ge progress allotted then rest else topics_queue st;
              topic_progress :=
                dict_set (topic_progress st) current_topic progress;
              day_schedule :=
                add_session (day_schedule st) session session_hours |}
      else Ok (pop_topic st)
  end.

(** The loop, run for at most [fuel] iterations. *)
Fixpoint while_loop (fuel : nat) (st : LoopState) : result LoopState :=
  if loop_guard st then
    match fuel with
    | O => Raise Diverged
    | S fuel' => st' <- loop_body st;; while_loop fuel' st'
    end
  else Ok st.

(** A bound on the number of iterations from [st]: the queued topics plus
    the tenths of an hour that remain. *)
Definition loop_measure (st : LoopState) : nat :=
  (List.length (topics_queue st)
   + Z.to_nat (Qceiling (10 * num_Q (hours_remaining st))))%nat.

End DayLoop.

(** ** The planner proper *)

Section Planner.

(** [repr] of a float, as an f-string field without a format prints it. *)
Variable float_repr : Q -> string.
(** The text of [(datetime.now() + timedelta(days=k)).strftime("%Y-%m-%d")]. *)
Variable date_after : Z -> string.

(** [str(x)] of a number. *)
Definition py_str (x : num) : string :=
  match x with
  | PyInt z => str_of_Z z
  | PyFloat q => float_repr q
  end.

(** *** [_create_daily_schedule] *)

(** What the learning phase carries from one day to the next. *)
Record Carry : Type := {
  day_num : Z;
  queue : list string;
  progress : dict num;
  days_done : list DaySchedule
}.

(** One pass of the [for day in range(study_days)] loop. *)
Definition study_day (session_info : SessionPattern) (topic_times : dict num)
    (daily_hours : num) (preferred_times weak_areas : list string)
    (c : Carry) (day : Z) : result Carry :=
  let day_num := (day_num c + 1)%Z in
  slot <- cyclic_item preferred_times day;;
  let start :=
    {| hours_remaining := daily_hours;
       topics_queue := queue c;
       topic_progress := progress c;
       day_schedule :=
         {| day := day_num;
            date := date_after day;
            phase := "Learning";
            preferred_time := slot;
            sessions := [];
            total_hours := PyInt 0 |} |} in
  final <-
    while_loop session_info topic_times weak_areas (loop_measure start) start;;
  Ok {| day_num := day_num;
        queue := topics_queue final;
        progress := topic_progress final;
        days_done := (days_done c ++ [day_schedule final])%list |}.

Fixpoint for_each {S A : Type} (body : S -> A -> result S) (xs : list A)
    (s : S) : result S :=
  match xs with
  | [] => Ok s
  | x :: rest => s' <- body s x;; for_each body rest s'
  end.

Definition revision_phase_name (revision_days day : Z) : string :=
  if (day =? revision_days - 1)%Z then "Final Review & Mock Test"
  else if (day =? revision_days - 2)%Z then "Intensive Revision"
  else "Revision".

(** One pass of the [for day in range(revision_days)] loop. *)
Definition revision_day (topics weak_areas : list string) (daily_hours : num)
    (preferred_times : list string) (study_days revision_days : Z)
    (c : Carry) (day : Z) : result Carry :=
  let day_num := (day_num c + 1)%Z in
  let phase := revision_phase_name revision_days day in
  slot <- cyclic_item preferred_times day;;
  revision_sessions <-
    _generate_revision_sessions topics weak_areas daily_hours phase;;
  Ok {| day_num := day_num;
        queue := queue c;
        progress := progress c;
        days_done :=
          (days_done c
             ++ [ {| day := day_num;
                     date := date_after (study_days + day);
                     phase := phase;
                     preferred_time := slot;
                     sessions := revision_sessions;
                     total_hours := daily_hours |} ])%list |}.

Definition revision_days_of (deadline_days : Z) : Z :=
  Z.max 2 (int_of (num_mul (PyInt deadline_days) (PyFloat 0.2))).

Definition _create_daily_schedule (topics : list string)
    (topic_times : dict num) (deadline_days : Z) (daily_hours : num)
    (preferred_times : list string) (pattern : string)
    (weak_areas : list string) (subject : string)
  : result (list DaySchedule) :=
  session_info <- dict_item self_session_patterns pattern;;
  let revision_days := revision_days_of deadline_days in
  let study_days := (deadline_days - revision_days)%Z in
  let start :=
    {| day_num := 0;
       queue := topics;
       progress :=
         fold_left (fun d topic => dict_set d topic (PyInt 0)) topics [];
       days_done := [] |} in
  learned <-
    for_each
      (study_day session_info topic_times daily_hours preferred_times
                 weak_areas)
      (range study_days) start;;
  revised <-
    for_each
      (revision_day topics weak_areas daily_hours preferred_times study_days
                    revision_days)
      (range revision_days) learned;;
  Ok (days_done revised).

(** *** [_generate_infeasible_response] *)

Definition raise_hours_suggestion (new_daily_hours daily_hours : num)
  : string :=
  "Study " ++ fmt_1f new_daily_hours ++ " hours per day instead of "
    ++ py_str daily_hours.

Definition extend_deadline_suggestion (new_deadline days : Z) : string :=
  "Extend deadline by " ++ str_of_Z (new_deadline - days) ++ " days".

Definition fast_pace_suggestion : string :=
  "Consider switching to 'fast' learning pace if you're confident".

Definition infeasible_message (needed available : num) : string :=
  "Not enough time! Need " ++ fmt_1f needed ++ " hours but only have "
    ++ fmt_1f available ++ " hours.".

Definition _generate_infeasible_response (needed available : num) (days : Z)
    (daily_hours : num) : result Plan :=
  let short := num_sub needed available in
  let suggested := [] in
  new_daily_hours <- num_truediv needed (PyInt days);;
  let suggested :=
    if num_le new_daily_hours (PyInt 12) then
      (suggested ++ [raise_hours_suggestion new_daily_hours daily_hours])%list
    else suggested in
  per_day <- num_truediv needed daily_hours;;
  let new_deadline := (int_of per_day + 1)%Z in
  let suggested :=
    (suggested ++ [extend_deadline_suggestion new_deadline days])%list in
  let suggested := (suggested ++ [fast_pace_suggestion])%list in
  Ok {| feasible := Some false;
        subject := None;
        student_profile := None;
        total_topics := None;
        deadline := None;
        total_hours_needed := None;
        total_hours_available := None;
        buffer_hours := None;
        daily_plan := None;
        study_tips := None;
        message := Some (infeasible_message needed available);
        hours_short := Some (round1 short);
        suggestions := Some suggested |}.

(** *** [_generate_personalized_tips] *)

Definition _generate_personalized_tips (profile : StudentProfile)
    (topics : list string) : list string :=
  let tips : list string := [] in
  let pace := get_default (learning_pace profile) "moderate" in
  let pattern := get_default (study_pattern profile) "pomodoro" in
  let weak := get_default (weak_areas profile) [] in
  let tips :=
    if String.eqb pace "slow" then
      (tips ++ [ "Take your time - deep understanding beats speed";
                 "Make detailed notes and revisit them daily" ])%list
    else if String.eqb pace "fast" then
      (tips ++ [ "You learn quickly - but don't skip revision!";
                 "Challenge yourself with advanced problems" ])%list
    else tips in
  let tips :=
    if String.eqb pattern "pomodoro" then
      (tips ++ ["Use a Pomodoro timer app to stay on track"])%list
    else if String.eqb pattern "deep_work" then
      (tips ++ ["Eliminate all distractions during 90-min sessions"])%list
    else tips in
  let tips :=
    match weak with
    | [] => tips
    | _ :: _ =>
        (tips ++ [ ("Extra focus on: " ++ join ", " (firstn 3 weak))%string;
                   "Consider finding a study partner for weak topics" ])%list
    end in
  (tips ++ [ "Stay hydrated and take regular breaks";
             "Get 7-8 hours of sleep for better retention" ])%list.

(** *** [generate_personalized_plan] *)

Definition generate_personalized_plan (profile : StudentProfile)
    (subject_name : string) (topics : list string) (deadline_days : Z)
    (difficulty_levels : option (dict string)) : result Plan :=
  let pace := get_default (learning_pace profile) "moderate" in
  let pattern := get_default (study_pattern profile) "pomodoro" in
  let daily_hours := get_default (daily_available_hours profile) (PyInt 3) in
  let times_of_day := get_default (preferred_times profile) ["evening"] in
  let weak := get_default (weak_areas profile) [] in
  topic_time_allocation <-
    _calculate_topic_times topics pace weak difficulty_levels;;
  let hours_needed := py_sum (dict_values topic_time_allocation) in
  let hours_available := num_mul (PyInt deadline_days) daily_hours in
  pace_info <- dict_item self_learning_pace pace;;
  let total_with_revision :=
    num_mul hours_needed (num_add (PyInt 1) (revision_ratio pace_info)) in
  if num_gt total_with_revision hours_available then
    _generate_infeasible_response total_with_revision hours_available
      deadline_days daily_hours
  else
    schedule <-
      _create_daily_schedule topics topic_time_allocation deadline_days
        daily_hours times_of_day pattern weak subject_name;;
    Ok {| feasible := Some true;
          subject := Some subject_name;
          student_profile := Some profile;
          total_topics := Some (len topics);
          deadline := Some (date_after deadline_days);
          total_hours_needed := Some (round1 total_with_revision);
          total_hours_available := Some hours_available;
          buffer_hours :=
            Some (round1 (num_sub hours_available total_with_revision));
          daily_plan := Some schedule;
          study_tips := Some (_generate_personalized_tips profile topics);
          message := None;
          hours_short := None;
          suggestions := None |}.

(** *** [get_plan_summary] *)

(** [get_plan_summary] is handed the plan object by reference.  A [Reading]
    threads that object through the accesses the function makes and hands
    it back with the outcome. *)
Definition Reading (A : Type) : Type := Plan -> result A * Plan.

Definition ret {A : Type} (a : A) : Reading A := fun plan => (Ok a, plan).

(** [plan.get(key)]. *)
Definition plan_get {A : Type} (field : Plan -> option A)
  : Reading (option A) :=
  fun plan => (Ok (field plan), plan).

(** [plan[key]]. *)
Definition plan_item {A : Type} (key : string) (field : Plan -> option A)
  : Reading A :=
  fun plan => (item key (field plan), plan).

Definition and_then {A B : Type} (c : Reading A) (k : A -> Reading B)
  : Reading B :=
  fun plan =>
    match c plan with
    | (Ok a, plan') => k a plan'
    | (Raise e, plan') => (Raise e, plan')
    end.

Notation "x <~ c ;; k" := (and_then c (fun x => k))
  (at level 61, c at next level, right associativity).

(** [enumerate(xs, start)]. *)
Fixpoint enumerate {A : Type} (start : Z) (xs : list A) : list (Z * A) :=
  match xs with
  | [] => []
  | x :: rest => (start, x) :: enumerate (start + 1) rest
  end.

(** The text a [for] loop appends to [summary], one piece per item. *)
Definition lines_of {A : Type} (line : A -> string) (xs : list A) : string :=
  fold_left (fun summary x => summary ++ line x) xs "".

Definition suggestion_line (entry : Z * string) : string :=
  "  " ++ str_of_Z (fst entry) ++ ". " ++ snd entry ++ nl.

Definition session_line (entry : Z * Session) : string :=
  let session := snd entry in
  let weak_flag :=
    if get_default (is_weak_area session) false then " (Weak Area)" else "" in
  "    " ++ str_of_Z (fst entry) ++ ". " ++ topic session ++ weak_flag
    ++ " (" ++ py_str (duration_minutes session) ++ " min)" ++ nl.

Definition day_block (d : DaySchedule) : string :=
  nl ++ "Day " ++ str_of_Z (day d) ++ " (" ++ date d ++ ") - " ++ phase d ++ nl
    ++ "  Preferred Time: " ++ title (preferred_time d) ++ nl
    ++ "  Total Hours: " ++ fmt_1f (total_hours d) ++ "h" ++ nl
    ++ match sessions d with
       | [] => ""
       | _ :: _ =>
           "  Sessions:" ++ nl
             ++ lines_of session_line (enumerate 1 (firstn 3 (sessions d)))
             ++ (if (3 <? len (sessions d))%Z then
                   "    ... and " ++ str_of_Z (len (sessions d) - 3)
                     ++ " more sessions" ++ nl
                 else "")
       end.

Definition tip_line (tip : string) : string := "  - " ++ tip ++ nl.

Definition get_plan_summary : Reading string :=
  flag <~ plan_get feasible;;
  if negb (get_default flag false) then
    text <~ plan_item "message" message;;
    suggested <~ plan_item "suggestions" suggestions;;
    ret (text ++ nl ++ nl ++ "Suggestions:" ++ nl
           ++ lines_of suggestion_line (enumerate 1 suggested))
  else
    subject_name <~ plan_item "subject" subject;;
    topic_count <~ plan_item "total_topics" total_topics;;
    deadline_date <~ plan_item "deadline" deadline;;
    needed <~ plan_item "total_hours_needed" total_hours_needed;;
    buffer <~ plan_item "buffer_hours" buffer_hours;;
    profile <~ plan_item "student_profile" student_profile;;
    let header :=
      nl ++ "PERSONALIZED STUDY PLAN FOR " ++ upper subject_name ++ nl
        ++ nl
        ++ "OVERVIEW:" ++ nl
        ++ "  Total Topics: " ++ str_of_Z topic_count ++ nl
        ++ "  Deadline: " ++ deadline_date ++ nl
        ++ "  Total Hours Needed: " ++ py_str needed ++ "h" ++ nl
        ++ "  Buffer Time: " ++ py_str buffer ++ "h" ++ nl
        ++ "  Learning Pace: "
        ++ title (get_default (learning_pace profile) "moderate") ++ nl
        ++ "  Study Pattern: "
        ++ title (get_default (study_pattern profile) "pomodoro") ++ nl
        ++ nl
        ++ "DAILY SCHEDULE:" ++ nl in
    schedule <~ plan_item "daily_plan" daily_plan;;
    tips <~ plan_item "study_tips" study_tips;;
    ret (header ++ lines_of day_block schedule
           ++ nl ++ nl ++ "PERSONALIZED TIPS:" ++ nl
           ++ lines_of tip_line tips).

End Planner.

End StudyPlanner.

(** * The specification's formulas

    The quantities the specification names, written from its words; the
    theorems below relate them to what the code computes. *)

Module Spec.
Import Py.

(** Rounding to one decimal place. *)
Definition Qround1 (q : Q) : Q := inject_Z (round_half_even (q * 10)) / 10.

(** Hours per topic by pace. *)
Definition base_hours (pace : string) : option Q :=
  if String.eqb pace "slow" then Some 4.0
  else if String.eqb pace "moderate" then Some 2.5
  else if String.eqb pace "fast" then Some 1.5
  else None.

(** Revision ratio by pace. *)
Definition revision_ratio (pace : string) : option Q :=
  if String.eqb pace "slow" then Some 0.4
  else if String.eqb pace "moderate" then Some 0.3
  else if String.eqb pace "fast" then Some 0.2
  else None.

Definition weak_multiplier (is_weak : bool) : Q :=
  if is_weak then 1.5 else 1.

Definition difficulty_multiplier (difficulty : option string) : Q :=
  match difficulty with
  | Some tag =>
      if String.eqb tag "hard" then 1.3
      else if String.eqb tag "easy" then 0.7
      else 1
  | None => 1
  end.

(** The hours allotted to one topic. *)
Definition allocation (base : Q) (is_weak : bool)
    (difficulty : option string) : Q :=
  Qround1 (base * weak_multiplier is_weak * difficulty_multiplier difficulty).

Definition Qsum (qs : list Q) : Q := fold_right Qplus 0 qs.

(** The difficulty tag of a topic, if it has one. *)
Definition difficulty_of (difficulty_levels : option (dict string))
    (topic : string) : option string :=
  match difficulty_levels with
  | Some levels => dict_get levels topic
  | None => None
  end.

(** Session and break lengths by pattern, in minutes. *)
Definition session_minutes (pattern : string) : option Q :=
  if String.eqb pattern "pomodoro" then Some 25
  else if String.eqb pattern "deep_work" then Some 90
  else if String.eqb pattern "short_burst" then Some 15
  else None.

Definition break_minutes (pattern : string) : option Q :=
  if String.eqb pattern "pomodoro" then Some 5
  else if String.eqb pattern "deep_work" then Some 20
  else if String.eqb pattern "short_burst" then Some 5
  else None.

(** The number of revision days. *)
Definition revision_days (deadline_days : Z) : Z :=
  Z.max 2 (Qfloor (0.2 * inject_Z deadline_days)).

(** A fully feasible plan: the feasible branch's fields are all present and
    the infeasible branch's are all absent. *)
Definition fully_feasible (plan : StudyPlanner.Plan) : Prop :=
  StudyPlanner.feasible plan = Some true
  /\ StudyPlanner.subject plan <> None
  /\ StudyPlanner.student_profile plan <> None
  /\ StudyPlanner.total_topics plan <> None
  /\ StudyPlanner.deadline plan <> None
  /\ StudyPlanner.total_hours_needed plan <> None
  /\ StudyPlanner.total_hours_available plan <> None
  /\ StudyPlanner.buffer_hours plan <> None
  /\ StudyPlanner.daily_plan plan <> None
  /\ StudyPlanner.study_tips plan <> None
  /\ StudyPlanner.message plan = None
  /\ StudyPlanner.hours_short plan = None
  /\ StudyPlanner.suggestions plan = None.

(** A fully infeasible plan: only the message, the shortfall and the
    suggestions come with the verdict. *)
Definition fully_infeasible (plan : StudyPlanner.Plan) : Prop :=
  StudyPlanner.feasible plan = Some false
  /\ StudyPlanner.message plan <> None
  /\ StudyPlanner.hours_short plan <> None
  /\ StudyPlanner.suggestions plan <> None
  /\ StudyPlanner.subject plan = None
  /\ StudyPlanner.student_profile plan = None
  /\ StudyPlanner.total_topics plan = None
  /\ StudyPlanner.deadline plan = None
  /\ StudyPlanner.total_hours_needed plan = None
  /\ StudyPlanner.total_hours_available plan = None
  /\ StudyPlanner.buffer_hours plan = None
  /\ StudyPlanner.daily_plan plan = None
  /\ StudyPlanner.study_tips plan = None.

End Spec.

(** * Intermediate values and sample inputs *)

Module Observed.
Import Py StudyPlanner.

(** [total_with_revision] of [generate_personalized_plan]: the unrounded
    hours that the feasibility check compares with the hours available. *)
Definition needed_hours (times : dict num) (info : PaceInfo) : num :=
  num_mul (py_sum (dict_values times))
          (num_add (PyInt 1) (revision_ratio info)).

(** [total_hours_available] of [generate_personalized_plan]. *)
Definition available_hours (deadline_days : Z) (profile : StudentProfile)
  : num :=
  num_mul (PyInt deadline_days)
          (get_default (daily_available_hours profile) (PyInt 3)).

Section Loop.

Variable session_info : SessionPattern.
Variable topic_times : dict num.
Variable weak : list string.

(** The session length the loop body computes for the front topic. *)
Definition front_session_hours (st : LoopState) (allotted logged : num)
  : num :=
  py_min3 (PyFloat (Qred (num_Q (session_length session_info) / 60)))
          (hours_remaining st) (num_sub allotted logged).

(** The hours left after a session of [session_hours] and its break. *)
Definition hours_after_session (st : LoopState) (session_hours : num) : num :=
  let remaining := num_sub (hours_remaining st) session_hours in
  if num_gt remaining (PyInt 0) then
    num_sub remaining (PyFloat (Qred (num_Q (break_length session_info) / 60)))
  else remaining.

(** The session the loop body emits for topic [t]. *)
Definition emitted_session (t : string) (session_hours : num) : Session :=
  {| topic := t;
     duration_minutes := PyInt (int_of (num_mul session_hours (PyInt 60)));
     activities := _generate_activities t session_hours (str_in t weak);
     is_weak_area := Some (str_in t weak) |}.

(** Every topic in the queue has an allocation and a progress counter. *)
Definition queue_known (st : LoopState) : Prop :=
  forall t, In t (topics_queue st) ->
    dict_get topic_times t <> None /\ dict_get (topic_progress st) t <> None.

End Loop.

(** What one pass of the revision loop appends for offset [day]. *)
Definition revision_day_of (topics weak : list string) (daily_hours : num)
    (times_of_day : list string) (revision_days : Z) (day : Z)
    (d : DaySchedule) : Prop :=
  phase d = revision_phase_name revision_days day
  /\ total_hours d = daily_hours
  /\ cyclic_item times_of_day day = Ok (preferred_time d)
  /\ _generate_revision_sessions topics weak daily_hours (phase d)
     = Ok (sessions d).

(** What one pass of the learning loop appends. *)
Definition learning_day_of (times_of_day : list string) (day : Z)
    (d : DaySchedule) : Prop :=
  phase d = "Learning"
  /\ cyclic_item times_of_day day = Ok (preferred_time d).

(** Every topic still queued between two learning days has an allocation
    and a progress counter. *)
Definition carry_known (topic_times : dict num) (c : Carry) : Prop :=
  forall t, In t (queue c) ->
    dict_get topic_times t <> None /\ dict_get (progress c) t <> None.

(** The inputs the specification calls valid: a pace and a pattern of the
    tables, positive daily hours, at least one time of day, at least one
    topic and a positive number of days. *)
Definition valid_input (profile : StudentProfile) (topics : list string)
    (deadline_days : Z) : Prop :=
  dict_get self_learning_pace (get_default (learning_pace profile) "moderate")
  <> None
  /\ dict_get self_session_patterns
       (get_default (study_pattern profile) "pomodoro") <> None
  /\ 0 < num_Q (get_default (daily_available_hours profile) (PyInt 3))
  /\ get_default (preferred_times profile) ["evening"] <> []
  /\ topics <> []
  /\ (0 < deadline_days)%Z.

(** A reading that hands the plan back as it received it. *)
Definition reads_only {A : Type} (c : Reading A) : Prop :=
  forall plan, snd (c plan) = plan.

End Observed.

(** Inputs on which the planner is run below.  Dates are shown as offsets
    from today and floats with one decimal. *)
Module Sample.
Import Py StudyPlanner.

Definition float_repr (q : Q) : string := fmt_1f (PyFloat q).

Definition date_after (k : Z) : string := "today+" ++ str_of_Z k.

Definition empty_plan : Plan :=
  {| feasible := None; subject := None; student_profile := None;
     total_topics := None; deadline := None; total_hours_needed := None;
     total_hours_available := None; buffer_hours := None; daily_plan := None;
     study_tips := None; message := None; hours_short := None;
     suggestions := None |}.

Definition plan_of (r : result Plan) : Plan :=
  match r with
  | Ok plan => plan
  | Raise _ => empty_plan
  end.

(** A moderate learner with one weak, hard topic and three days of three
    hours. *)
Definition moderate_profile : StudentProfile :=
  {| learning_pace := Some "moderate";
     study_pattern := Some "pomodoro";
     daily_available_hours := None;
     preferred_times := None;
     weak_areas := Some ["Recursion"] |}.

Definition hard_recursion : option (dict string) :=
  Some [("Recursion", "hard")].

Definition moderate_plan : Plan :=
  Eval vm_compute in
    plan_of (generate_personalized_plan float_repr date_after moderate_profile
               "Algorithms" ["Recursion"] 3 hard_recursion).

(** A fast learner with one topic and a deadline of one day. *)
Definition fast_profile : StudentProfile :=
  {| learning_pace := Some "fast";
     study_pattern := None;
     daily_available_hours := None;
     preferred_times := None;
     weak_areas := None |}.

(** A moderate learner with three topics and three days of three and a
    quarter hours. *)
Definition quarter_hours_profile : StudentProfile :=
  {| learning_pace := Some "moderate";
     study_pattern := Some "deep_work";
     daily_available_hours := Some (PyFloat 3.25);
     preferred_times := Some ["morning"];
     weak_areas := None |}.

Definition three_topics : list string := ["Sorting"; "Graphs"; "Hashing"].

Definition quarter_hours_plan : Plan :=
  Eval vm_compute in
    plan_of (generate_personalized_plan float_repr date_after
               quarter_hours_profile "Algorithms" three_topics 3 None).

(** The first pomodoro day of a learner with one topic of two and a half
    hours and three hours a day. *)
Definition pomodoro : SessionPattern :=
  {| session_length := PyInt 25; break_length := PyInt 5;
     long_break := PyInt 15 |}.

Definition sorting_times : dict num := [("Sorting", PyFloat 2.5)].

Definition first_morning : LoopState :=
  {| hours_remaining := PyInt 3;
     topics_queue := ["Sorting"];
     topic_progress := [("Sorting", PyInt 0)];
     day_schedule :=
       {| day := 1; date := date_after 0; phase := "Learning";
          preferred_time := "evening"; sessions := [];
          total_hours := PyInt 0 |} |}.

(** A slow learner with three topics, two days and three hours a day. *)
Definition slow_profile : StudentProfile :=
  {| learning_pace := Some "slow";
     study_pattern := None;
     daily_available_hours := Some (PyInt 3);
     preferred_times := None;
     weak_areas := None |}.

Definition slow_plan : Plan :=
  Eval vm_compute in
    plan_of (generate_personalized_plan float_repr date_after slow_profile
               "Algorithms" three_topics 2 None).

End Sample.

(** * Measures of a schedule

    Totals and listings read off a plan, in which the properties of the
    schedule are stated. *)

Module Measures.
Import Py StudyPlanner.

(** The keys of a dict filled from [keys] in order: every key once, at the
    place of its first appearance. *)
Definition distinct (keys : list string) : list string :=
  fold_left (fun seen k => if str_in k seen then seen else (seen ++ [k])%list)
            keys [].

(** The minutes of a list of sessions, added up. *)
Definition minutes_total (ss : list Session) : Q :=
  Spec.Qsum (map (fun s => num_Q (duration_minutes s)) ss).

(** The sessions on topic [t]. *)
Definition sessions_on (t : string) (ss : list Session) : list Session :=
  filter (fun s => String.eqb (topic s) t) ss.

(** The sessions of the "Learning" days of a schedule, in order. *)
Definition learning_sessions (schedule : list DaySchedule) : list Session :=
  flat_map
    (fun d => if String.eqb (phase d) "Learning" then sessions d else [])
    schedule.

(** The [total_hours] of the days of a schedule, added up. *)
Definition hours_total (schedule : list DaySchedule) : Q :=
  Spec.Qsum (map (fun d => num_Q (total_hours d)) schedule).

(** The hours logged for [t] in a progress dict, none if [t] has no
    entry. *)
Definition logged_hours (progress : dict num) (t : string) : Q :=
  match dict_get progress t with
  | Some hours => num_Q hours
  | None => 0
  end.

(** [counts] sessions in a row for each topic of the list, in order. *)
Fixpoint in_blocks (topics : list string) (counts : list nat)
  : list string :=
  match topics, counts with
  | t :: topics', n :: counts' =>
      (repeat t n ++ in_blocks topics' counts')%list
  | _, _ => []
  end.

End Measures.

(** Inputs at the edges of the planner's domain. *)
Module Edge.
Import Py StudyPlanner.

(** A profile of defaults only: moderate pace, pomodoro, three hours a day
    in the evening, no weak area. *)
Definition default_profile : StudentProfile :=
  {| learning_pace := None;
     study_pattern := None;
     daily_available_hours := None;
     preferred_times := None;
     weak_areas := None |}.

(** A pace that is not in the table. *)
Definition turbo_profile : StudentProfile :=
  {| learning_pace := Some "turbo";
     study_pattern := None;
     daily_available_hours := None;
     preferred_times := None;
     weak_areas := None |}.



(** No hour a day. *)
Definition idle_profile : StudentProfile :=
  {| learning_pace := None;
     study_pattern := None;
     daily_available_hours := Some (PyInt 0);
     preferred_times := None;
     weak_areas := None |}.

(** A list that names a topic twice. *)
Definition sorting_twice : list string := ["Sorting"; "Graphs"; "Sorting"].

(** Three hours and three minutes a day. *)
Definition tight_profile : StudentProfile :=
  {| learning_pace := None;
     study_pattern := None;
     daily_available_hours := Some (PyFloat 3.05);
     preferred_times := None;
     weak_areas := None |}.

Definition tight_plan : Plan :=
  Eval vm_compute in
    Sample.plan_of
      (generate_personalized_plan Sample.float_repr Sample.date_after
         tight_profile "Algorithms" Sample.three_topics 6 None).

Definition three_topic_times : dict num :=
  [ ("Sorting", PyFloat 2.5); ("Graphs", PyFloat 2.5);
    ("Hashing", PyFloat 2.5) ].

(** The first day of that learner once "Sorting" is done: six sessions and
    six breaks have left three minutes, with two topics still queued. *)
Definition three_minutes_left : LoopState :=
  {| hours_remaining := PyFloat 0.05;
     topics_queue := ["Graphs"; "Hashing"];
     topic_progress :=
       [ ("Sorting", PyFloat 2.5); ("Graphs", PyInt 0);
         ("Hashing", PyInt 0) ];
     day_schedule :=
       {| day := 1; date := Sample.date_after 0; phase := "Learning";
          preferred_time := "evening"; sessions := [];
          total_hours := PyFloat 2.5 |} |}.

End Edge.

(** The books of the learning phase: what holds of the sessions, of the
    day's total and of the hours logged per topic while the two loops of
    [_create_daily_schedule] run. *)
Module Books.
Import Py StudyPlanner Observed Measures.

Section Day.

Variable session_info : SessionPattern.
Variable topic_times : dict num.
Variable topics weak : list string.
Variable daily : Q.

(** A session as the learning loop emits it: on a listed topic, longer
    than 0.1 hour and no longer than the pattern's session. *)
Definition learning_session (s : Session) : Prop :=
  exists t hours,
    In t topics
    /\ 0.1 < num_Q hours
    /\ num_Q hours <= num_Q (session_length session_info) / 60
    /\ s = emitted_session weak t hours.

(** The state of the [while] loop, [earlier t] being the minutes spent on
    topic [t] on the days before. *)
Definition day_in_order (earlier : string -> Q) (st : LoopState) : Prop :=
  let entry := day_schedule st in
  (forall t, In t (topics_queue st) -> In t topics)
  /\ Forall learning_session (sessions entry)
  /\ minutes_total (sessions entry) <= 60 * num_Q (total_hours entry)
  /\ 60 * num_Q (total_hours entry)
     <= minutes_total (sessions entry) + inject_Z (len (sessions entry))
  /\ num_Q (total_hours entry) + num_Q (hours_remaining st) <= daily
  /\ (0 <= daily -> num_Q (total_hours entry) <= daily)
  /\ (forall t,
        earlier t + minutes_total (sessions_on t (sessions entry))
        <= 60 * logged_hours (topic_progress st) t)
  /\ (forall t allotted,
        dict_get topic_times t = Some allotted ->
        logged_hours (topic_progress st) t <= num_Q allotted).

(** A finished learning day. *)
Definition learning_day (entry : DaySchedule) : Prop :=
  phase entry = "Learning"
  /\ Forall learning_session (sessions entry)
  /\ minutes_total (sessions entry) <= 60 * num_Q (total_hours entry)
  /\ 60 * num_Q (total_hours entry)
     <= minutes_total (sessions entry) + inject_Z (len (sessions entry))
  /\ (0 <= daily -> num_Q (total_hours entry) <= daily).

(** What the learning phase carries from one day to the next. *)
Definition carry_in_order (c : Carry) : Prop :=
  (forall t, In t (queue c) -> In t topics)
  /\ Forall learning_day (days_done c)
  /\ (forall t,
        minutes_total (sessions_on t (learning_sessions (days_done c)))
        <= 60 * logged_hours (progress c) t)
  /\ (forall t allotted,
        dict_get topic_times t = Some allotted ->
        logged_hours (progress c) t <= num_Q allotted).

End Day.

(** Nothing is left for the learning days to do: the queue is empty, or
    there are no hours in a day. *)
Definition learning_over (daily_hours : num) (c : Carry) : Prop :=
  queue c = [] \/ num_Q daily_hours <= 0.

(** The topics of the sessions emitted so far follow the list of topics:
    the topics that have left the queue come first, each with its sessions
    in a row, then come the sessions on the topic at the front of the
    queue. *)
Definition in_list_order (topics queue seen : list string) : Prop :=
  exists done counts k,
    topics = (done ++ queue)%list
    /\ List.length counts = List.length done
    /\ seen
       = (in_blocks done counts
            ++ match queue with
               | t :: _ => repeat t k
               | [] => []
               end)%list.

End Books.

(** * Python numbers over binary64

    The numbers of the planner as CPython 3.11 computes them: an [int] is
    a [Z], a [float] is one of the kernel's IEEE 754 binary64 numbers.
    Arithmetic follows the interpreter: [int op int] is exact, a mixed
    operation converts the [int] to the nearest [float] first and raises
    [OverflowError] when there is none, [/] and [//] raise
    [ZeroDivisionError] on a zero divisor, [int] of an infinity or a NaN
    raises, comparisons between an [int] and a [float] are exact, and a
    float result that is too large is an infinity, not an exception. *)

Module Float64.
Import Floats.
Import Py.

#[local] Set Warnings "-inexact-float".

Inductive exn : Type :=
| KeyError (key : string)
| ZeroDivisionError
| IndexError
| OverflowError
| ValueError
| OutOfFuel.   (* a [while] loop that was cut short by its fuel *)

Inductive result (A : Type) : Type :=
| Ok (a : A)
| Raise (e : exn).

Arguments Ok {A} a.
Arguments Raise {A} e.

Definition bind {A B : Type} (c : result A) (k : A -> result B) : result B :=
  match c with
  | Ok a => k a
  | Raise e => Raise e
  end.

Notation "'let*' x := c 'in' k" := (bind c (fun x => k))
  (at level 10, x name, c at level 200, k at level 200).

Inductive num : Type :=
| PyInt (z : Z)
| PyFloat (x : float).

(** ** Exact readings of a float *)

(** The sign bit. *)
Definition sign_bit (x : float) : bool :=
  match Prim2SF x with
  | S754_zero s | S754_infinity s | S754_finite s _ _ => s
  | S754_nan => false
  end.

(** The float nearest to [z * 2^e], ties to even; an infinity when it is
    beyond the largest float. *)
Definition nearest (z e : Z) : spec_float :=
  binary_normalize prec emax z e false.

(** [float(z)]. *)
Definition float_of_int (z : Z) : result float :=
  match nearest z 0 with
  | S754_infinity _ => Raise OverflowError
  | sf => Ok (SF2Prim sf)
  end.

(** [int(x)]: the whole part, toward zero. *)
Definition int_of_float (x : float) : result Z :=
  match Prim2SF x with
  | S754_nan => Raise ValueError
  | S754_infinity _ => Raise OverflowError
  | S754_zero _ => Ok 0%Z
  | S754_finite s m e =>
      let whole := Z.shiftl (Zpos m) e in
      Ok (if s then (- whole)%Z else whole)
  end.

(** [math.floor(x)] of a finite float. *)
Definition floor_of_float (x : float) : option Z :=
  match Prim2SF x with
  | S754_zero _ => Some 0%Z
  | S754_finite s m e => Some (Z.shiftl (if s then Zneg m else Zpos m) e)
  | _ => None
  end.

(** A float that is no negative number: a zero, a positive number, plus
    infinity or a NaN. *)
Definition no_negative (x : spec_float) : bool :=
  match x with
  | S754_finite true _ _ | S754_infinity true => false
  | _ => true
  end.

(** How the int [z] compares with the float [x], exactly. *)
Definition compare_int_float (z : Z) (x : float) : option comparison :=
  match Prim2SF x with
  | S754_nan => None
  | S754_infinity s => Some (if s then Gt else Lt)
  | S754_zero _ => Some (z ?= 0)%Z
  | S754_finite s m e =>
      let v := if s then Zneg m else Zpos m in
      Some (if (0 <=? e)%Z then (z ?= v * 2 ^ e)%Z
            else (z * 2 ^ (- e) ?= v)%Z)
  end.

Definition num_compare (a b : num) : option comparison :=
  match a, b with
  | PyInt x, PyInt y => Some (x ?= y)%Z
  | PyInt x, PyFloat y => compare_int_float x y
  | PyFloat x, PyInt y => option_map CompOpp (compare_int_float y x)
  | PyFloat x, PyFloat y => SFcompare (Prim2SF x) (Prim2SF y)
  end.

Definition num_lt (a b : num) : bool :=
  match a, b with
  | PyFloat x, PyFloat y => PrimFloat.ltb x y
  | _, _ => match num_compare a b with Some Lt => true | _ => false end
  end.

Definition num_le (a b : num) : bool :=
  match a, b with
  | PyFloat x, PyFloat y => PrimFloat.leb x y
  | _, _ => match num_compare a b with Some (Lt | Eq) => true | _ => false end
  end.

Definition num_eq (a b : num) : bool :=
  match a, b with
  | PyFloat x, PyFloat y => PrimFloat.eqb x y
  | _, _ => match num_compare a b with Some Eq => true | _ => false end
  end.

Definition num_gt (a b : num) : bool := num_lt b a.
Definition num_ge (a b : num) : bool := num_le b a.

(** The two numbers cannot be compared: one of them is a NaN. *)
Definition unordered (a b : num) : bool :=
  match num_compare a b with
  | None => true
  | Some _ => false
  end.

(** ** Arithmetic *)

Definition to_float (a : num) : result float :=
  match a with
  | PyInt z => float_of_int z
  | PyFloat x => Ok x
  end.

Definition num_add (a b : num) : result num :=
  match a, b with
  | PyInt x, PyInt y => Ok (PyInt (x + y))
  | _, _ =>
      let* x := to_float a in
      let* y := to_float b in
      Ok (PyFloat (x + y))
  end.

Definition num_sub (a b : num) : result num :=
  match a, b with
  | PyInt x, PyInt y => Ok (PyInt (x - y))
  | _, _ =>
      let* x := to_float a in
      let* y := to_float b in
      Ok (PyFloat (x - y))
  end.

Definition num_mul (a b : num) : result num :=
  match a, b with
  | PyInt x, PyInt y => Ok (PyInt (x * y))
  | _, _ =>
      let* x := to_float a in
      let* y := to_float b in
      Ok (PyFloat (x * y))
  end.

(** The quotient of two ints as a float, correctly rounded. *)
Definition int_quotient (x y : Z) : spec_float :=
  let negative := xorb (x <? 0)%Z (y <? 0)%Z in
  match Z.abs x, Z.abs y with
  | Zpos mx, Zpos my =>
      SFdiv prec emax (S754_finite negative mx 0) (S754_finite false my 0)
  | _, _ => S754_zero negative
  end.

(** [a / b]: true division, always a float. *)
Definition num_truediv (a b : num) : result num :=
  match a, b with
  | PyInt x, PyInt y =>
      if (y =? 0)%Z then Raise ZeroDivisionError
      else match int_quotient x y with
           | S754_infinity _ => Raise OverflowError
           | sf => Ok (PyFloat (SF2Prim sf))
           end
  | _, _ =>
      let* x := to_float a in
      let* y := to_float b in
      if PrimFloat.eqb y 0 then Raise ZeroDivisionError
      else Ok (PyFloat (x / y))
  end.

(** C's [fmod(x, y)] for [y] other than zero: the remainder of the
    division truncated toward zero, which is exact and has the sign of
    [x]. *)
Definition fmod (x y : float) : float :=
  match Prim2SF x, Prim2SF y with
  | S754_nan, _ | _, S754_nan => nan
  | S754_infinity _, _ => nan
  | _, S754_zero _ => nan
  | _, S754_infinity _ => x
  | S754_zero _, _ => x
  | S754_finite sx mx ex, S754_finite _ my ey =>
      let e := Z.min ex ey in
      let r :=
        (Z.shiftl (Zpos mx) (ex - e) mod Z.shiftl (Zpos my) (ey - e))%Z in
      if (r =? 0)%Z then SF2Prim (S754_zero sx)
      else SF2Prim (nearest (if sx then - r else r) e)
  end.

(** C's [floor(x)]. *)
Definition floor (x : float) : float :=
  match Prim2SF x with
  | S754_finite s m e =>
      if (0 <=? e)%Z then x
      else match Z.shiftl (if s then Zneg m else Zpos m) e with
           | Z0 => SF2Prim (S754_zero s)
           | whole => SF2Prim (nearest whole 0)
           end
  | _ => x
  end.

(** C's [copysign(0.0, x)]. *)
Definition signed_zero (x : float) : float :=
  if sign_bit x then neg_zero else zero.

(** The quotient that CPython's [_float_div_mod(vx, wx)] computes for the
    floor division of two floats, [wx] other than zero. *)
Definition float_floordiv (vx wx : float) : float :=
  let rest := fmod vx wx in
  let div := ((vx - rest) / wx)%float in
  let div :=
    if negb (PrimFloat.eqb rest 0) then
      if negb (Bool.eqb (PrimFloat.ltb wx 0) (PrimFloat.ltb rest 0))
      then (div - 1)%float else div
    else div in
  if negb (PrimFloat.eqb div 0) then
    let floordiv := floor div in
    if PrimFloat.ltb 0.5 (div - floordiv) then (floordiv + 1)%float
    else floordiv
  else signed_zero (vx / wx).

(** [a // b]: floor division, an int on ints and a float otherwise. *)
Definition num_floordiv (a b : num) : result num :=
  match a, b with
  | PyInt x, PyInt y =>
      if (y =? 0)%Z then Raise ZeroDivisionError else Ok (PyInt (x / y))
  | _, _ =>
      let* x := to_float a in
      let* y := to_float b in
      if PrimFloat.eqb y 0 then Raise ZeroDivisionError
      else Ok (PyFloat (float_floordiv x y))
  end.

(** A number that is not negative; a NaN counts as such. *)
Definition not_negative (x : num) : bool :=
  match x with
  | PyInt z => (0 <=? z)%Z
  | PyFloat f => no_negative (Prim2SF f)
  end.

(** [int(x)]. *)
Definition int_of (x : num) : result Z :=
  match x with
  | PyInt z => Ok z
  | PyFloat f => int_of_float f
  end.

(** [min(a, b, c)]: the first of the smallest arguments. *)
Definition py_min2 (m x : num) : num := if num_lt x m then x else m.
Definition py_min3 (a b c : num) : num := py_min2 (py_min2 a b) c.

(** [sum(xs)]: from the int 0, left to right. *)
Fixpoint sum_from (total : num) (xs : list num) : result num :=
  match xs with
  | [] => Ok total
  | x :: rest => let* total := num_add total x in sum_from total rest
  end.

Definition py_sum (xs : list num) : result num := sum_from (PyInt 0) xs.

(** ** Decimal rounding *)

(** The integer nearest to [n / d], ties to the even one ([0 < d]). *)
Definition nearest_even (n d : Z) : Z :=
  let q := (n / d)%Z in
  match (2 * (n mod d) ?= d)%Z with
  | Lt => q
  | Gt => (q + 1)%Z
  | Eq => if Z.even q then q else (q + 1)%Z
  end.

(** The tenths in the magnitude [m * 2^e], rounded to the nearest whole
    number, ties to even. *)
Definition tenths (m : positive) (e : Z) : Z :=
  if (0 <=? e)%Z then (10 * Zpos m * 2 ^ e)%Z
  else nearest_even (10 * Zpos m) (2 ^ (- e)).

(** [round(x, 1)] of a float: the float nearest to the decimal with one
    place that is nearest to [x]; the sign is kept. *)
Definition float_round1 (x : float) : float :=
  match Prim2SF x with
  | S754_finite s m e =>
      if (0 <=? e)%Z then x
      else match tenths m e with
           | Zpos k =>
               SF2Prim
                 (SFdiv prec emax (S754_finite s k 0) (S754_finite false 10 0))
           | _ => SF2Prim (S754_zero s)
           end
  | _ => x
  end.

(** [round(x, 1)]: an int is returned as it is. *)
Definition round1 (x : num) : num :=
  match x with
  | PyInt z => PyInt z
  | PyFloat f => PyFloat (float_round1 f)
  end.

(** [format(x, ".1f")] of a float. *)
Definition float_fmt_1f (x : float) : string :=
  match Prim2SF x with
  | S754_nan => "nan"
  | S754_infinity s => if s then "-inf" else "inf"
  | S754_zero s => if s then "-0.0" else "0.0"
  | S754_finite s m e =>
      let n := tenths m e in
      ((if s then "-" else "")
         ++ str_of_Z (n / 10) ++ "." ++ str_of_Z (n mod 10))%string
  end.

(** [format(x, ".1f")]: an int is converted to a float first. *)
Definition fmt_1f (x : num) : result string :=
  let* f := to_float x in Ok (float_fmt_1f f).

End Float64.

(** * The study planner over binary64

    The functions of [IntelligentStudyPlanner] that compute with numbers,
    embedded a second time over the numbers of [Float64], line by line as
    the first embedding and in the order in which the source evaluates, so
    that the exception that comes first in Python comes first here.

    - The [while] loop of a learning day is run with a [fuel] that the
      caller supplies and gives [OutOfFuel] when it is cut short; a result
      reached with some fuel is the result of the loop.
    - [datetime.now()] is read twice, by [_create_daily_schedule] (line
      144) and by [generate_personalized_plan] (line 91).  The two
      readings are the parameters [current_date] and [deadline_now], the
      day numbers of the two dates counted from 0001-01-01 as day 1;
      adding days raises [OverflowError] beyond a [timedelta] of
      999999999 days or a date after 9999-12-31, and [strftime] is the
      text of a day number.
    - [repr] of a float is the parameter [float_repr]. *)

Module Planner64.
Import Floats.
Import Py.
Import Float64.

#[local] Set Warnings "-inexact-float".

(** ** Tables of [__init__] *)

Record PaceInfo : Type := {
  hours_per_topic : num;
  revision_ratio : num
}.

Record SessionPattern : Type := {
  session_length : num;
  break_length : num;
  long_break : num
}.

Definition self_learning_pace : dict PaceInfo :=
  [ ("slow", {| hours_per_topic := PyInt 4; revision_ratio := PyFloat 0.4 |});
    ("moderate",
      {| hours_per_topic := PyFloat 2.5; revision_ratio := PyFloat 0.3 |});
    ("fast",
      {| hours_per_topic := PyFloat 1.5; revision_ratio := PyFloat 0.2 |}) ].

Definition self_session_patterns : dict SessionPattern :=
  [ ("pomodoro",
      {| session_length := PyInt 25; break_length := PyInt 5;
         long_break := PyInt 15 |});
    ("deep_work",
      {| session_length := PyInt 90; break_length := PyInt 20;
         long_break := PyInt 30 |});
    ("short_burst",
      {| session_length := PyInt 15; break_length := PyInt 5;
         long_break := PyInt 10 |}) ].

(** ** Data model *)

Record StudentProfile : Type := {
  learning_pace : option string;
  study_pattern : option string;
  daily_available_hours : option num;
  preferred_times : option (list string);
  weak_areas : option (list string)
}.

Record Session : Type := {
  topic : string;
  duration_minutes : num;
  activities : list string;
  is_weak_area : option bool
}.

Record DaySchedule : Type := {
  day : Z;
  date : string;
  phase : string;
  preferred_time : string;
  sessions : list Session;
  total_hours : num
}.

Record Plan : Type := {
  feasible : option bool;
  subject : option string;
  student_profile : option StudentProfile;
  total_topics : option Z;
  deadline : option string;
  total_hours_needed : option num;
  total_hours_available : option num;
  buffer_hours : option num;
  daily_plan : option (list DaySchedule);
  study_tips : option (list string);
  message : option string;
  hours_short : option num;
  suggestions : option (list string)
}.

Definition len {A : Type} (xs : list A) : Z := Z.of_nat (List.length xs).

(** [d[k]], raising [KeyError]. *)
Definition dict_item {V : Type} (d : dict V) (k : string) : result V :=
  match dict_get d k with
  | Some v => Ok v
  | None => Raise (KeyError k)
  end.

(** [xs[i % len(xs)]]. *)
Definition cyclic_item {A : Type} (xs : list A) (i : Z) : result A :=
  if (len xs =? 0)%Z then Raise ZeroDivisionError
  else match nth_error xs (Z.to_nat (i mod len xs)) with
       | Some x => Ok x
       | None => Raise IndexError
       end.

Fixpoint for_each {S A : Type} (body : S -> A -> result S) (xs : list A)
    (s : S) : result S :=
  match xs with
  | [] => Ok s
  | x :: rest => let* s' := body s x in for_each body rest s'
  end.

(** ** [_calculate_topic_times] *)

(** The body of the [for topic in topics] loop: the value stored for
    [topic]. *)
Definition topic_hours (base_hours : num) (weak_areas : list string)
    (difficulty_levels : option (dict string)) (topic : string)
  : result num :=
  let hours := base_hours in
  let* hours :=
    if str_in topic weak_areas then num_mul hours (PyFloat 1.5)
    else Ok hours in
  let* hours :=
    match difficulty_levels with
    | Some levels =>
        match dict_get levels topic with
        | Some diff =>
            if String.eqb diff "hard" then num_mul hours (PyFloat 1.3)
            else if String.eqb diff "easy" then num_mul hours (PyFloat 0.7)
            else Ok hours
        | None => Ok hours
        end
    | None => Ok hours
    end in
  Ok (round1 hours).

Definition _calculate_topic_times (topics : list string) (pace : string)
    (weak_areas : list string) (difficulty_levels : option (dict string))
  : result (dict num) :=
  let* pace_info := dict_item self_learning_pace pace in
  let base_hours := hours_per_topic pace_info in
  for_each
    (fun topic_times topic =>
       let* hours :=
         topic_hours base_hours weak_areas difficulty_levels topic in
       Ok (dict_set topic_times topic hours))
    topics [].

(** ** [_generate_activities] *)

Definition _generate_activities (topic : string) (duration_hours : num)
    (is_weak : bool) : list string :=
  let activities :=
    if num_ge duration_hours (PyFloat 1.5) then
      [ "Watch tutorial/lecture on " ++ topic ++ " (30 min)";
        "Read textbook chapter on " ++ topic ++ " (25 min)";
        "Take notes and summarize key concepts (20 min)";
        "Practice problems/examples (25 min)";
        "Create flashcards for " ++ topic ++ " (10 min)" ]
    else if num_ge duration_hours (PyInt 1) then
      [ "Study " ++ topic ++ " theory (30 min)";
        "Practice 3-5 problems on " ++ topic ++ " (20 min)";
        "Review and summarize (10 min)" ]
    else
      [ "Quick review of " ++ topic ++ " concepts";
        "Practice 2-3 problems" ] in
  if is_weak then
    (activities ++ ["Extra focus needed - spend more time on examples"])%list
  else activities.

(** ** [_generate_revision_sessions] *)

Definition intensive_session (time_per_topic : num) (topic : string)
  : Session :=
  {| topic := topic;
     duration_minutes := time_per_topic;
     activities :=
       [ "Intensive review of " ++ topic;
         "Practice difficult problems on " ++ topic;
         "Clarify doubts" ];
     is_weak_area := Some true |}.

Definition plain_revision_session (time_per_topic : num) (topic : string)
  : Session :=
  {| topic := topic;
     duration_minutes := time_per_topic;
     activities :=
       [ "Review " ++ topic ++ " notes"; "Practice mixed problems" ];
     is_weak_area := None |}.

Definition _generate_revision_sessions (topics weak_areas : list string)
    (daily_hours : num) (phase : string) : result (list Session) :=
  if String.eqb phase "Final Review & Mock Test" then
    let* half_minutes := num_mul daily_hours (PyInt 30) in
    let* minutes := int_of half_minutes in
    Ok [ {| topic := "All Topics";
            duration_minutes := PyInt minutes;
            activities :=
              [ "Quick review of all topics (1 hour)";
                "Take full mock test (1.5 hours)";
                "Review mistakes and weak areas (30 min)" ];
            is_weak_area := None |} ]
  else if String.eqb phase "Intensive Revision" then
    let* minutes := num_mul daily_hours (PyInt 60) in
    let* time_per_topic :=
      num_floordiv minutes (PyInt (Z.max (len weak_areas) 1)) in
    Ok (map (intensive_session time_per_topic) weak_areas)
  else
    let* minutes := num_mul daily_hours (PyInt 60) in
    let* time_per_topic := num_floordiv minutes (PyInt (len topics)) in
    Ok (map (plain_revision_session time_per_topic) topics).

(** ** The learning-phase [while] loop of [_create_daily_schedule] *)

(** The variables the loop reads and writes. *)
Record LoopState : Type := {
  hours_remaining : num;
  topics_queue : list string;
  topic_progress : dict num;
  day_schedule : DaySchedule
}.

Section DayLoop.

Variable session_info : SessionPattern.
Variable topic_times : dict num.
Variable weak_areas : list string.

(** [hours_remaining > 0 and topics_queue]. *)
Definition loop_guard (st : LoopState) : bool :=
  num_gt (hours_remaining st) (PyInt 0)
  && match topics_queue st with [] => false | _ :: _ => true end.

(** [topics_queue.pop(0)], everything else unchanged. *)
Definition pop_topic (st : LoopState) : LoopState :=
  {| hours_remaining := hours_remaining st;
     topics_queue := tl (topics_queue st);
     topic_progress := topic_progress st;
     day_schedule := day_schedule st |}.

(** One iteration of the loop body. *)
Definition loop_body (st : LoopState) : result LoopState :=
  match topics_queue st with
  | [] => Raise IndexError
  | current_topic :: rest =>
      let* allotted := dict_item topic_times current_topic in
      let* logged := dict_item (topic_progress st) current_topic in
      let* time_needed := num_sub allotted logged in
      let* pattern_hours :=
        num_truediv (session_length session_info) (PyInt 60) in
      let session_hours :=
        py_min3 pattern_hours (hours_remaining st) time_needed in
      if num_gt session_hours (PyFloat 0.1) then
        let* minutes := num_mul session_hours (PyInt 60) in
        let* whole_minutes := int_of minutes in
        let session :=
          {| topic := current_topic;
             duration_minutes := PyInt whole_minutes;
             activities :=
               _generate_activities current_topic session_hours
                 (str_in current_topic weak_areas);
             is_weak_area := Some (str_in current_topic weak_areas) |} in
        let today := day_schedule st in
        let* total := num_add (total_hours today) session_hours in
        let* progress := num_add logged session_hours in
        let* remaining := num_sub (hours_remaining st) session_hours in
        let* remaining :=
          if num_gt remaining (PyInt 0) then
            let* break_hours :=
              num_truediv (break_length session_info) (PyInt 60) in
            num_sub remaining break_hours
          else Ok remaining in
        Ok {| hours_remaining := remaining;
              topics_queue :=
                if num_ge progress allotted then rest else topics_queue st;
              topic_progress :=
                dict_set (topic_progress st) current_topic progress;
              day_schedule :=
                {| day := day today;
                   date := date today;
                   phase := phase today;
                   preferred_time := preferred_time today;
                   sessions := (sessions today ++ [session])%list;
                   total_hours := total |} |}
      else Ok (pop_topic st)
  end.

(** The loop, cut short after [fuel] iterations. *)
Fixpoint while_loop (fuel : nat) (st : LoopState) : result LoopState :=
  if loop_guard st then
    match fuel with
    | O => Raise OutOfFuel
    | S fuel' => let* st' := loop_body st in while_loop fuel' st'
    end
  else Ok st.

End DayLoop.

(** ** The planner proper *)

Section Planner.

Variable float_repr : float -> string.
Variable strftime : Z -> string.
Variable current_date : Z.
Variable deadline_now : Z.
Variable fuel : nat.

(** [str(x)] of a number. *)
Definition py_str (x : num) : string :=
  match x with
  | PyInt z => str_of_Z z
  | PyFloat f => float_repr f
  end.

(** [(today + timedelta(days=k)).strftime("%Y-%m-%d")]. *)
Definition date_after (today k : Z) : result string :=
  if (999999999 <? Z.abs k)%Z then Raise OverflowError
  else if (1 <=? today + k)%Z && (today + k <=? 3652059)%Z
       then Ok (strftime (today + k))
       else Raise OverflowError.

(** *** [_create_daily_schedule] *)

(** What the learning phase carries from one day to the next. *)
Record Carry : Type := {
  day_num : Z;
  queue : list string;
  progress : dict num;
  days_done : list DaySchedule
}.

(** One pass of the [for day in range(study_days)] loop. *)
Definition study_day (session_info : SessionPattern) (topic_times : dict num)
    (daily_hours : num) (preferred_times weak_areas : list string)
    (c : Carry) (day : Z) : result Carry :=
  let day_num := (day_num c + 1)%Z in
  let* date := date_after current_date day in
  let* slot := cyclic_item preferred_times day in
  let start :=
    {| hours_remaining := daily_hours;
       topics_queue := queue c;
       topic_progress := progress c;
       day_schedule :=
         {| day := day_num;
            date := date;
            phase := "Learning";
            preferred_time := slot;
            sessions := [];
            total_hours := PyInt 0 |} |} in
  let* final := while_loop session_info topic_times weak_areas fuel start in
  Ok {| day_num := day_num;
        queue := topics_queue final;
        progress := topic_progress final;
        days_done := (days_done c ++ [day_schedule final])%list |}.

Definition revision_phase_name (revision_days day : Z) : string :=
  if (day =? revision_days - 1)%Z then "Final Review & Mock Test"
  else if (day =? revision_days - 2)%Z then "Intensive Revision"
  else "Revision".

(** One pass of the [for day in range(revision_days)] loop. *)
Definition revision_day (topics weak_areas : list string) (daily_hours : num)
    (preferred_times : list string) (study_days revision_days : Z)
    (c : Carry) (day : Z) : result Carry :=
  let day_num := (day_num c + 1)%Z in
  let* date := date_after current_date (study_days + day) in
  let phase := revision_phase_name revision_days day in
  let* slot := cyclic_item preferred_times day in
  let* revision_sessions :=
    _generate_revision_sessions topics weak_areas daily_hours phase in
  Ok {| day_num := day_num;
        queue := queue c;
        progress := progress c;
        days_done :=
          (days_done c
             ++ [ {| day := day_num;
                     date := date;
                     phase := phase;
                     preferred_time := slot;
                     sessions := revision_sessions;
                     total_hours := daily_hours |} ])%list |}.

(** [max(2, int(deadline_days * 0.2))]. *)
Definition revision_days_of (deadline_days : Z) : result Z :=
  let* fifth := num_mul (PyInt deadline_days) (PyFloat 0.2) in
  let* whole := int_of fifth in
  Ok (Z.max 2 whole).

Definition _create_daily_schedule (topics : list string)
    (topic_times : dict num) (deadline_days : Z) (daily_hours : num)
    (preferred_times : list string) (pattern : string)
    (weak_areas : list string) (subject : string)
  : result (list DaySchedule) :=
  let* session_info := dict_item self_session_patterns pattern in
  let* revision_days := revision_days_of deadline_days in
  let study_days := (deadline_days - revision_days)%Z in
  let start :=
    {| day_num := 0;
       queue := topics;
       progress :=
         fold_left (fun d topic => dict_set d topic (PyInt 0)) topics [];
       days_done := [] |} in
  let* learned :=
    for_each
      (study_day session_info topic_times daily_hours preferred_times
                 weak_areas)
      (range study_days) start in
  let* revised :=
    for_each
      (revision_day topics weak_areas daily_hours preferred_times study_days
                    revision_days)
      (range revision_days) learned in
  Ok (days_done revised).

(** *** [_generate_infeasible_response] *)

Definition _generate_infeasible_response (needed available : num) (days : Z)
    (daily_hours : num) : result Plan :=
  let* short := num_sub needed available in
  let suggested : list string := [] in
  let* new_daily_hours := num_truediv needed (PyInt days) in
  let* suggested :=
    if num_le new_daily_hours (PyInt 12) then
      let* figure := fmt_1f new_daily_hours in
      Ok (suggested
            ++ [ ("Study " ++ figure ++ " hours per day instead of "
                    ++ py_str daily_hours)%string ])%list
    else Ok suggested in
  let* per_day := num_truediv needed daily_hours in
  let* whole_days := int_of per_day in
  let new_deadline := (whole_days + 1)%Z in
  let suggested :=
    (suggested
       ++ [ ("Extend deadline by " ++ str_of_Z (new_deadline - days)
               ++ " days")%string ])%list in
  let suggested :=
    (suggested
       ++ [ "Consider switching to 'fast' learning pace if you're confident"
          ])%list in
  let* needed_text := fmt_1f needed in
  let* available_text := fmt_1f available in
  Ok {| feasible := Some false;
        subject := None;
        student_profile := None;
        total_topics := None;
        deadline := None;
        total_hours_needed := None;
        total_hours_available := None;
        buffer_hours := None;
        daily_plan := None;
        study_tips := None;
        message :=
          Some ("Not enough time! Need " ++ needed_text
                  ++ " hours but only have " ++ available_text ++ " hours.");
        hours_short := Some (round1 short);
        suggestions := Some suggested |}.

(** *** [_generate_personalized_tips] *)

Definition _generate_personalized_tips (profile : StudentProfile)
    (topics : list string) : list string :=
  let tips : list string := [] in
  let pace := get_default (learning_pace profile) "moderate" in
  let pattern := get_default (study_pattern profile) "pomodoro" in
  let weak := get_default (weak_areas profile) [] in
  let tips :=
    if String.eqb pace "slow" then
      (tips ++ [ "Take your time - deep understanding beats speed";
                 "Make detailed notes and revisit them daily" ])%list
    else if String.eqb pace "fast" then
      (tips ++ [ "You learn quickly - but don't skip revision!";
                 "Challenge yourself with advanced problems" ])%list
    else tips in
  let tips :=
    if String.eqb pattern "pomodoro" then
      (tips ++ ["Use a Pomodoro timer app to stay on track"])%list
    else if String.eqb pattern "deep_work" then
      (tips ++ ["Eliminate all distractions during 90-min sessions"])%list
    else tips in
  let tips :=
    match weak with
    | [] => tips
    | _ :: _ =>
        (tips ++ [ ("Extra focus on: " ++ join ", " (firstn 3 weak))%string;
                   "Consider finding a study partner for weak topics" ])%list
    end in
  (tips ++ [ "Stay hydrated and take regular breaks";
             "Get 7-8 hours of sleep for better retention" ])%list.

(** *** [generate_personalized_plan] *)

Definition generate_personalized_plan (profile : StudentProfile)
    (subject_name : string) (topics : list string) (deadline_days : Z)
    (difficulty_levels : option (dict string)) : result Plan :=
  let pace := get_default (learning_pace profile) "moderate" in
  let pattern := get_default (study_pattern profile) "pomodoro" in
  let daily_hours := get_default (daily_available_hours profile) (PyInt 3) in
  let times_of_day := get_default (preferred_times profile) ["evening"] in
  let weak := get_default (weak_areas profile) [] in
  let* topic_time_allocation :=
    _calculate_topic_times topics pace weak difficulty_levels in
  let* hours_needed := py_sum (dict_values topic_time_allocation) in
  let* hours_available := num_mul (PyInt deadline_days) daily_hours in
  let* pace_info := dict_item self_learning_pace pace in
  let* growth := num_add (PyInt 1) (revision_ratio pace_info) in
  let* total_with_revision := num_mul hours_needed growth in
  if num_gt total_with_revision hours_available then
    _generate_infeasible_response total_with_revision hours_available
      deadline_days daily_hours
  else
    let* schedule :=
      _create_daily_schedule topics topic_time_allocation deadline_days
        daily_hours times_of_day pattern weak subject_name in
    let* deadline_date := date_after deadline_now deadline_days in
    let* buffer := num_sub hours_available total_with_revision in
    Ok {| feasible := Some true;
          subject := Some subject_name;
          student_profile := Some profile;
          total_topics := Some (len topics);
          deadline := Some deadline_date;
          total_hours_needed := Some (round1 total_with_revision);
          total_hours_available := Some hours_available;
          buffer_hours := Some (round1 buffer);
          daily_plan := Some schedule;
          study_tips := Some (_generate_personalized_tips profile topics);
          message := None;
          hours_short := None;
          suggestions := None |}.

End Planner.

End Planner64.

(** * The specification's formulas over binary64

    The quantities the specification names, written from its words over
    the numbers of [Float64]: every product, sum and quotient is the one
    Python computes, rounded to the nearest float. *)

Module Spec64.
Import Floats.
Import Py.
Import Float64.

#[local] Set Warnings "-inexact-float".

(** Hours per topic by pace: 4, 2.5 and 1.5. *)
Definition base_hours (pace : string) : option num :=
  if String.eqb pace "slow" then Some (PyInt 4)
  else if String.eqb pace "moderate" then Some (PyFloat 2.5)
  else if String.eqb pace "fast" then Some (PyFloat 1.5)
  else None.

(** Revision ratio by pace. *)
Definition revision_ratio (pace : string) : option num :=
  if String.eqb pace "slow" then Some (PyFloat 0.4)
  else if String.eqb pace "moderate" then Some (PyFloat 0.3)
  else if String.eqb pace "fast" then Some (PyFloat 0.2)
  else None.

(** The hours allotted to one topic: the base hours, times 1.5 for a weak
    area, then times 1.3 for a hard topic or 0.7 for an easy one, rounded
    to one decimal. *)
Definition allocation (base : num) (is_weak : bool)
    (difficulty : option string) : result num :=
  let* hours := if is_weak then num_mul base (PyFloat 1.5) else Ok base in
  let* hours :=
    match difficulty with
    | Some tag =>
        if String.eqb tag "hard" then num_mul hours (PyFloat 1.3)
        else if String.eqb tag "easy" then num_mul hours (PyFloat 0.7)
        else Ok hours
    | None => Ok hours
    end in
  Ok (round1 hours).

(** The allocations of the topics [names], in order. *)
Fixpoint allocations (base : num) (weak : list string)
    (levels : option (dict string)) (names : list string)
  : result (list num) :=
  match names with
  | [] => Ok []
  | t :: rest =>
      let* hours :=
        allocation base (str_in t weak) (Spec.difficulty_of levels t) in
      let* others := allocations base weak levels rest in
      Ok (hours :: others)
  end.

(** The sum of a list, added up from 0 in the order of the list. *)
Definition total (hours : list num) : result num :=
  fold_left (fun sum x => let* so_far := sum in num_add so_far x) hours
            (Ok (PyInt 0)).

(** The hours needed for the topics [names]: the sum of their
    allocations times one plus the revision ratio, not rounded. *)
Definition hours_needed (names : list string) (pace : string)
    (weak : list string) (levels : option (dict string)) : result num :=
  match base_hours pace, revision_ratio pace with
  | Some base, Some ratio =>
      let* hours := allocations base weak levels names in
      let* sum := total hours in
      let* growth := num_add (PyInt 1) ratio in
      num_mul sum growth
  | _, _ => Raise (KeyError pace)
  end.

(** The hours available: [deadline_days] times the daily hours. *)
Definition hours_available (deadline_days : Z) (daily_hours : num)
  : result num :=
  num_mul (PyInt deadline_days) daily_hours.

(** The deadline that an infeasible response suggests:
    floor(needed / daily hours) + 1 days. *)
Definition new_deadline (needed daily_hours : num) : option Z :=
  match num_truediv needed daily_hours with
  | Ok (PyFloat per_day) =>
      option_map (fun whole => (whole + 1)%Z) (floor_of_float per_day)
  | _ => None
  end.

(** ** The learning days, as the specification describes them *)

(** Session and break lengths by pattern, in minutes. *)
Definition session_minutes (pattern : string) : option num :=
  if String.eqb pattern "pomodoro" then Some (PyInt 25)
  else if String.eqb pattern "deep_work" then Some (PyInt 90)
  else if String.eqb pattern "short_burst" then Some (PyInt 15)
  else None.

Definition break_minutes (pattern : string) : option num :=
  if String.eqb pattern "pomodoro" then Some (PyInt 5)
  else if String.eqb pattern "deep_work" then Some (PyInt 20)
  else if String.eqb pattern "short_burst" then Some (PyInt 5)
  else None.

(** What a learning day works on: the hours that remain, the queue of
    topics, the hours logged for each topic, and the sessions built so
    far, each a topic with its length in hours. *)
Record Desk : Type := {
  hours_left : num;
  waiting : list string;
  logged : dict num;
  built : list (string * num)
}.

Section LearningDay.

Variable pattern_minutes : num.
Variable pause_minutes : num.
Variable allocated : dict num.

(** Hours remain and the queue is not empty. *)
Definition goes_on (d : Desk) : bool :=
  num_gt (hours_left d) (PyInt 0)
  && match waiting d with [] => false | _ :: _ => true end.

(** The session length for the topic at the front: the least of the
    pattern's session length in hours, the hours that remain and the
    topic's allocated hours less the hours logged for it. *)
Definition session_length_for (d : Desk) (hours done : num) : result num :=
  let* needed := num_sub hours done in
  let* pattern_hours := num_truediv pattern_minutes (PyInt 60) in
  Ok (py_min3 pattern_hours (hours_left d) needed).

(** The hours that remain after a session: if any remain, the break is
    taken off them as well. *)
Definition after_break (remaining : num) : result num :=
  if num_gt remaining (PyInt 0) then
    let* pause := num_truediv pause_minutes (PyInt 60) in
    num_sub remaining pause
  else Ok remaining.

(** One turn for the topic at the front of the queue.  A length above 0.1
    hour builds a session: the length is logged for the topic and taken
    off the hours that remain, with the break, and the topic is popped
    when its logged hours have reached its allocation.  A length of at
    most 0.1 hour pops the topic and builds nothing. *)
Inductive turn (d : Desk) : Desk -> Prop :=
| build_session (t : string) (rest : list string)
    (hours done length total remaining after : num) :
    waiting d = t :: rest ->
    dict_get allocated t = Some hours ->
    dict_get (logged d) t = Some done ->
    session_length_for d hours done = Ok length ->
    num_gt length (PyFloat 0.1) = true ->
    num_add done length = Ok total ->
    num_sub (hours_left d) length = Ok remaining ->
    after_break remaining = Ok after ->
    turn d {| hours_left := after;
              waiting := if num_ge total hours then rest else t :: rest;
              logged := dict_set (logged d) t total;
              built := (built d ++ [(t, length)])%list |}
| drop_topic (t : string) (rest : list string) (hours done length : num) :
    waiting d = t :: rest ->
    dict_get allocated t = Some hours ->
    dict_get (logged d) t = Some done ->
    session_length_for d hours done = Ok length ->
    num_gt length (PyFloat 0.1) = false ->
    turn d {| hours_left := hours_left d;
              waiting := rest;
              logged := logged d;
              built := built d |}.

(** A day: turns are taken while hours remain and the queue is not
    empty. *)
Inductive day_run : Desk -> Desk -> Prop :=
| day_over (d : Desk) : goes_on d = false -> day_run d d
| day_turn (d d' final : Desk) :
    goes_on d = true -> turn d d' -> day_run d' final -> day_run d final.

(** The learning days one after the other: every day starts with the
    daily hours and nothing built, and with the queue and the logged hours
    that the day before left behind.  The last argument lists what each
    day builds. *)
Inductive learning_days (daily_hours : num)
  : list string -> dict num -> list (list (string * num)) -> Prop :=
| no_more_days (queue : list string) (progress : dict num) :
    learning_days daily_hours queue progress []
| one_more_day (queue : list string) (progress : dict num) (final : Desk)
    (later : list (list (string * num))) :
    day_run {| hours_left := daily_hours;
               waiting := queue;
               logged := progress;
               built := [] |} final ->
    learning_days daily_hours (waiting final) (logged final) later ->
    learning_days daily_hours queue progress (built final :: later).

End LearningDay.

(** Before the first learning day nothing is logged: 0 hours for every
    topic. *)
Definition nothing_logged (topics : list string) : dict num :=
  map (fun t => (t, PyInt 0)) (Measures.distinct topics).

(** The desk of a state of the loop of [_create_daily_schedule], for the
    sessions [sessions] built so far. *)
Definition desk_of (st : Planner64.LoopState) (sessions : list (string * num))
  : Desk :=
  {| hours_left := Planner64.hours_remaining st;
     waiting := Planner64.topics_queue st;
     logged := Planner64.topic_progress st;
     built := sessions |}.

(** Two entries for the same day: they agree on everything but the
    sessions and their total. *)
Definition same_head (d d' : Planner64.DaySchedule) : Prop :=
  Planner64.day d' = Planner64.day d
  /\ Planner64.date d' = Planner64.date d
  /\ Planner64.phase d' = Planner64.phase d
  /\ Planner64.preferred_time d' = Planner64.preferred_time d.

(** The session dict of a built session: its topic, whether the topic is
    a weak area, the whole minutes in its length and the activities for
    its length. *)
Definition recorded (weak : list string) (session : Planner64.Session)
    (entry : string * num) : Prop :=
  let (t, length) := entry in
  Planner64.topic session = t
  /\ Planner64.is_weak_area session = Some (str_in t weak)
  /\ (exists minutes whole,
        num_mul length (PyInt 60) = Ok minutes
        /\ int_of minutes = Ok whole
        /\ Planner64.duration_minutes session = PyInt whole)
  /\ Planner64.activities session
     = Planner64._generate_activities t length (str_in t weak).

(** What one pass of the learning loop appends for offset [day_offset]:
    a "Learning" day with the date and the time of day of the offset,
    whose sessions are those the day built. *)
Definition learning_day_of (date_of : Z -> result string)
    (times_of_day weak : list string) (day_offset : Z)
    (entry : Planner64.DaySchedule) (sessions_built : list (string * num))
  : Prop :=
  Planner64.phase entry = "Learning"
  /\ date_of day_offset = Ok (Planner64.date entry)
  /\ Planner64.cyclic_item times_of_day day_offset
     = Ok (Planner64.preferred_time entry)
  /\ Forall2 (recorded weak) (Planner64.sessions entry) sessions_built.

(** What one pass of the revision loop appends for offset
    [day_offset]. *)
Definition revision_day_of (date_of : Z -> result string)
    (topics weak : list string) (daily_hours : num)
    (times_of_day : list string) (revision_days : Z) (day_offset : Z)
    (entry : Planner64.DaySchedule) : Prop :=
  Planner64.phase entry
  = Planner64.revision_phase_name revision_days day_offset
  /\ date_of day_offset = Ok (Planner64.date entry)
  /\ Planner64.total_hours entry = daily_hours
  /\ Planner64.cyclic_item times_of_day day_offset
     = Ok (Planner64.preferred_time entry)
  /\ Planner64._generate_revision_sessions topics weak daily_hours
       (Planner64.phase entry)
     = Ok (Planner64.sessions entry).

(** The number of revision days: max(2, floor(0.2 * deadline_days)). *)
Definition revision_days (deadline_days : Z) : option Z :=
  match num_mul (PyInt deadline_days) (PyFloat 0.2) with
  | Ok (PyFloat fifth) =>
      option_map (fun whole => Z.max 2 whole) (floor_of_float fifth)
  | _ => None
  end.

(** A fully feasible plan: the feasible branch's fields are all present and
    the infeasible branch's are all absent. *)
Definition fully_feasible (plan : Planner64.Plan) : Prop :=
  Planner64.feasible plan = Some true
  /\ Planner64.subject plan <> None
  /\ Planner64.student_profile plan <> None
  /\ Planner64.total_topics plan <> None
  /\ Planner64.deadline plan <> None
  /\ Planner64.total_hours_needed plan <> None
  /\ Planner64.total_hours_available plan <> None
  /\ Planner64.buffer_hours plan <> None
  /\ Planner64.daily_plan plan <> None
  /\ Planner64.study_tips plan <> None
  /\ Planner64.message plan = None
  /\ Planner64.hours_short plan = None
  /\ Planner64.suggestions plan = None.

(** A fully infeasible plan: only the message, the shortfall and the
    suggestions come with the verdict. *)
Definition fully_infeasible (plan : Planner64.Plan) : Prop :=
  Planner64.feasible plan = Some false
  /\ Planner64.message plan <> None
  /\ Planner64.hours_short plan <> None
  /\ Planner64.suggestions plan <> None
  /\ Planner64.subject plan = None
  /\ Planner64.student_profile plan = None
  /\ Planner64.total_topics plan = None
  /\ Planner64.deadline plan = None
  /\ Planner64.total_hours_needed plan = None
  /\ Planner64.total_hours_available plan = None
  /\ Planner64.buffer_hours plan = None
  /\ Planner64.daily_plan plan = None
  /\ Planner64.study_tips plan = None.

End Spec64.

(** Inputs on which the planner over binary64 is run below.  A float is
    shown with one decimal, a date as the number of its day, and the two
    readings of the clock fall on the same day. *)
Module Sample64.
Import Floats.
Import Py.
Import Float64.
Import Planner64.

#[local] Set Warnings "-inexact-float".

Definition float_repr (x : float) : string := float_fmt_1f x.

Definition strftime (day_number : Z) : string :=
  ("day " ++ str_of_Z day_number)%string.

Definition today : Z := 739000.

Definition fuel : nat := 1000.

Definition plan_for (profile : StudentProfile) (topics : list string)
    (deadline_days : Z) (levels : option (dict string)) : result Plan :=
  generate_personalized_plan float_repr strftime today today fuel profile
    "Algorithms" topics deadline_days levels.

Definition empty_plan : Plan :=
  {| feasible := None; subject := None; student_profile := None;
     total_topics := None; deadline := None; total_hours_needed := None;
     total_hours_available := None; buffer_hours := None; daily_plan := None;
     study_tips := None; message := None; hours_short := None;
     suggestions := None |}.

Definition plan_of (r : result Plan) : Plan :=
  match r with
  | Ok plan => plan
  | Raise _ => empty_plan
  end.

Definition profile (pace : string) (pattern : string) (hours : num)
    (weak : list string) : StudentProfile :=
  {| learning_pace := Some pace;
     study_pattern := Some pattern;
     daily_available_hours := Some hours;
     preferred_times := Some ["morning"; "evening"];
     weak_areas := Some weak |}.

Definition three_topics : list string := ["Sorting"; "Graphs"; "Hashing"].

(** A moderate learner with one weak, hard topic and three days of three
    hours. *)
Definition moderate_profile : StudentProfile :=
  profile "moderate" "pomodoro" (PyInt 3) ["Recursion"].

Definition hard_recursion : option (dict string) :=
  Some [("Recursion", "hard")].

Definition moderate_plan : Plan :=
  Eval vm_compute in
    plan_of (plan_for moderate_profile ["Recursion"] 3 hard_recursion).

(** The same learner with the topic listed twice and no weak area. *)
Definition repeated_profile : StudentProfile :=
  profile "moderate" "pomodoro" (PyInt 3) [].

Definition repeated_plan : Plan :=
  Eval vm_compute in
    plan_of (plan_for repeated_profile ["Sorting"; "Sorting"] 3 None).

(** A moderate learner with three topics and three days of three and a
    quarter hours: 9.75 hours needed, 9.75 available. *)
Definition quarter_hours_profile : StudentProfile :=
  profile "moderate" "deep_work" (PyFloat 3.25) [].

Definition quarter_hours_plan : Plan :=
  Eval vm_compute in
    plan_of (plan_for quarter_hours_profile three_topics 3 None).

(** A moderate learner with two hard and two easy topics and thirteen days
    of one hour: 10 hours of topics on paper, 13 with the revision. *)
Definition thirteen_profile : StudentProfile :=
  profile "moderate" "pomodoro" (PyInt 1) [].

Definition thirteen_topics : list string :=
  ["Sorting"; "Graphs"; "Hashing"; "Tries"].

Definition thirteen_levels : option (dict string) :=
  Some [ ("Sorting", "hard"); ("Graphs", "hard"); ("Hashing", "easy");
         ("Tries", "easy") ].

Definition thirteen_plan : Plan :=
  Eval vm_compute in
    plan_of (plan_for thirteen_profile thirteen_topics 13 thirteen_levels).

(** A moderate learner with a weak, hard topic and two easy ones, and two
    days of six hours: 8.5 hours of topics. *)
Definition six_hours_profile : StudentProfile :=
  profile "moderate" "pomodoro" (PyInt 6) ["Sorting"].

Definition six_hours_levels : option (dict string) :=
  Some [("Sorting", "hard"); ("Graphs", "easy"); ("Hashing", "easy")].

Definition six_hours_plan : Plan :=
  Eval vm_compute in
    plan_of (plan_for six_hours_profile three_topics 2 six_hours_levels).

(** A slow learner with three topics and two days of three hours. *)
Definition slow_profile : StudentProfile :=
  profile "slow" "pomodoro" (PyInt 3) [].

Definition slow_plan : Plan :=
  Eval vm_compute in plan_of (plan_for slow_profile three_topics 2 None).

(** The same learner with two days of 2.1 hours. *)
Definition slow_short_profile : StudentProfile :=
  profile "slow" "pomodoro" (PyFloat 2.1) [].

Definition slow_short_plan : Plan :=
  Eval vm_compute in
    plan_of (plan_for slow_short_profile three_topics 2 None).

(** The planner's defaults: the moderate pace, pomodoro sessions, three
    hours a day in the evening; three topics and six days. *)
Definition default_profile : StudentProfile :=
  {| learning_pace := None;
     study_pattern := None;
     daily_available_hours := None;
     preferred_times := None;
     weak_areas := None |}.

Definition default_plan : Plan :=
  Eval vm_compute in plan_of (plan_for default_profile three_topics 6 None).

(** A fast learner with a weak area and ten days. *)
Definition fast_profile : StudentProfile :=
  profile "fast" "deep_work" (PyInt 2) ["Graphs"].

Definition ten_days_plan : Plan :=
  Eval vm_compute in plan_of (plan_for fast_profile three_topics 10 None).

(** The same plan when midnight passes while the schedule is built. *)
Definition overnight_plan : Plan :=
  Eval vm_compute in
    plan_of
      (generate_personalized_plan float_repr strftime today (today + 1) fuel
         fast_profile "Algorithms" three_topics 10 None).

(** A fast learner with 4.1 hours a day and two days. *)
Definition odd_hours_profile : StudentProfile :=
  profile "fast" "pomodoro" (PyFloat 4.1) ["Sorting"].

Definition odd_hours_plan : Plan :=
  Eval vm_compute in plan_of (plan_for odd_hours_profile ["Sorting"] 2 None).

End Sample64.

(** * Python text

    A [str] is a sequence of Unicode code points. *)

Module Text.

Definition code_point : Type := Z.

Definition text : Type := list code_point.

(** The text of an ASCII literal. *)
Definition literal (s : string) : text :=
  map (fun c => Z.of_N (N_of_ascii c)) (list_ascii_of_string s).

Local Open Scope Z_scope.

(** The whitespace of [str.strip()], CPython's [Py_UNICODE_ISSPACE]: the
    code points of bidirectional type WS, B or S and of category Zs. *)
Definition is_space (c : code_point) : bool :=
  (0x09 <=? c) && (c <=? 0x0D)
  || (0x1C <=? c) && (c <=? 0x20)
  || (c =? 0x85)
  || (c =? 0xA0)
  || (c =? 0x1680)
  || (0x2000 <=? c) && (c <=? 0x200A)
  || (c =? 0x2028)
  || (c =? 0x2029)
  || (c =? 0x202F)
  || (c =? 0x205F)
  || (c =? 0x3000).

Fixpoint lstrip (s : text) : text :=
  match s with
  | [] => []
  | c :: s' => if is_space c then lstrip s' else s
  end.

Fixpoint rstrip (s : text) : text :=
  match s with
  | [] => []
  | c :: s' =>
      match rstrip s' with
      | [] => if is_space c then [] else [c]
      | r => c :: r
      end
  end.

(** [s.strip()]. *)
Definition strip (s : text) : text := rstrip (lstrip s).

End Text.

(** * The question-answering client ([StudyChatbot.ask]) *)

Module Chatbot.
Import Text.

(** What the [try] block met: [self.chain.invoke] returned a message with
    the given [content], or an [Exception] was raised whose [str] is
    [description] and whose traceback reads [trace]. *)
Inductive Outcome : Type :=
| Returned (content : text)
| Raised (description : text) (trace : list text).

(** The console: the lines printed on the standard output and those
    written to the standard error, in order.  Writing to either is taken
    to succeed. *)
Record Console : Type := {
  stdout : list text;
  stderr : list text
}.

(** [print(line)]. *)
Definition print (line : text) (console : Console) : Console :=
  {| stdout := (stdout console ++ [line])%list; stderr := stderr console |}.

(** [traceback.print_exc()] for an exception whose traceback reads
    [trace]. *)
Definition print_exc (trace : list text) (console : Console) : Console :=
  {| stdout := stdout console; stderr := (stderr console ++ trace)%list |}.

(** The heading of the error report, a line feed, U+274C and the words
    " FULL ERROR DETAILS:". *)
Definition error_heading : text :=
  ([0x0A; 0x274C]%Z ++ literal " FULL ERROR DETAILS:")%list.

Section Ask.

(** The remote chain, called with the question and the context. *)
Variable invoke : text -> text -> Outcome.

(** [ask(question, context)]: the method prints the question, calls the
    chain and returns the stripped content of the response; the
    [except Exception] handler prints the error report and returns the
    error text.  The result comes with the console the call leaves
    behind. *)
Definition ask (question context : text) (console : Console)
  : text * Console :=
  let console := print (literal "Processing: " ++ question)%list console in
  match invoke question context with
  | Returned content => (strip content, console)
  | Raised description trace =>
      let console := print error_heading console in
      let console :=
        print (literal "Error: " ++ description)%list console in
      let console := print_exc trace console in
      ((literal "Error: " ++ description)%list, console)
  end.

End Ask.

End Chatbot.

(** * The specification's words on the client's answer *)

Module SpecText.
Import Text.

Local Open Scope Z_scope.

(** The whitespace characters: the control characters from the tab to the
    carriage return and from the file separator to the unit separator, the
    space, the next line, the no-break space, the Ogham space mark, the
    spaces from the en quad to the hair space, the line and the paragraph
    separator, the narrow no-break space, the medium mathematical space
    and the ideographic space. *)
Definition whitespace : list code_point :=
  [ 9; 10; 11; 12; 13; 28; 29; 30; 31; 32; 133; 160; 5760;
    8192; 8193; 8194; 8195; 8196; 8197; 8198; 8199; 8200; 8201; 8202;
    8232; 8233; 8239; 8287; 12288 ].

(** Text made of whitespace only. *)
Definition blank (s : text) : Prop := Forall (fun c => In c whitespace) s.

(** [answer] is [content] trimmed of the whitespace around it: [content]
    is [answer] between two runs of whitespace, and [answer] neither
    starts nor ends with whitespace. *)
Definition trimmed (content answer : text) : Prop :=
  exists before after,
    content = (before ++ answer ++ after)%list
    /\ blank before
    /\ blank after
    /\ (forall c rest, answer = c :: rest -> ~ In c whitespace)
    /\ (forall front c, answer = (front ++ [c])%list -> ~ In c whitespace).

(** The text "Error: " followed by [description]. *)
Definition error_message (description : text) : text :=
  ([69; 114; 114; 111; 114; 58; 32] ++ description)%list.

End SpecText.

(** Calls on which the client is run below. *)
Module SampleChat.
Import Text Chatbot.

(** A response as a web page gives it: a no-break space and a space, the
    sentence, a line feed. *)
Definition page : text :=
  ([160; 32]%Z ++ literal "Binary search halves the range." ++ [10]%Z)%list.

Definition answering (question context : text) : Outcome := Returned page.

Definition timing_out (question context : text) : Outcome :=
  Raised (literal "timed out") [literal "Traceback (most recent call last):"].

Definition quiet : Console := {| stdout := []; stderr := [] |}.

End SampleChat.

(** * Facts about the Python layer *)

Module PyFacts.
Import Py.

#[local] Arguments Qred : simpl never.
#[local] Arguments Qplus : simpl never.
#[local] Arguments Qminus : simpl never.
#[local] Arguments Qmult : simpl never.
#[local] Arguments Qdiv : simpl never.
#[local] Arguments Qfloor : simpl never.
#[local] Arguments Qceiling : simpl never.
#[local] Arguments inject_Z : simpl never.
#[local] Arguments Qle_bool : simpl never.
#[local] Arguments Qeq_bool : simpl never.

Lemma Qlt_bool_true (x y : Q) : Qlt_bool x y = true <-> x < y.
Proof.
  unfold Qlt_bool. rewrite negb_true_iff. split; intro H.
  - destruct (Qlt_le_dec x y) as [Hlt | Hle]; [assumption|].
    apply Qle_bool_iff in Hle. congruence.
  - destruct (Qle_bool y x) eqn:E; [|reflexivity].
    apply Qle_bool_iff in E. exfalso. apply (Qlt_not_le _ _ H E).
Qed.

Lemma Qlt_bool_false (x y : Q) : Qlt_bool x y = false <-> y <= x.
Proof.
  unfold Qlt_bool. rewrite negb_false_iff. apply Qle_bool_iff.
Qed.

Lemma num_Q_add (a b : num) : num_Q (num_add a b) == num_Q a + num_Q b.
Proof.
  destruct a, b; simpl; try apply Qred_correct.
  rewrite inject_Z_plus. reflexivity.
Qed.

Lemma num_Q_sub (a b : num) : num_Q (num_sub a b) == num_Q a - num_Q b.
Proof.
  destruct a, b; simpl; try apply Qred_correct.
  unfold Z.sub. rewrite inject_Z_plus, inject_Z_opp. reflexivity.
Qed.

Lemma num_Q_mul (a b : num) : num_Q (num_mul a b) == num_Q a * num_Q b.
Proof.
  destruct a, b; simpl; try apply Qred_correct.
  rewrite inject_Z_mult. reflexivity.
Qed.

Lemma num_gt_true (a b : num) : num_gt a b = true <-> num_Q b < num_Q a.
Proof. apply Qlt_bool_true. Qed.

Lemma num_gt_false (a b : num) : num_gt a b = false <-> num_Q a <= num_Q b.
Proof. apply Qlt_bool_false. Qed.

Lemma num_lt_true (a b : num) : num_lt a b = true <-> num_Q a < num_Q b.
Proof. apply Qlt_bool_true. Qed.

Lemma num_lt_false (a b : num) : num_lt a b = false <-> num_Q b <= num_Q a.
Proof. apply Qlt_bool_false. Qed.

Lemma num_le_true (a b : num) : num_le a b = true <-> num_Q a <= num_Q b.
Proof. apply Qle_bool_iff. Qed.

Lemma num_le_false (a b : num) : num_le a b = false <-> num_Q b < num_Q a.
Proof.
  unfold num_le. split; intro H.
  - destruct (Qlt_le_dec (num_Q b) (num_Q a)) as [Hlt | Hle]; [assumption|].
    apply Qle_bool_iff in Hle. congruence.
  - destruct (Qle_bool (num_Q a) (num_Q b)) eqn:E; [|reflexivity].
    apply Qle_bool_iff in E. exfalso. apply (Qlt_not_le _ _ H E).
Qed.

Lemma num_ge_true (a b : num) : num_ge a b = true <-> num_Q b <= num_Q a.
Proof. apply Qle_bool_iff. Qed.

Lemma num_truediv_ok (a b : num) :
  ~ num_Q b == 0 ->
  num_truediv a b = Ok (PyFloat (Qred (num_Q a / num_Q b))).
Proof.
  intro H. unfold num_truediv.
  destruct (Qeq_bool (num_Q b) 0) eqn:E; [|reflexivity].
  apply Qeq_bool_iff in E. contradiction.
Qed.

Lemma py_min2_Q (m x : num) : num_Q (py_min2 m x) == Qmin (num_Q m) (num_Q x).
Proof.
  unfold py_min2. destruct (num_lt x m) eqn:E.
  - apply num_lt_true in E. symmetry. apply Q.min_r. apply Qlt_le_weak, E.
  - apply num_lt_false in E. symmetry. apply Q.min_l. exact E.
Qed.

Lemma py_min3_Q (a b c : num) :
  num_Q (py_min3 a b c) == Qmin (Qmin (num_Q a) (num_Q b)) (num_Q c).
Proof.
  unfold py_min3. rewrite py_min2_Q.
  apply Q.min_compat; [apply py_min2_Q | reflexivity].
Qed.

(** *** Rounding *)

Lemma round_half_even_comp (p q : Q) :
  p == q -> round_half_even p = round_half_even q.
Proof.
  intro H. unfold round_half_even.
  rewrite (Qfloor_comp _ _ H).
  assert (E : (p - inject_Z (Qfloor q) ?= 1 # 2)
              = (q - inject_Z (Qfloor q) ?= 1 # 2)).
  { apply Qcompare_comp; [rewrite H|]; reflexivity. }
  rewrite E. reflexivity.
Qed.

Lemma round_half_even_Z (z : Z) : round_half_even (inject_Z z) = z.
Proof.
  unfold round_half_even. rewrite Qfloor_Z.
  assert (E : (inject_Z z - inject_Z z ?= 1 # 2) = Lt).
  { rewrite <- Qlt_alt. lra. }
  rewrite E. reflexivity.
Qed.


(** Rounding never passes an integer that bounds the argument. *)
Lemma round_half_even_le_Z (q : Q) (n : Z) :
  q <= inject_Z n -> (round_half_even q <= n)%Z.
Proof.
  intro H. unfold round_half_even.
  pose proof (Qfloor_le q) as Hlo.
  assert (Hfn : (Qfloor q <= n)%Z).
  { rewrite <- (Qfloor_Z n). apply Qfloor_resp_le, H. }
  destruct (Z.eq_dec (Qfloor q) n) as [-> | Hne].
  - assert (E : (q - inject_Z n ?= 1 # 2) = Lt).
    { rewrite <- Qlt_alt. lra. }
    rewrite E. lia.
  - destruct (q - inject_Z (Qfloor q) ?= 1 # 2);
      [destruct (Z.even (Qfloor q))| |]; lia.
Qed.

Lemma round_half_even_ge_Z (q : Q) (n : Z) :
  inject_Z n <= q -> (n <= round_half_even q)%Z.
Proof.
  intro H. unfold round_half_even.
  assert (Hfn : (n <= Qfloor q)%Z).
  { rewrite <- (Qfloor_Z n). apply Qfloor_resp_le, H. }
  destruct (q - inject_Z (Qfloor q) ?= 1 # 2);
    [destruct (Z.even (Qfloor q))| |]; lia.
Qed.

Lemma round1_Q (x : num) : num_Q (round1 x) == Spec.Qround1 (num_Q x).
Proof.
  unfold Spec.Qround1. destruct x as [z | q]; simpl.
  - assert (E : inject_Z z * 10 == inject_Z (z * 10)).
    { rewrite inject_Z_mult. reflexivity. }
    rewrite (round_half_even_comp E), round_half_even_Z, inject_Z_mult.
    change (inject_Z 10) with 10. field.
  - apply Qred_correct.
Qed.

Lemma Qround1_comp (p q : Q) : p == q -> Spec.Qround1 p == Spec.Qround1 q.
Proof.
  intro H. unfold Spec.Qround1.
  rewrite (@round_half_even_comp (p * 10) (q * 10)); [reflexivity|].
  rewrite H. reflexivity.
Qed.

(** A rounded figure stays below a bound that is a whole number of
    tenths. *)
Lemma Qround1_le_tenths (q bound : Q) (n : Z) :
  bound * 10 == inject_Z n -> q <= bound -> Spec.Qround1 q <= bound.
Proof.
  intros Hn Hle. unfold Spec.Qround1.
  assert (Hz : (round_half_even (q * 10) <= n)%Z).
  { apply round_half_even_le_Z. rewrite <- Hn. lra. }
  rewrite Zle_Qle in Hz.
  apply Qle_shift_div_r; [reflexivity|]. rewrite Hn. exact Hz.
Qed.

Lemma Qround1_nonneg (q : Q) : 0 <= q -> 0 <= Spec.Qround1 q.
Proof.
  intro H. unfold Spec.Qround1.
  assert (Hz : (0 <= round_half_even (q * 10))%Z).
  { apply round_half_even_ge_Z. change (inject_Z 0) with 0. lra. }
  rewrite Zle_Qle in Hz. change (inject_Z 0) with 0 in Hz.
  apply Qle_shift_div_l; [reflexivity|]. lra.
Qed.

(** *** Truncation *)

Lemma Qtruncate_nonneg (q : Q) : 0 <= q -> Qtruncate q = Qfloor q.
Proof.
  intro H. unfold Qtruncate. apply Qle_bool_iff in H. rewrite H. reflexivity.
Qed.

Lemma Qceiling_nonpos (q : Q) : q <= 0 -> (Qceiling q <= 0)%Z.
Proof.
  intro H. unfold Qceiling.
  assert (Hf : (0 <= Qfloor (- q))%Z).
  { rewrite <- (Qfloor_Z 0). apply Qfloor_resp_le.
    change (inject_Z 0) with 0. lra. }
  lia.
Qed.

Lemma max_2_truncate (q : Q) :
  Z.max 2 (Qtruncate q) = Z.max 2 (Qfloor q).
Proof.
  unfold Qtruncate. destruct (Qle_bool 0 q) eqn:E; [reflexivity|].
  assert (Hneg : q < 0).
  { destruct (Qlt_le_dec q 0) as [Hlt | Hle]; [assumption|].
    apply Qle_bool_iff in Hle. congruence. }
  pose proof (@Qceiling_nonpos q (Qlt_le_weak _ _ Hneg)) as Hc.
  assert (Hf : (Qfloor q <= 0)%Z).
  { rewrite <- (Qfloor_Z 0). apply Qfloor_resp_le.
    change (inject_Z 0) with 0. lra. }
  lia.
Qed.

Lemma num_floordiv_Q (a b r : num) :
  num_floordiv a b = Ok r ->
  num_Q r == inject_Z (Qfloor (num_Q a / num_Q b)).
Proof.
  unfold num_floordiv. destruct (Qeq_bool (num_Q b) 0); [discriminate|].
  destruct a as [x | p], b as [y | q]; intro H; inversion H; subst; simpl;
    try reflexivity.
  rewrite Zdiv_Qdiv. reflexivity.
Qed.

Lemma num_floordiv_ok (a b : num) :
  ~ num_Q b == 0 -> exists r, num_floordiv a b = Ok r.
Proof.
  intro H. unfold num_floordiv.
  destruct (Qeq_bool (num_Q b) 0) eqn:E.
  - apply Qeq_bool_iff in E. contradiction.
  - destruct a, b; eexists; reflexivity.
Qed.

(** *** Sums *)

Lemma fold_add_Q (xs : list num) (acc : num) :
  num_Q (fold_left num_add xs acc)
  == num_Q acc + Spec.Qsum (map num_Q xs).
Proof.
  revert acc. induction xs as [| x xs IH]; intro acc; simpl.
  - lra.
  - rewrite IH, num_Q_add. lra.
Qed.

Lemma py_sum_Q (xs : list num) :
  num_Q (py_sum xs) == Spec.Qsum (map num_Q xs).
Proof.
  unfold py_sum. rewrite fold_add_Q. simpl. change (inject_Z 0) with 0. lra.
Qed.


Lemma Qsum_nonneg (qs : list Q) :
  (forall q, In q qs -> 0 <= q) -> 0 <= Spec.Qsum qs.
Proof.
  induction qs as [| q qs IH]; intro H; simpl; [lra|].
  pose proof (H q (or_introl eq_refl)).
  assert (0 <= Spec.Qsum qs) by (apply IH; intros; apply H; right; assumption).
  lra.
Qed.

(** *** Membership and dictionaries *)

Lemma str_in_In (x : string) (xs : list string) :
  str_in x xs = true <-> In x xs.
Proof.
  induction xs as [| y ys IH]; simpl.
  - split; [discriminate | contradiction].
  - rewrite orb_true_iff, IH, String.eqb_eq. split; intros [H | H]; auto.
Qed.

Lemma dict_get_set {V : Type} (d : dict V) (k k' : string) (v : V) :
  dict_get (dict_set d k v) k'
  = if String.eqb k' k then Some v else dict_get d k'.
Proof.
  induction d as [| [k0 v0] d IH]; simpl.
  - reflexivity.
  - destruct (String.eqb k k0) eqn:E; simpl.
    + apply String.eqb_eq in E. subst k0.
      destruct (String.eqb k' k); reflexivity.
    + rewrite IH. destruct (String.eqb k' k0) eqn:E0; [|reflexivity].
      apply String.eqb_eq in E0. subst k0.
      destruct (String.eqb k' k) eqn:E1; [|reflexivity].
      apply String.eqb_eq in E1. subst k'.
      rewrite String.eqb_refl in E. discriminate.
Qed.

Lemma dict_set_fresh {V : Type} (d : dict V) (k : string) (v : V) :
  dict_get d k = None -> dict_set d k v = (d ++ [(k, v)])%list.
Proof.
  induction d as [| [k0 v0] d IH]; simpl; [reflexivity|].
  destruct (String.eqb k k0); [discriminate|].
  intro H. rewrite IH by exact H. reflexivity.
Qed.

Lemma dict_get_app_fresh {V : Type} (d : dict V) (k k' : string) (v : V) :
  k' <> k -> dict_get d k' = None ->
  dict_get (d ++ [(k, v)])%list k' = None.
Proof.
  intros Hne. induction d as [| [k0 v0] d IH]; simpl.
  - intros _. apply String.eqb_neq in Hne. rewrite Hne. reflexivity.
  - destruct (String.eqb k' k0); [discriminate | exact IH].
Qed.

(** Filling a dict from a list without repeats lays the entries out in the
    order of the list. *)
Lemma fold_dict_set_nodup {V : Type} (f : string -> V) (keys : list string)
    (acc : dict V) :
  NoDup keys ->
  (forall k, In k keys -> dict_get acc k = None) ->
  fold_left (fun d k => dict_set d k (f k)) keys acc
  = (acc ++ map (fun k => (k, f k)) keys)%list.
Proof.
  revert acc. induction keys as [| k keys IH]; intros acc Hnd Hfresh; simpl.
  - rewrite app_nil_r. reflexivity.
  - inversion Hnd as [| ? ? Hnotin Hnd']; subst.
    rewrite dict_set_fresh by (apply Hfresh; left; reflexivity).
    rewrite IH; [rewrite <- app_assoc; reflexivity | assumption |].
    intros k' Hk'. apply dict_get_app_fresh.
    + intro; subst. contradiction.
    + apply Hfresh. right. exact Hk'.
Qed.

(** Whatever the repeats, every listed key ends up with its value. *)
Lemma fold_dict_set_get {V : Type} (f : string -> V) (keys : list string)
    (acc : dict V) (k : string) :
  dict_get (fold_left (fun d k => dict_set d k (f k)) keys acc) k
  = if str_in k keys then Some (f k) else dict_get acc k.
Proof.
  revert acc. induction keys as [| k0 keys IH]; intro acc; simpl.
  - reflexivity.
  - rewrite IH, dict_get_set.
    destruct (String.eqb k k0) eqn:E; simpl.
    + apply String.eqb_eq in E. subst k0.
      destruct (str_in k keys); reflexivity.
    + reflexivity.
Qed.

End PyFacts.

(** * Facts about the planner *)

Module PlannerFacts.
Import Py StudyPlanner Observed PyFacts.

#[local] Arguments Qred : simpl never.
#[local] Arguments Qplus : simpl never.
#[local] Arguments Qminus : simpl never.
#[local] Arguments Qmult : simpl never.
#[local] Arguments Qdiv : simpl never.
#[local] Arguments Qfloor : simpl never.
#[local] Arguments Qceiling : simpl never.
#[local] Arguments inject_Z : simpl never.
#[local] Arguments Qle_bool : simpl never.
#[local] Arguments Qeq_bool : simpl never.

(** The pace table holds the figures of the specification. *)
Lemma pace_table (pace : string) (info : PaceInfo) :
  dict_item self_learning_pace pace = Ok info ->
  exists base ratio,
    Spec.base_hours pace = Some base
    /\ Spec.revision_ratio pace = Some ratio
    /\ num_Q (hours_per_topic info) == base
    /\ num_Q (revision_ratio info) == ratio.
Proof.
  unfold dict_item, self_learning_pace, Spec.base_hours, Spec.revision_ratio.
  simpl dict_get.
  destruct (String.eqb pace "slow");
    [|destruct (String.eqb pace "moderate");
      [|destruct (String.eqb pace "fast"); [|discriminate]]];
    intro H; inversion H; subst; simpl;
    eexists; eexists; repeat split; reflexivity.
Qed.

Lemma pattern_table (pattern : string) (info : SessionPattern) :
  dict_item self_session_patterns pattern = Ok info ->
  Spec.session_minutes pattern = Some (num_Q (session_length info))
  /\ Spec.break_minutes pattern = Some (num_Q (break_length info)).
Proof.
  unfold dict_item, self_session_patterns, Spec.session_minutes,
    Spec.break_minutes.
  simpl dict_get.
  destruct (String.eqb pattern "pomodoro");
    [|destruct (String.eqb pattern "deep_work");
      [|destruct (String.eqb pattern "short_burst"); [|discriminate]]];
    intro H; inversion H; subst; simpl; split; reflexivity.
Qed.

(** What [_calculate_topic_times] stores for a topic is the allocation of
    the specification. *)
Lemma topic_hours_Q (base : num) (weak : list string)
    (levels : option (dict string)) (t : string) :
  num_Q (topic_hours base weak levels t)
  == Spec.allocation (num_Q base) (str_in t weak) (Spec.difficulty_of levels t).
Proof.
  unfold topic_hours, Spec.allocation, Spec.difficulty_of,
    Spec.weak_multiplier, Spec.difficulty_multiplier.
  rewrite round1_Q. apply Qround1_comp.
  destruct (str_in t weak);
    (destruct levels as [levels|];
     [destruct (dict_get levels t) as [tag|];
      [destruct (String.eqb tag "hard");
       [|destruct (String.eqb tag "easy")]|]|]);
    rewrite ?num_Q_mul; simpl num_Q; ring.
Qed.

Lemma calculate_topic_times_get (topics : list string) (pace : string)
    (weak : list string) (levels : option (dict string)) (info : PaceInfo)
    (times : dict num) (t : string) :
  dict_item self_learning_pace pace = Ok info ->
  _calculate_topic_times topics pace weak levels = Ok times ->
  dict_get times t
  = if str_in t topics
    then Some (topic_hours (hours_per_topic info) weak levels t)
    else None.
Proof.
  intros Hinfo. unfold _calculate_topic_times. rewrite Hinfo. simpl.
  intro H. inversion H; subst.
  rewrite (fold_dict_set_get (topic_hours (hours_per_topic info) weak levels)).
  reflexivity.
Qed.

Lemma calculate_topic_times_nodup (topics : list string) (pace : string)
    (weak : list string) (levels : option (dict string)) (info : PaceInfo)
    (times : dict num) :
  NoDup topics ->
  dict_item self_learning_pace pace = Ok info ->
  _calculate_topic_times topics pace weak levels = Ok times ->
  dict_values times
  = map (topic_hours (hours_per_topic info) weak levels) topics.
Proof.
  intros Hnd Hinfo. unfold _calculate_topic_times. rewrite Hinfo. simpl.
  intro H. inversion H; subst.
  rewrite (fold_dict_set_nodup (topic_hours (hours_per_topic info) weak levels))
    by (assumption || reflexivity).
  unfold dict_values. simpl. rewrite map_map. reflexivity.
Qed.

Lemma dict_set_entries {V : Type} (d : dict V) (k : string) (v : V)
    (entry : string * V) :
  In entry (dict_set d k v) -> In entry d \/ entry = (k, v).
Proof.
  induction d as [| [k0 v0] d IH]; simpl.
  - intros [E | []]. right. symmetry. exact E.
  - destruct (String.eqb k k0) eqn:Ek; simpl.
    + apply String.eqb_eq in Ek. subst k0.
      intros [E | H]; [right; symmetry; exact E | left; right; exact H].
    + intros [E | H]; [left; left; exact E|].
      destruct (IH H) as [Hin | E]; [left; right; exact Hin | right; exact E].
Qed.

Lemma fold_dict_set_entries {V : Type} (f : string -> V) (keys : list string)
    (acc : dict V) (entry : string * V) :
  In entry (fold_left (fun d k => dict_set d k (f k)) keys acc) ->
  In entry acc \/ exists k, entry = (k, f k).
Proof.
  revert acc. induction keys as [| k keys IH]; intros acc; simpl.
  - intro H. left. exact H.
  - intro H. destruct (IH _ H) as [Hin | Hk]; [|right; exact Hk].
    destruct (dict_set_entries _ _ _ _ Hin) as [Hacc | E];
      [left; exact Hacc | right; exists k; exact E].
Qed.

Lemma topic_hours_nonneg (base : num) (weak : list string)
    (levels : option (dict string)) (t : string) :
  0 <= num_Q base -> 0 <= num_Q (topic_hours base weak levels t).
Proof.
  intro Hbase. rewrite topic_hours_Q. unfold Spec.allocation.
  apply Qround1_nonneg.
  assert (0 <= Spec.weak_multiplier (str_in t weak)).
  { destruct (str_in t weak); discriminate. }
  assert (0 <= Spec.difficulty_multiplier (Spec.difficulty_of levels t)).
  { unfold Spec.difficulty_multiplier.
    destruct (Spec.difficulty_of levels t) as [tag|]; [|discriminate].
    destruct (String.eqb tag "hard"); [discriminate|].
    destruct (String.eqb tag "easy"); discriminate. }
  apply Qmult_le_0_compat; [apply Qmult_le_0_compat|]; assumption.
Qed.

Lemma needed_hours_nonneg (topics : list string) (pace : string)
    (weak : list string) (levels : option (dict string)) (info : PaceInfo)
    (times : dict num) :
  dict_item self_learning_pace pace = Ok info ->
  _calculate_topic_times topics pace weak levels = Ok times ->
  0 <= num_Q (needed_hours times info).
Proof.
  intros Hinfo Htimes.
  destruct (pace_table _ Hinfo) as (base & ratio & Hb & Hr & Eb & Er).
  assert (Hbase : 0 <= num_Q (hours_per_topic info)).
  { rewrite Eb. unfold Spec.base_hours in Hb.
    destruct (String.eqb pace "slow");
      [|destruct (String.eqb pace "moderate");
        [|destruct (String.eqb pace "fast"); [|discriminate]]];
      injection Hb as <-; discriminate. }
  assert (Hratio : 0 <= num_Q (revision_ratio info)).
  { rewrite Er. unfold Spec.revision_ratio in Hr.
    destruct (String.eqb pace "slow");
      [|destruct (String.eqb pace "moderate");
        [|destruct (String.eqb pace "fast"); [|discriminate]]];
      injection Hr as <-; discriminate. }
  unfold needed_hours. rewrite num_Q_mul, num_Q_add, py_sum_Q.
  apply Qmult_le_0_compat; [|change (num_Q (PyInt 1)) with 1; lra].
  apply Qsum_nonneg. intros q Hq.
  apply in_map_iff in Hq. destruct Hq as (hours & <- & Hin).
  unfold dict_values in Hin. apply in_map_iff in Hin.
  destruct Hin as (entry & <- & Hentry).
  unfold _calculate_topic_times in Htimes. rewrite Hinfo in Htimes.
  cbn [bind] in Htimes. injection Htimes as <-.
  apply (fold_dict_set_entries
           (topic_hours (hours_per_topic info) weak levels)) in Hentry.
  destruct Hentry as [[] | (k & ->)]. simpl.
  apply topic_hours_nonneg, Hbase.
Qed.

Section Generate.

Variable float_repr : Q -> string.
Variable date_after : Z -> string.

(** The two branches of [generate_personalized_plan]. *)
Lemma generate_cases (profile : StudentProfile) (subject_name : string)
    (topics : list string) (deadline_days : Z)
    (levels : option (dict string)) (plan : Plan) :
  generate_personalized_plan float_repr date_after profile subject_name topics
    deadline_days levels = Ok plan ->
  let pace := get_default (learning_pace profile) "moderate" in
  let weak := get_default (weak_areas profile) [] in
  let daily_hours := get_default (daily_available_hours profile) (PyInt 3) in
  exists times info,
    _calculate_topic_times topics pace weak levels = Ok times
    /\ dict_item self_learning_pace pace = Ok info
    /\ ((num_gt (needed_hours times info)
                (available_hours deadline_days profile) = true
         /\ _generate_infeasible_response float_repr
              (needed_hours times info) (available_hours deadline_days profile)
              deadline_days daily_hours = Ok plan)
        \/ (num_gt (needed_hours times info)
                   (available_hours deadline_days profile) = false
            /\ exists schedule,
                _create_daily_schedule date_after topics times deadline_days
                  daily_hours
                  (get_default (preferred_times profile) ["evening"])
                  (get_default (study_pattern profile) "pomodoro")
                  weak subject_name = Ok schedule
                /\ plan
                   = {| feasible := Some true;
                        subject := Some subject_name;
                        student_profile := Some profile;
                        total_topics := Some (len topics);
                        deadline := Some (date_after deadline_days);
                        total_hours_needed :=
                          Some (round1 (needed_hours times info));
                        total_hours_available :=
                          Some (available_hours deadline_days profile);
                        buffer_hours :=
                          Some (round1
                                  (num_sub
                                     (available_hours deadline_days profile)
                                     (needed_hours times info)));
                        daily_plan := Some schedule;
                        study_tips :=
                          Some (_generate_personalized_tips profile topics);
                        message := None;
                        hours_short := None;
                        suggestions := None |})).
Proof.
  intros H pace weak daily_hours.
  unfold generate_personalized_plan in H.
  fold pace weak daily_hours in H.
  destruct (_calculate_topic_times topics pace weak levels)
    as [times | e] eqn:Htimes; [|discriminate].
  cbn [bind] in H.
  destruct (dict_item self_learning_pace pace) as [info | e] eqn:Hinfo;
    [|discriminate].
  cbn [bind] in H.
  exists times, info. split; [reflexivity|]. split; [reflexivity|].
  fold (needed_hours times info) in H.
  change (num_mul (PyInt deadline_days) daily_hours)
    with (available_hours deadline_days profile) in H.
  destruct (num_gt (needed_hours times info)
                   (available_hours deadline_days profile)) eqn:Hgt.
  - left. split; [reflexivity | exact H].
  - right. split; [reflexivity|].
    match type of H with
    | (bind ?c _) = _ => destruct c as [schedule | e] eqn:Hs; [|discriminate]
    end.
    cbn [bind] in H. inversion H; subst. exists schedule. split; reflexivity.
Qed.

Lemma infeasible_response_flag (needed available : num) (days : Z)
    (daily_hours : num) (plan : Plan) :
  _generate_infeasible_response float_repr needed available days daily_hours
  = Ok plan ->
  feasible plan = Some false.
Proof.
  unfold _generate_infeasible_response.
  destruct (num_truediv needed (PyInt days)); [|discriminate]. simpl.
  destruct (num_truediv needed daily_hours); [|discriminate]. simpl.
  intro H. inversion H; subst. reflexivity.
Qed.

End Generate.

(** ** The learning-phase loop *)

Lemma hours_of_minutes_ok (minutes : num) :
  hours_of_minutes minutes = Ok (PyFloat (Qred (num_Q minutes / 60))).
Proof. reflexivity. Qed.

Lemma Qtruncate_comp (p q : Q) : p == q -> Qtruncate p = Qtruncate q.
Proof.
  intro H. unfold Qtruncate, Qceiling.
  rewrite (Qleb_comp 0 0 (Qeq_refl 0) p q H), (Qfloor_comp _ _ H).
  assert (E : - p == - q) by (rewrite H; reflexivity).
  rewrite (Qfloor_comp _ _ E). reflexivity.
Qed.

Lemma Qtruncate_Z (z : Z) : Qtruncate (inject_Z z) = z.
Proof.
  unfold Qtruncate. rewrite Qfloor_Z, Qceiling_Z.
  destruct (Qle_bool 0 (inject_Z z)); reflexivity.
Qed.

Lemma int_of_Q (x : num) : int_of x = Qtruncate (num_Q x).
Proof.
  destruct x as [z | q]; simpl; [symmetry; apply Qtruncate_Z | reflexivity].
Qed.

Lemma Qceiling_step (x y : Q) :
  x + 1 <= y -> (Qceiling x + 1 <= Qceiling y)%Z.
Proof.
  intro H.
  pose proof (Qceiling_lt x) as Hx. pose proof (Qle_ceiling y) as Hy.
  unfold Z.sub in Hx. rewrite inject_Z_plus, inject_Z_opp in Hx.
  change (inject_Z 1) with 1 in Hx.
  assert (Hlt : inject_Z (Qceiling x) < inject_Z (Qceiling y)) by lra.
  rewrite <- Zlt_Qlt in Hlt. lia.
Qed.

Lemma Qceiling_pos (y : Q) : 0 < y -> (0 < Qceiling y)%Z.
Proof.
  intro H. pose proof (Qle_ceiling y) as Hy.
  assert (Hlt : inject_Z 0 < inject_Z (Qceiling y)).
  { change (inject_Z 0) with 0. lra. }
  rewrite <- Zlt_Qlt in Hlt. exact Hlt.
Qed.

Section LoopFacts.

Variable session_info : SessionPattern.
Variable topic_times : dict num.
Variable weak : list string.

Lemma loop_body_front (st : LoopState) (t : string) (rest : list string)
    (allotted logged : num) :
  topics_queue st = t :: rest ->
  dict_get topic_times t = Some allotted ->
  dict_get (topic_progress st) t = Some logged ->
  let session_hours := front_session_hours session_info st allotted logged in
  loop_body session_info topic_times weak st
  = Ok (if num_gt session_hours (PyFloat 0.1) then
          {| hours_remaining :=
               hours_after_session session_info st session_hours;
             topics_queue :=
               if num_ge (num_add logged session_hours) allotted
               then rest else t :: rest;
             topic_progress :=
               dict_set (topic_progress st) t (num_add logged session_hours);
             day_schedule :=
               add_session (day_schedule st)
                 (emitted_session weak t session_hours) session_hours |}
        else pop_topic st).
Proof.
  intros Hq Ht Hp session_hours.
  unfold loop_body. rewrite Hq. unfold dict_item. rewrite Ht, Hp.
  cbn [bind]. rewrite hours_of_minutes_ok. cbn [bind].
  fold (front_session_hours session_info st allotted logged).
  fold session_hours.
  destruct (num_gt session_hours (PyFloat 0.1)); [|reflexivity].
  unfold hours_after_session.
  destruct (num_gt (num_sub (hours_remaining st) session_hours) (PyInt 0));
    [rewrite hours_of_minutes_ok|]; cbn [bind]; reflexivity.
Qed.

Lemma front_session_hours_Q (st : LoopState) (allotted logged : num) :
  num_Q (front_session_hours session_info st allotted logged)
  == Qmin (Qmin (num_Q (session_length session_info) / 60)
                (num_Q (hours_remaining st)))
          (num_Q allotted - num_Q logged).
Proof.
  unfold front_session_hours. rewrite py_min3_Q. simpl num_Q.
  rewrite Qred_correct, num_Q_sub. reflexivity.
Qed.

Lemma front_session_hours_le (st : LoopState) (allotted logged : num) :
  num_Q (front_session_hours session_info st allotted logged)
  <= num_Q (hours_remaining st).
Proof.
  rewrite front_session_hours_Q.
  eapply Qle_trans; [apply Q.le_min_l | apply Q.le_min_r].
Qed.

Hypothesis break_nonneg : 0 <= num_Q (break_length session_info).

Lemma hours_after_session_le (st : LoopState) (session_hours : num) :
  num_Q (hours_after_session session_info st session_hours)
  <= num_Q (hours_remaining st) - num_Q session_hours.
Proof.
  unfold hours_after_session.
  destruct (num_gt (num_sub (hours_remaining st) session_hours) (PyInt 0)).
  - rewrite !num_Q_sub. simpl num_Q. rewrite Qred_correct.
    assert (0 <= num_Q (break_length session_info) / 60).
    { apply Qle_shift_div_l; [reflexivity | lra]. }
    lra.
  - rewrite num_Q_sub. lra.
Qed.

Lemma loop_body_ok (st : LoopState) :
  queue_known topic_times st -> loop_guard st = true ->
  exists st',
    loop_body session_info topic_times weak st = Ok st'
    /\ queue_known topic_times st'.
Proof.
  intros Hknown Hguard.
  unfold loop_guard in Hguard. apply andb_true_iff in Hguard.
  destruct Hguard as [_ Hq].
  destruct (topics_queue st) as [| t rest] eqn:Eq; [discriminate|].
  destruct (Hknown t) as [Ht Hp]; [rewrite Eq; left; reflexivity|].
  destruct (dict_get topic_times t) as [allotted|] eqn:Et; [|congruence].
  destruct (dict_get (topic_progress st) t) as [logged|] eqn:Ep; [|congruence].
  rewrite (loop_body_front st Eq Et Ep).
  eexists. split; [reflexivity|].
  intros t' Ht'.
  assert (Hin : In t' (topics_queue st)).
  { rewrite Eq.
    destruct (num_gt (front_session_hours session_info st allotted logged)
                (PyFloat 0.1));
      simpl in Ht'.
    - destruct (num_ge _ allotted); [right|]; assumption.
    - rewrite Eq in Ht'. right. exact Ht'. }
  destruct (Hknown t' Hin) as [Ht1 Hp1]. split; [exact Ht1|].
  destruct (num_gt (front_session_hours session_info st allotted logged)
              (PyFloat 0.1));
    simpl; [|exact Hp1].
  rewrite dict_get_set. destruct (String.eqb t' t); [discriminate | exact Hp1].
Qed.

(** An iteration either pops the front topic, leaving the hours as they
    are, or emits a session and takes more than 0.1 hour off the hours
    that remain. *)
Lemma loop_body_progress (st st' : LoopState) :
  loop_guard st = true -> loop_body session_info topic_times weak st = Ok st' ->
  (st' = pop_topic st)
  \/ (num_Q (hours_remaining st') < num_Q (hours_remaining st) - 0.1
      /\ (topics_queue st' = topics_queue st
          \/ topics_queue st' = tl (topics_queue st))
      /\ exists session,
           sessions (day_schedule st')
           = (sessions (day_schedule st) ++ [session])%list).
Proof.
  intros Hguard Hbody.
  unfold loop_guard in Hguard. apply andb_true_iff in Hguard.
  destruct Hguard as [_ Hq].
  destruct (topics_queue st) as [| t rest] eqn:Eq; [discriminate|].
  destruct (dict_get topic_times t) as [allotted|] eqn:Et;
    [|unfold loop_body, dict_item in Hbody; rewrite Eq, Et in Hbody;
      discriminate].
  destruct (dict_get (topic_progress st) t) as [logged|] eqn:Ep;
    [|unfold loop_body, dict_item in Hbody; rewrite Eq, Et, Ep in Hbody;
      discriminate].
  rewrite (loop_body_front st Eq Et Ep) in Hbody.
  destruct (num_gt (front_session_hours session_info st allotted logged)
              (PyFloat 0.1))
    eqn:Hgt; inversion Hbody; subst st'; [right | left; reflexivity].
  apply num_gt_true in Hgt. simpl num_Q in Hgt.
  cbn [hours_remaining topics_queue day_schedule].
  split; [|split].
  - pose proof (hours_after_session_le st
                  (front_session_hours session_info st allotted logged)). lra.
  - destruct (num_ge _ allotted); [right | left]; reflexivity.
  - eexists. reflexivity.
Qed.

Lemma loop_body_measure (st st' : LoopState) :
  loop_guard st = true -> loop_body session_info topic_times weak st = Ok st' ->
  (loop_measure st' < loop_measure st)%nat.
Proof.
  intros Hguard Hbody.
  pose proof Hguard as Hg. unfold loop_guard in Hg.
  apply andb_true_iff in Hg. destruct Hg as [Hpos Hq].
  apply num_gt_true in Hpos. simpl num_Q in Hpos.
  change (inject_Z 0) with 0 in Hpos.
  destruct (loop_body_progress st Hguard Hbody)
    as [-> | (Hless & Hqueue & _)]; unfold loop_measure.
  - cbn [pop_topic topics_queue hours_remaining].
    destruct (topics_queue st); [discriminate | simpl; lia].
  - assert (Hstep : (Qceiling (10 * num_Q (hours_remaining st')) + 1
                     <= Qceiling (10 * num_Q (hours_remaining st)))%Z).
    { apply Qceiling_step. lra. }
    assert (Hc : (0 < Qceiling (10 * num_Q (hours_remaining st)))%Z).
    { apply Qceiling_pos. lra. }
    assert (Hlen : (List.length (topics_queue st')
                    <= List.length (topics_queue st))%nat).
    { destruct Hqueue as [-> | ->]; [lia|].
      destruct (topics_queue st); simpl; lia. }
    lia.
Qed.

(** With fuel for [loop_measure] iterations the loop runs to its end. *)
Lemma while_loop_finishes (fuel : nat) (st : LoopState) :
  (loop_measure st <= fuel)%nat -> queue_known topic_times st ->
  exists final,
    while_loop session_info topic_times weak fuel st = Ok final
    /\ loop_guard final = false
    /\ queue_known topic_times final.
Proof.
  revert st. induction fuel as [| fuel IH]; intros st Hfuel Hknown.
  - exists st. simpl.
    destruct (loop_guard st) eqn:Hguard; [|auto].
    exfalso. unfold loop_guard in Hguard. apply andb_true_iff in Hguard.
    destruct Hguard as [_ Hq]. unfold loop_measure in Hfuel.
    destruct (topics_queue st); [discriminate | simpl in Hfuel; lia].
  - simpl. destruct (loop_guard st) eqn:Hguard; [|exists st; auto].
    destruct (loop_body_ok Hknown Hguard) as (st' & Hbody & Hknown').
    rewrite Hbody. cbn [bind]. apply IH; [|exact Hknown'].
    pose proof (loop_body_measure st Hguard Hbody). lia.
Qed.

(** Whatever the state, the fuel of [loop_measure] is never used up. *)
Lemma while_loop_not_diverged (fuel : nat) (st : LoopState) :
  (loop_measure st <= fuel)%nat ->
  while_loop session_info topic_times weak fuel st <> Raise Diverged.
Proof.
  revert st. induction fuel as [| fuel IH]; intros st Hfuel; simpl.
  - destruct (loop_guard st) eqn:Hguard; [|discriminate].
    exfalso. unfold loop_guard in Hguard. apply andb_true_iff in Hguard.
    destruct Hguard as [_ Hq]. unfold loop_measure in Hfuel.
    destruct (topics_queue st); [discriminate | simpl in Hfuel; lia].
  - destruct (loop_guard st) eqn:Hguard; [|discriminate].
    destruct (loop_body session_info topic_times weak st) as [st' | e]
      eqn:Hbody; cbn [bind].
    + apply IH. pose proof (loop_body_measure st Hguard Hbody). lia.
    + intro Hd. inversion Hd; subst e. clear Hd.
      unfold loop_body, dict_item in Hbody.
      destruct (topics_queue st) as [| t rest]; [discriminate|].
      destruct (dict_get topic_times t); [|discriminate].
      destruct (dict_get (topic_progress st) t); [|discriminate].
      cbn [bind] in Hbody. rewrite hours_of_minutes_ok in Hbody.
      cbn [bind] in Hbody.
      destruct (num_gt _ (PyFloat 0.1)); [|discriminate].
      destruct (num_gt _ (PyInt 0)); [rewrite hours_of_minutes_ok in Hbody|];
        cbn [bind] in Hbody; discriminate.
Qed.

End LoopFacts.

(** ** The day-by-day schedule *)

Lemma range_length (n : Z) : List.length (range n) = Z.to_nat n.
Proof. unfold range. rewrite length_map, length_seq. reflexivity. Qed.

Lemma range_nth (n : Z) (k : nat) (day : Z) :
  nth_error (range n) k = Some day -> day = Z.of_nat k /\ (Z.of_nat k < n)%Z.
Proof.
  intro H.
  assert (Hk : (k < Z.to_nat n)%nat).
  { rewrite <- range_length. apply nth_error_Some. congruence. }
  unfold range in H. rewrite nth_error_map, nth_error_seq in H.
  apply Nat.ltb_lt in Hk. rewrite Hk in H. simpl in H.
  apply Nat.ltb_lt in Hk. inversion H. split; [reflexivity | lia].
Qed.

Lemma add_session_fixed (d : DaySchedule) (session : Session) (h : num) :
  phase (add_session d session h) = phase d
  /\ preferred_time (add_session d session h) = preferred_time d
  /\ day (add_session d session h) = day d
  /\ date (add_session d session h) = date d.
Proof. repeat split. Qed.

Section LoopSchedule.

Variable session_info : SessionPattern.
Variable topic_times : dict num.
Variable weak : list string.

(** The loop leaves the head of the day's entry as it found it. *)
Lemma loop_body_head (st st' : LoopState) :
  loop_body session_info topic_times weak st = Ok st' ->
  phase (day_schedule st') = phase (day_schedule st)
  /\ preferred_time (day_schedule st') = preferred_time (day_schedule st)
  /\ day (day_schedule st') = day (day_schedule st)
  /\ date (day_schedule st') = date (day_schedule st).
Proof.
  unfold loop_body, dict_item.
  destruct (topics_queue st) as [| t rest]; [discriminate|].
  destruct (dict_get topic_times t); [|discriminate].
  destruct (dict_get (topic_progress st) t); [|discriminate].
  cbn [bind]. rewrite hours_of_minutes_ok. cbn [bind].
  destruct (num_gt _ (PyFloat 0.1)).
  - destruct (num_gt _ (PyInt 0)); [rewrite hours_of_minutes_ok|];
      cbn [bind]; intro H; inversion H; subst; repeat split.
  - intro H. inversion H; subst. repeat split.
Qed.

Lemma while_loop_head (fuel : nat) (st final : LoopState) :
  while_loop session_info topic_times weak fuel st = Ok final ->
  phase (day_schedule final) = phase (day_schedule st)
  /\ preferred_time (day_schedule final) = preferred_time (day_schedule st)
  /\ day (day_schedule final) = day (day_schedule st)
  /\ date (day_schedule final) = date (day_schedule st).
Proof.
  revert st. induction fuel as [| fuel IH]; intros st; simpl.
  - destruct (loop_guard st); [discriminate|].
    intro H. inversion H; subst. repeat split.
  - destruct (loop_guard st).
    + destruct (loop_body session_info topic_times weak st) as [st' | e] eqn:Hb;
        cbn [bind]; [|discriminate].
      intro H. apply IH in H. apply loop_body_head in Hb.
      destruct H as (-> & -> & -> & ->). exact Hb.
    + intro H. inversion H; subst. repeat split.
Qed.

End LoopSchedule.

Section Schedule.

Variable date_after : Z -> string.

Lemma study_phase_days (session_info : SessionPattern) (topic_times : dict num)
    (daily_hours : num) (times_of_day weak : list string) (days : list Z)
    (c c' : Carry) :
  for_each (study_day date_after session_info topic_times daily_hours
              times_of_day weak) days c = Ok c' ->
  exists learned,
    days_done c' = (days_done c ++ learned)%list
    /\ Forall2 (learning_day_of times_of_day) days learned.
Proof.
  revert c. induction days as [| d days IH]; intros c; simpl.
  - intro H. inversion H; subst. exists []. rewrite app_nil_r.
    split; [reflexivity | constructor].
  - unfold study_day at 1.
    destruct (cyclic_item times_of_day d) as [slot | e] eqn:Hslot;
      cbn [bind]; [|discriminate].
    match goal with
    | |- context [while_loop ?si ?tt ?w ?f ?s] =>
        destruct (while_loop si tt w f s) as [final | e] eqn:Hloop
    end; cbn [bind]; [|discriminate].
    intro H. apply IH in H. destruct H as (learned & Hdone & Hall).
    cbn [days_done] in Hdone.
    exists (day_schedule final :: learned). split.
    + rewrite Hdone, <- app_assoc. reflexivity.
    + constructor; [|exact Hall].
      apply while_loop_head in Hloop. cbn [day_schedule] in Hloop.
      destruct Hloop as (Hphase & Hslot' & _).
      cbn [phase preferred_time] in Hphase, Hslot'.
      unfold learning_day_of. rewrite Hphase, Hslot'. split; [reflexivity|].
      exact Hslot.
Qed.

Lemma revision_phase_days (topics weak : list string) (daily_hours : num)
    (times_of_day : list string) (study_days revision_days : Z)
    (days : list Z) (c c' : Carry) :
  for_each (revision_day date_after topics weak daily_hours times_of_day
              study_days revision_days) days c = Ok c' ->
  exists revised,
    days_done c' = (days_done c ++ revised)%list
    /\ Forall2 (revision_day_of topics weak daily_hours times_of_day
                  revision_days) days revised.
Proof.
  revert c. induction days as [| d days IH]; intros c; simpl.
  - intro H. inversion H; subst. exists []. rewrite app_nil_r.
    split; [reflexivity | constructor].
  - unfold revision_day at 1.
    destruct (cyclic_item times_of_day d) as [slot | e] eqn:Hslot;
      cbn [bind]; [|discriminate].
    destruct (_generate_revision_sessions topics weak daily_hours
                (revision_phase_name revision_days d))
      as [revision_sessions | e] eqn:Hsessions; cbn [bind]; [|discriminate].
    intro H. apply IH in H. destruct H as (revised & Hdone & Hall).
    cbn [days_done] in Hdone.
    eexists (_ :: revised). split.
    + rewrite Hdone, <- app_assoc. reflexivity.
    + constructor; [|exact Hall].
      unfold revision_day_of. cbn [phase total_hours preferred_time sessions].
      repeat split; assumption.
Qed.

(** The schedule is the learning days followed by the revision days, one
    entry for every pass of the two loops. *)
Lemma create_daily_schedule_days (topics : list string) (topic_times : dict num)
    (deadline_days : Z) (daily_hours : num) (times_of_day : list string)
    (pattern : string) (weak : list string) (subject_name : string)
    (schedule : list DaySchedule) :
  _create_daily_schedule date_after topics topic_times deadline_days
    daily_hours times_of_day pattern weak subject_name = Ok schedule ->
  let revision_days := revision_days_of deadline_days in
  exists learned revised,
    schedule = (learned ++ revised)%list
    /\ Forall2 (learning_day_of times_of_day)
               (range (deadline_days - revision_days)) learned
    /\ Forall2 (revision_day_of topics weak daily_hours times_of_day
                  revision_days)
               (range revision_days) revised.
Proof.
  unfold _create_daily_schedule.
  destruct (dict_item self_session_patterns pattern) as [session_info | e];
    cbn [bind]; [|discriminate].
  match goal with
  | |- context [for_each (study_day ?x1 ?x2 ?x3 ?x4 ?x5 ?x6) ?days ?s] =>
      destruct (for_each (study_day x1 x2 x3 x4 x5 x6) days s)
        as [after_learning | e] eqn:Hlearn
  end; cbn [bind]; [|discriminate].
  match goal with
  | |- context [for_each (revision_day ?x1 ?x2 ?x3 ?x4 ?x5 ?x6 ?x7) ?days ?s] =>
      destruct (for_each (revision_day x1 x2 x3 x4 x5 x6 x7) days s)
        as [after_revision | e] eqn:Hrevise
  end; cbn [bind]; [|discriminate].
  intro H. inversion H; subst. try intro revision_days.
  apply study_phase_days in Hlearn. destruct Hlearn as (learned & Hl & Hlall).
  apply revision_phase_days in Hrevise.
  destruct Hrevise as (revised & Hr & Hrall).
  exists learned, revised. cbn [days_done] in Hl.
  rewrite Hr, Hl. split; [reflexivity|]. split; assumption.
Qed.

End Schedule.

(** ** The revision phase *)

Lemma revision_days_of_spec (deadline_days : Z) :
  revision_days_of deadline_days = Spec.revision_days deadline_days.
Proof.
  unfold revision_days_of, Spec.revision_days. rewrite int_of_Q, max_2_truncate.
  f_equal. apply Qfloor_comp. rewrite num_Q_mul. simpl num_Q. ring.
Qed.

Lemma revision_days_at_least_two (deadline_days : Z) :
  (2 <= Spec.revision_days deadline_days)%Z.
Proof. unfold Spec.revision_days. lia. Qed.

Lemma revision_days_within_deadline (deadline_days : Z) :
  (2 <= deadline_days)%Z ->
  (Spec.revision_days deadline_days <= deadline_days)%Z.
Proof.
  intro H. unfold Spec.revision_days.
  assert (Hf : (Qfloor (0.2 * inject_Z deadline_days) <= deadline_days)%Z).
  { rewrite <- (Qfloor_Z deadline_days) at 2. apply Qfloor_resp_le.
    assert (0 <= inject_Z deadline_days).
    { change 0 with (inject_Z 0). rewrite <- Zle_Qle. lia. }
    lra. }
  lia.
Qed.

Lemma Forall2_nth_error_r {A B : Type} (R : A -> B -> Prop) (xs : list A)
    (ys : list B) (k : nat) (y : B) :
  Forall2 R xs ys -> nth_error ys k = Some y ->
  exists x, nth_error xs k = Some x /\ R x y.
Proof.
  intro H. revert k. induction H as [| x0 y0 xs ys Hxy _ IH]; intros k Hk.
  - destruct k; discriminate.
  - destruct k as [| k]; simpl in *.
    + inversion Hk; subst. exists x0. split; [reflexivity | exact Hxy].
    + apply IH, Hk.
Qed.

Lemma Forall2_length_eq {A B : Type} (R : A -> B -> Prop) (xs : list A)
    (ys : list B) :
  Forall2 R xs ys -> List.length ys = List.length xs.
Proof. induction 1; simpl; congruence. Qed.

Lemma final_review_sessions (topics weak : list string) (daily_hours : num) :
  _generate_revision_sessions topics weak daily_hours
    "Final Review & Mock Test"
  = Ok [ {| topic := "All Topics";
            duration_minutes := PyInt (Qtruncate (num_Q daily_hours * 30));
            activities := final_review_activities;
            is_weak_area := None |} ].
Proof.
  unfold _generate_revision_sessions. simpl String.eqb. cbv iota.
  rewrite int_of_Q.
  rewrite (@Qtruncate_comp (num_Q (num_mul daily_hours (PyInt 30)))
             (num_Q daily_hours * 30)) by apply num_Q_mul.
  reflexivity.
Qed.

Lemma intensive_revision_sessions (topics weak : list string)
    (daily_hours : num) (revision_sessions : list Session) :
  _generate_revision_sessions topics weak daily_hours "Intensive Revision"
  = Ok revision_sessions ->
  exists minutes,
    revision_sessions = map (intensive_session minutes) weak
    /\ num_Q minutes
       == inject_Z (Qfloor (num_Q daily_hours * 60
                            / inject_Z (Z.max (len weak) 1))).
Proof.
  unfold _generate_revision_sessions. simpl String.eqb. cbv iota.
  destruct (num_floordiv (num_mul daily_hours (PyInt 60))
              (PyInt (Z.max (len weak) 1))) as [minutes | e] eqn:Hdiv;
    cbn [bind]; [|discriminate].
  intro H. inversion H; subst. exists minutes. split; [reflexivity|].
  rewrite (num_floordiv_Q _ _ Hdiv). simpl num_Q.
  apply inject_Z_injective. apply Qfloor_comp.
  rewrite num_Q_mul. reflexivity.
Qed.

Lemma plain_revision_sessions (topics weak : list string) (daily_hours : num)
    (revision_sessions : list Session) :
  _generate_revision_sessions topics weak daily_hours "Revision"
  = Ok revision_sessions ->
  exists minutes,
    revision_sessions = map (plain_revision_session minutes) topics
    /\ num_Q minutes
       == inject_Z (Qfloor (num_Q daily_hours * 60 / inject_Z (len topics))).
Proof.
  unfold _generate_revision_sessions. simpl String.eqb. cbv iota.
  destruct (num_floordiv (num_mul daily_hours (PyInt 60)) (PyInt (len topics)))
    as [minutes | e] eqn:Hdiv; cbn [bind]; [|discriminate].
  intro H. inversion H; subst. exists minutes. split; [reflexivity|].
  rewrite (num_floordiv_Q _ _ Hdiv). simpl num_Q.
  apply inject_Z_injective. apply Qfloor_comp.
  rewrite num_Q_mul. reflexivity.
Qed.

Lemma revision_phase_name_cases (revision_days offset : Z) :
  (offset = revision_days - 1
   /\ revision_phase_name revision_days offset = "Final Review & Mock Test")%Z
  \/ (offset = revision_days - 2
      /\ revision_phase_name revision_days offset = "Intensive Revision")%Z
  \/ (offset <> revision_days - 1 /\ offset <> revision_days - 2
      /\ revision_phase_name revision_days offset = "Revision")%Z.
Proof.
  unfold revision_phase_name.
  destruct (Z.eqb_spec offset (revision_days - 1)) as [E1 | N1];
    [left; auto|].
  destruct (Z.eqb_spec offset (revision_days - 2)) as [E2 | N2];
    [right; left; auto | right; right; auto].
Qed.

(** ** The infeasible response and the summary *)

Section Response.

Variable float_repr : Q -> string.

Lemma infeasible_response_value (needed available : num) (days : Z)
    (daily_hours : num) :
  days <> 0%Z -> 0 < num_Q daily_hours -> 0 <= num_Q needed ->
  let new_daily_hours := PyFloat (Qred (num_Q needed / inject_Z days)) in
  let new_deadline := (Qfloor (num_Q needed / num_Q daily_hours) + 1)%Z in
  _generate_infeasible_response float_repr needed available days daily_hours
  = Ok {| feasible := Some false;
          subject := None;
          student_profile := None;
          total_topics := None;
          deadline := None;
          total_hours_needed := None;
          total_hours_available := None;
          buffer_hours := None;
          daily_plan := None;
          study_tips := None;
          message := Some (infeasible_message needed available);
          hours_short := Some (round1 (num_sub needed available));
          suggestions :=
            Some ((if num_le new_daily_hours (PyInt 12) then
                     [raise_hours_suggestion float_repr new_daily_hours
                        daily_hours]
                   else [])
                    ++ [extend_deadline_suggestion new_deadline days;
                        fast_pace_suggestion])%list |}.
Proof.
  intros Hdays Hhours Hneeded new_daily_hours new_deadline.
  unfold _generate_infeasible_response.
  rewrite num_truediv_ok.
  2:{ simpl num_Q. intro E. change 0 with (inject_Z 0) in E.
      apply (proj1 (inject_Z_injective _ _)) in E. contradiction. }
  cbn [bind]. rewrite num_truediv_ok.
  2:{ intro E. rewrite E in Hhours. discriminate. }
  cbn [bind].
  simpl num_Q. fold new_daily_hours.
  assert (E : (int_of (PyFloat (Qred (num_Q needed / num_Q daily_hours))) + 1)%Z
              = new_deadline).
  { unfold new_deadline. simpl int_of.
    rewrite (Qtruncate_comp (Qred_correct _)), Qtruncate_nonneg;
      [reflexivity|].
    apply Qle_shift_div_l; lra. }
  rewrite E.
  destruct (num_le new_daily_hours (PyInt 12)); reflexivity.
Qed.

End Response.

Section Summary.

Lemma reads_only_ret {A : Type} (a : A) : reads_only (ret a).
Proof. intro plan. reflexivity. Qed.

Lemma reads_only_plan_get {A : Type} (field : Plan -> option A) :
  reads_only (plan_get field).
Proof. intro plan. reflexivity. Qed.

Lemma reads_only_plan_item {A : Type} (key : string)
    (field : Plan -> option A) :
  reads_only (plan_item key field).
Proof. intro plan. reflexivity. Qed.

Lemma reads_only_and_then {A B : Type} (c : Reading A) (k : A -> Reading B) :
  reads_only c -> (forall a, reads_only (k a)) -> reads_only (and_then c k).
Proof.
  intros Hc Hk plan. unfold and_then.
  pose proof (Hc plan) as E. destruct (c plan) as [[a | e] plan'];
    simpl in E; subst plan'; [apply Hk | reflexivity].
Qed.

Lemma get_plan_summary_reads_only (float_repr : Q -> string) :
  reads_only (get_plan_summary float_repr).
Proof.
  unfold get_plan_summary.
  apply reads_only_and_then; [apply reads_only_plan_get|]. intro flag.
  destruct (negb (get_default flag false));
    repeat (apply reads_only_and_then; [apply reads_only_plan_item|]; intro);
    apply reads_only_ret.
Qed.

End Summary.

(** ** The planner returns *)

Lemma cyclic_item_ok {A : Type} (xs : list A) (i : Z) :
  xs <> [] -> exists x, cyclic_item xs i = Ok x.
Proof.
  intro Hne. unfold cyclic_item, len.
  assert (Hlen : (0 < Z.of_nat (List.length xs))%Z).
  { destruct xs; [contradiction | simpl; lia]. }
  destruct (Z.eqb_spec (Z.of_nat (List.length xs)) 0) as [E | _]; [lia|].
  destruct (nth_error xs (Z.to_nat (i mod Z.of_nat (List.length xs))))
    as [x |] eqn:Hx; [exists x; reflexivity|].
  apply nth_error_None in Hx.
  pose proof (Z.mod_pos_bound i _ Hlen). lia.
Qed.

Lemma cyclic_item_not_diverged {A : Type} (xs : list A) (i : Z) :
  cyclic_item xs i <> Raise Diverged.
Proof.
  unfold cyclic_item. destruct (len xs =? 0)%Z; [discriminate|].
  destruct (nth_error xs _); discriminate.
Qed.

Lemma revision_sessions_ok (topics weak : list string) (daily_hours : num)
    (phase_name : string) :
  topics <> [] ->
  exists revision_sessions,
    _generate_revision_sessions topics weak daily_hours phase_name
    = Ok revision_sessions.
Proof.
  intro Hne. unfold _generate_revision_sessions.
  destruct (String.eqb phase_name "Final Review & Mock Test");
    [eexists; reflexivity|].
  destruct (String.eqb phase_name "Intensive Revision").
  - destruct (@num_floordiv_ok (num_mul daily_hours (PyInt 60))
                (PyInt (Z.max (len weak) 1))) as (minutes & ->).
    + simpl num_Q. intro E. change 0 with (inject_Z 0) in E.
      apply (proj1 (inject_Z_injective _ _)) in E. lia.
    + eexists. reflexivity.
  - destruct (@num_floordiv_ok (num_mul daily_hours (PyInt 60))
                (PyInt (len topics))) as (minutes & ->).
    + simpl num_Q. intro E. change 0 with (inject_Z 0) in E.
      apply (proj1 (inject_Z_injective _ _)) in E.
      unfold len in E. destruct topics; [contradiction | simpl in E; lia].
    + eexists. reflexivity.
Qed.

Lemma revision_sessions_not_diverged (topics weak : list string)
    (daily_hours : num) (phase_name : string) :
  _generate_revision_sessions topics weak daily_hours phase_name
  <> Raise Diverged.
Proof.
  unfold _generate_revision_sessions, num_floordiv.
  destruct (String.eqb phase_name "Final Review & Mock Test");
    [discriminate|].
  destruct (String.eqb phase_name "Intensive Revision").
  - destruct (Qeq_bool _ 0); [discriminate|].
    destruct (num_mul daily_hours (PyInt 60)); discriminate.
  - destruct (Qeq_bool _ 0); [discriminate|].
    destruct (num_mul daily_hours (PyInt 60)); discriminate.
Qed.

Section Returns.

Variable float_repr : Q -> string.
Variable date_after : Z -> string.

Lemma study_phase_ok (session_info : SessionPattern) (topic_times : dict num)
    (daily_hours : num) (times_of_day weak : list string) (days : list Z)
    (c : Carry) :
  0 <= num_Q (break_length session_info) ->
  times_of_day <> [] ->
  carry_known topic_times c ->
  exists c',
    for_each (study_day date_after session_info topic_times daily_hours
                times_of_day weak) days c = Ok c'
    /\ carry_known topic_times c'.
Proof.
  intros Hbreak Hslots. revert c.
  induction days as [| d days IH]; intros c Hknown; simpl.
  - exists c. split; [reflexivity | exact Hknown].
  - unfold study_day at 1.
    destruct (cyclic_item_ok d Hslots) as (slot & ->). cbn [bind].
    match goal with
    | |- context [while_loop ?si ?tt ?w (loop_measure ?s0) ?s0] =>
        destruct (@while_loop_finishes si tt w Hbreak (loop_measure s0) s0
                    (Nat.le_refl _) Hknown)
          as (final & -> & _ & Hfinal)
    end.
    cbn [bind]. apply IH. exact Hfinal.
Qed.

Lemma study_phase_not_diverged (session_info : SessionPattern)
    (topic_times : dict num) (daily_hours : num)
    (times_of_day weak : list string) (days : list Z) (c : Carry) :
  0 <= num_Q (break_length session_info) ->
  for_each (study_day date_after session_info topic_times daily_hours
              times_of_day weak) days c <> Raise Diverged.
Proof.
  intros Hbreak. revert c.
  induction days as [| d days IH]; intros c; simpl; [discriminate|].
  unfold study_day at 1.
  pose proof (cyclic_item_not_diverged times_of_day d) as Hslot.
  destruct (cyclic_item times_of_day d) as [slot | e]; cbn [bind];
    [|congruence].
  match goal with
  | |- context [while_loop ?si ?tt ?w (loop_measure ?s0) ?s0] =>
      pose proof (@while_loop_not_diverged si tt w Hbreak (loop_measure s0) s0
                    (Nat.le_refl _)) as Hloop;
      destruct (while_loop si tt w (loop_measure s0) s0) as [final | e]
  end; cbn [bind]; [apply IH | congruence].
Qed.

Lemma revision_phase_ok (topics weak : list string) (daily_hours : num)
    (times_of_day : list string) (study_days revision_days : Z)
    (days : list Z) (c : Carry) :
  times_of_day <> [] -> topics <> [] ->
  exists c',
    for_each (revision_day date_after topics weak daily_hours times_of_day
                study_days revision_days) days c = Ok c'.
Proof.
  intros Hslots Htopics. revert c.
  induction days as [| d days IH]; intros c; simpl.
  - exists c. reflexivity.
  - unfold revision_day at 1.
    destruct (cyclic_item_ok d Hslots) as (slot & ->). cbn [bind].
    destruct (revision_sessions_ok weak daily_hours
                (revision_phase_name revision_days d) Htopics)
      as (revision_sessions & ->).
    cbn [bind]. apply IH.
Qed.

Lemma revision_phase_not_diverged (topics weak : list string)
    (daily_hours : num) (times_of_day : list string)
    (study_days revision_days : Z) (days : list Z) (c : Carry) :
  for_each (revision_day date_after topics weak daily_hours times_of_day
              study_days revision_days) days c <> Raise Diverged.
Proof.
  revert c. induction days as [| d days IH]; intros c; simpl; [discriminate|].
  unfold revision_day at 1.
  pose proof (cyclic_item_not_diverged times_of_day d) as Hslot.
  destruct (cyclic_item times_of_day d) as [slot | e]; cbn [bind];
    [|congruence].
  pose proof (revision_sessions_not_diverged topics weak daily_hours
                (revision_phase_name revision_days d)) as Hs.
  destruct (_generate_revision_sessions topics weak daily_hours
              (revision_phase_name revision_days d)) as [s | e];
    cbn [bind]; [apply IH | congruence].
Qed.

Lemma pattern_break_nonneg (pattern : string) (session_info : SessionPattern) :
  dict_item self_session_patterns pattern = Ok session_info ->
  0 <= num_Q (break_length session_info).
Proof.
  intro Hpattern. destruct (pattern_table _ Hpattern) as [_ Hpause].
  unfold Spec.break_minutes in Hpause.
  destruct (String.eqb pattern "pomodoro");
    [|destruct (String.eqb pattern "deep_work");
      [|destruct (String.eqb pattern "short_burst"); [|discriminate]]];
    injection Hpause as E; rewrite <- E; discriminate.
Qed.

Lemma create_daily_schedule_ok (topics : list string) (topic_times : dict num)
    (deadline_days : Z) (daily_hours : num) (times_of_day : list string)
    (pattern : string) (weak : list string) (subject_name : string) :
  dict_get self_session_patterns pattern <> None ->
  times_of_day <> [] -> topics <> [] ->
  (forall t, In t topics -> dict_get topic_times t <> None) ->
  exists schedule,
    _create_daily_schedule date_after topics topic_times deadline_days
      daily_hours times_of_day pattern weak subject_name = Ok schedule.
Proof.
  intros Hpattern Hslots Htopics Htimes. unfold _create_daily_schedule.
  destruct (dict_item self_session_patterns pattern) as [session_info | e]
    eqn:Hinfo.
  2:{ unfold dict_item in Hinfo.
      destruct (dict_get self_session_patterns pattern);
        [discriminate | contradiction]. }
  cbn [bind].
  match goal with
  | |- context [for_each (study_day _ _ _ _ _ _) ?days ?start] =>
      destruct (@study_phase_ok session_info topic_times daily_hours
                  times_of_day weak days start
                  (pattern_break_nonneg _ Hinfo) Hslots)
        as (learned & -> & _)
  end.
  { intros t Ht. cbn [queue progress] in *. split; [apply Htimes, Ht|].
    rewrite (fold_dict_set_get (fun _ => PyInt 0)).
    apply str_in_In in Ht. rewrite Ht. discriminate. }
  cbn [bind].
  match goal with
  | |- context [for_each (revision_day _ _ _ _ _ ?sd ?rd) ?days ?start] =>
      destruct (@revision_phase_ok topics weak daily_hours times_of_day sd rd
                  days start Hslots Htopics) as (revised & ->)
  end.
  cbn [bind]. eexists. reflexivity.
Qed.

Lemma create_daily_schedule_not_diverged (topics : list string)
    (topic_times : dict num) (deadline_days : Z) (daily_hours : num)
    (times_of_day : list string) (pattern : string) (weak : list string)
    (subject_name : string) :
  _create_daily_schedule date_after topics topic_times deadline_days
    daily_hours times_of_day pattern weak subject_name <> Raise Diverged.
Proof.
  unfold _create_daily_schedule.
  destruct (dict_item self_session_patterns pattern) as [session_info | e]
    eqn:Hinfo; cbn [bind].
  2:{ unfold dict_item in Hinfo.
      destruct (dict_get self_session_patterns pattern); [discriminate|].
      inversion Hinfo. discriminate. }
  match goal with
  | |- context [for_each (study_day ?x1 ?x2 ?x3 ?x4 ?x5 ?x6) ?days ?start] =>
      pose proof (@study_phase_not_diverged x2 x3 x4 x5 x6 days start
                    (pattern_break_nonneg _ Hinfo)) as Hlearn;
      destruct (for_each (study_day x1 x2 x3 x4 x5 x6) days start)
        as [learned | e1]
  end; cbn [bind]; [|congruence].
  match goal with
  | |- context [for_each (revision_day ?x1 ?x2 ?x3 ?x4 ?x5 ?x6 ?x7) ?days ?s] =>
      pose proof (@revision_phase_not_diverged x2 x3 x4 x5 x6 x7 days s)
        as Hrevise;
      destruct (for_each (revision_day x1 x2 x3 x4 x5 x6 x7) days s)
        as [revised | e2]
  end; cbn [bind]; [discriminate | congruence].
Qed.

Lemma infeasible_response_ok (needed available : num) (days : Z)
    (daily_hours : num) :
  days <> 0%Z -> 0 < num_Q daily_hours ->
  exists response,
    _generate_infeasible_response float_repr needed available days daily_hours
    = Ok response.
Proof.
  intros Hdays Hhours. unfold _generate_infeasible_response.
  rewrite num_truediv_ok.
  2:{ simpl num_Q. intro E. change 0 with (inject_Z 0) in E.
      apply (proj1 (inject_Z_injective _ _)) in E. contradiction. }
  cbn [bind]. rewrite num_truediv_ok.
  2:{ intro E. rewrite E in Hhours. discriminate. }
  cbn [bind]. eexists. reflexivity.
Qed.

(** On valid input the planner returns a plan. *)
Lemma generate_returns_plan (profile : StudentProfile) (subject_name : string)
    (topics : list string) (deadline_days : Z)
    (levels : option (dict string)) :
  valid_input profile topics deadline_days ->
  exists plan,
    generate_personalized_plan float_repr date_after profile subject_name
      topics deadline_days levels = Ok plan.
Proof.
  intros (Hpace & Hpattern & Hhours & Hslots & Htopics & Hdays).
  unfold generate_personalized_plan.
  set (pace := get_default (learning_pace profile) "moderate") in *.
  set (weak := get_default (weak_areas profile) []) in *.
  set (daily_hours := get_default (daily_available_hours profile) (PyInt 3))
    in *.
  destruct (dict_item self_learning_pace pace) as [info | e] eqn:Hinfo.
  2:{ unfold dict_item in Hinfo.
      destruct (dict_get self_learning_pace pace);
        [discriminate | contradiction]. }
  destruct (_calculate_topic_times topics pace weak levels)
    as [times | e] eqn:Htimes.
  2:{ unfold _calculate_topic_times in Htimes. rewrite Hinfo in Htimes.
      discriminate. }
  cbn [bind].
  match goal with
  | |- context [if num_gt ?needed ?available then _ else _] =>
      destruct (num_gt needed available) eqn:Hgt
  end.
  - apply infeasible_response_ok; [lia | exact Hhours].
  - destruct (@create_daily_schedule_ok topics times deadline_days daily_hours
                (get_default (preferred_times profile) ["evening"])
                (get_default (study_pattern profile) "pomodoro")
                weak subject_name Hpattern Hslots Htopics)
      as (schedule & ->).
    + intros t Ht.
      erewrite calculate_topic_times_get by eassumption.
      apply str_in_In in Ht. rewrite Ht. discriminate.
    + cbn [bind]. eexists. reflexivity.
Qed.

(** Whatever the input, the planner never gives up on a loop. *)
Lemma generate_not_diverged (profile : StudentProfile) (subject_name : string)
    (topics : list string) (deadline_days : Z)
    (levels : option (dict string)) :
  generate_personalized_plan float_repr date_after profile subject_name topics
    deadline_days levels <> Raise Diverged.
Proof.
  unfold generate_personalized_plan, _calculate_topic_times.
  set (pace := get_default (learning_pace profile) "moderate").
  destruct (dict_item self_learning_pace pace) as [info | e] eqn:Hinfo;
    cbn [bind].
  2:{ unfold dict_item in Hinfo.
      destruct (dict_get self_learning_pace pace); [discriminate|].
      inversion Hinfo. discriminate. }
  match goal with
  | |- context [if num_gt ?needed ?available then _ else _] =>
      destruct (num_gt needed available)
  end.
  - unfold _generate_infeasible_response, num_truediv.
    destruct (Qeq_bool _ 0); [discriminate|]. cbn [bind].
    destruct (Qeq_bool _ 0); discriminate.
  - match goal with
    | |- context [_create_daily_schedule ?x1 ?x2 ?x3 ?x4 ?x5 ?x6 ?x7 ?x8 ?x9] =>
        pose proof (@create_daily_schedule_not_diverged x2 x3 x4 x5 x6 x7 x8
                      x9) as Hs;
        destruct (_create_daily_schedule x1 x2 x3 x4 x5 x6 x7 x8 x9)
    end; cbn [bind]; [discriminate | congruence].
Qed.

End Returns.

End PlannerFacts.

(** * Properties of the planner *)

Module PlannerProperties.
Import Py StudyPlanner Observed PyFacts PlannerFacts.

#[local] Arguments Qred : simpl never.
#[local] Arguments Qplus : simpl never.
#[local] Arguments Qminus : simpl never.
#[local] Arguments Qmult : simpl never.
#[local] Arguments Qdiv : simpl never.
#[local] Arguments Qfloor : simpl never.
#[local] Arguments Qceiling : simpl never.
#[local] Arguments inject_Z : simpl never.
#[local] Arguments Qle_bool : simpl never.
#[local] Arguments Qeq_bool : simpl never.

Section Claims.

Variable float_repr : Q -> string.
Variable date_after : Z -> string.

(** ** The day count *)

(** C3: for a fast learner with one topic and a deadline of one day the plan
    is feasible, yet its schedule has two days, the first of them dated the
    day before today; the day count is not [deadline_days]. *)
Theorem day_count_with_one_day_deadline :
  exists plan schedule,
    generate_personalized_plan float_repr date_after Sample.fast_profile
      "Algorithms" ["Sorting"] 1 None = Ok plan
    /\ feasible plan = Some true
    /\ daily_plan plan = Some schedule
    /\ len schedule = 2%Z
    /\ map date schedule = [date_after (-1); date_after 0]
    /\ map phase schedule
       = ["Intensive Revision"; "Final Review & Mock Test"].
Proof.
  eexists. eexists.
  split; [vm_compute; reflexivity|].
  repeat split.
Qed.

(** X2: the schedule of a feasible plan has [deadline_days] days as soon as
    the deadline is two days away or more. *)
Theorem day_count_from_two_days (profile : StudentProfile)
    (subject_name : string) (topics : list string) (deadline_days : Z)
    (levels : option (dict string)) (plan : Plan) :
  generate_personalized_plan float_repr date_after profile subject_name topics
    deadline_days levels = Ok plan ->
  feasible plan = Some true ->
  (2 <= deadline_days)%Z ->
  exists schedule,
    daily_plan plan = Some schedule /\ len schedule = deadline_days.
Proof.
  intros Hgen Hfeasible Hd.
  apply generate_cases in Hgen.
  destruct Hgen as (times & info & _ & _ & Hcase).
  destruct Hcase as [[_ Hresp] | (_ & schedule & Hs & ->)].
  { apply infeasible_response_flag in Hresp. congruence. }
  exists schedule. split; [reflexivity|].
  apply create_daily_schedule_days in Hs.
  destruct Hs as (learned & revised & -> & Hl & Hr).
  apply Forall2_length_eq in Hl. apply Forall2_length_eq in Hr.
  rewrite range_length in Hl, Hr. rewrite revision_days_of_spec in Hl, Hr.
  pose proof (revision_days_at_least_two deadline_days).
  pose proof (revision_days_within_deadline Hd).
  unfold len. rewrite length_app, Hl, Hr. lia.
Qed.

(** ** The learning-phase loop *)

(** C10: the loop of a learning day terminates.  From a state whose queued
    topics all have an allocation and a progress counter, it reaches a state
    in which the guard fails within [loop_measure] iterations, for any
    number of daily hours and any queue; a pass of its body either pops the
    front topic and leaves the hours alone, or emits a session and takes
    more than 0.1 hour off the hours that remain; and for no profile and no
    list of topics does the planner give up on a loop. *)
Theorem learning_loop_terminates (pattern : string)
    (session_info : SessionPattern) (topic_times : dict num)
    (weak : list string) (st : LoopState) :
  dict_item self_session_patterns pattern = Ok session_info ->
  queue_known topic_times st ->
  (exists final,
     while_loop session_info topic_times weak (loop_measure st) st = Ok final
     /\ loop_guard final = false)
  /\ (loop_guard st = true ->
      exists st',
        loop_body session_info topic_times weak st = Ok st'
        /\ (loop_measure st' < loop_measure st)%nat
        /\ ((topics_queue st' = tl (topics_queue st)
             /\ hours_remaining st' = hours_remaining st
             /\ sessions (day_schedule st') = sessions (day_schedule st))
            \/ (num_Q (hours_remaining st') < num_Q (hours_remaining st) - 0.1
                /\ exists session,
                     sessions (day_schedule st')
                     = (sessions (day_schedule st) ++ [session])%list)))
  /\ (forall profile subject_name topics deadline_days levels,
        generate_personalized_plan float_repr date_after profile subject_name
          topics deadline_days levels <> Raise Diverged).
Proof.
  intros Hpattern Hknown.
  assert (Hbreak : 0 <= num_Q (break_length session_info)).
  { destruct (pattern_table _ Hpattern) as [_ Hpause].
    unfold Spec.break_minutes in Hpause.
    destruct (String.eqb pattern "pomodoro");
      [|destruct (String.eqb pattern "deep_work");
        [|destruct (String.eqb pattern "short_burst"); [|discriminate]]];
      injection Hpause as E; rewrite <- E; discriminate. }
  split; [|split].
  3:{ intros. apply generate_not_diverged. }
  - destruct (@while_loop_finishes session_info topic_times weak Hbreak
                (loop_measure st) st (Nat.le_refl _) Hknown)
      as (final & Hloop & Hguard & _).
    exists final. split; assumption.
  - intro Hguard.
    destruct (@loop_body_ok session_info topic_times weak st Hknown Hguard)
      as (st' & Hbody & _).
    exists st'. split; [exact Hbody|].
    split;
      [apply (@loop_body_measure session_info topic_times weak Hbreak st st'
                Hguard Hbody)|].
    destruct (@loop_body_progress session_info topic_times weak Hbreak st st'
                Hguard Hbody)
      as [-> | (Hless & _ & Hsession)].
    + left. repeat split.
    + right. split; assumption.
Qed.

(** ** The summary *)

(** C8: rendering a plan hands the plan back unchanged, and rendering it a
    second time gives the same outcome, text or exception, as the first
    time. *)
Theorem summary_is_repeatable (plan : Plan) :
  let first := get_plan_summary float_repr plan in
  let second := get_plan_summary float_repr (snd first) in
  snd first = plan /\ snd second = plan /\ fst second = fst first.
Proof.
  intros first second.
  assert (Hfirst : snd first = plan) by apply get_plan_summary_reads_only.
  assert (Hsame : second = first).
  { unfold second. rewrite Hfirst. reflexivity. }
  rewrite Hsame. repeat split; assumption.
Qed.

End Claims.

(** The loop of the first pomodoro day of a learner with one topic runs to
    its end. *)
Lemma learning_loop_terminates_witness :
  exists final,
    while_loop Sample.pomodoro Sample.sorting_times []
      (loop_measure Sample.first_morning) Sample.first_morning = Ok final
    /\ loop_guard final = false.
Proof.
  apply (@learning_loop_terminates Sample.float_repr Sample.date_after
           "pomodoro" Sample.pomodoro Sample.sorting_times []
           Sample.first_morning).
  - reflexivity.
  - intros t [<- | []]. split; discriminate.
Defined.

(** The plan for three days has three days. *)
Lemma day_count_from_two_days_witness :
  exists schedule,
    daily_plan Sample.quarter_hours_plan = Some schedule
    /\ len schedule = 3%Z.
Proof.
  apply (@day_count_from_two_days Sample.float_repr Sample.date_after
           Sample.quarter_hours_profile "Algorithms" Sample.three_topics 3
           None Sample.quarter_hours_plan).
  - vm_compute. reflexivity.
  - reflexivity.
  - lia.
Defined.

End PlannerProperties.

(** * Further facts about the planner *)

Module PlannerInvariants.
Import Py StudyPlanner Observed Measures PyFacts PlannerFacts.

#[local] Arguments Qred : simpl never.
#[local] Arguments Qplus : simpl never.
#[local] Arguments Qminus : simpl never.
#[local] Arguments Qmult : simpl never.
#[local] Arguments Qdiv : simpl never.
#[local] Arguments Qfloor : simpl never.
#[local] Arguments Qceiling : simpl never.
#[local] Arguments inject_Z : simpl never.
#[local] Arguments Qle_bool : simpl never.
#[local] Arguments Qeq_bool : simpl never.

(** ** The allocation dict *)

Lemma known_pace (pace : string) :
  dict_get self_learning_pace pace <> None ->
  exists info, dict_item self_learning_pace pace = Ok info.
Proof.
  intro H. unfold dict_item.
  destruct (dict_get self_learning_pace pace) as [info|];
    [exists info; reflexivity | contradiction].
Qed.

Lemma known_pattern (pattern : string) :
  dict_get self_session_patterns pattern <> None ->
  exists info, dict_item self_session_patterns pattern = Ok info.
Proof.
  intro H. unfold dict_item.
  destruct (dict_get self_session_patterns pattern) as [info|];
    [exists info; reflexivity | contradiction].
Qed.

Lemma dict_item_raises {V : Type} (d : dict V) (k : string) (e : exn) :
  dict_item d k = Raise e -> e = KeyError k /\ dict_get d k = None.
Proof.
  unfold dict_item. destruct (dict_get d k); [discriminate|].
  intro H. inversion H. split; reflexivity.
Qed.

(** Every allocation lies between 1 and 7.8 hours. *)
Lemma topic_hours_bounds (pace : string) (info : PaceInfo)
    (weak : list string) (levels : option (dict string)) (t : string) :
  dict_item self_learning_pace pace = Ok info ->
  1 <= num_Q (topic_hours (hours_per_topic info) weak levels t)
  /\ num_Q (topic_hours (hours_per_topic info) weak levels t) <= 7.8.
Proof.
  unfold dict_item, self_learning_pace. simpl dict_get.
  destruct (String.eqb pace "slow");
    [|destruct (String.eqb pace "moderate");
      [|destruct (String.eqb pace "fast"); [|discriminate]]];
    intro H; injection H as <-; unfold topic_hours; cbn [hours_per_topic];
    destruct (str_in t weak);
    (destruct levels as [levels|];
     [destruct (dict_get levels t) as [tag|];
      [destruct (String.eqb tag "hard");
       [|destruct (String.eqb tag "easy")]|]|]);
    vm_compute; split; discriminate.
Qed.

Lemma dict_set_listed {V : Type} (f : string -> V) (seen : list string)
    (k : string) :
  str_in k seen = true ->
  dict_set (map (fun k => (k, f k)) seen) k (f k)
  = map (fun k => (k, f k)) seen.
Proof.
  induction seen as [| k0 seen IH]; simpl; [discriminate|].
  destruct (String.eqb k k0) eqn:E.
  - apply String.eqb_eq in E. subst k0. reflexivity.
  - simpl. intro H. rewrite IH by exact H. reflexivity.
Qed.

Lemma dict_get_unlisted {V : Type} (f : string -> V) (seen : list string)
    (k : string) :
  str_in k seen = false ->
  dict_get (map (fun k => (k, f k)) seen) k = None.
Proof.
  induction seen as [| k0 seen IH]; simpl; [reflexivity|].
  destruct (String.eqb k k0); [discriminate | exact IH].
Qed.

(** Filling a dict from a list lays out the distinct keys in the order of
    their first appearance. *)
Lemma fold_dict_set_seen {V : Type} (f : string -> V)
    (keys seen : list string) :
  fold_left (fun d k => dict_set d k (f k)) keys
            (map (fun k => (k, f k)) seen)
  = map (fun k => (k, f k))
        (fold_left
           (fun seen k => if str_in k seen then seen else (seen ++ [k])%list)
           keys seen).
Proof.
  revert seen. induction keys as [| k keys IH]; intro seen; simpl;
    [reflexivity|].
  destruct (str_in k seen) eqn:E.
  - rewrite dict_set_listed by exact E. apply IH.
  - rewrite dict_set_fresh by (apply dict_get_unlisted; exact E).
    rewrite <- IH. rewrite map_app. reflexivity.
Qed.

Lemma calculate_topic_times_distinct (topics : list string) (pace : string)
    (weak : list string) (levels : option (dict string)) (info : PaceInfo)
    (times : dict num) :
  dict_item self_learning_pace pace = Ok info ->
  _calculate_topic_times topics pace weak levels = Ok times ->
  times
  = map (fun t => (t, topic_hours (hours_per_topic info) weak levels t))
        (distinct topics).
Proof.
  intros Hinfo. unfold _calculate_topic_times. rewrite Hinfo. cbn [bind].
  intro H. injection H as <-.
  apply (fold_dict_set_seen
           (topic_hours (hours_per_topic info) weak levels) topics []).
Qed.

Lemma seen_step_spec (keys seen : list string) :
  let final :=
    fold_left
      (fun seen k => if str_in k seen then seen else (seen ++ [k])%list)
      keys seen in
  (NoDup seen -> NoDup final)
  /\ (forall k, In k final <-> In k seen \/ In k keys).
Proof.
  revert seen. induction keys as [| k keys IH]; intro seen; simpl.
  - split; [auto | intro k; tauto].
  - destruct (IH (if str_in k seen then seen else (seen ++ [k])%list))
      as [Hnd Hin].
    split.
    + intro Hseen. apply Hnd. destruct (str_in k seen) eqn:E; [exact Hseen|].
      apply NoDup_app; [exact Hseen | repeat constructor; intros []|].
      intros x Hx [<- | []]. apply str_in_In in Hx. congruence.
    + intro x. rewrite Hin. destruct (str_in k seen) eqn:E.
      * apply str_in_In in E. split; [tauto|].
        intros [H | [<- | H]]; tauto.
      * rewrite in_app_iff. simpl. tauto.
Qed.

Lemma distinct_NoDup (keys : list string) : NoDup (distinct keys).
Proof. apply (seen_step_spec keys []). constructor. Qed.

Lemma distinct_In (keys : list string) (k : string) :
  In k (distinct keys) <-> In k keys.
Proof.
  unfold distinct. rewrite (proj2 (seen_step_spec keys [])). simpl. tauto.
Qed.

Lemma distinct_repeat (before after : list string) (t : string) :
  In t before ->
  distinct (before ++ t :: after) = distinct (before ++ after).
Proof.
  intro Hin. unfold distinct. rewrite !fold_left_app. simpl.
  assert (E : str_in t
                (fold_left
                   (fun seen k =>
                      if str_in k seen then seen else (seen ++ [k])%list)
                   before []) = true).
  { apply str_in_In. apply (proj2 (seen_step_spec before [])). right.
    exact Hin. }
  rewrite E. reflexivity.
Qed.

(** ** Where an exception can come from *)

Lemma range_cons (n : Z) :
  (0 < n)%Z -> exists rest, range n = 0%Z :: rest.
Proof.
  intro H. unfold range.
  destruct (Z.to_nat n) as [| m] eqn:E; [lia|].
  simpl. eexists. reflexivity.
Qed.

Lemma range_nil (n : Z) : (n <= 0)%Z -> range n = [].
Proof.
  intro H. unfold range.
  replace (Z.to_nat n) with 0%nat by lia. reflexivity.
Qed.

(** The revision sessions fail only on the division by the number of
    topics of a plain "Revision" day. *)
Lemma revision_sessions_raises (topics weak : list string)
    (daily_hours : num) (phase_name : string) (e : exn) :
  _generate_revision_sessions topics weak daily_hours phase_name = Raise e ->
  e = ZeroDivisionError /\ topics = []
  /\ phase_name <> "Final Review & Mock Test"
  /\ phase_name <> "Intensive Revision".
Proof.
  unfold _generate_revision_sessions.
  destruct (String.eqb_spec phase_name "Final Review & Mock Test") as [| N1];
    [discriminate|].
  destruct (String.eqb_spec phase_name "Intensive Revision") as [| N2].
  - destruct (@num_floordiv_ok (num_mul daily_hours (PyInt 60))
                (PyInt (Z.max (len weak) 1))) as (minutes & ->);
      [|discriminate].
    simpl num_Q. intro E. change 0 with (inject_Z 0) in E.
    apply (proj1 (inject_Z_injective _ _)) in E. lia.
  - destruct topics as [| t topics].
    + unfold num_floordiv. simpl num_Q.
      change (Qeq_bool (inject_Z (len (@nil string))) 0) with true.
      cbn [bind]. intro H. inversion H. auto.
    + destruct (@num_floordiv_ok (num_mul daily_hours (PyInt 60))
                  (PyInt (len (t :: topics)))) as (minutes & ->);
        [|discriminate].
      simpl num_Q. intro E. change 0 with (inject_Z 0) in E.
      apply (proj1 (inject_Z_injective _ _)) in E.
      unfold len in E. simpl in E. lia.
Qed.

Lemma plain_revision_without_topics (weak : list string) (daily_hours : num) :
  _generate_revision_sessions [] weak daily_hours "Revision"
  = Raise ZeroDivisionError.
Proof. reflexivity. Qed.

Section Exceptions.

Variable date_after : Z -> string.

Lemma revision_days_of_at_least_two (deadline_days : Z) :
  (2 <= revision_days_of deadline_days)%Z.
Proof. unfold revision_days_of. lia. Qed.

Lemma create_daily_schedule_without_slots (topics : list string)
    (topic_times : dict num) (deadline_days : Z) (daily_hours : num)
    (pattern : string) (weak : list string) (subject_name : string) :
  dict_get self_session_patterns pattern <> None ->
  _create_daily_schedule date_after topics topic_times deadline_days
    daily_hours [] pattern weak subject_name = Raise ZeroDivisionError.
Proof.
  intro Hpattern. unfold _create_daily_schedule.
  destruct (known_pattern _ Hpattern) as (session_info & ->). cbn [bind].
  pose proof (revision_days_of_at_least_two deadline_days) as Htwo.
  destruct (range (deadline_days - revision_days_of deadline_days))
    as [| d days] eqn:Hstudy.
  - cbn [for_each bind].
    destruct (@range_cons (revision_days_of deadline_days)) as (rest & ->);
      [lia | reflexivity].
  - reflexivity.
Qed.

Lemma revision_phase_raises (topics weak : list string) (daily_hours : num)
    (times_of_day : list string) (study_days revision_days : Z)
    (days : list Z) (c : Carry) (e : exn) :
  times_of_day <> [] ->
  for_each (revision_day date_after topics weak daily_hours times_of_day
              study_days revision_days) days c = Raise e ->
  e = ZeroDivisionError /\ topics = [].
Proof.
  intro Hslots. revert c. induction days as [| d days IH]; intro c; simpl;
    [discriminate|].
  unfold revision_day at 1.
  destruct (cyclic_item_ok d Hslots) as (slot & ->). cbn [bind].
  destruct (_generate_revision_sessions topics weak daily_hours
              (revision_phase_name revision_days d))
    as [revision_sessions | e'] eqn:Hs; cbn [bind].
  - apply IH.
  - intro H. injection H as <-.
    apply revision_sessions_raises in Hs. tauto.
Qed.

Lemma initial_carry_known (topics : list string) (topic_times : dict num) :
  (forall t, In t topics -> dict_get topic_times t <> None) ->
  carry_known topic_times
    {| day_num := 0;
       queue := topics;
       progress :=
         fold_left (fun d topic => dict_set d topic (PyInt 0)) topics [];
       days_done := [] |}.
Proof.
  intros Htimes t Ht. cbn [queue progress] in *. split; [apply Htimes, Ht|].
  rewrite (fold_dict_set_get (fun _ => PyInt 0)).
  apply str_in_In in Ht. rewrite Ht. discriminate.
Qed.

(** The schedule fails only on an unknown pattern, for want of a time of
    day, or for want of a topic. *)
Lemma create_daily_schedule_raises (topics : list string)
    (topic_times : dict num) (deadline_days : Z) (daily_hours : num)
    (times_of_day : list string) (pattern : string) (weak : list string)
    (subject_name : string) (e : exn) :
  (forall t, In t topics -> dict_get topic_times t <> None) ->
  _create_daily_schedule date_after topics topic_times deadline_days
    daily_hours times_of_day pattern weak subject_name = Raise e ->
  (e = KeyError pattern /\ dict_get self_session_patterns pattern = None)
  \/ (e = ZeroDivisionError /\ (times_of_day = [] \/ topics = [])).
Proof.
  intros Htimes. unfold _create_daily_schedule.
  destruct (dict_item self_session_patterns pattern) as [session_info | e']
    eqn:Hinfo; cbn [bind].
  2:{ intro H. injection H as <-. left. apply dict_item_raises, Hinfo. }
  destruct times_of_day as [| slot slots].
  { assert (Hknown : dict_get self_session_patterns pattern <> None).
    { unfold dict_item in Hinfo.
      destruct (dict_get self_session_patterns pattern); discriminate. }
    pose proof (@create_daily_schedule_without_slots topics topic_times
                  deadline_days daily_hours pattern weak subject_name Hknown)
      as Hraise.
    unfold _create_daily_schedule in Hraise. rewrite Hinfo in Hraise.
    cbn [bind] in Hraise. rewrite Hraise.
    intro H. injection H as <-. right. auto. }
  match goal with
  | |- context [for_each (study_day _ _ _ _ ?slots' _) ?days ?start] =>
      destruct (@study_phase_ok date_after session_info topic_times
                  daily_hours slots' weak days start
                  (pattern_break_nonneg _ Hinfo))
        as (learned & -> & _);
      [discriminate | apply initial_carry_known, Htimes |]
  end.
  cbn [bind].
  match goal with
  | |- context [for_each (revision_day ?x1 ?x2 ?x3 ?x4 ?x5 ?x6 ?x7) ?days ?s] =>
      destruct (for_each (revision_day x1 x2 x3 x4 x5 x6 x7) days s)
        as [revised | e'] eqn:Hrevise
  end; cbn [bind]; [discriminate|].
  intro H. injection H as <-.
  apply revision_phase_raises in Hrevise; [|discriminate].
  right. tauto.
Qed.

End Exceptions.

Section ResponseExceptions.

Variable float_repr : Q -> string.


Lemma infeasible_response_zero (needed available : num) (days : Z)
    (daily_hours : num) :
  days = 0%Z \/ num_Q daily_hours == 0 ->
  _generate_infeasible_response float_repr needed available days daily_hours
  = Raise ZeroDivisionError.
Proof.
  intro H. unfold _generate_infeasible_response, num_truediv. simpl num_Q.
  destruct (Qeq_bool (inject_Z days) 0) eqn:Ed; cbn [bind]; [reflexivity|].
  destruct H as [-> | Hh]; [discriminate|].
  apply Qeq_bool_iff in Hh. rewrite Hh. reflexivity.
Qed.

End ResponseExceptions.

(** ** The hours needed *)

Lemma Qsum_at_least_one (qs : list Q) :
  qs <> [] -> (forall q, In q qs -> 1 <= q) -> 1 <= Spec.Qsum qs.
Proof.
  induction qs as [| q qs IH]; [contradiction|].
  intros _ H. simpl.
  pose proof (H q (or_introl eq_refl)) as Hq.
  assert (Hrest : 0 <= Spec.Qsum qs).
  { apply Qsum_nonneg. intros x Hx.
    assert (1 <= x) by (apply H; right; exact Hx). lra. }
  lra.
Qed.

Lemma pace_ratio_nonneg (pace : string) (info : PaceInfo) :
  dict_item self_learning_pace pace = Ok info ->
  0 <= num_Q (revision_ratio info).
Proof.
  unfold dict_item, self_learning_pace. simpl dict_get.
  destruct (String.eqb pace "slow");
    [|destruct (String.eqb pace "moderate");
      [|destruct (String.eqb pace "fast"); [|discriminate]]];
    intro H; injection H as <-; discriminate.
Qed.

Lemma needed_hours_Q (times : dict num) (info : PaceInfo) :
  num_Q (needed_hours times info)
  == Spec.Qsum (map num_Q (dict_values times))
     * (1 + num_Q (revision_ratio info)).
Proof.
  unfold needed_hours. rewrite num_Q_mul, num_Q_add, py_sum_Q. reflexivity.
Qed.

(** With a topic to learn, at least one hour is needed. *)
Lemma needed_hours_pos (topics : list string) (pace : string)
    (weak : list string) (levels : option (dict string)) (info : PaceInfo)
    (times : dict num) :
  topics <> [] ->
  dict_item self_learning_pace pace = Ok info ->
  _calculate_topic_times topics pace weak levels = Ok times ->
  1 <= num_Q (needed_hours times info).
Proof.
  intros Htopics Hinfo Htimes.
  rewrite needed_hours_Q.
  pose proof (pace_ratio_nonneg _ Hinfo) as Hratio.
  rewrite (@calculate_topic_times_distinct topics pace weak levels info times
             Hinfo Htimes).
  assert (Hsum : 1 <= Spec.Qsum
                        (map num_Q
                           (dict_values
                              (map (fun t =>
                                      (t, topic_hours (hours_per_topic info)
                                            weak levels t))
                                   (distinct topics))))).
  { apply Qsum_at_least_one.
    - destruct topics as [| t topics]; [contradiction|].
      assert (Hin : In t (distinct (t :: topics)))
        by (apply distinct_In; left; reflexivity).
      destruct (distinct (t :: topics)); [contradiction | discriminate].
    - intros q Hq. unfold dict_values in Hq. rewrite !map_map in Hq.
      apply in_map_iff in Hq. destruct Hq as (t & <- & _). simpl.
      apply (@topic_hours_bounds pace info weak levels t Hinfo). }
  nra.
Qed.

Lemma needed_hours_without_topics (pace : string) (weak : list string)
    (levels : option (dict string)) (info : PaceInfo) (times : dict num) :
  dict_item self_learning_pace pace = Ok info ->
  _calculate_topic_times [] pace weak levels = Ok times ->
  num_Q (needed_hours times info) == 0.
Proof.
  intros Hinfo. unfold _calculate_topic_times. rewrite Hinfo. cbn [bind].
  intro H. injection H as <-. rewrite needed_hours_Q. simpl. lra.
Qed.

(** ** The planner, pace in hand *)

Lemma calculate_topic_times_ok (topics : list string) (pace : string)
    (weak : list string) (levels : option (dict string)) (info : PaceInfo) :
  dict_item self_learning_pace pace = Ok info ->
  exists times, _calculate_topic_times topics pace weak levels = Ok times.
Proof.
  intro Hinfo. unfold _calculate_topic_times. rewrite Hinfo. cbn [bind].
  eexists. reflexivity.
Qed.

Lemma calculate_topic_times_covers (topics : list string) (pace : string)
    (weak : list string) (levels : option (dict string)) (times : dict num) :
  _calculate_topic_times topics pace weak levels = Ok times ->
  forall t, In t topics -> dict_get times t <> None.
Proof.
  intros Htimes t Ht.
  destruct (dict_item self_learning_pace pace) as [info | e] eqn:Hinfo.
  - erewrite calculate_topic_times_get by eassumption.
    apply str_in_In in Ht. rewrite Ht. discriminate.
  - unfold _calculate_topic_times in Htimes. rewrite Hinfo in Htimes.
    discriminate.
Qed.

Lemma available_hours_Q (deadline_days : Z) (profile : StudentProfile) :
  num_Q (available_hours deadline_days profile)
  == inject_Z deadline_days
     * num_Q (get_default (daily_available_hours profile) (PyInt 3)).
Proof. unfold available_hours. rewrite num_Q_mul. reflexivity. Qed.

Section WithPace.

Variable float_repr : Q -> string.
Variable date_after : Z -> string.

(** Once the pace is found in the table the planner is the feasibility
    test followed by one of its two branches. *)
Lemma generate_with_pace (profile : StudentProfile) (subject_name : string)
    (topics : list string) (deadline_days : Z)
    (levels : option (dict string)) (times : dict num) (info : PaceInfo) :
  let pace := get_default (learning_pace profile) "moderate" in
  let weak := get_default (weak_areas profile) [] in
  let daily_hours := get_default (daily_available_hours profile) (PyInt 3) in
  _calculate_topic_times topics pace weak levels = Ok times ->
  dict_item self_learning_pace pace = Ok info ->
  generate_personalized_plan float_repr date_after profile subject_name topics
    deadline_days levels
  = if num_gt (needed_hours times info)
              (available_hours deadline_days profile)
    then
      _generate_infeasible_response float_repr (needed_hours times info)
        (available_hours deadline_days profile) deadline_days daily_hours
    else
      schedule <-
        _create_daily_schedule date_after topics times deadline_days
          daily_hours (get_default (preferred_times profile) ["evening"])
          (get_default (study_pattern profile) "pomodoro") weak subject_name;;
      Ok {| feasible := Some true;
            subject := Some subject_name;
            student_profile := Some profile;
            total_topics := Some (len topics);
            deadline := Some (date_after deadline_days);
            total_hours_needed := Some (round1 (needed_hours times info));
            total_hours_available :=
              Some (available_hours deadline_days profile);
            buffer_hours :=
              Some (round1 (num_sub (available_hours deadline_days profile)
                                    (needed_hours times info)));
            daily_plan := Some schedule;
            study_tips := Some (_generate_personalized_tips profile topics);
            message := None;
            hours_short := None;
            suggestions := None |}.
Proof.
  intros pace weak daily_hours Htimes Hinfo.
  unfold generate_personalized_plan. fold pace weak daily_hours.
  rewrite Htimes. cbn [bind]. rewrite Hinfo. cbn [bind]. reflexivity.
Qed.

Lemma generate_unknown_pace (profile : StudentProfile) (subject_name : string)
    (topics : list string) (deadline_days : Z)
    (levels : option (dict string)) :
  let pace := get_default (learning_pace profile) "moderate" in
  dict_get self_learning_pace pace = None ->
  generate_personalized_plan float_repr date_after profile subject_name topics
    deadline_days levels = Raise (KeyError pace).
Proof.
  intros pace Hpace.
  unfold generate_personalized_plan, _calculate_topic_times, dict_item.
  fold pace. rewrite Hpace. reflexivity.
Qed.

End WithPace.


Lemma revision_days_short_deadline (deadline_days : Z) :
  (deadline_days < 15)%Z -> revision_days_of deadline_days = 2%Z.
Proof.
  intro H. rewrite revision_days_of_spec. unfold Spec.revision_days.
  assert (Hf : (Qfloor (0.2 * inject_Z deadline_days) < 3)%Z).
  { pose proof (Qfloor_le (0.2 * inject_Z deadline_days)) as Hle.
    assert (Hd : inject_Z deadline_days <= inject_Z 14)
      by (rewrite <- Zle_Qle; lia).
    change (inject_Z 14) with 14 in Hd.
    rewrite Zlt_Qlt. change (inject_Z 3) with 3. lra. }
  lia.
Qed.

Lemma revision_days_long_deadline (deadline_days : Z) :
  (15 <= deadline_days)%Z -> (3 <= revision_days_of deadline_days)%Z.
Proof.
  intro H. rewrite revision_days_of_spec. unfold Spec.revision_days.
  assert (Hf : (3 <= Qfloor (0.2 * inject_Z deadline_days))%Z).
  { rewrite <- (Qfloor_Z 3). apply Qfloor_resp_le.
    assert (Hd : inject_Z 15 <= inject_Z deadline_days)
      by (rewrite <- Zle_Qle; lia).
    change (inject_Z 15) with 15 in Hd. change (inject_Z 3) with 3. lra. }
  lia.
Qed.

Section WithoutTopics.

Variable date_after : Z -> string.

(** With no topic, a deadline of fifteen days or more brings a plain
    "Revision" day, and its sessions divide by the number of topics. *)
Lemma create_daily_schedule_without_topics_long (topic_times : dict num)
    (deadline_days : Z) (daily_hours : num) (times_of_day : list string)
    (pattern : string) (weak : list string) (subject_name : string) :
  dict_get self_session_patterns pattern <> None ->
  times_of_day <> [] ->
  (15 <= deadline_days)%Z ->
  _create_daily_schedule date_after [] topic_times deadline_days daily_hours
    times_of_day pattern weak subject_name = Raise ZeroDivisionError.
Proof.
  intros Hpattern Hslots Hd. unfold _create_daily_schedule.
  destruct (dict_item self_session_patterns pattern) as [session_info | e]
    eqn:Hinfo.
  2:{ apply dict_item_raises in Hinfo. tauto. }
  cbn [bind].
  match goal with
  | |- context [for_each (study_day _ _ _ _ _ _) ?days ?start] =>
      destruct (@study_phase_ok date_after session_info topic_times
                  daily_hours times_of_day weak days start
                  (pattern_break_nonneg _ Hinfo) Hslots)
        as (learned & -> & _);
      [intros t [] |]
  end.
  cbn [bind].
  pose proof (revision_days_long_deadline Hd) as Hthree.
  destruct (@range_cons (revision_days_of deadline_days)) as (rest & ->);
    [lia|].
  cbn [for_each]. unfold revision_day at 1.
  destruct (cyclic_item_ok 0 Hslots) as (slot & ->). cbn [bind].
  assert (Hname : revision_phase_name (revision_days_of deadline_days) 0
                  = "Revision").
  { unfold revision_phase_name.
    destruct (Z.eqb_spec 0 (revision_days_of deadline_days - 1)); [lia|].
    destruct (Z.eqb_spec 0 (revision_days_of deadline_days - 2)); [lia|].
    reflexivity. }
  rewrite Hname, plain_revision_without_topics. reflexivity.
Qed.

(** With a deadline under fifteen days there are two revision days, neither
    of them plain, and the schedule comes back whatever the topics. *)
Lemma create_daily_schedule_short_deadline (topics : list string)
    (topic_times : dict num) (deadline_days : Z) (daily_hours : num)
    (times_of_day : list string) (pattern : string) (weak : list string)
    (subject_name : string) :
  dict_get self_session_patterns pattern <> None ->
  times_of_day <> [] ->
  (forall t, In t topics -> dict_get topic_times t <> None) ->
  (deadline_days < 15)%Z ->
  exists schedule,
    _create_daily_schedule date_after topics topic_times deadline_days
      daily_hours times_of_day pattern weak subject_name = Ok schedule.
Proof.
  intros Hpattern Hslots Htimes Hd.
  destruct (_create_daily_schedule date_after topics topic_times
              deadline_days daily_hours times_of_day pattern weak
              subject_name) as [schedule | e] eqn:Hs;
    [exists schedule; reflexivity|].
  exfalso. unfold _create_daily_schedule in Hs.
  destruct (dict_item self_session_patterns pattern) as [session_info | e']
    eqn:Hinfo.
  2:{ apply dict_item_raises in Hinfo. tauto. }
  cbn [bind] in Hs.
  match type of Hs with
  | context [for_each (study_day _ _ _ _ _ _) ?days ?start] =>
      destruct (@study_phase_ok date_after session_info topic_times
                  daily_hours times_of_day weak days start
                  (pattern_break_nonneg _ Hinfo) Hslots
                  (@initial_carry_known topics topic_times Htimes))
        as (learned & Hlearn & _)
  end.
  rewrite Hlearn in Hs. cbn [bind] in Hs.
  rewrite (revision_days_short_deadline Hd) in Hs.
  change (range 2) with [0%Z; 1%Z] in Hs. cbn [for_each] in Hs.
  unfold revision_day at 1 in Hs.
  destruct (cyclic_item_ok 0 Hslots) as (slot0 & E0). rewrite E0 in Hs.
  cbn [bind] in Hs.
  change (revision_phase_name 2 0) with "Intensive Revision" in Hs.
  destruct (_generate_revision_sessions topics weak daily_hours
              "Intensive Revision") as [s0 | e0] eqn:Hs0.
  2:{ apply revision_sessions_raises in Hs0. tauto. }
  cbn [bind] in Hs. unfold revision_day at 1 in Hs.
  destruct (cyclic_item_ok 1 Hslots) as (slot1 & E1). rewrite E1 in Hs.
  cbn [bind] in Hs.
  change (revision_phase_name 2 1) with "Final Review & Mock Test" in Hs.
  destruct (_generate_revision_sessions topics weak daily_hours
              "Final Review & Mock Test") as [s1 | e1] eqn:Hs1.
  2:{ apply revision_sessions_raises in Hs1. tauto. }
  cbn [bind] in Hs. discriminate.
Qed.

End WithoutTopics.

(** ** The books of the learning phase *)

Lemma Qsum_app (xs ys : list Q) :
  Spec.Qsum (xs ++ ys) == Spec.Qsum xs + Spec.Qsum ys.
Proof.
  induction xs as [| x xs IH]; simpl; [lra | rewrite IH; lra].
Qed.

Lemma minutes_total_app (xs ys : list Session) :
  minutes_total (xs ++ ys) == minutes_total xs + minutes_total ys.
Proof. unfold minutes_total. rewrite map_app. apply Qsum_app. Qed.

Lemma minutes_total_one (x : Session) :
  minutes_total [x] == num_Q (duration_minutes x).
Proof. unfold minutes_total. simpl. lra. Qed.

Lemma minutes_total_nil : minutes_total [] == 0.
Proof. reflexivity. Qed.

Lemma sessions_on_app (t : string) (xs ys : list Session) :
  sessions_on t (xs ++ ys) = (sessions_on t xs ++ sessions_on t ys)%list.
Proof. apply filter_app. Qed.

Lemma learning_sessions_app (xs ys : list DaySchedule) :
  learning_sessions (xs ++ ys)
  = (learning_sessions xs ++ learning_sessions ys)%list.
Proof. apply flat_map_app. Qed.

Lemma hours_total_app (xs ys : list DaySchedule) :
  hours_total (xs ++ ys) == hours_total xs + hours_total ys.
Proof. unfold hours_total. rewrite map_app. apply Qsum_app. Qed.

Lemma logged_hours_set (progress : dict num) (t t' : string) (v : num) :
  logged_hours (dict_set progress t v) t'
  = if String.eqb t' t then num_Q v else logged_hours progress t'.
Proof.
  unfold logged_hours. rewrite dict_get_set.
  destruct (String.eqb t' t); reflexivity.
Qed.

Lemma logged_hours_initial (topics : list string) (t : string) :
  logged_hours
    (fold_left (fun d topic => dict_set d topic (PyInt 0)) topics []) t
  == 0.
Proof.
  unfold logged_hours. rewrite (fold_dict_set_get (fun _ => PyInt 0)).
  destruct (str_in t topics); reflexivity.
Qed.

(** The minutes shown for a session are its hours in minutes, cut to a
    whole number. *)
Lemma emitted_minutes (weak : list string) (t : string) (hours : num) :
  0 <= num_Q hours ->
  num_Q (duration_minutes (emitted_session weak t hours))
  = inject_Z (Qfloor (num_Q hours * 60)).
Proof.
  intro H. cbn [emitted_session duration_minutes num_Q].
  rewrite int_of_Q.
  rewrite (@Qtruncate_comp (num_Q (num_mul hours (PyInt 60)))
             (num_Q hours * 60)) by apply num_Q_mul.
  rewrite Qtruncate_nonneg by lra. reflexivity.
Qed.

Lemma emitted_minutes_bounds (weak : list string) (t : string)
    (hours : num) :
  0 <= num_Q hours ->
  num_Q (duration_minutes (emitted_session weak t hours))
  <= 60 * num_Q hours
  /\ 60 * num_Q hours
     <= num_Q (duration_minutes (emitted_session weak t hours)) + 1.
Proof.
  intro H. rewrite (@emitted_minutes weak t hours H).
  pose proof (Qfloor_le (num_Q hours * 60)) as Hlo.
  pose proof (Qlt_floor (num_Q hours * 60)) as Hhi.
  rewrite inject_Z_plus in Hhi. change (inject_Z 1) with 1 in Hhi.
  split; lra.
Qed.

Lemma sessions_on_emitted (weak : list string) (t t' : string)
    (hours : num) :
  sessions_on t' [emitted_session weak t hours]
  = if String.eqb t t' then [emitted_session weak t hours] else [].
Proof. reflexivity. Qed.

Lemma len_app_one {A : Type} (xs : list A) (x : A) :
  inject_Z (len (xs ++ [x])) == inject_Z (len xs) + 1.
Proof.
  unfold len. rewrite length_app. simpl.
  rewrite Nat2Z.inj_add, inject_Z_plus. reflexivity.
Qed.

Section DayBooks.

Variable session_info : SessionPattern.
Variable topic_times : dict num.
Variable topics weak : list string.
Variable daily : Q.

Hypothesis break_nonneg : 0 <= num_Q (break_length session_info).

(** Any property that a pass of the loop body keeps holds when the loop
    is over. *)
Lemma while_loop_keeps (holds : LoopState -> Prop) :
  (forall st st',
     holds st -> loop_guard st = true ->
     loop_body session_info topic_times weak st = Ok st' -> holds st') ->
  forall fuel st final,
    holds st ->
    while_loop session_info topic_times weak fuel st = Ok final ->
    holds final.
Proof.
  intros Hstep fuel. induction fuel as [| fuel IH]; intros st final Hst;
    simpl.
  - destruct (loop_guard st); [discriminate|].
    intro H. injection H as <-. exact Hst.
  - destruct (loop_guard st) eqn:Hguard.
    + destruct (loop_body session_info topic_times weak st) as [st' | e]
        eqn:Hbody; cbn [bind]; [|discriminate].
      apply IH. eapply Hstep; eassumption.
    + intro H. injection H as <-. exact Hst.
Qed.

(** A pass of the loop body in which the books are in order leaves them in
    order. *)
Lemma loop_body_keeps_books (earlier : string -> Q) (st st' : LoopState) :
  Books.day_in_order session_info topic_times topics weak daily earlier st ->
  loop_guard st = true ->
  loop_body session_info topic_times weak st = Ok st' ->
  Books.day_in_order session_info topic_times topics weak daily earlier st'.
Proof.
  intros (Hqueue & Hemitted & Hminutes & Hshort & Hleft & Hday & Hlogged
          & Hwithin) Hguard Hbody.
  unfold loop_guard in Hguard. apply andb_true_iff in Hguard.
  destruct Hguard as [Hpos Hq].
  apply num_gt_true in Hpos. simpl num_Q in Hpos.
  change (inject_Z 0) with 0 in Hpos.
  destruct (topics_queue st) as [| t rest] eqn:Eq; [discriminate|].
  destruct (dict_get topic_times t) as [allotted|] eqn:Et;
    [|unfold loop_body, dict_item in Hbody; rewrite Eq, Et in Hbody;
      discriminate].
  destruct (dict_get (topic_progress st) t) as [logged|] eqn:Ep;
    [|unfold loop_body, dict_item in Hbody; rewrite Eq, Et, Ep in Hbody;
      discriminate].
  rewrite (@loop_body_front session_info topic_times weak st t rest
             allotted logged Eq Et Ep) in Hbody.
  pose proof (front_session_hours_Q session_info st allotted logged) as Hs.
  set (s := front_session_hours session_info st allotted logged) in *.
  destruct (num_gt s (PyFloat 0.1)) eqn:Hgt; injection Hbody as <-.
  2:{ unfold Books.day_in_order, pop_topic. cbn [topics_queue day_schedule
        hours_remaining topic_progress]. rewrite Eq. cbn [tl].
      repeat split; try assumption.
      intros t' Ht'. apply Hqueue. right. exact Ht'. }
  apply num_gt_true in Hgt. simpl num_Q in Hgt.
  assert (Hpattern : num_Q s <= num_Q (session_length session_info) / 60).
  { rewrite Hs. eapply Qle_trans; [apply Q.le_min_l | apply Q.le_min_l]. }
  assert (Hremaining : num_Q s <= num_Q (hours_remaining st)).
  { rewrite Hs. eapply Qle_trans; [apply Q.le_min_l | apply Q.le_min_r]. }
  assert (Hneeded : num_Q s <= num_Q allotted - num_Q logged).
  { rewrite Hs. apply Q.le_min_r. }
  assert (Hnonneg : 0 <= num_Q s) by lra.
  pose proof (@emitted_minutes_bounds weak t s Hnonneg) as [Hm_le Hm_ge].
  pose proof (@hours_after_session_le session_info break_nonneg st s)
    as Hafter.
  assert (Hlogged_t : logged_hours (topic_progress st) t = num_Q logged).
  { unfold logged_hours. rewrite Ep. reflexivity. }
  unfold Books.day_in_order.
  cbn [topics_queue day_schedule hours_remaining topic_progress add_session
       sessions total_hours].
  split; [|split; [|split; [|split; [|split; [|split; [|split]]]]]].
  - intros t' Ht'. apply Hqueue.
    destruct (num_ge (num_add logged s) allotted); [right|]; exact Ht'.
  - apply Forall_app. split; [exact Hemitted|]. constructor; [|constructor].
    exists t, s. split; [apply Hqueue; left; reflexivity|].
    split; [exact Hgt|]. split; [exact Hpattern | reflexivity].
  - rewrite minutes_total_app, minutes_total_one, num_Q_add. lra.
  - rewrite minutes_total_app, minutes_total_one, num_Q_add, len_app_one.
    lra.
  - rewrite num_Q_add. lra.
  - intros _. rewrite num_Q_add. lra.
  - intro t'. rewrite sessions_on_app, minutes_total_app, logged_hours_set,
      sessions_on_emitted.
    pose proof (Hlogged t') as Ht'.
    destruct (String.eqb_spec t t') as [<- | Hne].
    + rewrite String.eqb_refl, minutes_total_one, num_Q_add.
      rewrite Hlogged_t in Ht'. lra.
    + assert (E : String.eqb t' t = false)
        by (apply String.eqb_neq; congruence).
      rewrite E, minutes_total_nil. lra.
  - intros t' allotted' Ht'. rewrite logged_hours_set.
    destruct (String.eqb_spec t' t) as [-> | Hne];
      [|apply Hwithin, Ht'].
    rewrite Et in Ht'. injection Ht' as <-. rewrite num_Q_add. lra.
Qed.

End DayBooks.

Lemma for_each_keeps {S A : Type} (body : S -> A -> result S)
    (holds : S -> Prop) :
  (forall s x s', holds s -> body s x = Ok s' -> holds s') ->
  forall xs s s', holds s -> for_each body xs s = Ok s' -> holds s'.
Proof.
  intros Hstep xs. induction xs as [| x xs IH]; intros s s' Hs; simpl.
  - intro H. injection H as <-. exact Hs.
  - destruct (body s x) as [s1 | e] eqn:Hbody; cbn [bind]; [|discriminate].
    apply IH. eapply Hstep; eassumption.
Qed.

Lemma learning_sessions_one (entry : DaySchedule) :
  phase entry = "Learning" -> learning_sessions [entry] = sessions entry.
Proof.
  intro H. unfold learning_sessions. simpl. rewrite H. simpl.
  apply app_nil_r.
Qed.

Section CarryBooks.

Variable date_after : Z -> string.
Variable session_info : SessionPattern.
Variable topic_times : dict num.
Variable topics weak : list string.
Variable daily_hours : num.
Variable times_of_day : list string.

Hypothesis break_nonneg : 0 <= num_Q (break_length session_info).

(** A learning day that starts with the books in order ends with the
    books in order. *)
Lemma study_day_keeps_books (c c' : Carry) (day_offset : Z) :
  Books.carry_in_order session_info topic_times topics weak
    (num_Q daily_hours) c ->
  study_day date_after session_info topic_times daily_hours times_of_day
    weak c day_offset = Ok c' ->
  Books.carry_in_order session_info topic_times topics weak
    (num_Q daily_hours) c'.
Proof.
  intros (Hqueue & Hdays & Hlogged & Hwithin). unfold study_day.
  destruct (cyclic_item times_of_day day_offset) as [slot | e];
    cbn [bind]; [|discriminate].
  match goal with
  | |- context [while_loop ?si ?tt ?w ?f ?s0] =>
      destruct (while_loop si tt w f s0) as [final | e] eqn:Hloop
  end; cbn [bind]; [|discriminate].
  match type of Hloop with
  | while_loop _ _ _ _ ?s0 = _ => set (start := s0) in *
  end.
  intro H. injection H as <-.
  pose proof (@while_loop_head session_info topic_times weak _ _ _ Hloop)
    as (Hphase & _).
  cbn [start day_schedule phase] in Hphase.
  assert (Hstart :
    Books.day_in_order session_info topic_times topics weak
      (num_Q daily_hours)
      (fun t =>
         minutes_total (sessions_on t (learning_sessions (days_done c))))
      start).
  { unfold Books.day_in_order, start.
    cbn [day_schedule topics_queue sessions total_hours hours_remaining
         topic_progress].
    change (num_Q (PyInt 0)) with 0. change (inject_Z (len [])) with 0.
    rewrite minutes_total_nil.
    split; [exact Hqueue|]. split; [constructor|].
    split; [lra|]. split; [lra|]. split; [lra|]. split; [auto|].
    split; [|exact Hwithin].
    intro t. change (sessions_on t []) with (@nil Session).
    rewrite minutes_total_nil. pose proof (Hlogged t). lra. }
  pose proof (@while_loop_keeps session_info topic_times weak _
                (@loop_body_keeps_books session_info topic_times topics weak
                   (num_Q daily_hours) break_nonneg _)
                _ _ _ Hstart Hloop)
    as (Hq' & Hemitted & Hminutes & Hshort & _ & Hday & Hl' & Hw').
  unfold Books.carry_in_order. cbn [queue days_done progress].
  split; [exact Hq'|]. split; [|split; [|exact Hw']].
  - apply Forall_app. split; [exact Hdays|].
    constructor; [|constructor].
    unfold Books.learning_day. repeat split; assumption.
  - intro t.
    rewrite learning_sessions_app, sessions_on_app, minutes_total_app,
      (learning_sessions_one _ Hphase).
    apply Hl'.
Qed.

Lemma study_phase_keeps_books (days : list Z) (c c' : Carry) :
  Books.carry_in_order session_info topic_times topics weak
    (num_Q daily_hours) c ->
  for_each (study_day date_after session_info topic_times daily_hours
              times_of_day weak) days c = Ok c' ->
  Books.carry_in_order session_info topic_times topics weak
    (num_Q daily_hours) c'.
Proof.
  apply for_each_keeps. intros s x s'. apply study_day_keeps_books.
Qed.

Lemma initial_books :
  (forall t allotted,
     dict_get topic_times t = Some allotted -> 0 <= num_Q allotted) ->
  Books.carry_in_order session_info topic_times topics weak
    (num_Q daily_hours)
    {| day_num := 0;
       queue := topics;
       progress :=
         fold_left (fun d topic => dict_set d topic (PyInt 0)) topics [];
       days_done := [] |}.
Proof.
  intro Hnonneg. unfold Books.carry_in_order. cbn [queue days_done progress].
  split; [auto|]. split; [constructor|]. split.
  - intro t. rewrite logged_hours_initial.
    change (learning_sessions []) with (@nil Session).
    change (sessions_on t []) with (@nil Session).
    rewrite minutes_total_nil. lra.
  - intros t allotted Ht. rewrite logged_hours_initial. eapply Hnonneg, Ht.
Qed.

End CarryBooks.

(** The revision days have no learning session. *)
Lemma revision_phase_name_not_learning (revision_days offset : Z) :
  String.eqb (revision_phase_name revision_days offset) "Learning" = false.
Proof.
  unfold revision_phase_name.
  destruct (offset =? revision_days - 1)%Z; [reflexivity|].
  destruct (offset =? revision_days - 2)%Z; reflexivity.
Qed.

Lemma learning_sessions_revised (topics weak : list string)
    (daily_hours : num) (times_of_day : list string) (revision_days : Z)
    (days : list Z) (revised : list DaySchedule) :
  Forall2 (revision_day_of topics weak daily_hours times_of_day
             revision_days) days revised ->
  learning_sessions revised = [].
Proof.
  induction 1 as [| d entry days revised (Hphase & _) _ IH];
    [reflexivity|].
  unfold learning_sessions in *. simpl.
  rewrite Hphase, revision_phase_name_not_learning, IH. reflexivity.
Qed.

Lemma learning_sessions_learned (learned : list DaySchedule) :
  Forall (fun entry => phase entry = "Learning") learned ->
  learning_sessions learned = flat_map sessions learned.
Proof.
  induction 1 as [| entry learned Hphase _ IH]; [reflexivity|].
  unfold learning_sessions in *. simpl. rewrite Hphase, IH. reflexivity.
Qed.

Section ScheduleBooks.

Variable date_after : Z -> string.

(** The schedule, with the books of its learning phase. *)
Lemma create_daily_schedule_books (topics : list string)
    (topic_times : dict num) (deadline_days : Z) (daily_hours : num)
    (times_of_day : list string) (pattern : string) (weak : list string)
    (subject_name : string) (schedule : list DaySchedule) :
  (forall t allotted,
     dict_get topic_times t = Some allotted -> 0 <= num_Q allotted) ->
  _create_daily_schedule date_after topics topic_times deadline_days
    daily_hours times_of_day pattern weak subject_name = Ok schedule ->
  let revision_days := revision_days_of deadline_days in
  exists session_info learned revised logged,
    dict_item self_session_patterns pattern = Ok session_info
    /\ schedule = (learned ++ revised)%list
    /\ Forall2 (learning_day_of times_of_day)
               (range (deadline_days - revision_days)) learned
    /\ Forall2 (revision_day_of topics weak daily_hours times_of_day
                  revision_days)
               (range revision_days) revised
    /\ Forall (Books.learning_day session_info topics weak
                 (num_Q daily_hours)) learned
    /\ (forall t,
          minutes_total (sessions_on t (learning_sessions schedule))
          <= 60 * logged_hours logged t)
    /\ (forall t allotted,
          dict_get topic_times t = Some allotted ->
          logged_hours logged t <= num_Q allotted).
Proof.
  intros Hnonneg. unfold _create_daily_schedule.
  destruct (dict_item self_session_patterns pattern) as [session_info | e]
    eqn:Hinfo; cbn [bind]; [|discriminate].
  match goal with
  | |- context [for_each (study_day ?x1 ?x2 ?x3 ?x4 ?x5 ?x6) ?days ?s] =>
      destruct (for_each (study_day x1 x2 x3 x4 x5 x6) days s)
        as [after_learning | e] eqn:Hlearn
  end; cbn [bind]; [|discriminate].
  match goal with
  | |- context [for_each (revision_day ?x1 ?x2 ?x3 ?x4 ?x5 ?x6 ?x7) ?days ?s] =>
      destruct (for_each (revision_day x1 x2 x3 x4 x5 x6 x7) days s)
        as [after_revision | e] eqn:Hrevise
  end; cbn [bind]; [|discriminate].
  intro H. injection H as <-. try intro revision_days.
  pose proof (@study_phase_keeps_books date_after session_info topic_times
                topics weak daily_hours times_of_day
                (pattern_break_nonneg _ Hinfo) _ _ _
                (@initial_books session_info topic_times topics weak
                   daily_hours Hnonneg) Hlearn)
    as (_ & Hdays & Hlogged & Hwithin).
  apply study_phase_days in Hlearn. destruct Hlearn as (learned & Hl & Hlall).
  apply revision_phase_days in Hrevise.
  destruct Hrevise as (revised & Hr & Hrall).
  cbn [days_done] in Hl. rewrite Hl in Hdays, Hlogged.
  exists session_info, learned, revised, (progress after_learning).
  split; [reflexivity|]. split; [rewrite Hr, Hl; reflexivity|].
  split; [exact Hlall|]. split; [exact Hrall|]. split; [exact Hdays|].
  split; [|exact Hwithin].
  intro t. rewrite Hr, Hl, learning_sessions_app.
  rewrite (learning_sessions_revised Hrall), app_nil_r. apply Hlogged.
Qed.

End ScheduleBooks.

(** ** The calendar of the schedule *)

Lemma cyclic_item_nth {A : Type} (xs : list A) (i : Z) (x : A) :
  cyclic_item xs i = Ok x ->
  nth_error xs (Z.to_nat (i mod len xs)) = Some x.
Proof.
  unfold cyclic_item. destruct (len xs =? 0)%Z; [discriminate|].
  destruct (nth_error xs (Z.to_nat (i mod len xs))); [|discriminate].
  intro H. injection H as <-. reflexivity.
Qed.

Section Calendar.

Variable date_after : Z -> string.

Lemma study_phase_calendar (session_info : SessionPattern)
    (topic_times : dict num) (daily_hours : num)
    (times_of_day weak : list string) (days : list Z) (c c' : Carry) :
  for_each (study_day date_after session_info topic_times daily_hours
              times_of_day weak) days c = Ok c' ->
  exists learned,
    days_done c' = (days_done c ++ learned)%list
    /\ day_num c' = (day_num c + len learned)%Z
    /\ Forall2 (fun offset entry => date entry = date_after offset)
               days learned
    /\ forall k entry,
         nth_error learned k = Some entry ->
         day entry = (day_num c + Z.of_nat k + 1)%Z.
Proof.
  revert c. induction days as [| d days IH]; intros c; simpl.
  - intro H. injection H as <-. exists []. rewrite app_nil_r.
    split; [reflexivity|]. split; [unfold len; simpl; lia|].
    split; [constructor|]. intros [| k] entry; discriminate.
  - unfold study_day at 1.
    destruct (cyclic_item times_of_day d) as [slot | e];
      cbn [bind]; [|discriminate].
    match goal with
    | |- context [while_loop ?si ?tt ?w ?f ?s] =>
        destruct (while_loop si tt w f s) as [final | e] eqn:Hloop
    end; cbn [bind]; [|discriminate].
    intro H. apply IH in H.
    destruct H as (learned & Hdone & Hnum & Hdates & Hdays).
    cbn [days_done day_num] in Hdone, Hnum, Hdays.
    apply while_loop_head in Hloop. cbn [day_schedule] in Hloop.
    destruct Hloop as (_ & _ & Hday & Hdate). cbn [day date] in Hday, Hdate.
    exists (day_schedule final :: learned).
    split; [rewrite Hdone, <- app_assoc; reflexivity|].
    split; [rewrite Hnum; unfold len; simpl List.length; lia|].
    split; [constructor; assumption|].
    intros [| k] entry Hk; simpl in Hk.
    + injection Hk as <-. rewrite Hday. lia.
    + rewrite (Hdays k entry Hk). lia.
Qed.

Lemma revision_phase_calendar (topics weak : list string)
    (daily_hours : num) (times_of_day : list string)
    (study_days revision_days : Z) (days : list Z) (c c' : Carry) :
  for_each (revision_day date_after topics weak daily_hours times_of_day
              study_days revision_days) days c = Ok c' ->
  exists revised,
    days_done c' = (days_done c ++ revised)%list
    /\ Forall2
         (fun offset entry => date entry = date_after (study_days + offset))
         days revised
    /\ forall k entry,
         nth_error revised k = Some entry ->
         day entry = (day_num c + Z.of_nat k + 1)%Z.
Proof.
  revert c. induction days as [| d days IH]; intros c; simpl.
  - intro H. injection H as <-. exists []. rewrite app_nil_r.
    split; [reflexivity|].
    split; [constructor|]. intros [| k] entry; discriminate.
  - unfold revision_day at 1.
    destruct (cyclic_item times_of_day d) as [slot | e];
      cbn [bind]; [|discriminate].
    destruct (_generate_revision_sessions topics weak daily_hours
                (revision_phase_name revision_days d))
      as [revision_sessions | e]; cbn [bind]; [|discriminate].
    intro H. apply IH in H.
    destruct H as (revised & Hdone & Hdates & Hdays).
    cbn [days_done day_num] in Hdone, Hdays.
    eexists (_ :: revised).
    split; [rewrite Hdone, <- app_assoc; reflexivity|].
    split; [constructor; [reflexivity | exact Hdates]|].
    intros [| k] entry Hk; simpl in Hk.
    + injection Hk as <-. cbn [day]. lia.
    + rewrite (Hdays k entry Hk). lia.
Qed.

(** The days of the schedule are numbered from 1 in the order of the
    list; a learning day is dated by its place in the learning phase and a
    revision day by [study_days] plus its place in the revision phase. *)
Lemma create_daily_schedule_calendar (topics : list string)
    (topic_times : dict num) (deadline_days : Z) (daily_hours : num)
    (times_of_day : list string) (pattern : string) (weak : list string)
    (subject_name : string) (schedule : list DaySchedule) :
  _create_daily_schedule date_after topics topic_times deadline_days
    daily_hours times_of_day pattern weak subject_name = Ok schedule ->
  let revision_days := revision_days_of deadline_days in
  let study_days := (deadline_days - revision_days)%Z in
  exists learned revised,
    schedule = (learned ++ revised)%list
    /\ len learned = Z.max 0 study_days
    /\ len revised = revision_days
    /\ (forall k entry,
          nth_error schedule k = Some entry ->
          day entry = (Z.of_nat k + 1)%Z)
    /\ (forall k entry,
          nth_error learned k = Some entry ->
          date entry = date_after (Z.of_nat k))
    /\ (forall k entry,
          nth_error revised k = Some entry ->
          date entry = date_after (study_days + Z.of_nat k)).
Proof.
  unfold _create_daily_schedule.
  destruct (dict_item self_session_patterns pattern) as [session_info | e];
    cbn [bind]; [|discriminate].
  match goal with
  | |- context [for_each (study_day ?x1 ?x2 ?x3 ?x4 ?x5 ?x6) ?days ?s] =>
      destruct (for_each (study_day x1 x2 x3 x4 x5 x6) days s)
        as [after_learning | e] eqn:Hlearn
  end; cbn [bind]; [|discriminate].
  match goal with
  | |- context [for_each (revision_day ?x1 ?x2 ?x3 ?x4 ?x5 ?x6 ?x7) ?days ?s] =>
      destruct (for_each (revision_day x1 x2 x3 x4 x5 x6 x7) days s)
        as [after_revision | e] eqn:Hrevise
  end; cbn [bind]; [|discriminate].
  intro H. injection H as <-. try intros revision_days study_days.
  apply study_phase_calendar in Hlearn.
  destruct Hlearn as (learned & Hl & Hnum & Hldates & Hldays).
  cbn [days_done day_num app] in Hl, Hnum, Hldays.
  apply revision_phase_calendar in Hrevise.
  destruct Hrevise as (revised & Hr & Hrdates & Hrdays).
  rewrite Hl in Hr. rewrite Hnum in Hrdays.
  pose proof (Forall2_length_eq Hldates) as Hllen.
  pose proof (Forall2_length_eq Hrdates) as Hrlen.
  rewrite range_length in Hllen, Hrlen.
  pose proof (revision_days_of_at_least_two deadline_days) as Htwo.
  exists learned, revised. split; [exact Hr|].
  split; [unfold len; rewrite Hllen; lia|].
  split; [unfold len; rewrite Hrlen; lia|].
  split; [|split].
  - intros k entry Hk. rewrite Hr in Hk.
    destruct (Nat.lt_ge_cases k (List.length learned)) as [Hlt | Hge].
    + rewrite nth_error_app1 in Hk by exact Hlt.
      rewrite (Hldays k entry Hk). lia.
    + rewrite nth_error_app2 in Hk by exact Hge.
      rewrite (Hrdays _ entry Hk). unfold len. lia.
  - intros k entry Hk.
    destruct (Forall2_nth_error_r k Hldates Hk) as (offset & Hoff & ->).
    apply range_nth in Hoff. destruct Hoff as [-> _]. reflexivity.
  - intros k entry Hk.
    destruct (Forall2_nth_error_r k Hrdates Hk) as (offset & Hoff & ->).
    apply range_nth in Hoff. destruct Hoff as [-> _]. reflexivity.
Qed.

End Calendar.

(** ** The order of the learning sessions *)

Lemma in_blocks_app (done rest : list string) (counts counts' : list nat) :
  List.length counts = List.length done ->
  in_blocks (done ++ rest) (counts ++ counts')
  = (in_blocks done counts ++ in_blocks rest counts')%list.
Proof.
  revert counts. induction done as [| t done IH]; intros [| n counts] Hlen;
    try discriminate; simpl.
  - reflexivity.
  - injection Hlen as Hlen. rewrite IH by exact Hlen.
    rewrite app_assoc. reflexivity.
Qed.

Lemma in_blocks_none (rest : list string) :
  in_blocks rest (repeat 0%nat (List.length rest)) = [].
Proof. induction rest as [| t rest IH]; simpl; [reflexivity | exact IH]. Qed.

Lemma in_blocks_snoc (done : list string) (counts : list nat) (t : string)
    (n : nat) :
  List.length counts = List.length done ->
  in_blocks (done ++ [t]) (counts ++ [n])
  = (in_blocks done counts ++ repeat t n)%list.
Proof.
  intro Hlen. rewrite in_blocks_app by exact Hlen. simpl.
  rewrite app_nil_r. reflexivity.
Qed.

Lemma front_run_nil (queue : list string) :
  match queue with
  | t :: _ => repeat t 0
  | [] => []
  end = @nil string.
Proof. destruct queue; reflexivity. Qed.

(** Popping the topic at the front closes its run of sessions. *)
Lemma in_list_order_pop (topics rest seen : list string) (t : string) :
  Books.in_list_order topics (t :: rest) seen ->
  Books.in_list_order topics rest seen.
Proof.
  intros (done & counts & k & Htopics & Hlen & Hseen).
  exists (done ++ [t])%list, (counts ++ [k])%list, 0%nat.
  split; [rewrite <- app_assoc; exact Htopics|].
  split; [rewrite !length_app, Hlen; reflexivity|].
  rewrite front_run_nil, app_nil_r, in_blocks_snoc by exact Hlen.
  exact Hseen.
Qed.

(** A session on the topic at the front lengthens its run. *)
Lemma in_list_order_emit (topics rest seen : list string) (t : string) :
  Books.in_list_order topics (t :: rest) seen ->
  Books.in_list_order topics (t :: rest) (seen ++ [t]).
Proof.
  intros (done & counts & k & Htopics & Hlen & Hseen).
  exists done, counts, (S k).
  split; [exact Htopics|]. split; [exact Hlen|].
  rewrite Hseen, <- app_assoc. f_equal. simpl. symmetry. apply repeat_cons.
Qed.

Lemma in_list_order_start (topics : list string) :
  Books.in_list_order topics topics [].
Proof.
  exists [], [], 0%nat. split; [reflexivity|]. split; [reflexivity|].
  rewrite front_run_nil. reflexivity.
Qed.

Lemma in_list_order_blocks (topics queue seen : list string) :
  Books.in_list_order topics queue seen ->
  exists counts,
    List.length counts = List.length topics
    /\ seen = in_blocks topics counts.
Proof.
  intros (done & counts & k & -> & Hlen & ->).
  destruct queue as [| t rest].
  - exists counts. rewrite !app_nil_r. split; [exact Hlen | reflexivity].
  - exists (counts ++ k :: repeat 0%nat (List.length rest))%list. split.
    + rewrite !length_app. simpl. rewrite repeat_length, Hlen. reflexivity.
    + rewrite in_blocks_app by exact Hlen. simpl.
      rewrite in_blocks_none, app_nil_r. reflexivity.
Qed.

Section SessionOrder.

Variable date_after : Z -> string.
Variable session_info : SessionPattern.
Variable topic_times : dict num.
Variable topics weak : list string.

Lemma loop_body_keeps_order (earlier : list string) (st st' : LoopState) :
  Books.in_list_order topics (topics_queue st)
    (earlier ++ map topic (sessions (day_schedule st))) ->
  loop_guard st = true ->
  loop_body session_info topic_times weak st = Ok st' ->
  Books.in_list_order topics (topics_queue st')
    (earlier ++ map topic (sessions (day_schedule st'))).
Proof.
  intros Horder Hguard Hbody.
  unfold loop_guard in Hguard. apply andb_true_iff in Hguard.
  destruct Hguard as [_ Hq].
  destruct (topics_queue st) as [| t rest] eqn:Eq; [discriminate|].
  destruct (dict_get topic_times t) as [allotted|] eqn:Et;
    [|unfold loop_body, dict_item in Hbody; rewrite Eq, Et in Hbody;
      discriminate].
  destruct (dict_get (topic_progress st) t) as [logged|] eqn:Ep;
    [|unfold loop_body, dict_item in Hbody; rewrite Eq, Et, Ep in Hbody;
      discriminate].
  rewrite (@loop_body_front session_info topic_times weak st t rest
             allotted logged Eq Et Ep) in Hbody.
  destruct (num_gt (front_session_hours session_info st allotted logged)
              (PyFloat 0.1)); injection Hbody as <-.
  - cbn [topics_queue day_schedule add_session sessions].
    rewrite map_app, app_assoc. cbn [map emitted_session topic].
    apply in_list_order_emit in Horder.
    destruct (num_ge _ allotted); [apply (in_list_order_pop Horder)|].
    exact Horder.
  - unfold pop_topic. cbn [topics_queue day_schedule]. rewrite Eq. cbn [tl].
    apply (in_list_order_pop Horder).
Qed.

Lemma study_day_keeps_order (daily_hours : num) (times_of_day : list string)
    (c c' : Carry) (day_offset : Z) :
  Forall (fun entry => phase entry = "Learning") (days_done c) ->
  Books.in_list_order topics (queue c)
    (map topic (flat_map sessions (days_done c))) ->
  study_day date_after session_info topic_times daily_hours times_of_day
    weak c day_offset = Ok c' ->
  Forall (fun entry => phase entry = "Learning") (days_done c')
  /\ Books.in_list_order topics (queue c')
       (map topic (flat_map sessions (days_done c'))).
Proof.
  intros Hphases Horder. unfold study_day.
  destruct (cyclic_item times_of_day day_offset) as [slot | e];
    cbn [bind]; [|discriminate].
  match goal with
  | |- context [while_loop ?si ?tt ?w ?f ?s0] =>
      destruct (while_loop si tt w f s0) as [final | e] eqn:Hloop
  end; cbn [bind]; [|discriminate].
  intro H. injection H as <-. cbn [days_done queue].
  pose proof (@while_loop_head session_info topic_times weak _ _ _ Hloop)
    as (Hphase & _).
  cbn [day_schedule phase] in Hphase.
  split.
  - apply Forall_app. split; [exact Hphases|]. constructor; [|constructor].
    exact Hphase.
  - rewrite flat_map_app, map_app. simpl flat_map. rewrite app_nil_r.
    refine (@while_loop_keeps session_info topic_times weak
              (fun st =>
                 Books.in_list_order topics (topics_queue st)
                   (map topic (flat_map sessions (days_done c))
                      ++ map topic (sessions (day_schedule st))))
              _ _ _ _ _ Hloop).
    + intros st st'. apply loop_body_keeps_order.
    + cbn [topics_queue day_schedule sessions map]. rewrite app_nil_r.
      exact Horder.
Qed.

Lemma study_phase_keeps_order (daily_hours : num)
    (times_of_day : list string) (days : list Z) (c c' : Carry) :
  Forall (fun entry => phase entry = "Learning") (days_done c)
  /\ Books.in_list_order topics (queue c)
       (map topic (flat_map sessions (days_done c))) ->
  for_each (study_day date_after session_info topic_times daily_hours
              times_of_day weak) days c = Ok c' ->
  Forall (fun entry => phase entry = "Learning") (days_done c')
  /\ Books.in_list_order topics (queue c')
       (map topic (flat_map sessions (days_done c'))).
Proof.
  apply (@for_each_keeps _ _ _
           (fun c =>
              Forall (fun entry => phase entry = "Learning") (days_done c)
              /\ Books.in_list_order topics (queue c)
                   (map topic (flat_map sessions (days_done c))))).
  intros s x s' [Hphases Horder].
  apply study_day_keeps_order; assumption.
Qed.

End SessionOrder.

Section ScheduleOrder.

Variable date_after : Z -> string.

(** The learning sessions of the schedule take the topics in the order of
    the list, the sessions on one topic in a row. *)
Lemma create_daily_schedule_order (topics : list string)
    (topic_times : dict num) (deadline_days : Z) (daily_hours : num)
    (times_of_day : list string) (pattern : string) (weak : list string)
    (subject_name : string) (schedule : list DaySchedule) :
  _create_daily_schedule date_after topics topic_times deadline_days
    daily_hours times_of_day pattern weak subject_name = Ok schedule ->
  exists counts,
    List.length counts = List.length topics
    /\ map topic (learning_sessions schedule) = in_blocks topics counts.
Proof.
  unfold _create_daily_schedule.
  destruct (dict_item self_session_patterns pattern) as [session_info | e];
    cbn [bind]; [|discriminate].
  match goal with
  | |- context [for_each (study_day ?x1 ?x2 ?x3 ?x4 ?x5 ?x6) ?days ?s] =>
      destruct (for_each (study_day x1 x2 x3 x4 x5 x6) days s)
        as [after_learning | e] eqn:Hlearn
  end; cbn [bind]; [|discriminate].
  match goal with
  | |- context [for_each (revision_day ?x1 ?x2 ?x3 ?x4 ?x5 ?x6 ?x7) ?days ?s] =>
      destruct (for_each (revision_day x1 x2 x3 x4 x5 x6 x7) days s)
        as [after_revision | e] eqn:Hrevise
  end; cbn [bind]; [|discriminate].
  intro H. injection H as <-.
  apply (@study_phase_keeps_order date_after session_info topic_times topics
           weak daily_hours times_of_day) in Hlearn.
  2:{ cbn [days_done queue flat_map map]. split; [constructor|].
      apply in_list_order_start. }
  destruct Hlearn as [Hphases Horder].
  apply revision_phase_days in Hrevise.
  destruct Hrevise as (revised & -> & Hrall).
  rewrite learning_sessions_app, (learning_sessions_revised Hrall),
    app_nil_r, (learning_sessions_learned Hphases).
  eapply in_list_order_blocks. exact Horder.
Qed.

End ScheduleOrder.

(** ** The minutes of a revision day *)

Lemma Qsum_cons (q : Q) (qs : list Q) :
  Spec.Qsum (q :: qs) = q + Spec.Qsum qs.
Proof. reflexivity. Qed.

Lemma minutes_total_map {A : Type} (f : A -> Session) (minutes : num)
    (xs : list A) :
  (forall x, duration_minutes (f x) = minutes) ->
  minutes_total (map f xs) == inject_Z (len xs) * num_Q minutes.
Proof.
  intro Hf. unfold minutes_total, len.
  induction xs as [| x xs IH].
  - simpl. change (inject_Z 0) with 0. lra.
  - cbn [map List.length]. rewrite Qsum_cons, IH, Hf.
    rewrite Nat2Z.inj_succ. unfold Z.succ. rewrite inject_Z_plus.
    change (inject_Z 1) with 1. lra.
Qed.

Lemma floor_share_le (x : Q) (n : Z) :
  (0 < n)%Z -> inject_Z n * inject_Z (Qfloor (x / inject_Z n)) <= x.
Proof.
  intro Hn. pose proof (Qfloor_le (x / inject_Z n)) as Hle.
  assert (Hpos : 0 < inject_Z n).
  { change 0 with (inject_Z 0). rewrite <- Zlt_Qlt. exact Hn. }
  assert (E : x == inject_Z n * (x / inject_Z n)).
  { field. intro E0. rewrite E0 in Hpos. discriminate. }
  rewrite E at 2. apply Qmult_le_l; assumption.
Qed.

Lemma revision_day_within_hours (topics weak : list string)
    (daily_hours : num) (times_of_day : list string) (revision_days : Z)
    (offset : Z) (entry : DaySchedule) :
  revision_day_of topics weak daily_hours times_of_day revision_days offset
    entry ->
  0 <= num_Q daily_hours ->
  total_hours entry = daily_hours
  /\ minutes_total (sessions entry) <= 60 * num_Q daily_hours.
Proof.
  intros (Hphase & Htotal & _ & Hsessions) Hhours.
  split; [exact Htotal|].
  destruct (revision_phase_name_cases revision_days offset)
    as [[_ Hname] | [[_ Hname] | (_ & _ & Hname)]];
    rewrite Hphase, Hname in Hsessions.
  - rewrite final_review_sessions in Hsessions. injection Hsessions as <-.
    rewrite minutes_total_one. cbn [duration_minutes num_Q].
    rewrite Qtruncate_nonneg by lra.
    pose proof (Qfloor_le (num_Q daily_hours * 30)). lra.
  - apply intensive_revision_sessions in Hsessions.
    destruct Hsessions as (minutes & -> & Hminutes).
    rewrite (minutes_total_map (intensive_session minutes) (minutes := minutes))
      by reflexivity.
    rewrite Hminutes. destruct weak as [| w weak'].
    + change (inject_Z (len [])) with 0. lra.
    + assert (Hlen : (0 < len (w :: weak'))%Z)
        by (unfold len; simpl List.length; lia).
      rewrite Z.max_l by lia.
      rewrite Qmult_comm with (x := 60).
      apply floor_share_le. exact Hlen.
  - apply plain_revision_sessions in Hsessions.
    destruct Hsessions as (minutes & -> & Hminutes).
    rewrite (minutes_total_map (plain_revision_session minutes)
               (minutes := minutes)) by reflexivity.
    rewrite Hminutes. destruct topics as [| t topics'].
    + change (inject_Z (len [])) with 0. lra.
    + rewrite Qmult_comm with (x := 60).
      apply floor_share_le. unfold len; simpl List.length; lia.
Qed.


(** ** Feasible and infeasible plans *)

Lemma allotted_hours_nonneg (topics : list string) (pace : string)
    (weak : list string) (levels : option (dict string)) (times : dict num) :
  _calculate_topic_times topics pace weak levels = Ok times ->
  forall t allotted,
    dict_get times t = Some allotted -> 0 <= num_Q allotted.
Proof.
  intros Htimes t allotted Hget.
  destruct (dict_item self_learning_pace pace) as [info | e] eqn:Hinfo.
  2:{ unfold _calculate_topic_times in Htimes. rewrite Hinfo in Htimes.
      discriminate. }
  erewrite calculate_topic_times_get in Hget by eassumption.
  destruct (str_in t topics); [|discriminate].
  injection Hget as <-.
  pose proof (@topic_hours_bounds pace info weak levels t Hinfo) as [Hlo _].
  lra.
Qed.

Lemma Qfloor_ge_iff (x : Q) (n : Z) :
  inject_Z n <= x <-> (n <= Qfloor x)%Z.
Proof.
  split; intro H.
  - rewrite <- (Qfloor_Z n). apply Qfloor_resp_le, H.
  - pose proof (Qfloor_le x) as Hle. rewrite Zle_Qle in H. lra.
Qed.

(** The activities of a session depend on its length through the whole
    minutes alone. *)
Lemma generate_activities_whole_minutes (t : string) (hours : num)
    (is_weak : bool) :
  _generate_activities t hours is_weak
  = _generate_activities t
      (PyFloat (inject_Z (Qfloor (num_Q hours * 60)) / 60)) is_weak.
Proof.
  assert (Hsame : forall bound : num, forall n : Z,
            num_Q bound * 60 == inject_Z n ->
            num_ge hours bound
            = num_ge (PyFloat (inject_Z (Qfloor (num_Q hours * 60)) / 60))
                     bound).
  { intros bound n Hn. apply eq_true_iff_eq.
    rewrite !num_ge_true. simpl num_Q.
    assert (E1 : num_Q bound <= num_Q hours
                 <-> inject_Z n <= num_Q hours * 60) by (split; lra).
    assert (E2 : num_Q bound <= inject_Z (Qfloor (num_Q hours * 60)) / 60
                 <-> inject_Z n <= inject_Z (Qfloor (num_Q hours * 60))).
    { set (m := inject_Z (Qfloor (num_Q hours * 60))).
      assert (E : m / 60 == m * (1 # 60)) by (field; discriminate).
      rewrite E. split; lra. }
    rewrite E1, E2, Qfloor_ge_iff, <- Zle_Qle. reflexivity. }
  unfold _generate_activities.
  rewrite <- (Hsame (PyFloat 1.5) 90%Z) by reflexivity.
  rewrite <- (Hsame (PyInt 1) 60%Z) by reflexivity.
  reflexivity.
Qed.

Lemma generate_activities_short (t : string) (hours : num) (is_weak : bool) :
  num_Q hours < 1 ->
  _generate_activities t hours is_weak
  = ([ ("Quick review of " ++ t ++ " concepts")%string;
       "Practice 2-3 problems" ]
       ++ (if is_weak
           then ["Extra focus needed - spend more time on examples"]
           else []))%list.
Proof.
  intro H. unfold _generate_activities.
  assert (E1 : num_ge hours (PyFloat 1.5) = false).
  { destruct (num_ge hours (PyFloat 1.5)) eqn:E; [|reflexivity].
    apply num_ge_true in E. simpl num_Q in E. lra. }
  assert (E2 : num_ge hours (PyInt 1) = false).
  { destruct (num_ge hours (PyInt 1)) eqn:E; [|reflexivity].
    apply num_ge_true in E. simpl num_Q in E.
    change (inject_Z 1) with 1 in E. lra. }
  rewrite E1, E2. destruct is_weak; reflexivity.
Qed.

Section Verdict.

Variable float_repr : Q -> string.
Variable date_after : Z -> string.

(** A feasible plan comes with its schedule. *)
Lemma feasible_plan_schedule (profile : StudentProfile)
    (subject_name : string) (topics : list string) (deadline_days : Z)
    (levels : option (dict string)) (plan : Plan) :
  generate_personalized_plan float_repr date_after profile subject_name topics
    deadline_days levels = Ok plan ->
  feasible plan = Some true ->
  exists times info schedule,
    _calculate_topic_times topics
      (get_default (learning_pace profile) "moderate")
      (get_default (weak_areas profile) []) levels = Ok times
    /\ dict_item self_learning_pace
         (get_default (learning_pace profile) "moderate") = Ok info
    /\ num_Q (needed_hours times info)
       <= num_Q (available_hours deadline_days profile)
    /\ _create_daily_schedule date_after topics times deadline_days
         (get_default (daily_available_hours profile) (PyInt 3))
         (get_default (preferred_times profile) ["evening"])
         (get_default (study_pattern profile) "pomodoro")
         (get_default (weak_areas profile) []) subject_name = Ok schedule
    /\ daily_plan plan = Some schedule
    /\ total_hours_needed plan = Some (round1 (needed_hours times info))
    /\ total_hours_available plan
       = Some (available_hours deadline_days profile)
    /\ buffer_hours plan
       = Some (round1 (num_sub (available_hours deadline_days profile)
                               (needed_hours times info))).
Proof.
  intros Hgen Hfeasible. apply generate_cases in Hgen.
  destruct Hgen as (times & info & Htimes & Hinfo & Hcase).
  destruct Hcase as [[_ Hresp] | (Hle & schedule & Hs & ->)].
  { apply infeasible_response_flag in Hresp. congruence. }
  apply num_gt_false in Hle.
  exists times, info, schedule. repeat split; assumption.
Qed.

(** With hours enough, and a pattern, a time of day and a topic, the plan
    is feasible. *)
Lemma generate_when_enough (profile : StudentProfile) (subject_name : string)
    (topics : list string) (deadline_days : Z)
    (levels : option (dict string)) (times : dict num) (info : PaceInfo) :
  _calculate_topic_times topics
    (get_default (learning_pace profile) "moderate")
    (get_default (weak_areas profile) []) levels = Ok times ->
  dict_item self_learning_pace
    (get_default (learning_pace profile) "moderate") = Ok info ->
  dict_get self_session_patterns
    (get_default (study_pattern profile) "pomodoro") <> None ->
  get_default (preferred_times profile) ["evening"] <> [] ->
  topics <> [] ->
  num_Q (needed_hours times info)
  <= num_Q (available_hours deadline_days profile) ->
  exists plan,
    generate_personalized_plan float_repr date_after profile subject_name
      topics deadline_days levels = Ok plan
    /\ feasible plan = Some true.
Proof.
  intros Htimes Hinfo Hpattern Hslots Htopics Hle.
  rewrite (@generate_with_pace float_repr date_after profile subject_name
             topics deadline_days levels times info Htimes Hinfo).
  apply num_gt_false in Hle. rewrite Hle.
  destruct (@create_daily_schedule_ok date_after topics times deadline_days
              (get_default (daily_available_hours profile) (PyInt 3))
              (get_default (preferred_times profile) ["evening"])
              (get_default (study_pattern profile) "pomodoro")
              (get_default (weak_areas profile) []) subject_name
              Hpattern Hslots Htopics
              (calculate_topic_times_covers _ _ _ _ Htimes))
    as (schedule & ->).
  cbn [bind]. eexists. split; reflexivity.
Qed.

(** With too few hours, days other than 0 and positive daily hours, the
    plan is infeasible. *)
Lemma generate_when_short (profile : StudentProfile) (subject_name : string)
    (topics : list string) (deadline_days : Z)
    (levels : option (dict string)) (times : dict num) (info : PaceInfo) :
  _calculate_topic_times topics
    (get_default (learning_pace profile) "moderate")
    (get_default (weak_areas profile) []) levels = Ok times ->
  dict_item self_learning_pace
    (get_default (learning_pace profile) "moderate") = Ok info ->
  deadline_days <> 0%Z ->
  0 < num_Q (get_default (daily_available_hours profile) (PyInt 3)) ->
  num_Q (available_hours deadline_days profile)
  < num_Q (needed_hours times info) ->
  exists plan,
    generate_personalized_plan float_repr date_after profile subject_name
      topics deadline_days levels = Ok plan
    /\ feasible plan = Some false.
Proof.
  intros Htimes Hinfo Hdays Hhours Hlt.
  rewrite (@generate_with_pace float_repr date_after profile subject_name
             topics deadline_days levels times info Htimes Hinfo).
  apply num_gt_true in Hlt. rewrite Hlt.
  destruct (@infeasible_response_ok float_repr (needed_hours times info)
              (available_hours deadline_days profile) deadline_days
              (get_default (daily_available_hours profile) (PyInt 3))
              Hdays Hhours) as (plan & Hplan).
  exists plan. split; [exact Hplan|].
  apply infeasible_response_flag in Hplan. exact Hplan.
Qed.

End Verdict.

Lemma Forall2_In_r {A B : Type} (R : A -> B -> Prop) (xs : list A)
    (ys : list B) (y : B) :
  Forall2 R xs ys -> In y ys -> exists x, In x xs /\ R x y.
Proof.
  induction 1 as [| x0 y0 xs ys Hxy _ IH]; [intros []|].
  intros [<- | Hin].
  - exists x0. split; [left; reflexivity | exact Hxy].
  - destruct (IH Hin) as (x & Hx & Hr). exists x. split; [right|]; assumption.
Qed.

Lemma learned_phases (session_info : SessionPattern)
    (topics weak : list string) (daily : Q) (learned : list DaySchedule) :
  Forall (Books.learning_day session_info topics weak daily) learned ->
  Forall (fun entry => phase entry = "Learning") learned.
Proof.
  apply Forall_impl. intros entry (Hphase & _). exact Hphase.
Qed.

(** Every session of the learning days came out of the loop. *)
Lemma learned_sessions_emitted (session_info : SessionPattern)
    (topics weak : list string) (daily : Q) (learned : list DaySchedule) :
  Forall (Books.learning_day session_info topics weak daily) learned ->
  Forall (Books.learning_session session_info topics weak)
         (learning_sessions learned).
Proof.
  intro H. rewrite (learning_sessions_learned (learned_phases H)).
  induction H as [| entry learned (_ & Hsessions & _) _ IH]; simpl;
    [constructor|].
  apply Forall_app. split; assumption.
Qed.

Lemma emitted_minutes_whole (weak : list string) (t : string) (hours : num) :
  0 <= num_Q hours ->
  duration_minutes (emitted_session weak t hours)
  = PyInt (Qfloor (num_Q hours * 60)).
Proof.
  intro H. cbn [emitted_session duration_minutes]. rewrite int_of_Q.
  rewrite (@Qtruncate_comp (num_Q (num_mul hours (PyInt 60)))
             (num_Q hours * 60)) by apply num_Q_mul.
  rewrite Qtruncate_nonneg by lra. reflexivity.
Qed.

(** ** A leftover of at most 0.1 hour *)

Section Leftover.

Variable session_info : SessionPattern.
Variable topic_times : dict num.
Variable weak : list string.

(** With at most 0.1 hour left, a pass of the loop body pops the topic at
    the front and changes nothing else. *)
Lemma loop_body_short_leftover (st : LoopState) :
  queue_known topic_times st ->
  topics_queue st <> [] ->
  num_Q (hours_remaining st) <= 0.1 ->
  loop_body session_info topic_times weak st = Ok (pop_topic st).
Proof.
  intros Hknown Hq Hleft.
  destruct (topics_queue st) as [| t rest] eqn:Eq; [contradiction|].
  destruct (Hknown t) as [Ht Hp]; [rewrite Eq; left; reflexivity|].
  destruct (dict_get topic_times t) as [allotted|] eqn:Et; [|congruence].
  destruct (dict_get (topic_progress st) t) as [logged|] eqn:Ep;
    [|congruence].
  rewrite (@loop_body_front session_info topic_times weak st t rest
             allotted logged Eq Et Ep).
  assert (Hshort : num_gt (front_session_hours session_info st allotted
                             logged) (PyFloat 0.1) = false).
  { apply num_gt_false. simpl num_Q.
    pose proof (@front_session_hours_le session_info st allotted logged).
    lra. }
  rewrite Hshort. reflexivity.
Qed.

Lemma while_loop_short_leftover (fuel : nat) (st : LoopState) :
  queue_known topic_times st ->
  0 < num_Q (hours_remaining st) ->
  num_Q (hours_remaining st) <= 0.1 ->
  (List.length (topics_queue st) <= fuel)%nat ->
  while_loop session_info topic_times weak fuel st
  = Ok {| hours_remaining := hours_remaining st;
          topics_queue := [];
          topic_progress := topic_progress st;
          day_schedule := day_schedule st |}.
Proof.
  revert st. induction fuel as [| fuel IH]; intros st Hknown Hpos Hleft Hfuel.
  - destruct st as [remaining queue logged entry]. cbn in *.
    destruct queue; [|simpl in Hfuel; lia].
    unfold loop_guard. cbn. rewrite andb_false_r. reflexivity.
  - cbn [while_loop]. unfold loop_guard.
    destruct (topics_queue st) as [| t rest] eqn:Eq.
    + rewrite andb_false_r. destruct st; cbn in *. subst. reflexivity.
    + assert (Hgt : num_gt (hours_remaining st) (PyInt 0) = true).
      { apply num_gt_true. simpl num_Q. change (inject_Z 0) with 0.
        exact Hpos. }
      rewrite Hgt. cbn [andb].
      rewrite loop_body_short_leftover;
        [|exact Hknown | rewrite Eq; discriminate | exact Hleft].
      cbn [bind]. rewrite IH.
      * unfold pop_topic. cbn. reflexivity.
      * intros t' Ht'. unfold pop_topic in *. cbn in *. apply Hknown.
        rewrite Eq. right. rewrite Eq in Ht'. exact Ht'.
      * exact Hpos.
      * exact Hleft.
      * unfold pop_topic. cbn. rewrite Eq. simpl.
        simpl in Hfuel. lia.
Qed.

Lemma loop_measure_covers_queue (st : LoopState) :
  (List.length (topics_queue st) <= loop_measure st)%nat.
Proof. unfold loop_measure. lia. Qed.

End Leftover.

(** ** The capacity of the learning phase *)








(** ** Learning days without a session *)

Section IdleDays.

Variable date_after : Z -> string.
Variable session_info : SessionPattern.
Variable topic_times : dict num.
Variable weak : list string.
Variable daily_hours : num.
Variable times_of_day : list string.

(** The loop returns only once its guard fails. *)
Lemma while_loop_exit (fuel : nat) (st final : LoopState) :
  while_loop session_info topic_times weak fuel st = Ok final ->
  loop_guard final = false.
Proof.
  revert st. induction fuel as [| fuel IH]; intro st; simpl.
  - destruct (loop_guard st) eqn:Hguard; [discriminate|].
    intro H. injection H as <-. exact Hguard.
  - destruct (loop_guard st) eqn:Hguard.
    + destruct (loop_body session_info topic_times weak st) as [st' | e];
        cbn [bind]; [apply IH | discriminate].
    + intro H. injection H as <-. exact Hguard.
Qed.

(** As long as no session has been emitted the hours are untouched. *)
Lemma loop_body_idle (st st' : LoopState) :
  (sessions (day_schedule st) = [] -> hours_remaining st = daily_hours) ->
  loop_body session_info topic_times weak st = Ok st' ->
  sessions (day_schedule st') = [] -> hours_remaining st' = daily_hours.
Proof.
  intros Hidle. unfold loop_body, dict_item.
  destruct (topics_queue st) as [| t rest]; [discriminate|].
  destruct (dict_get topic_times t); [|discriminate].
  destruct (dict_get (topic_progress st) t); [|discriminate].
  cbn [bind]. rewrite hours_of_minutes_ok. cbn [bind].
  destruct (num_gt _ (PyFloat 0.1)).
  - destruct (num_gt _ (PyInt 0)); [rewrite hours_of_minutes_ok|];
      cbn [bind]; intro H; injection H as <-;
      cbn [day_schedule add_session sessions]; intro Hnil;
      destruct (sessions (day_schedule st)); discriminate.
  - intro H. injection H as <-. exact Hidle.
Qed.

(** A day without a session, or one that starts with nothing to learn,
    leaves nothing to learn. *)
Lemma study_day_idle (c c' : Carry) (day_offset : Z) :
  study_day date_after session_info topic_times daily_hours times_of_day
    weak c day_offset = Ok c' ->
  exists entry,
    days_done c' = (days_done c ++ [entry])%list
    /\ (sessions entry = [] -> Books.learning_over daily_hours c')
    /\ (Books.learning_over daily_hours c ->
        sessions entry = [] /\ Books.learning_over daily_hours c').
Proof.
  unfold study_day.
  destruct (cyclic_item times_of_day day_offset) as [slot | e];
    cbn [bind]; [|discriminate].
  match goal with
  | |- context [while_loop ?si ?tt ?w ?f ?s0] =>
      destruct (while_loop si tt w f s0) as [final | e] eqn:Hloop
  end; cbn [bind]; [|discriminate].
  intro H. injection H as <-. cbn [days_done].
  exists (day_schedule final). split; [reflexivity|].
  pose proof (@while_loop_exit _ _ _ Hloop) as Hexit.
  assert (Hclosed : sessions (day_schedule final) = [] ->
                    Books.learning_over daily_hours
                      {| day_num := (day_num c + 1)%Z;
                         queue := topics_queue final;
                         progress := topic_progress final;
                         days_done :=
                           (days_done c ++ [day_schedule final])%list |}).
  { intro Hnil.
    assert (Hhours : hours_remaining final = daily_hours).
    { refine (@while_loop_keeps session_info topic_times weak
                (fun st =>
                   sessions (day_schedule st) = [] ->
                   hours_remaining st = daily_hours)
                _ _ _ _ _ Hloop Hnil).
      - intros st st' Hst _ Hbody. exact (loop_body_idle st Hst Hbody).
      - intros _. reflexivity. }
    unfold Books.learning_over. cbn [queue].
    unfold loop_guard in Hexit. rewrite Hhours in Hexit.
    apply andb_false_iff in Hexit. destruct Hexit as [Hle | Hq].
    - right. apply num_gt_false in Hle. exact Hle.
    - left. destruct (topics_queue final); [reflexivity | discriminate]. }
  split; [exact Hclosed|].
  intros Hover.
  assert (Hsame : final
                  = {| hours_remaining := daily_hours;
                       topics_queue := queue c;
                       topic_progress := progress c;
                       day_schedule :=
                         {| day := (day_num c + 1)%Z;
                            date := date_after day_offset;
                            phase := "Learning";
                            preferred_time := slot;
                            sessions := [];
                            total_hours := PyInt 0 |} |}).
  { match type of Hloop with
    | while_loop _ _ _ ?f ?s0 = _ =>
        assert (Hguard : loop_guard s0 = false);
        [|destruct f; cbn [while_loop] in Hloop; rewrite Hguard in Hloop;
          injection Hloop as <-; reflexivity]
    end.
    unfold loop_guard. cbn [hours_remaining topics_queue].
    destruct Hover as [-> | Hle]; [apply andb_false_r|].
    apply andb_false_iff. left. apply num_gt_false. exact Hle. }
  assert (Hnil : sessions (day_schedule final) = [])
    by (rewrite Hsame; reflexivity).
  split; [exact Hnil | exact (Hclosed Hnil)].
Qed.

(** Once nothing is left to learn, the days that follow have no
    session. *)
Lemma study_phase_over (days : list Z) (c c' : Carry) :
  Books.learning_over daily_hours c ->
  for_each (study_day date_after session_info topic_times daily_hours
              times_of_day weak) days c = Ok c' ->
  exists learned,
    days_done c' = (days_done c ++ learned)%list
    /\ Forall (fun entry => sessions entry = []) learned.
Proof.
  revert c. induction days as [| d days IH]; intros c Hover; simpl.
  - intro H. injection H as <-. exists []. rewrite app_nil_r.
    split; [reflexivity | constructor].
  - destruct (study_day date_after session_info topic_times daily_hours
                times_of_day weak c d) as [c1 | e] eqn:Hday;
      cbn [bind]; [|discriminate].
    destruct (@study_day_idle _ _ _ Hday) as (entry & Hdone & _ & Hidle).
    destruct (Hidle Hover) as [Hnil Hover1].
    intro H. destruct (IH c1 Hover1 H) as (learned & Hdone' & Hall).
    exists (entry :: learned). split.
    + rewrite Hdone', Hdone, <- app_assoc. reflexivity.
    + constructor; assumption.
Qed.

(** After a learning day without a session no learning day has one. *)
Lemma study_phase_idle_tail (days : list Z) (c c' : Carry) :
  for_each (study_day date_after session_info topic_times daily_hours
              times_of_day weak) days c = Ok c' ->
  exists learned,
    days_done c' = (days_done c ++ learned)%list
    /\ forall before entry after,
         learned = (before ++ entry :: after)%list ->
         sessions entry = [] ->
         Forall (fun later => sessions later = []) after.
Proof.
  revert c. induction days as [| d days IH]; intros c; simpl.
  - intro H. injection H as <-. exists []. rewrite app_nil_r.
    split; [reflexivity|].
    intros [| x before] entry after E; discriminate.
  - destruct (study_day date_after session_info topic_times daily_hours
                times_of_day weak c d) as [c1 | e] eqn:Hday;
      cbn [bind]; [|discriminate].
    destruct (@study_day_idle _ _ _ Hday) as (first & Hdone & Hclosed & _).
    intro H. pose proof H as Hrest.
    apply IH in H. destruct H as (learned & Hdone' & Htail).
    exists (first :: learned). split.
    + rewrite Hdone', Hdone, <- app_assoc. reflexivity.
    + intros [| x before] entry after E Hnil.
      * injection E as <- <-.
        destruct (@study_phase_over _ _ _ (Hclosed Hnil) Hrest)
          as (learned' & Hdone'' & Hall).
        rewrite Hdone' in Hdone''. apply app_inv_head in Hdone''.
        subst learned'. exact Hall.
      * injection E as _ E. apply (Htail before entry after E Hnil).
Qed.

End IdleDays.

Section ScheduleIdle.

Variable date_after : Z -> string.

Lemma create_daily_schedule_idle_tail (topics : list string)
    (topic_times : dict num) (deadline_days : Z) (daily_hours : num)
    (times_of_day : list string) (pattern : string) (weak : list string)
    (subject_name : string) (schedule : list DaySchedule) :
  _create_daily_schedule date_after topics topic_times deadline_days
    daily_hours times_of_day pattern weak subject_name = Ok schedule ->
  exists learned revised,
    schedule = (learned ++ revised)%list
    /\ Forall (fun entry => phase entry = "Learning") learned
    /\ Forall (fun entry => phase entry <> "Learning") revised
    /\ forall before entry after,
         learned = (before ++ entry :: after)%list ->
         sessions entry = [] ->
         Forall (fun later => sessions later = []) after.
Proof.
  unfold _create_daily_schedule.
  destruct (dict_item self_session_patterns pattern) as [session_info | e];
    cbn [bind]; [|discriminate].
  match goal with
  | |- context [for_each (study_day ?x1 ?x2 ?x3 ?x4 ?x5 ?x6) ?days ?s] =>
      destruct (for_each (study_day x1 x2 x3 x4 x5 x6) days s)
        as [after_learning | e] eqn:Hlearn
  end; cbn [bind]; [|discriminate].
  match goal with
  | |- context [for_each (revision_day ?x1 ?x2 ?x3 ?x4 ?x5 ?x6 ?x7) ?days ?s] =>
      destruct (for_each (revision_day x1 x2 x3 x4 x5 x6 x7) days s)
        as [after_revision | e] eqn:Hrevise
  end; cbn [bind]; [|discriminate].
  intro H. injection H as <-.
  pose proof (@study_phase_idle_tail _ _ _ _ _ _ _ _ _ Hlearn)
    as (learned & Hl & Htail).
  apply study_phase_days in Hlearn.
  destruct Hlearn as (learned' & Hl' & Hphases).
  rewrite Hl in Hl'. apply app_inv_head in Hl'. subst learned'.
  cbn [days_done app] in Hl.
  apply revision_phase_days in Hrevise.
  destruct Hrevise as (revised & Hr & Hrall).
  exists learned, revised. split; [rewrite Hr, Hl; reflexivity|].
  split; [|split; [|exact Htail]].
  - clear - Hphases.
    induction Hphases as [| d entry ds entries [Hphase _] _ IH];
      constructor; assumption.
  - clear - Hrall.
    induction Hrall as [| d entry ds entries (Hphase & _) _ IH];
      constructor; [|assumption].
    pose proof (revision_phase_name_not_learning
                  (revision_days_of deadline_days) d) as Hname.
    rewrite <- Hphase in Hname. apply String.eqb_neq, Hname.
Qed.

End ScheduleIdle.

End PlannerInvariants.

(** * Further properties of the planner *)

Module PlannerGuarantees.
Import Py StudyPlanner Observed Measures PyFacts PlannerFacts
  PlannerInvariants.

#[local] Arguments Qred : simpl never.
#[local] Arguments Qplus : simpl never.
#[local] Arguments Qminus : simpl never.
#[local] Arguments Qmult : simpl never.
#[local] Arguments Qdiv : simpl never.
#[local] Arguments Qfloor : simpl never.
#[local] Arguments Qceiling : simpl never.
#[local] Arguments inject_Z : simpl never.
#[local] Arguments Qle_bool : simpl never.
#[local] Arguments Qeq_bool : simpl never.

Section Guarantees.

Variable float_repr : Q -> string.
Variable date_after : Z -> string.

(** ** The allocation dict *)

(** X3: [_calculate_topic_times] allots hours to a topic once however
    often the list names it.  The dict it returns holds the distinct topics
    in the order of their first appearance, so it has no more entries than
    the list has topics, and a list that names a topic again further down
    gets the same dict as the list without that repeat. *)
Theorem repeated_topics_are_allotted_once (topics : list string)
    (pace : string) (weak : list string) (levels : option (dict string))
    (times : dict num) :
  _calculate_topic_times topics pace weak levels = Ok times ->
  map fst times = distinct topics
  /\ NoDup (map fst times)
  /\ (forall t, In t (map fst times) <-> In t topics)
  /\ (len times <= len topics)%Z
  /\ (forall before t after,
        topics = (before ++ t :: after)%list -> In t before ->
        _calculate_topic_times (before ++ after) pace weak levels = Ok times).
Proof.
  intro Htimes.
  destruct (dict_item self_learning_pace pace) as [info | e] eqn:Hinfo.
  2:{ unfold _calculate_topic_times in Htimes. rewrite Hinfo in Htimes.
      discriminate. }
  pose proof (@calculate_topic_times_distinct topics pace weak levels info
                times Hinfo Htimes) as E.
  assert (Hkeys : map fst times = distinct topics).
  { rewrite E, map_map. simpl. apply map_id. }
  split; [exact Hkeys|]. rewrite Hkeys.
  split; [apply distinct_NoDup|]. split; [apply distinct_In|]. split.
  - unfold len. rewrite <- (length_map fst times), Hkeys.
    apply inj_le. apply NoDup_incl_length; [apply distinct_NoDup|].
    intros t Ht. apply distinct_In, Ht.
  - intros before t after -> Hin.
    destruct (@calculate_topic_times_ok (before ++ after) pace weak levels
                info Hinfo) as (times' & Htimes').
    rewrite Htimes'. f_equal.
    rewrite (@calculate_topic_times_distinct (before ++ after) pace weak
               levels info times' Hinfo Htimes'), E.
    rewrite (@distinct_repeat before after t Hin). reflexivity.
Qed.

(** X4: every topic is allotted at least 1 hour and at most 7.8 hours
    (1.5 * 0.7 for an easy topic at the fast pace, 4 * 1.5 * 1.3 for a
    weak, hard topic at the slow pace, each rounded to one decimal). *)
Theorem allotted_hours_are_bounded (topics : list string) (pace : string)
    (weak : list string) (levels : option (dict string)) (times : dict num)
    (t : string) (hours : num) :
  _calculate_topic_times topics pace weak levels = Ok times ->
  dict_get times t = Some hours ->
  1 <= num_Q hours /\ num_Q hours <= 7.8.
Proof.
  intros Htimes Hget.
  destruct (dict_item self_learning_pace pace) as [info | e] eqn:Hinfo.
  2:{ unfold _calculate_topic_times in Htimes. rewrite Hinfo in Htimes.
      discriminate. }
  erewrite calculate_topic_times_get in Hget by eassumption.
  destruct (str_in t topics); [|discriminate].
  injection Hget as <-. eapply topic_hours_bounds. exact Hinfo.
Qed.

(** ** Exceptions *)

(** X6: a learning pace other than "slow", "moderate" and "fast" makes the
    planner raise [KeyError] for that pace, whatever the other arguments,
    an empty topic list included. *)
Theorem unknown_pace_raises_key_error (profile : StudentProfile)
    (subject_name : string) (topics : list string) (deadline_days : Z)
    (levels : option (dict string)) :
  let pace := get_default (learning_pace profile) "moderate" in
  dict_get self_learning_pace pace = None ->
  generate_personalized_plan float_repr date_after profile subject_name topics
    deadline_days levels = Raise (KeyError pace)
  /\ _calculate_topic_times topics pace
       (get_default (weak_areas profile) []) levels = Raise (KeyError pace).
Proof.
  intros pace Hpace. split; [apply generate_unknown_pace, Hpace|].
  unfold _calculate_topic_times, dict_item. rewrite Hpace. reflexivity.
Qed.



(** X9: with an empty list of topics (and a pace and a pattern of the
    tables, a time of day and positive daily hours) nothing is needed, and
    the planner raises [ZeroDivisionError] exactly when [deadline_days] is
    15 or more, the deadlines whose revision phase has a plain "Revision"
    day to divide among the topics.  With a shorter deadline it returns a
    plan, feasible exactly when [deadline_days] is not negative. *)
Theorem plan_without_topics (profile : StudentProfile) (subject_name : string)
    (deadline_days : Z) (levels : option (dict string)) :
  let pace := get_default (learning_pace profile) "moderate" in
  let pattern := get_default (study_pattern profile) "pomodoro" in
  let daily_hours := get_default (daily_available_hours profile) (PyInt 3) in
  let times_of_day := get_default (preferred_times profile) ["evening"] in
  dict_get self_learning_pace pace <> None ->
  dict_get self_session_patterns pattern <> None ->
  0 < num_Q daily_hours ->
  times_of_day <> [] ->
  ((15 <= deadline_days)%Z ->
   generate_personalized_plan float_repr date_after profile subject_name []
     deadline_days levels = Raise ZeroDivisionError)
  /\ ((deadline_days < 15)%Z ->
      exists plan,
        generate_personalized_plan float_repr date_after profile subject_name
          [] deadline_days levels = Ok plan
        /\ (feasible plan = Some true <-> (0 <= deadline_days)%Z)
        /\ (feasible plan = Some false <-> (deadline_days < 0)%Z)).
Proof.
  intros pace pattern daily_hours times_of_day Hpace Hpattern Hhours Hslots.
  destruct (known_pace _ Hpace) as (info & Hinfo).
  destruct (@calculate_topic_times_ok [] pace
              (get_default (weak_areas profile) []) levels info Hinfo)
    as (times & Htimes).
  rewrite (@generate_with_pace float_repr date_after profile subject_name
             [] deadline_days levels times info Htimes Hinfo).
  pose proof (@needed_hours_without_topics pace
                (get_default (weak_areas profile) []) levels info times
                Hinfo Htimes) as Hneeded.
  pose proof (available_hours_Q deadline_days profile) as Havailable.
  fold daily_hours in Havailable. fold pattern times_of_day daily_hours.
  split; intro Hd.
  - assert (Hgt : num_gt (needed_hours times info)
                         (available_hours deadline_days profile) = false).
    { apply num_gt_false. rewrite Hneeded, Havailable.
      assert (0 <= inject_Z deadline_days).
      { change 0 with (inject_Z 0). rewrite <- Zle_Qle. lia. }
      apply Qmult_le_0_compat; lra. }
    rewrite Hgt.
    rewrite create_daily_schedule_without_topics_long by assumption.
    reflexivity.
  - destruct (num_gt (needed_hours times info)
                     (available_hours deadline_days profile)) eqn:Hgt.
    + apply num_gt_true in Hgt. rewrite Hneeded, Havailable in Hgt.
      assert (Hneg : (deadline_days < 0)%Z).
      { destruct (Z_lt_le_dec deadline_days 0) as [Hlt | Hge];
          [exact Hlt|].
        exfalso. rewrite Zle_Qle in Hge. change (inject_Z 0) with 0 in Hge.
        assert (0 <= inject_Z deadline_days * num_Q daily_hours)
          by (apply Qmult_le_0_compat; lra).
        lra. }
      destruct (@infeasible_response_ok float_repr (needed_hours times info)
                  (available_hours deadline_days profile) deadline_days
                  daily_hours) as (plan & Hplan); [lia | exact Hhours|].
      exists plan. split; [exact Hplan|].
      apply infeasible_response_flag in Hplan. rewrite Hplan.
      split; split; intro H; try discriminate; try reflexivity;
        try assumption; lia.
    + apply num_gt_false in Hgt. rewrite Hneeded, Havailable in Hgt.
      assert (Hpos : (0 <= deadline_days)%Z).
      { destruct (Z_lt_le_dec deadline_days 0) as [Hlt | Hge];
          [|exact Hge].
        exfalso. rewrite Zlt_Qlt in Hlt. change (inject_Z 0) with 0 in Hlt.
        nra. }
      destruct (@create_daily_schedule_short_deadline date_after [] times
                  deadline_days daily_hours times_of_day pattern
                  (get_default (weak_areas profile) []) subject_name
                  Hpattern Hslots) as (schedule & ->);
        [intros t [] | exact Hd |].
      cbn [bind]. eexists. split; [reflexivity|]. cbn [feasible].
      split; split; intro H; try discriminate; try reflexivity;
        try assumption; lia.
Qed.

(** X10: with a pace of the table and at least one topic, a deadline of 0
    days or daily hours of 0 make the planner raise [ZeroDivisionError]: at
    least one hour is needed, none is available, and the infeasible
    response divides the hours needed by the days and by the daily
    hours. *)
Theorem zero_days_or_hours_raise (profile : StudentProfile)
    (subject_name : string) (topics : list string) (deadline_days : Z)
    (levels : option (dict string)) :
  let pace := get_default (learning_pace profile) "moderate" in
  let daily_hours := get_default (daily_available_hours profile) (PyInt 3) in
  dict_get self_learning_pace pace <> None ->
  topics <> [] ->
  deadline_days = 0%Z \/ num_Q daily_hours == 0 ->
  generate_personalized_plan float_repr date_after profile subject_name topics
    deadline_days levels = Raise ZeroDivisionError.
Proof.
  intros pace daily_hours Hpace Htopics Hzero.
  destruct (known_pace _ Hpace) as (info & Hinfo).
  destruct (@calculate_topic_times_ok topics pace
              (get_default (weak_areas profile) []) levels info Hinfo)
    as (times & Htimes).
  rewrite (@generate_with_pace float_repr date_after profile subject_name
             topics deadline_days levels times info Htimes Hinfo).
  pose proof (@needed_hours_pos topics pace
                (get_default (weak_areas profile) []) levels info times
                Htopics Hinfo Htimes) as Hneeded.
  pose proof (available_hours_Q deadline_days profile) as Havailable.
  fold daily_hours in Havailable. fold daily_hours.
  assert (Hnone : num_Q (available_hours deadline_days profile) == 0).
  { rewrite Havailable. destruct Hzero as [-> | ->].
    - change (inject_Z 0) with 0. lra.
    - lra. }
  assert (Hgt : num_gt (needed_hours times info)
                       (available_hours deadline_days profile) = true).
  { apply num_gt_true. rewrite Hnone. lra. }
  rewrite Hgt. apply infeasible_response_zero. exact Hzero.
Qed.

(** ** The verdict and its figures *)

(** X11: the deadline that an infeasible plan suggests is enough.  On
    valid input, the response suggests to extend the deadline by
    [new_deadline - deadline_days] days, a positive number; with
    [new_deadline] days or more, everything else unchanged, the plan is
    feasible, and with fewer than [new_deadline - 1] days it is
    infeasible. *)
Theorem extended_deadline_is_feasible (profile : StudentProfile)
    (subject_name : string) (topics : list string) (deadline_days : Z)
    (levels : option (dict string)) (plan : Plan) :
  valid_input profile topics deadline_days ->
  generate_personalized_plan float_repr date_after profile subject_name topics
    deadline_days levels = Ok plan ->
  feasible plan = Some false ->
  exists new_deadline suggested,
    suggestions plan = Some suggested
    /\ In (extend_deadline_suggestion new_deadline deadline_days) suggested
    /\ (deadline_days < new_deadline)%Z
    /\ (forall later,
          (new_deadline <= later)%Z ->
          exists plan',
            generate_personalized_plan float_repr date_after profile
              subject_name topics later levels = Ok plan'
            /\ feasible plan' = Some true)
    /\ (forall sooner,
          (0 < sooner < new_deadline - 1)%Z ->
          exists plan',
            generate_personalized_plan float_repr date_after profile
              subject_name topics sooner levels = Ok plan'
            /\ feasible plan' = Some false).
Proof.
  intros (Hpace & Hpattern & Hhours & Hslots & Htopics & Hdays) Hgen Hflag.
  apply generate_cases in Hgen.
  destruct Hgen as (times & info & Htimes & Hinfo & Hcase).
  destruct Hcase as [[Hgt Hresp] | (_ & schedule & _ & E)];
    [|rewrite E in Hflag; discriminate].
  set (daily_hours := get_default (daily_available_hours profile) (PyInt 3))
    in *.
  set (needed := needed_hours times info) in *.
  assert (Hneeded : 0 <= num_Q needed)
    by (eapply needed_hours_nonneg; eassumption).
  rewrite (@infeasible_response_value float_repr needed
             (available_hours deadline_days profile) deadline_days
             daily_hours) in Hresp by (lia || assumption).
  injection Hresp as <-. cbn [suggestions].
  set (per_day := num_Q needed / num_Q daily_hours).
  assert (Hper : num_Q needed == per_day * num_Q daily_hours).
  { unfold per_day. field. intro E. rewrite E in Hhours. discriminate. }
  pose proof (Qfloor_le per_day) as Hfloor.
  pose proof (Qlt_floor per_day) as Hceil.
  rewrite inject_Z_plus in Hceil. change (inject_Z 1) with 1 in Hceil.
  apply num_gt_true in Hgt. rewrite available_hours_Q in Hgt.
  fold daily_hours in Hgt.
  exists (Qfloor per_day + 1)%Z. eexists. split; [reflexivity|].
  split; [apply in_or_app; right; left; reflexivity|].
  split; [|split].
  - assert (Hd : inject_Z deadline_days <= per_day).
    { apply Qlt_le_weak. apply Qmult_lt_r with (z := num_Q daily_hours);
        [exact Hhours | lra]. }
    apply Qfloor_ge_iff in Hd. lia.
  - intros later Hlater.
    apply (@generate_when_enough float_repr date_after profile subject_name
             topics later levels times info Htimes Hinfo Hpattern Hslots
             Htopics).
    rewrite available_hours_Q. fold daily_hours. fold needed.
    rewrite Zle_Qle, inject_Z_plus in Hlater.
    change (inject_Z 1) with 1 in Hlater.
    assert (per_day * num_Q daily_hours
            <= inject_Z later * num_Q daily_hours).
    { apply Qmult_le_compat_r; lra. }
    lra.
  - intros sooner [Hpos Hsooner].
    apply (@generate_when_short float_repr date_after profile subject_name
             topics sooner levels times info Htimes Hinfo);
      [lia | exact Hhours |].
    rewrite available_hours_Q. fold daily_hours. fold needed.
    assert (Hs : (sooner <= Qfloor per_day - 1)%Z) by lia.
    rewrite Zle_Qle in Hs. unfold Z.sub in Hs.
    rewrite inject_Z_plus, inject_Z_opp in Hs.
    change (inject_Z 1) with 1 in Hs.
    assert (inject_Z sooner * num_Q daily_hours
            < per_day * num_Q daily_hours).
    { apply Qmult_lt_compat_r; lra. }
    lra.
Qed.


(** ** The hours of the schedule *)

(** X16: no topic is given more learning time than it was allotted.  In a
    feasible plan the minutes of the "Learning" sessions on a topic add up
    to at most sixty times the hours that [_calculate_topic_times] allots
    to it, and a topic that is not in the list has no learning session. *)
Theorem no_topic_is_overscheduled (profile : StudentProfile)
    (subject_name : string) (topics : list string) (deadline_days : Z)
    (levels : option (dict string)) (plan : Plan) :
  let pace := get_default (learning_pace profile) "moderate" in
  let weak := get_default (weak_areas profile) [] in
  generate_personalized_plan float_repr date_after profile subject_name topics
    deadline_days levels = Ok plan ->
  feasible plan = Some true ->
  exists times schedule,
    _calculate_topic_times topics pace weak levels = Ok times
    /\ daily_plan plan = Some schedule
    /\ (forall t allotted,
          dict_get times t = Some allotted ->
          minutes_total (sessions_on t (learning_sessions schedule))
          <= 60 * num_Q allotted)
    /\ (forall t,
          ~ In t topics ->
          sessions_on t (learning_sessions schedule) = []).
Proof.
  intros pace weak Hgen Hfeasible.
  destruct (feasible_plan_schedule _ _ _ _ _ _ _ Hgen Hfeasible)
    as (times & info & schedule & Htimes & _ & _ & Hs & Hplan & _).
  exists times, schedule. split; [exact Htimes|]. split; [exact Hplan|].
  apply create_daily_schedule_books in Hs;
    [|eapply allotted_hours_nonneg; exact Htimes].
  destruct Hs as (session_info & learned & revised & logged & _ & -> & _
                  & Hrevised & Hlearned & Hlogged & Hwithin).
  split.
  - intros t allotted Ht.
    pose proof (Hlogged t). pose proof (Hwithin t allotted Ht). lra.
  - intros t Hnot.
    rewrite learning_sessions_app, (learning_sessions_revised Hrevised),
      app_nil_r.
    pose proof (learned_sessions_emitted Hlearned) as Hemitted.
    induction Hemitted as [| s ss (t' & hours & Hin & _ & _ & ->) _ IH];
      [reflexivity|].
    unfold sessions_on in *. cbn [filter emitted_session topic].
    destruct (String.eqb_spec t' t) as [-> | _]; [contradiction | exact IH].
Qed.

(** ** The learning sessions *)

(** X17: every session of a "Learning" day of a feasible plan is on a
    topic of the list, carries the flag [is_weak_area] that says whether
    the topic is among the weak areas, lasts a whole number of minutes, at
    least 6 and at most the session length of the pattern, and lists the
    activities that [_generate_activities] gives for that many minutes. *)
Theorem learning_session_shape (profile : StudentProfile)
    (subject_name : string) (topics : list string) (deadline_days : Z)
    (levels : option (dict string)) (plan : Plan) :
  let pattern := get_default (study_pattern profile) "pomodoro" in
  let weak := get_default (weak_areas profile) [] in
  generate_personalized_plan float_repr date_after profile subject_name topics
    deadline_days levels = Ok plan ->
  feasible plan = Some true ->
  exists schedule pattern_minutes,
    daily_plan plan = Some schedule
    /\ Spec.session_minutes pattern = Some pattern_minutes
    /\ Forall
         (fun s =>
            In (topic s) topics
            /\ is_weak_area s = Some (str_in (topic s) weak)
            /\ exists minutes : Z,
                 duration_minutes s = PyInt minutes
                 /\ (6 <= minutes)%Z
                 /\ inject_Z minutes <= pattern_minutes
                 /\ activities s
                    = _generate_activities (topic s)
                        (PyFloat (inject_Z minutes / 60))
                        (str_in (topic s) weak))
         (learning_sessions schedule).
Proof.
  intros pattern weak Hgen Hfeasible.
  destruct (feasible_plan_schedule _ _ _ _ _ _ _ Hgen Hfeasible)
    as (times & info & schedule & Htimes & _ & _ & Hs & Hplan & _).
  apply create_daily_schedule_books in Hs;
    [|eapply allotted_hours_nonneg; exact Htimes].
  destruct Hs as (session_info & learned & revised & logged & Hinfo & -> & _
                  & Hrevised & Hlearned & _).
  destruct (pattern_table _ Hinfo) as [Hminutes _].
  exists (learned ++ revised)%list, (num_Q (session_length session_info)).
  split; [exact Hplan|]. split; [exact Hminutes|].
  rewrite learning_sessions_app, (learning_sessions_revised Hrevised),
    app_nil_r.
  eapply Forall_impl; [|exact (learned_sessions_emitted Hlearned)].
  intros s (t & hours & Hin & Hlong & Hshort & ->).
  assert (Hnonneg : 0 <= num_Q hours) by lra.
  cbn [emitted_session topic is_weak_area activities].
  split; [exact Hin|]. split; [reflexivity|].
  exists (Qfloor (num_Q hours * 60)).
  split; [apply (@emitted_minutes_whole _ t hours Hnonneg)|].
  split; [apply Qfloor_ge_iff; change (inject_Z 6) with 6; lra|].
  split; [|apply generate_activities_whole_minutes].
  pose proof (Qfloor_le (num_Q hours * 60)) as Hfloor.
  set (length_minutes := num_Q (session_length session_info)) in *.
  assert (E : length_minutes / 60 == length_minutes * (1 # 60))
    by (field; discriminate).
  rewrite E in Hshort. lra.
Qed.

(** X18: with the "pomodoro" and "short_burst" patterns, whose sessions
    are shorter than an hour, every learning session of a feasible plan
    gets the two quick-review activities, followed by the extra-focus note
    when the topic is a weak area; the lists for sessions of an hour and of
    an hour and a half are never used. *)
Theorem short_patterns_get_quick_review (profile : StudentProfile)
    (subject_name : string) (topics : list string) (deadline_days : Z)
    (levels : option (dict string)) (plan : Plan) :
  let pattern := get_default (study_pattern profile) "pomodoro" in
  let weak := get_default (weak_areas profile) [] in
  generate_personalized_plan float_repr date_after profile subject_name topics
    deadline_days levels = Ok plan ->
  feasible plan = Some true ->
  pattern = "pomodoro" \/ pattern = "short_burst" ->
  exists schedule,
    daily_plan plan = Some schedule
    /\ Forall
         (fun s =>
            activities s
            = ([ ("Quick review of " ++ topic s ++ " concepts")%string;
                 "Practice 2-3 problems" ]
                 ++ (if str_in (topic s) weak
                     then ["Extra focus needed - spend more time on examples"]
                     else []))%list)
         (learning_sessions schedule).
Proof.
  intros pattern weak Hgen Hfeasible Hshort_pattern.
  destruct (feasible_plan_schedule _ _ _ _ _ _ _ Hgen Hfeasible)
    as (times & info & schedule & Htimes & _ & _ & Hs & Hplan & _).
  apply create_daily_schedule_books in Hs;
    [|eapply allotted_hours_nonneg; exact Htimes].
  destruct Hs as (session_info & learned & revised & logged & Hinfo & -> & _
                  & Hrevised & Hlearned & _).
  exists (learned ++ revised)%list. split; [exact Hplan|].
  assert (Hlength : num_Q (session_length session_info) / 60 < 1).
  { fold pattern in Hinfo.
    destruct Hshort_pattern as [E | E]; rewrite E in Hinfo;
      injection Hinfo as <-; reflexivity. }
  rewrite learning_sessions_app, (learning_sessions_revised Hrevised),
    app_nil_r.
  eapply Forall_impl; [|exact (learned_sessions_emitted Hlearned)].
  intros s (t & hours & _ & _ & Hshort & ->).
  cbn [emitted_session topic activities].
  apply generate_activities_short. lra.
Qed.

(** X21: the learning sessions take the topics in the order of the list.
    Read day after day, the topics of the "Learning" sessions of a feasible
    plan are the topics of the list, each repeated as often as it has
    sessions (possibly not at all): the sessions on a topic come in one
    run, and no topic is taken up again once a later one has begun. *)
Theorem topics_in_list_order (profile : StudentProfile)
    (subject_name : string) (topics : list string) (deadline_days : Z)
    (levels : option (dict string)) (plan : Plan) :
  generate_personalized_plan float_repr date_after profile subject_name topics
    deadline_days levels = Ok plan ->
  feasible plan = Some true ->
  exists schedule counts,
    daily_plan plan = Some schedule
    /\ List.length counts = List.length topics
    /\ map topic (learning_sessions schedule) = in_blocks topics counts.
Proof.
  intros Hgen Hfeasible.
  destruct (feasible_plan_schedule _ _ _ _ _ _ _ Hgen Hfeasible)
    as (times & info & schedule & _ & _ & _ & Hs & Hplan & _).
  apply create_daily_schedule_order in Hs.
  destruct Hs as (counts & Hlen & Horder).
  exists schedule, counts. auto.
Qed.

(** ** The calendar *)

(** X20: the time of day of a day is taken from the list of preferred
    times by the day's place in its own phase: the learning days go round
    the list from its first entry, and the revision days start again from
    the first entry instead of going on where the learning days
    stopped. *)
Theorem time_of_day_rotation (profile : StudentProfile)
    (subject_name : string) (topics : list string) (deadline_days : Z)
    (levels : option (dict string)) (plan : Plan) :
  let times_of_day := get_default (preferred_times profile) ["evening"] in
  generate_personalized_plan float_repr date_after profile subject_name topics
    deadline_days levels = Ok plan ->
  feasible plan = Some true ->
  exists learned revised,
    daily_plan plan = Some (learned ++ revised)%list
    /\ len revised = Spec.revision_days deadline_days
    /\ Forall (fun entry => phase entry = "Learning") learned
    /\ (forall k entry,
          nth_error learned k = Some entry ->
          nth_error times_of_day (k mod List.length times_of_day)
          = Some (preferred_time entry))
    /\ (forall k entry,
          nth_error revised k = Some entry ->
          nth_error times_of_day (k mod List.length times_of_day)
          = Some (preferred_time entry)).
Proof.
  intros times_of_day Hgen Hfeasible.
  destruct (feasible_plan_schedule _ _ _ _ _ _ _ Hgen Hfeasible)
    as (times & info & schedule & _ & _ & _ & Hs & Hplan & _).
  apply create_daily_schedule_days in Hs.
  destruct Hs as (learned & revised & -> & Hl & Hr).
  fold times_of_day in Hl, Hr.
  assert (Hslot : forall k slot,
            cyclic_item times_of_day (Z.of_nat k) = Ok slot ->
            nth_error times_of_day (k mod List.length times_of_day)
            = Some slot).
  { intros k slot Hitem. apply cyclic_item_nth in Hitem.
    unfold len in Hitem. rewrite <- Nat2Z.inj_mod, Nat2Z.id in Hitem.
    exact Hitem. }
  exists learned, revised. split; [exact Hplan|]. split; [|split; [|split]].
  - unfold len. rewrite (Forall2_length_eq Hr), range_length.
    rewrite revision_days_of_spec.
    pose proof (revision_days_at_least_two deadline_days). lia.
  - clear - Hl. induction Hl as [| d entry ds entries [Hphase _] _ IH];
      constructor; assumption.
  - intros k entry Hk.
    destruct (Forall2_nth_error_r k Hl Hk) as (offset & Hoff & _ & Hitem).
    apply range_nth in Hoff. destruct Hoff as [-> _].
    apply Hslot, Hitem.
  - intros k entry Hk.
    destruct (Forall2_nth_error_r k Hr Hk)
      as (offset & Hoff & _ & _ & Hitem & _).
    apply range_nth in Hoff. destruct Hoff as [-> _].
    apply Hslot, Hitem.
Qed.

(** ** The learning loop with little time left *)

(** X22: a leftover of at most 0.1 hour empties the queue.  When the loop
    of a learning day is entered with hours remaining that are positive
    but no more than 0.1, it pops every topic that is still queued without
    scheduling it, and leaves the hours, the progress and the day's entry
    as they are: the queue that is carried to the next day is empty. *)
Theorem short_leftover_empties_queue (session_info : SessionPattern)
    (topic_times : dict num) (weak : list string) (st : LoopState) :
  queue_known topic_times st ->
  0 < num_Q (hours_remaining st) ->
  num_Q (hours_remaining st) <= 0.1 ->
  exists final,
    while_loop session_info topic_times weak (loop_measure st) st = Ok final
    /\ topics_queue final = []
    /\ hours_remaining final = hours_remaining st
    /\ topic_progress final = topic_progress st
    /\ day_schedule final = day_schedule st.
Proof.
  intros Hknown Hpos Hleft. eexists. split.
  - apply while_loop_short_leftover; try assumption.
    apply loop_measure_covers_queue.
  - repeat split.
Qed.

(** ** The allocation, once more *)

(** X25: at each pace a weak area is allotted more hours than the same
    topic would get otherwise, a hard topic more than one without a
    difficulty tag (or with another tag, such as "medium"), and an easy
    topic less. *)
Theorem weak_and_hard_topics_get_more (pace : string) (info : PaceInfo)
    (weak weak' : list string) (levels levels' : option (dict string))
    (t : string) :
  dict_item self_learning_pace pace = Ok info ->
  let hours w l := num_Q (topic_hours (hours_per_topic info) w l t) in
  let tag l := Spec.difficulty_of l t in
  (str_in t weak = true -> str_in t weak' = false ->
   tag levels = tag levels' ->
   hours weak' levels' < hours weak levels)
  /\ (str_in t weak = str_in t weak' ->
      tag levels = Some "hard" -> tag levels' <> Some "hard" ->
      hours weak' levels' < hours weak levels)
  /\ (str_in t weak = str_in t weak' ->
      tag levels = Some "easy" -> tag levels' <> Some "easy" ->
      hours weak levels < hours weak' levels').
Proof.
  intros Hinfo hours tag. unfold hours, tag. rewrite !topic_hours_Q.
  assert (Hbase : num_Q (hours_per_topic info) == 4
                  \/ num_Q (hours_per_topic info) == 2.5
                  \/ num_Q (hours_per_topic info) == 1.5).
  { unfold dict_item, self_learning_pace in Hinfo. simpl dict_get in Hinfo.
    destruct (String.eqb pace "slow");
      [|destruct (String.eqb pace "moderate");
        [|destruct (String.eqb pace "fast"); [|discriminate]]];
      injection Hinfo as <-; simpl; auto using Qeq_refl. }
  assert (Hcomp : forall base w d,
            num_Q (hours_per_topic info) == base ->
            Spec.allocation (num_Q (hours_per_topic info)) w d
            == Spec.allocation base w d).
  { intros base w d E. unfold Spec.allocation. apply Qround1_comp.
    rewrite E. reflexivity. }
  unfold Spec.difficulty_of.
  split; [|split].
  - intros -> -> <-.
    destruct Hbase as [E | [E | E]]; rewrite !(Hcomp _ _ _ E);
      (destruct levels as [levels|];
       [destruct (dict_get levels t) as [d|];
        [destruct (String.eqb d "hard") eqn:E1;
         [|destruct (String.eqb d "easy") eqn:E2]|]|]);
      unfold Spec.allocation, Spec.difficulty_multiplier;
      rewrite ?E1, ?E2; reflexivity.
  - intros <- Hhard Hother.
    assert (Hmult : Spec.difficulty_multiplier
                      match levels' with
                      | Some levels0 => dict_get levels0 t
                      | None => None
                      end == 0.7
                    \/ Spec.difficulty_multiplier
                         match levels' with
                         | Some levels0 => dict_get levels0 t
                         | None => None
                         end == 1).
    { unfold Spec.difficulty_multiplier.
      destruct (match levels' with
                | Some levels0 => dict_get levels0 t
                | None => None
                end) as [d|]; [|right; reflexivity].
      destruct (String.eqb_spec d "hard") as [-> | _]; [congruence|].
      destruct (String.eqb d "easy"); [left | right]; reflexivity. }
    rewrite Hhard.
    assert (Hcomp' : forall base w d m,
              num_Q (hours_per_topic info) == base ->
              Spec.difficulty_multiplier d == m ->
              Spec.allocation (num_Q (hours_per_topic info)) w d
              == Spec.Qround1 (base * Spec.weak_multiplier w * m)).
    { intros base w d m E Em. unfold Spec.allocation. apply Qround1_comp.
      rewrite E, Em. reflexivity. }
    destruct Hbase as [E | [E | E]]; destruct Hmult as [Em | Em];
      rewrite (Hcomp' _ _ _ _ E Em), (Hcomp _ _ _ E);
      destruct (str_in t weak); reflexivity.
  - intros <- Heasy Hother.
    assert (Hmult : Spec.difficulty_multiplier
                      match levels' with
                      | Some levels0 => dict_get levels0 t
                      | None => None
                      end == 1.3
                    \/ Spec.difficulty_multiplier
                         match levels' with
                         | Some levels0 => dict_get levels0 t
                         | None => None
                         end == 1).
    { unfold Spec.difficulty_multiplier.
      destruct (match levels' with
                | Some levels0 => dict_get levels0 t
                | None => None
                end) as [d|]; [|right; reflexivity].
      destruct (String.eqb d "hard"); [left; reflexivity|].
      destruct (String.eqb_spec d "easy") as [-> | _]; [congruence|].
      right. reflexivity. }
    rewrite Heasy.
    assert (Hcomp' : forall base w d m,
              num_Q (hours_per_topic info) == base ->
              Spec.difficulty_multiplier d == m ->
              Spec.allocation (num_Q (hours_per_topic info)) w d
              == Spec.Qround1 (base * Spec.weak_multiplier w * m)).
    { intros base w d m E Em. unfold Spec.allocation. apply Qround1_comp.
      rewrite E, Em. reflexivity. }
    destruct Hbase as [E | [E | E]]; destruct Hmult as [Em | Em];
      rewrite (Hcomp' _ _ _ _ E Em), (Hcomp _ _ _ E);
      destruct (str_in t weak); reflexivity.
Qed.

(** ** The tips and the summary *)

(** X24: the tips do not depend on the topics.  There are between two and
    seven of them: two for a slow or a fast pace, one for the pomodoro or
    the deep-work pattern, two when there is a weak area, and the two
    general tips, which always come last. *)
Theorem tips_are_two_to_seven (profile : StudentProfile)
    (topics topics' : list string) :
  let tips := _generate_personalized_tips profile topics in
  let pace := get_default (learning_pace profile) "moderate" in
  let pattern := get_default (study_pattern profile) "pomodoro" in
  let weak := get_default (weak_areas profile) [] in
  _generate_personalized_tips profile topics' = tips
  /\ List.length tips
     = ((if String.eqb pace "slow" || String.eqb pace "fast" then 2 else 0)
        + (if String.eqb pattern "pomodoro" || String.eqb pattern "deep_work"
           then 1 else 0)
        + (match weak with [] => 0 | _ :: _ => 2 end)
        + 2)%nat
  /\ (2 <= List.length tips <= 7)%nat
  /\ exists before,
       tips
       = (before
            ++ [ "Stay hydrated and take regular breaks";
                 "Get 7-8 hours of sleep for better retention" ])%list.
Proof.
  intros tips pace pattern weak. split; [reflexivity|].
  assert (Hlen : List.length tips
     = ((if String.eqb pace "slow" || String.eqb pace "fast" then 2 else 0)
        + (if String.eqb pattern "pomodoro" || String.eqb pattern "deep_work"
           then 1 else 0)
        + (match weak with [] => 0 | _ :: _ => 2 end)
        + 2)%nat).
  { unfold tips, _generate_personalized_tips. fold pace pattern weak.
    destruct (String.eqb pace "slow"); [|destruct (String.eqb pace "fast")];
      (destruct (String.eqb pattern "pomodoro");
       [|destruct (String.eqb pattern "deep_work")]);
      destruct weak; reflexivity. }
  split; [exact Hlen|]. split.
  - rewrite Hlen.
    destruct (String.eqb pace "slow" || String.eqb pace "fast");
      destruct (String.eqb pattern "pomodoro"
                || String.eqb pattern "deep_work");
      destruct weak; simpl; lia.
  - unfold tips, _generate_personalized_tips. eexists. reflexivity.
Qed.

(** X23: every plan the planner returns can be rendered:
    [get_plan_summary] finds each key it reads, in a feasible plan as in an
    infeasible one, returns a text and leaves the plan as it is. *)
Theorem generated_plan_is_rendered (profile : StudentProfile)
    (subject_name : string) (topics : list string) (deadline_days : Z)
    (levels : option (dict string)) (plan : Plan) :
  generate_personalized_plan float_repr date_after profile subject_name topics
    deadline_days levels = Ok plan ->
  exists text, get_plan_summary float_repr plan = (Ok text, plan).
Proof.
  intro Hgen. apply generate_cases in Hgen.
  destruct Hgen as (times & info & _ & _ & Hcase).
  destruct Hcase as [[_ Hresp] | (_ & schedule & _ & ->)].
  - unfold _generate_infeasible_response in Hresp.
    destruct (num_truediv _ (PyInt deadline_days)); [|discriminate].
    cbn [bind] in Hresp.
    destruct (num_truediv _ _); [|discriminate].
    cbn [bind] in Hresp. injection Hresp as <-.
    eexists. reflexivity.
  - unfold get_plan_summary, and_then, plan_get, plan_item, ret.
    cbn [item get_default negb feasible subject total_topics deadline
         total_hours_needed buffer_hours student_profile daily_plan
         study_tips].
    eexists. reflexivity.
Qed.

(** ** Deadlines under two days *)

(** X27: with a deadline under two days a feasible plan has exactly two
    days, the "Intensive Revision" day and the "Final Review & Mock Test"
    day, and no learning day; their [total_hours] add up to twice the
    daily hours, whatever [deadline_days] is. *)
Theorem short_deadline_has_two_revision_days (profile : StudentProfile)
    (subject_name : string) (topics : list string) (deadline_days : Z)
    (levels : option (dict string)) (plan : Plan) :
  let daily_hours := get_default (daily_available_hours profile) (PyInt 3) in
  generate_personalized_plan float_repr date_after profile subject_name topics
    deadline_days levels = Ok plan ->
  feasible plan = Some true ->
  (deadline_days < 2)%Z ->
  exists schedule,
    daily_plan plan = Some schedule
    /\ len schedule = 2%Z
    /\ map phase schedule
       = ["Intensive Revision"; "Final Review & Mock Test"]
    /\ hours_total schedule == 2 * num_Q daily_hours.
Proof.
  intros daily_hours Hgen Hfeasible Hd.
  destruct (feasible_plan_schedule _ _ _ _ _ _ _ Hgen Hfeasible)
    as (times & info & schedule & _ & _ & _ & Hs & Hplan & _).
  exists schedule. split; [exact Hplan|].
  apply create_daily_schedule_days in Hs.
  destruct Hs as (learned & revised & -> & Hl & Hr).
  rewrite revision_days_short_deadline in Hl, Hr by lia.
  rewrite range_nil in Hl by lia. inversion Hl; subst.
  change (range 2) with [0%Z; 1%Z] in Hr.
  inversion Hr as [| d0 e0 ds0 rest0 H0 Hr0]; subst.
  inversion Hr0 as [| d1 e1 ds1 rest1 H1 Hr1]; subst.
  inversion Hr1; subst.
  destruct H0 as (Hp0 & Ht0 & _). destruct H1 as (Hp1 & Ht1 & _).
  cbn [app]. split; [reflexivity|]. split.
  - cbn [map]. rewrite Hp0, Hp1. reflexivity.
  - unfold hours_total. cbn [map]. rewrite !Qsum_cons, Ht0, Ht1.
    fold daily_hours. simpl. lra.
Qed.

(** ** The capacity of the learning phase *)


(** ** Learning days without a session *)

(** X29: the learning phase does not start again.  In a feasible plan,
    once a "Learning" day has no session, no later "Learning" day has one:
    such a day has emptied the queue of topics, or there are no hours in a
    day. *)
Theorem idle_learning_day_ends_learning (profile : StudentProfile)
    (subject_name : string) (topics : list string) (deadline_days : Z)
    (levels : option (dict string)) (plan : Plan) :
  generate_personalized_plan float_repr date_after profile subject_name topics
    deadline_days levels = Ok plan ->
  feasible plan = Some true ->
  exists learned revised,
    daily_plan plan = Some (learned ++ revised)%list
    /\ Forall (fun entry => phase entry = "Learning") learned
    /\ Forall (fun entry => phase entry <> "Learning") revised
    /\ forall before entry after,
         learned = (before ++ entry :: after)%list ->
         sessions entry = [] ->
         Forall (fun later => sessions later = []) after.
Proof.
  intros Hgen Hfeasible.
  destruct (feasible_plan_schedule _ _ _ _ _ _ _ Hgen Hfeasible)
    as (times & info & schedule & _ & _ & _ & Hs & Hplan & _).
  apply create_daily_schedule_idle_tail in Hs.
  destruct Hs as (learned & revised & -> & Hlearned & Hrevised & Htail).
  exists learned, revised. auto.
Qed.

End Guarantees.

(** "Sorting" listed twice: one entry, and the same dict as for the list
    without the repeat. *)
Lemma repeated_topics_are_allotted_once_witness :
  exists times,
    _calculate_topic_times Edge.sorting_twice "moderate" [] None = Ok times
    /\ map fst times = ["Sorting"; "Graphs"]
    /\ _calculate_topic_times ["Sorting"; "Graphs"] "moderate" [] None
       = Ok times.
Proof.
  eexists. split; [reflexivity|].
  destruct (@repeated_topics_are_allotted_once Edge.sorting_twice "moderate"
              [] None _ eq_refl) as (Hkeys & _ & _ & _ & Hrepeat).
  split; [exact Hkeys|].
  apply (Hrepeat ["Sorting"; "Graphs"] "Sorting" [] eq_refl).
  left. reflexivity.
Defined.

(** The weak, hard topic of the moderate learner: 4.9 hours. *)
Lemma allotted_hours_are_bounded_witness :
  exists times hours,
    _calculate_topic_times ["Recursion"] "moderate" ["Recursion"]
      Sample.hard_recursion = Ok times
    /\ dict_get times "Recursion" = Some hours
    /\ 1 <= num_Q hours /\ num_Q hours <= 7.8.
Proof.
  eexists. eexists. split; [reflexivity|]. split; [reflexivity|].
  apply (@allotted_hours_are_bounded ["Recursion"] "moderate" ["Recursion"]
           Sample.hard_recursion _ "Recursion" _ eq_refl eq_refl).
Defined.

Lemma unknown_pace_raises_key_error_witness :
  generate_personalized_plan Sample.float_repr Sample.date_after
    Edge.turbo_profile "Algorithms" [] 0 None = Raise (KeyError "turbo").
Proof.
  apply (@unknown_pace_raises_key_error Sample.float_repr Sample.date_after
           Edge.turbo_profile "Algorithms" [] 0 None eq_refl).
Defined.



(** No topic: fifteen days fail, fourteen give a plan. *)
Lemma plan_without_topics_witness :
  generate_personalized_plan Sample.float_repr Sample.date_after
    Edge.default_profile "Algorithms" [] 15 None = Raise ZeroDivisionError
  /\ exists plan,
       generate_personalized_plan Sample.float_repr Sample.date_after
         Edge.default_profile "Algorithms" [] 14 None = Ok plan.
Proof.
  split.
  - apply (@plan_without_topics Sample.float_repr Sample.date_after
             Edge.default_profile "Algorithms" 15 None);
      try discriminate; reflexivity || lia.
  - destruct (@plan_without_topics Sample.float_repr Sample.date_after
                Edge.default_profile "Algorithms" 14 None)
      as [_ Hshort]; try discriminate; try reflexivity.
    destruct Hshort as (plan & Hplan & _); [lia|].
    exists plan. exact Hplan.
Defined.

Lemma zero_days_or_hours_raise_witness :
  generate_personalized_plan Sample.float_repr Sample.date_after
    Edge.idle_profile "Algorithms" ["Sorting"] 3 None
  = Raise ZeroDivisionError.
Proof.
  apply (@zero_days_or_hours_raise Sample.float_repr Sample.date_after
           Edge.idle_profile "Algorithms" ["Sorting"] 3 None).
  - discriminate.
  - discriminate.
  - right. reflexivity.
Defined.

(** The slow learner's two days: some later deadline is enough. *)
Lemma extended_deadline_is_feasible_witness :
  exists new_deadline plan',
    (2 < new_deadline)%Z
    /\ generate_personalized_plan Sample.float_repr Sample.date_after
         Sample.slow_profile "Algorithms" Sample.three_topics new_deadline
         None = Ok plan'
    /\ feasible plan' = Some true.
Proof.
  destruct (@extended_deadline_is_feasible Sample.float_repr
              Sample.date_after Sample.slow_profile "Algorithms"
              Sample.three_topics 2 None Sample.slow_plan)
    as (new_deadline & suggested & _ & _ & Hlater & Henough & _).
  - unfold valid_input. simpl. repeat split; discriminate.
  - vm_compute. reflexivity.
  - reflexivity.
  - destruct (Henough new_deadline (Z.le_refl _)) as (plan' & Hplan & Hflag).
    exists new_deadline, plan'. auto.
Defined.


Lemma no_topic_is_overscheduled_witness :
  exists schedule,
    daily_plan Sample.quarter_hours_plan = Some schedule
    /\ minutes_total (sessions_on "Sorting" (learning_sessions schedule))
       <= 150.
Proof.
  destruct (@no_topic_is_overscheduled Sample.float_repr Sample.date_after
              Sample.quarter_hours_profile "Algorithms" Sample.three_topics
              3 None Sample.quarter_hours_plan)
    as (times & schedule & Htimes & Hplan & Hwithin & _).
  - vm_compute. reflexivity.
  - reflexivity.
  - exists schedule. split; [exact Hplan|].
    vm_compute in Htimes. injection Htimes as <-.
    eapply Qle_trans; [apply (Hwithin "Sorting" (PyFloat (5 # 2)) eq_refl)|].
    vm_compute. discriminate.
Defined.

Lemma learning_session_shape_witness :
  exists schedule,
    daily_plan Sample.moderate_plan = Some schedule
    /\ Forall (fun s => In (topic s) ["Recursion"])
              (learning_sessions schedule).
Proof.
  destruct (@learning_session_shape Sample.float_repr Sample.date_after
              Sample.moderate_profile "Algorithms" ["Recursion"] 3
              Sample.hard_recursion Sample.moderate_plan)
    as (schedule & minutes & Hplan & _ & Hshape).
  - vm_compute. reflexivity.
  - reflexivity.
  - exists schedule. split; [exact Hplan|].
    eapply Forall_impl; [|exact Hshape]. intros s [H _]. exact H.
Defined.

Lemma short_patterns_get_quick_review_witness :
  exists schedule,
    daily_plan Sample.moderate_plan = Some schedule
    /\ Forall
         (fun s =>
            activities s
            = ([ ("Quick review of " ++ topic s ++ " concepts")%string;
                 "Practice 2-3 problems" ]
                 ++ (if str_in (topic s) ["Recursion"]
                     then ["Extra focus needed - spend more time on examples"]
                     else []))%list)
         (learning_sessions schedule).
Proof.
  apply (@short_patterns_get_quick_review Sample.float_repr
           Sample.date_after Sample.moderate_profile "Algorithms"
           ["Recursion"] 3 Sample.hard_recursion Sample.moderate_plan).
  - vm_compute. reflexivity.
  - reflexivity.
  - left. reflexivity.
Defined.

Lemma topics_in_list_order_witness :
  exists schedule counts,
    daily_plan Sample.quarter_hours_plan = Some schedule
    /\ List.length counts = 3%nat
    /\ map topic (learning_sessions schedule)
       = in_blocks Sample.three_topics counts.
Proof.
  apply (@topics_in_list_order Sample.float_repr Sample.date_after
           Sample.quarter_hours_profile "Algorithms" Sample.three_topics 3
           None Sample.quarter_hours_plan).
  - vm_compute. reflexivity.
  - reflexivity.
Defined.

Lemma time_of_day_rotation_witness :
  exists learned revised,
    daily_plan Sample.quarter_hours_plan = Some (learned ++ revised)%list
    /\ len revised = 2%Z.
Proof.
  destruct (@time_of_day_rotation Sample.float_repr Sample.date_after
              Sample.quarter_hours_profile "Algorithms" Sample.three_topics
              3 None Sample.quarter_hours_plan)
    as (learned & revised & Hplan & Hlen & _).
  - vm_compute. reflexivity.
  - reflexivity.
  - exists learned, revised. split; [exact Hplan | exact Hlen].
Defined.

(** Three minutes left and two topics queued: both are dropped. *)
Lemma short_leftover_empties_queue_witness :
  exists final,
    while_loop Sample.pomodoro Edge.three_topic_times []
      (loop_measure Edge.three_minutes_left) Edge.three_minutes_left
    = Ok final
    /\ topics_queue final = [].
Proof.
  destruct (@short_leftover_empties_queue Sample.pomodoro
              Edge.three_topic_times [] Edge.three_minutes_left)
    as (final & Hloop & Hqueue & _).
  - intros t [<- | [<- | []]]; split; discriminate.
  - reflexivity.
  - vm_compute. discriminate.
  - exists final. split; assumption.
Defined.

Lemma weak_and_hard_topics_get_more_witness :
  num_Q (topic_hours (PyFloat 2.5) [] None "Recursion")
  < num_Q (topic_hours (PyFloat 2.5) ["Recursion"] None "Recursion").
Proof.
  destruct (@weak_and_hard_topics_get_more "moderate"
              {| hours_per_topic := PyFloat 2.5;
                 revision_ratio := PyFloat 0.3 |}
              ["Recursion"] [] None None "Recursion" eq_refl)
    as [Hweak _].
  apply Hweak; reflexivity.
Defined.

Lemma generated_plan_is_rendered_witness :
  exists text,
    get_plan_summary Sample.float_repr Sample.slow_plan
    = (Ok text, Sample.slow_plan).
Proof.
  apply (@generated_plan_is_rendered Sample.float_repr Sample.date_after
           Sample.slow_profile "Algorithms" Sample.three_topics 2 None
           Sample.slow_plan).
  vm_compute. reflexivity.
Defined.

(** The fast learner's deadline of one day. *)
Lemma short_deadline_has_two_revision_days_witness :
  exists plan schedule,
    generate_personalized_plan Sample.float_repr Sample.date_after
      Sample.fast_profile "Algorithms" ["Sorting"] 1 None = Ok plan
    /\ daily_plan plan = Some schedule
    /\ len schedule = 2%Z.
Proof.
  eexists.
  destruct (@short_deadline_has_two_revision_days Sample.float_repr
              Sample.date_after Sample.fast_profile "Algorithms" ["Sorting"]
              1 None _ eq_refl eq_refl)
    as (schedule & Hplan & Hlen & _); [lia|].
  exists schedule. split; [reflexivity|]. split; assumption.
Defined.


(** Three hours and three minutes a day: the second learning day is idle,
    and so are the third and the fourth. *)
Lemma idle_learning_day_ends_learning_witness :
  exists learned revised,
    daily_plan Edge.tight_plan = Some (learned ++ revised)%list
    /\ Forall (fun entry => phase entry <> "Learning") revised
    /\ forall before entry after,
         learned = (before ++ entry :: after)%list ->
         sessions entry = [] ->
         Forall (fun later => sessions later = []) after.
Proof.
  destruct (@idle_learning_day_ends_learning Sample.float_repr
              Sample.date_after Edge.tight_profile "Algorithms"
              Sample.three_topics 6 None Edge.tight_plan)
    as (learned & revised & Hplan & _ & Hrevised & Htail).
  - vm_compute. reflexivity.
  - reflexivity.
  - exists learned, revised. auto.
Defined.

(** With three hours and three minutes a day and three topics of two and a
    half hours, six days are more than enough on paper: 18.3 hours against
    9.75 needed.  The first day gives "Sorting" its six sessions, the three
    minutes that are left drop "Graphs" and "Hashing" from the queue, and
    the three learning days that follow stay empty. *)
Example three_minutes_drop_two_topics :
  exists schedule,
    generate_personalized_plan Sample.float_repr Sample.date_after
      Edge.tight_profile "Algorithms" Sample.three_topics 6 None
    = Ok Edge.tight_plan
    /\ feasible Edge.tight_plan = Some true
    /\ daily_plan Edge.tight_plan = Some schedule
    /\ map phase schedule
       = [ "Learning"; "Learning"; "Learning"; "Learning";
           "Intensive Revision"; "Final Review & Mock Test" ]
    /\ map (fun entry => map topic (sessions entry)) schedule
       = [ repeat "Sorting" 6; []; []; []; []; ["All Topics"] ].
Proof.
  eexists. split; [vm_compute; reflexivity|]. repeat split.
Qed.

End PlannerGuarantees.

(** * Facts about the numbers over binary64 *)

Module Float64Facts.
Import Floats.
Import Py.
Import Float64.

#[local] Set Warnings "-inexact-float".

(** ** Results *)

Lemma bind_ok {A B : Type} (c : result A) (k : A -> result B) (b : B) :
  bind c k = Ok b -> exists a, c = Ok a /\ k a = Ok b.
Proof.
  destruct c as [a | e]; simpl; [|discriminate].
  intro H. exists a. split; [reflexivity | exact H].
Qed.

(** ** The order *)

Lemma SFcompare_swap (x y : spec_float) :
  SFcompare y x = option_map CompOpp (SFcompare x y).
Proof.
  destruct x as [sx | sx | | sx mx ex], y as [sy | sy | | sy my ey];
    simpl; try reflexivity;
    try (destruct sx; reflexivity); try (destruct sy; reflexivity);
    try (destruct sx, sy; reflexivity).
  destruct sx, sy; simpl; try reflexivity;
    rewrite (Z.compare_antisym ex ey);
    destruct (ex ?= ey)%Z; simpl; try reflexivity;
    pose proof (Pos.compare_cont_antisym mx my Eq) as H; simpl in H.
  - f_equal. f_equal. symmetry. exact H.
  - f_equal. symmetry. exact H.
Qed.

Lemma num_compare_swap (a b : num) :
  num_compare b a = option_map CompOpp (num_compare a b).
Proof.
  destruct a as [x | x], b as [y | y]; simpl.
  - rewrite (Z.compare_antisym x y). reflexivity.
  - reflexivity.
  - destruct (compare_int_float y x) as [[| |] |]; reflexivity.
  - apply SFcompare_swap.
Qed.

Lemma num_lt_compare (a b : num) :
  num_lt a b = match num_compare a b with Some Lt => true | _ => false end.
Proof.
  destruct a as [x | x], b as [y | y]; try reflexivity.
  simpl. rewrite ltb_spec. reflexivity.
Qed.

Lemma num_le_compare (a b : num) :
  num_le a b
  = match num_compare a b with Some (Lt | Eq) => true | _ => false end.
Proof.
  destruct a as [x | x], b as [y | y]; try reflexivity.
  simpl. rewrite leb_spec. reflexivity.
Qed.

Lemma num_eq_compare (a b : num) :
  num_eq a b = match num_compare a b with Some Eq => true | _ => false end.
Proof.
  destruct a as [x | x], b as [y | y]; try reflexivity.
  simpl. rewrite eqb_spec. reflexivity.
Qed.

(** Equal numbers: neither is greater. *)
Lemma num_eq_not_gt (a b : num) : num_eq a b = true -> num_gt a b = false.
Proof.
  unfold num_gt. rewrite num_eq_compare, num_lt_compare, (num_compare_swap a b).
  destruct (num_compare a b) as [[| |] |]; simpl; congruence.
Qed.

(** [a > b] and [a <= b] exclude each other, and one of them holds unless
    a NaN is compared. *)
Lemma num_gt_or_le (a b : num) :
  num_gt a b = negb (num_le a b) \/ unordered a b = true.
Proof.
  unfold num_gt, unordered.
  rewrite num_le_compare, num_lt_compare, (num_compare_swap a b).
  destruct (num_compare a b) as [[| |] |]; simpl; auto.
Qed.

Lemma num_gt_not_le (a b : num) : num_gt a b = true -> num_le a b = false.
Proof.
  unfold num_gt. rewrite num_le_compare, num_lt_compare, (num_compare_swap a b).
  destruct (num_compare a b) as [[| |] |]; simpl; congruence.
Qed.

(** ** Signs

    A sum, a product and a quotient of numbers none of which is negative
    is not negative either, whatever the rounding. *)

Lemma binary_round_aux_sign (mx ex : Z) (lx : location) :
  no_negative (binary_round_aux prec emax false mx ex lx) = true.
Proof.
  unfold binary_round_aux.
  destruct (shr_fexp prec emax mx ex lx) as [mrs' e'].
  destruct (shr_fexp prec emax _ e' loc_Exact) as [mrs'' e''].
  destruct (shr_m mrs''); [reflexivity | | reflexivity].
  destruct (e'' <=? emax - prec)%Z; reflexivity.
Qed.

Lemma binary_round_sign (mx : positive) (ex : Z) :
  no_negative (binary_round prec emax false mx ex) = true.
Proof.
  unfold binary_round. destruct (shl_align mx ex _) as [mz ez].
  apply binary_round_aux_sign.
Qed.

Lemma binary_normalize_sign (m e : Z) :
  (0 <= m)%Z -> no_negative (binary_normalize prec emax m e false) = true.
Proof.
  destruct m as [| p | p]; intro H; simpl.
  - reflexivity.
  - apply binary_round_sign.
  - exfalso. apply H. reflexivity.
Qed.

Lemma SFadd_sign (x y : spec_float) :
  no_negative x = true -> no_negative y = true ->
  no_negative (SFadd prec emax x y) = true.
Proof.
  destruct x as [sx | [|] | | [|] mx ex], y as [sy | [|] | | [|] my ey];
    simpl; try discriminate; try reflexivity; intros _ _.
  - destruct sx, sy; reflexivity.
  - apply binary_round_sign.
Qed.

Lemma SFmul_sign (x y : spec_float) :
  no_negative x = true -> no_negative y = true ->
  no_negative (SFmul prec emax x y) = true.
Proof.
  destruct x as [sx | [|] | | [|] mx ex], y as [sy | [|] | | [|] my ey];
    simpl; try discriminate; try reflexivity; intros _ _.
  apply binary_round_aux_sign.
Qed.

(** The quotient by a number that is not a zero. *)
Lemma SFdiv_sign (x y : spec_float) :
  no_negative x = true -> no_negative y = true ->
  SFeqb y (S754_zero false) = false ->
  no_negative (SFdiv prec emax x y) = true.
Proof.
  destruct x as [sx | [|] | | [|] mx ex], y as [sy | [|] | | [|] my ey];
    simpl; try discriminate; try reflexivity; intros _ _ _.
  destruct (SFdiv_core_binary prec emax (Z.pos mx) ex (Z.pos my) ey)
    as [[mz ez] lz].
  apply binary_round_aux_sign.
Qed.

Lemma SF2Prim_sign (x : spec_float) :
  no_negative x = true -> no_negative (Prim2SF (SF2Prim x)) = true.
Proof.
  destruct x as [[|] | [|] | | [|] m e]; try discriminate; intros _;
    try (vm_compute; reflexivity).
  unfold SF2Prim, Z.ldexp.
  rewrite ldshiftexp_spec, of_uint63_spec.
  pose proof (Uint63.to_Z_bounded (Uint63.of_Z (Z.pos m))) as [Hm _].
  pose proof (binary_normalize_sign 0 Hm) as Hsign.
  destruct (binary_normalize prec emax _ 0 false) as [s | s | | s mx ex];
    try exact Hsign.
  destruct s; [discriminate Hsign|].
  apply binary_round_sign.
Qed.

Lemma to_float_sign (a : num) (f : float) :
  not_negative a = true -> to_float a = Ok f ->
  no_negative (Prim2SF f) = true.
Proof.
  destruct a as [z | x].
  - intros Hz H. apply Z.leb_le in Hz.
    unfold to_float, float_of_int, nearest in H.
    assert (E : f = SF2Prim (binary_normalize prec emax z 0 false)).
    { destruct (binary_normalize prec emax z 0 false);
        try discriminate H; injection H as <-; reflexivity. }
    subst f. apply SF2Prim_sign. apply binary_normalize_sign. exact Hz.
  - intros Hx H. injection H as <-. exact Hx.
Qed.

Lemma num_add_sign (a b c : num) :
  not_negative a = true -> not_negative b = true ->
  num_add a b = Ok c -> not_negative c = true.
Proof.
  intros Ha Hb.
  assert (Hfloat : (let* x := to_float a in
                    let* y := to_float b in Ok (PyFloat (x + y))) = Ok c ->
                   not_negative c = true).
  { intro H. apply bind_ok in H. destruct H as (x & Hx & H).
    apply bind_ok in H. destruct H as (y & Hy & H). inversion H; subst.
    simpl. rewrite add_spec.
    apply SFadd_sign;
      [apply (to_float_sign _ Ha Hx) | apply (to_float_sign _ Hb Hy)]. }
  destruct a as [x | x], b as [y | y]; try exact Hfloat.
  simpl in *. intro H. inversion H; subst. simpl.
  apply Z.leb_le. apply Z.leb_le in Ha, Hb. lia.
Qed.

Lemma num_mul_sign (a b c : num) :
  not_negative a = true -> not_negative b = true ->
  num_mul a b = Ok c -> not_negative c = true.
Proof.
  intros Ha Hb.
  assert (Hfloat : (let* x := to_float a in
                    let* y := to_float b in Ok (PyFloat (x * y))) = Ok c ->
                   not_negative c = true).
  { intro H. apply bind_ok in H. destruct H as (x & Hx & H).
    apply bind_ok in H. destruct H as (y & Hy & H). inversion H; subst.
    simpl. rewrite mul_spec.
    apply SFmul_sign;
      [apply (to_float_sign _ Ha Hx) | apply (to_float_sign _ Hb Hy)]. }
  destruct a as [x | x], b as [y | y]; try exact Hfloat.
  simpl in *. intro H. inversion H; subst. simpl.
  apply Z.leb_le. apply Z.leb_le in Ha, Hb. lia.
Qed.

Lemma num_truediv_sign (a b c : num) :
  not_negative a = true -> not_negative b = true ->
  num_truediv a b = Ok c -> not_negative c = true.
Proof.
  intros Ha Hb.
  assert (Hfloat : (let* x := to_float a in
                    let* y := to_float b in
                    if PrimFloat.eqb y 0 then Raise ZeroDivisionError
                    else Ok (PyFloat (x / y))) = Ok c ->
                   not_negative c = true).
  { intro H. apply bind_ok in H. destruct H as (x & Hx & H).
    apply bind_ok in H. destruct H as (y & Hy & H).
    destruct (PrimFloat.eqb y 0) eqn:Hzero; [discriminate|].
    inversion H; subst. simpl. rewrite div_spec.
    apply SFdiv_sign;
      [apply (to_float_sign _ Ha Hx) | apply (to_float_sign _ Hb Hy) |].
    rewrite eqb_spec in Hzero. exact Hzero. }
  destruct a as [x | x], b as [y | y]; try exact Hfloat.
  simpl in *. destruct (y =? 0)%Z; [discriminate|].
  apply Z.leb_le in Ha, Hb.
  assert (Hsign : no_negative (int_quotient x y) = true).
  { unfold int_quotient.
    replace (x <? 0)%Z with false by (symmetry; apply Z.ltb_ge; exact Ha).
    replace (y <? 0)%Z with false by (symmetry; apply Z.ltb_ge; exact Hb).
    simpl. destruct (Z.abs x); try reflexivity.
    destruct (Z.abs y); try reflexivity.
    simpl.
    destruct (SFdiv_core_binary prec emax (Z.pos p) 0 (Z.pos p0) 0)
      as [[mz ez] lz].
    apply binary_round_aux_sign. }
  intro H.
  assert (E : c = PyFloat (SF2Prim (int_quotient x y))).
  { destruct (int_quotient x y);
      try discriminate H; injection H as <-; reflexivity. }
  subst c. apply SF2Prim_sign. exact Hsign.
Qed.

(** The whole part of a float that is not negative is its floor. *)
Lemma int_of_float_floor (x : float) (whole : Z) :
  no_negative (Prim2SF x) = true ->
  int_of_float x = Ok whole -> floor_of_float x = Some whole.
Proof.
  unfold int_of_float, floor_of_float.
  destruct (Prim2SF x) as [s | s | | [|] m e]; simpl;
    try discriminate; intros _ H; inversion H; reflexivity.
Qed.

(** A number that is greater than 0 is not negative. *)
Lemma positive_not_negative (a : num) :
  num_gt a (PyInt 0) = true -> not_negative a = true.
Proof.
  unfold num_gt. destruct a as [z | x]; intro H.
  - destruct z; simpl in H; try discriminate H; reflexivity.
  - cbn [num_lt num_compare] in H. unfold compare_int_float in H.
    cbn [not_negative].
    destruct (Prim2SF x) as [s | [|] | | [|] m e];
      try discriminate H; try reflexivity.
    exfalso. destruct (0 <=? e)%Z eqn:He.
    + apply Z.leb_le in He.
      pose proof (Z.pow_pos_nonneg 2 e ltac:(lia) He) as Hpow.
      assert (E : (0 ?= Z.neg m * 2 ^ e)%Z = Gt).
      { apply Z.compare_gt_iff. nia. }
      rewrite E in H. discriminate H.
    + rewrite Z.mul_0_l in H. discriminate H.
Qed.

Lemma float_round1_sign (x : float) :
  no_negative (Prim2SF x) = true ->
  no_negative (Prim2SF (float_round1 x)) = true.
Proof.
  intro Hx. unfold float_round1.
  destruct (Prim2SF x) as [s | s | | [|] m e] eqn:E;
    try discriminate Hx; try (rewrite E; exact Hx).
  destruct (0 <=? e)%Z; [rewrite E; reflexivity|].
  destruct (tenths m e) as [| k | k]; apply SF2Prim_sign; try reflexivity.
  simpl.
  destruct (SFdiv_core_binary prec emax (Z.pos k) 0 10 0) as [[mz ez] lz].
  apply binary_round_aux_sign.
Qed.

Lemma round1_sign (a : num) :
  not_negative a = true -> not_negative (round1 a) = true.
Proof.
  destruct a as [z | x]; simpl; [auto|]. apply float_round1_sign.
Qed.

Lemma sum_from_sign (hours : list num) (start sum : num) :
  Forall (fun x => not_negative x = true) hours ->
  not_negative start = true ->
  sum_from start hours = Ok sum -> not_negative sum = true.
Proof.
  intro Hall. revert start.
  induction Hall as [| x hours Hx Hall IH]; intros start Hstart; simpl.
  - intro H. injection H as <-. exact Hstart.
  - intro H. apply bind_ok in H. destruct H as (next & Hnext & H).
    apply (IH next); [|exact H].
    apply (num_add_sign _ _ Hstart Hx Hnext).
Qed.

(** A quotient is a float. *)
Lemma num_truediv_float (a b c : num) :
  num_truediv a b = Ok c -> exists q, c = PyFloat q.
Proof.
  assert (Hfloat : (let* x := to_float a in
                    let* y := to_float b in
                    if PrimFloat.eqb y 0 then Raise ZeroDivisionError
                    else Ok (PyFloat (x / y))) = Ok c ->
                   exists q, c = PyFloat q).
  { intro H. apply bind_ok in H. destruct H as (x & Hx & H).
    apply bind_ok in H. destruct H as (y & Hy & H).
    destruct (PrimFloat.eqb y 0); [discriminate|].
    injection H as <-. eexists. reflexivity. }
  destruct a as [x | x], b as [y | y]; try exact Hfloat.
  simpl. destruct (y =? 0)%Z; [discriminate|].
  destruct (int_quotient x y); intro H; try discriminate H;
    injection H as <-; eexists; reflexivity.
Qed.

End Float64Facts.

(** * Facts about the planner over binary64 *)

Module Planner64Facts.
Import Floats.
Import Py.
Import Float64.
Import Planner64.
Import Float64Facts.

#[local] Set Warnings "-inexact-float".

(** Splits a run of [let*] that returned into its steps. *)
Ltac step H :=
  let x := fresh "x" in
  let E := fresh "E" in
  apply bind_ok in H; destruct H as (x & E & H).

(** ** The tables *)

Lemma pace_lookup (pace : string) (info : PaceInfo) :
  dict_item self_learning_pace pace = Ok info ->
  Spec64.base_hours pace = Some (hours_per_topic info)
  /\ Spec64.revision_ratio pace = Some (revision_ratio info).
Proof.
  unfold dict_item, self_learning_pace, Spec64.base_hours,
    Spec64.revision_ratio. simpl.
  destruct (String.eqb pace "slow").
  { intro H. inversion H. split; reflexivity. }
  destruct (String.eqb pace "moderate").
  { intro H. inversion H. split; reflexivity. }
  destruct (String.eqb pace "fast").
  { intro H. inversion H. split; reflexivity. }
  discriminate.
Qed.

Lemma pace_unknown (pace : string) (e : exn) :
  dict_item self_learning_pace pace = Raise e ->
  e = KeyError pace /\ Spec64.base_hours pace = None.
Proof.
  unfold dict_item, self_learning_pace, Spec64.base_hours. simpl.
  destruct (String.eqb pace "slow"); [discriminate|].
  destruct (String.eqb pace "moderate"); [discriminate|].
  destruct (String.eqb pace "fast"); [discriminate|].
  intro H. inversion H. split; reflexivity.
Qed.

(** ** The allocation dict *)

(** The loop body of [_calculate_topic_times] is the specification's
    allocation. *)
Lemma topic_hours_allocation (base : num) (weak : list string)
    (levels : option (dict string)) (t : string) :
  topic_hours base weak levels t
  = Spec64.allocation base (str_in t weak) (Spec.difficulty_of levels t).
Proof.
  unfold topic_hours, Spec64.allocation, Spec.difficulty_of.
  destruct levels as [levels |]; [|reflexivity].
  destruct (dict_get levels t); reflexivity.
Qed.

(** The keys of a dict after [d[k] = v]. *)
Lemma dict_set_keys {V : Type} (d : dict V) (k : string) (v : V) :
  map fst (dict_set d k v)
  = if str_in k (map fst d) then map fst d else (map fst d ++ [k])%list.
Proof.
  induction d as [| [k0 v0] d IH]; simpl; [reflexivity|].
  destruct (String.eqb k k0); simpl; [reflexivity|].
  rewrite IH. destruct (str_in k (map fst d)); reflexivity.
Qed.

(** A dict filled by a loop of [d[k] = f(k)] holds the keys in the order
    of their first appearance, each with the value of [f]. *)
Lemma for_each_dict_set {V : Type} (f : string -> result V)
    (keys : list string) (acc d : dict V) :
  (forall k v, In (k, v) acc -> f k = Ok v) ->
  for_each (fun d k => let* v := f k in Ok (dict_set d k v)) keys acc
  = Ok d ->
  map fst d
  = fold_left
      (fun seen k => if str_in k seen then seen else (seen ++ [k])%list)
      keys (map fst acc)
  /\ (forall k v, In (k, v) d -> f k = Ok v).
Proof.
  revert acc. induction keys as [| k keys IH]; intros acc Hacc; simpl.
  - intro H. inversion H; subst. split; [reflexivity | exact Hacc].
  - intro H. step H. step E. inversion E; subst. clear E.
    apply IH in H.
    + rewrite dict_set_keys in H. exact H.
    + intros k' v' Hin.
      destruct (PlannerFacts.dict_set_entries _ _ _ _ Hin) as [Hold | Hnew].
      * apply Hacc. exact Hold.
      * inversion Hnew; subst. exact E0.
Qed.

Lemma allocations_of_entries (base : num) (weak : list string)
    (levels : option (dict string)) (d : dict num) :
  (forall k v, In (k, v) d -> topic_hours base weak levels k = Ok v) ->
  Spec64.allocations base weak levels (map fst d) = Ok (dict_values d).
Proof.
  induction d as [| [k v] d IH]; intro H; simpl; [reflexivity|].
  rewrite <- topic_hours_allocation.
  rewrite (H k v) by (left; reflexivity). cbn [bind].
  unfold dict_values in IH. rewrite IH; [reflexivity|].
  intros k' v' Hin. apply H. right. exact Hin.
Qed.

(** The dict of [_calculate_topic_times] holds the distinct topics in the
    order of their first appearance, each with its allocation. *)
Lemma calculate_topic_times_entries (topics : list string) (pace : string)
    (weak : list string) (levels : option (dict string))
    (times : dict num) :
  _calculate_topic_times topics pace weak levels = Ok times ->
  exists info,
    dict_item self_learning_pace pace = Ok info
    /\ map fst times = Measures.distinct topics
    /\ (forall t hours, In (t, hours) times ->
        topic_hours (hours_per_topic info) weak levels t = Ok hours)
    /\ Spec64.allocations (hours_per_topic info) weak levels
         (Measures.distinct topics) = Ok (dict_values times).
Proof.
  unfold _calculate_topic_times. intro H. step H.
  exists x. split; [exact E|].
  apply for_each_dict_set in H; [|intros k v []].
  destruct H as [Hkeys Hvalues]. simpl in Hkeys.
  split; [exact Hkeys|]. split; [exact Hvalues|].
  unfold Measures.distinct. rewrite <- Hkeys.
  apply allocations_of_entries. exact Hvalues.
Qed.

(** ** The sum *)

Lemma total_raised (hours : list num) (e : exn) :
  fold_left (fun sum x => let* so_far := sum in num_add so_far x) hours
            (Raise e) = Raise e.
Proof. induction hours as [| x hours IH]; simpl; [reflexivity | exact IH]. Qed.

Lemma sum_from_total (hours : list num) (start : num) :
  sum_from start hours
  = fold_left (fun sum x => let* so_far := sum in num_add so_far x) hours
              (Ok start).
Proof.
  revert start. induction hours as [| x hours IH]; intro start; simpl.
  - reflexivity.
  - destruct (num_add start x) as [next | e]; simpl.
    + apply IH.
    + symmetry. apply total_raised.
Qed.

Lemma py_sum_total (hours : list num) : py_sum hours = Spec64.total hours.
Proof. apply sum_from_total. Qed.

(** ** Signs of the planner's figures *)

Lemma allocation_sign (base : num) (is_weak : bool)
    (difficulty : option string) (hours : num) :
  not_negative base = true ->
  Spec64.allocation base is_weak difficulty = Ok hours ->
  not_negative hours = true.
Proof.
  intros Hbase H. unfold Spec64.allocation in H.
  apply bind_ok in H. destruct H as (first & Hfirst & H).
  apply bind_ok in H. destruct H as (second & Hsecond & H).
  injection H as <-. apply round1_sign.
  assert (H1 : not_negative first = true).
  { destruct is_weak.
    - apply (num_mul_sign _ _ Hbase (eq_refl : not_negative (PyFloat 1.5) = true)
               Hfirst).
    - injection Hfirst as <-. exact Hbase. }
  destruct difficulty as [tag |]; [|injection Hsecond as <-; exact H1].
  destruct (String.eqb tag "hard").
  { apply (num_mul_sign _ _ H1 (eq_refl : not_negative (PyFloat 1.3) = true)
             Hsecond). }
  destruct (String.eqb tag "easy").
  { apply (num_mul_sign _ _ H1 (eq_refl : not_negative (PyFloat 0.7) = true)
             Hsecond). }
  injection Hsecond as <-. exact H1.
Qed.

Lemma allocations_sign (base : num) (weak : list string)
    (levels : option (dict string)) (names : list string)
    (hours : list num) :
  not_negative base = true ->
  Spec64.allocations base weak levels names = Ok hours ->
  Forall (fun x => not_negative x = true) hours.
Proof.
  intro Hbase. revert hours.
  induction names as [| t names IH]; intros hours H; simpl in H.
  - injection H as <-. constructor.
  - apply bind_ok in H. destruct H as (first & Hfirst & H).
    apply bind_ok in H. destruct H as (others & Hothers & H).
    injection H as <-. constructor.
    + apply (@allocation_sign _ _ _ _ Hbase Hfirst).
    + apply IH. exact Hothers.
Qed.

(** The hours needed are not negative. *)
Lemma hours_needed_sign (names : list string) (pace : string)
    (weak : list string) (levels : option (dict string)) (needed : num) :
  Spec64.hours_needed names pace weak levels = Ok needed ->
  not_negative needed = true.
Proof.
  unfold Spec64.hours_needed.
  assert (Htable :
    match Spec64.base_hours pace, Spec64.revision_ratio pace with
    | Some base, Some ratio =>
        not_negative base = true /\ not_negative ratio = true
    | _, _ => True
    end).
  { unfold Spec64.base_hours, Spec64.revision_ratio.
    destruct (String.eqb pace "slow"); [split; reflexivity|].
    destruct (String.eqb pace "moderate"); [split; reflexivity|].
    destruct (String.eqb pace "fast"); [split; reflexivity | exact I]. }
  destruct (Spec64.base_hours pace) as [base |]; [|discriminate].
  destruct (Spec64.revision_ratio pace) as [ratio |]; [|discriminate].
  destruct Htable as [Hbase Hratio]. intro H.
  apply bind_ok in H. destruct H as (hours & Hhours & H).
  apply bind_ok in H. destruct H as (sum & Hsum & H).
  apply bind_ok in H. destruct H as (growth & Hgrowth & H).
  apply (@num_mul_sign sum growth needed); [| | exact H].
  - rewrite <- py_sum_total in Hsum.
    apply (@sum_from_sign hours (PyInt 0) sum);
      [|reflexivity | exact Hsum].
    apply (@allocations_sign _ _ _ _ _ Hbase Hhours).
  - apply (@num_add_sign (PyInt 1) ratio growth);
      [reflexivity | exact Hratio | exact Hgrowth].
Qed.

(** ** The two branches of [generate_personalized_plan] *)

Section Generate.

Variable float_repr : float -> string.
Variable strftime : Z -> string.
Variable current_date : Z.
Variable deadline_now : Z.
Variable fuel : nat.

(** A returned plan comes from one of the two branches, chosen by the
    comparison of the hours needed with the hours available. *)
Lemma generate_branches (profile : StudentProfile) (subject_name : string)
    (topics : list string) (deadline_days : Z)
    (levels : option (dict string)) (plan : Plan) :
  generate_personalized_plan float_repr strftime current_date deadline_now
    fuel profile subject_name topics deadline_days levels = Ok plan ->
  let pace := get_default (learning_pace profile) "moderate" in
  let weak := get_default (weak_areas profile) [] in
  let daily_hours := get_default (daily_available_hours profile) (PyInt 3) in
  exists times needed available,
    _calculate_topic_times topics pace weak levels = Ok times
    /\ Spec64.hours_needed (Measures.distinct topics) pace weak levels
       = Ok needed
    /\ Spec64.hours_available deadline_days daily_hours = Ok available
    /\ ((num_gt needed available = true
         /\ _generate_infeasible_response float_repr needed available
              deadline_days daily_hours = Ok plan)
        \/ (num_gt needed available = false
            /\ exists schedule deadline_date buffer,
                _create_daily_schedule strftime current_date fuel topics
                  times deadline_days daily_hours
                  (get_default (preferred_times profile) ["evening"])
                  (get_default (study_pattern profile) "pomodoro")
                  weak subject_name = Ok schedule
                /\ date_after strftime deadline_now deadline_days
                   = Ok deadline_date
                /\ num_sub available needed = Ok buffer
                /\ plan
                   = {| feasible := Some true;
                        subject := Some subject_name;
                        student_profile := Some profile;
                        total_topics := Some (len topics);
                        deadline := Some deadline_date;
                        total_hours_needed := Some (round1 needed);
                        total_hours_available := Some available;
                        buffer_hours := Some (round1 buffer);
                        daily_plan := Some schedule;
                        study_tips :=
                          Some (_generate_personalized_tips profile topics);
                        message := None;
                        hours_short := None;
                        suggestions := None |})).
Proof.
  intros Hgen pace weak daily_hours. unfold generate_personalized_plan in Hgen.
  fold pace weak daily_hours in Hgen.
  apply bind_ok in Hgen. destruct Hgen as (times & Htimes & Hgen).
  apply bind_ok in Hgen. destruct Hgen as (sum & Hsum & Hgen).
  apply bind_ok in Hgen. destruct Hgen as (available & Havailable & Hgen).
  apply bind_ok in Hgen. destruct Hgen as (info & Hinfo & Hgen).
  apply bind_ok in Hgen. destruct Hgen as (growth & Hgrowth & Hgen).
  apply bind_ok in Hgen. destruct Hgen as (needed & Hneeded & Hgen).
  exists times, needed, available.
  split; [exact Htimes|]. split; [|split; [exact Havailable|]].
  - destruct (calculate_topic_times_entries _ _ _ _ Htimes)
      as (info' & Hinfo' & _ & _ & Hallocations).
    rewrite Hinfo in Hinfo'. injection Hinfo' as <-.
    destruct (pace_lookup _ Hinfo) as [Hbase Hratio].
    unfold Spec64.hours_needed. rewrite Hbase, Hratio, Hallocations.
    cbn [bind]. rewrite <- py_sum_total, Hsum. cbn [bind].
    rewrite Hgrowth. cbn [bind]. exact Hneeded.
  - destruct (num_gt needed available).
    + left. split; [reflexivity | exact Hgen].
    + right. split; [reflexivity|].
      apply bind_ok in Hgen. destruct Hgen as (schedule & Hschedule & Hgen).
      apply bind_ok in Hgen. destruct Hgen as (deadline_date & Hdate & Hgen).
      apply bind_ok in Hgen. destruct Hgen as (buffer & Hbuffer & Hgen).
      exists schedule, deadline_date, buffer.
      split; [exact Hschedule|]. split; [exact Hdate|].
      split; [exact Hbuffer|]. inversion Hgen. reflexivity.
Qed.

(** What the infeasible response holds. *)
Lemma infeasible_response_fields (needed available : num) (days : Z)
    (daily_hours : num) (plan : Plan) :
  _generate_infeasible_response float_repr needed available days daily_hours
  = Ok plan ->
  exists short new_daily_hours per_day whole_days needed_text available_text
         raise_hours,
    num_sub needed available = Ok short
    /\ num_truediv needed (PyInt days) = Ok new_daily_hours
    /\ (if num_le new_daily_hours (PyInt 12) then
          exists figure,
            fmt_1f new_daily_hours = Ok figure
            /\ raise_hours
               = [ ("Study " ++ figure ++ " hours per day instead of "
                      ++ py_str float_repr daily_hours)%string ]
        else raise_hours = [])
    /\ num_truediv needed daily_hours = Ok per_day
    /\ int_of per_day = Ok whole_days
    /\ fmt_1f needed = Ok needed_text
    /\ fmt_1f available = Ok available_text
    /\ plan
       = {| feasible := Some false;
            subject := None;
            student_profile := None;
            total_topics := None;
            deadline := None;
            total_hours_needed := None;
            total_hours_available := None;
            buffer_hours := None;
            daily_plan := None;
            study_tips := None;
            message :=
              Some ("Not enough time! Need " ++ needed_text
                      ++ " hours but only have " ++ available_text
                      ++ " hours.")%string;
            hours_short := Some (round1 short);
            suggestions :=
              Some (raise_hours
                      ++ [ ("Extend deadline by "
                              ++ str_of_Z (whole_days + 1 - days)
                              ++ " days")%string;
                           "Consider switching to 'fast' learning pace if you're confident"
                         ])%list |}.
Proof.
  unfold _generate_infeasible_response. intro H.
  apply bind_ok in H. destruct H as (short & Hshort & H).
  apply bind_ok in H. destruct H as (new_daily_hours & Hnew & H).
  apply bind_ok in H. destruct H as (suggested & Hsuggested & H).
  apply bind_ok in H. destruct H as (per_day & Hper_day & H).
  apply bind_ok in H. destruct H as (whole_days & Hwhole & H).
  apply bind_ok in H. destruct H as (needed_text & Hneeded & H).
  apply bind_ok in H. destruct H as (available_text & Havailable & H).
  exists short, new_daily_hours, per_day, whole_days, needed_text,
    available_text, suggested.
  split; [exact Hshort|]. split; [exact Hnew|]. split.
  { destruct (num_le new_daily_hours (PyInt 12)).
    - apply bind_ok in Hsuggested.
      destruct Hsuggested as (figure & Hfigure & Hsuggested).
      exists figure. split; [exact Hfigure|].
      inversion Hsuggested. reflexivity.
    - inversion Hsuggested. reflexivity. }
  split; [exact Hper_day|]. split; [exact Hwhole|].
  split; [exact Hneeded|]. split; [exact Havailable|].
  inversion H. rewrite <- app_assoc. reflexivity.
Qed.

End Generate.

(** ** The learning-phase loop *)

Lemma pattern_lookup (pattern : string) (session_info : SessionPattern) :
  dict_item self_session_patterns pattern = Ok session_info ->
  Spec64.session_minutes pattern = Some (session_length session_info)
  /\ Spec64.break_minutes pattern = Some (break_length session_info).
Proof.
  unfold dict_item, self_session_patterns, Spec64.session_minutes,
    Spec64.break_minutes. simpl.
  destruct (String.eqb pattern "pomodoro").
  { intro H. injection H as <-. split; reflexivity. }
  destruct (String.eqb pattern "deep_work").
  { intro H. injection H as <-. split; reflexivity. }
  destruct (String.eqb pattern "short_burst").
  { intro H. injection H as <-. split; reflexivity. }
  discriminate.
Qed.

Lemma Forall2_snoc {A B : Type} (R : A -> B -> Prop) (xs : list A)
    (ys : list B) (x : A) (y : B) :
  Forall2 R xs ys -> R x y -> Forall2 R (xs ++ [x]) (ys ++ [y]).
Proof.
  intros Hall Hxy. apply Forall2_app; [exact Hall|].
  constructor; [exact Hxy | constructor].
Qed.

Section LoopRuns.

Variable session_info : SessionPattern.
Variable topic_times : dict num.
Variable weak : list string.

(** One iteration of the loop body is one turn of the specification. *)
Lemma loop_body_turn (st st' : LoopState) (sessions_built : list (string * num)) :
  loop_body session_info topic_times weak st = Ok st' ->
  Forall2 (Spec64.recorded weak) (sessions (day_schedule st)) sessions_built ->
  exists sessions_built',
    Spec64.turn (session_length session_info) (break_length session_info)
      topic_times (Spec64.desk_of st sessions_built)
      (Spec64.desk_of st' sessions_built')
    /\ Forall2 (Spec64.recorded weak) (sessions (day_schedule st'))
         sessions_built'
    /\ Spec64.same_head (day_schedule st) (day_schedule st').
Proof.
  unfold loop_body. intros H Hbuilt.
  destruct (topics_queue st) as [| t rest] eqn:Hqueue; [discriminate|].
  apply bind_ok in H. destruct H as (allotted & Hallotted & H).
  apply bind_ok in H. destruct H as (done & Hdone & H).
  apply bind_ok in H. destruct H as (needed & Hneeded & H).
  apply bind_ok in H. destruct H as (pattern_hours & Hpattern & H).
  unfold dict_item in Hallotted, Hdone.
  destruct (dict_get topic_times t) as [allotted' |] eqn:Hget;
    [injection Hallotted as ->|discriminate].
  destruct (dict_get (topic_progress st) t) as [done' |] eqn:Hlog;
    [injection Hdone as ->|discriminate].
  assert (Hlength :
    Spec64.session_length_for (session_length session_info)
      (Spec64.desk_of st sessions_built) allotted done
    = Ok (py_min3 pattern_hours (hours_remaining st) needed)).
  { unfold Spec64.session_length_for. rewrite Hneeded. cbn [bind].
    rewrite Hpattern. reflexivity. }
  destruct (num_gt (py_min3 pattern_hours (hours_remaining st) needed)
              (PyFloat 0.1)) eqn:Hlong.
  - apply bind_ok in H. destruct H as (minutes & Hminutes & H).
    apply bind_ok in H. destruct H as (whole & Hwhole & H).
    apply bind_ok in H. destruct H as (total & Htotal & H).
    apply bind_ok in H. destruct H as (progress & Hprogress & H).
    apply bind_ok in H. destruct H as (remaining & Hremaining & H).
    apply bind_ok in H. destruct H as (after & Hafter & H).
    injection H as <-.
    exists (sessions_built
              ++ [(t, py_min3 pattern_hours (hours_remaining st) needed)])%list.
    split; [|split].
    + unfold Spec64.desk_of at 2. cbn [hours_remaining topics_queue
        topic_progress].
      rewrite <- Hqueue.
      replace (if num_ge progress allotted then rest else topics_queue st)
        with (if num_ge progress allotted then rest else t :: rest)
        by (rewrite Hqueue; reflexivity).
      apply (@Spec64.build_session (session_length session_info)
               (break_length session_info) topic_times
               (Spec64.desk_of st sessions_built) t rest allotted done
               (py_min3 pattern_hours (hours_remaining st) needed)
               progress remaining after);
        try assumption; reflexivity.
    + cbn [day_schedule sessions]. apply Forall2_snoc; [exact Hbuilt|].
      unfold Spec64.recorded. cbn [topic is_weak_area duration_minutes
        activities].
      split; [reflexivity|]. split; [reflexivity|]. split; [|reflexivity].
      exists minutes, whole. split; [exact Hminutes|].
      split; [exact Hwhole | reflexivity].
    + cbn [day_schedule]. repeat split.
  - injection H as <-. exists sessions_built. split; [|split].
    + unfold pop_topic, Spec64.desk_of at 2.
      cbn [hours_remaining topics_queue topic_progress].
      rewrite Hqueue. cbn [tl].
      apply (@Spec64.drop_topic (session_length session_info)
               (break_length session_info) topic_times
               (Spec64.desk_of st sessions_built) t rest allotted done
               (py_min3 pattern_hours (hours_remaining st) needed));
        assumption.
    + exact Hbuilt.
    + repeat split.
Qed.

(** A run of the loop is a day of the specification. *)
Lemma while_loop_day_run (fuel : nat) (st final : LoopState)
    (sessions_built : list (string * num)) :
  while_loop session_info topic_times weak fuel st = Ok final ->
  Forall2 (Spec64.recorded weak) (sessions (day_schedule st)) sessions_built ->
  exists sessions_built',
    Spec64.day_run (session_length session_info) (break_length session_info)
      topic_times (Spec64.desk_of st sessions_built)
      (Spec64.desk_of final sessions_built')
    /\ Forall2 (Spec64.recorded weak) (sessions (day_schedule final))
         sessions_built'
    /\ Spec64.same_head (day_schedule st) (day_schedule final).
Proof.
  revert st sessions_built.
  induction fuel as [| fuel IH]; intros st sessions_built; simpl.
  - destruct (loop_guard st) eqn:Hguard; [discriminate|].
    intros H Hbuilt. injection H as <-. exists sessions_built.
    split; [|split; [exact Hbuilt | repeat split]].
    apply Spec64.day_over. exact Hguard.
  - destruct (loop_guard st) eqn:Hguard.
    + intros H Hbuilt. apply bind_ok in H. destruct H as (st' & Hbody & H).
      destruct (loop_body_turn _ Hbody Hbuilt)
        as (built' & Hturn & Hbuilt' & Hhead).
      destruct (IH _ _ H Hbuilt') as (built'' & Hrun & Hbuilt'' & Hhead').
      exists built''. split; [|split; [exact Hbuilt''|]].
      * apply (Spec64.day_turn (d' := Spec64.desk_of st' built'));
          [exact Hguard | exact Hturn | exact Hrun].
      * destruct Hhead as (E1 & E2 & E3 & E4).
        destruct Hhead' as (F1 & F2 & F3 & F4).
        repeat split; congruence.
    + intros H Hbuilt. injection H as <-. exists sessions_built.
      split; [|split; [exact Hbuilt | repeat split]].
      apply Spec64.day_over. exact Hguard.
Qed.

(** The result of the loop does not depend on the fuel that was left. *)
Lemma while_loop_more_fuel (fuel more : nat) (st final : LoopState) :
  while_loop session_info topic_times weak fuel st = Ok final ->
  while_loop session_info topic_times weak (fuel + more) st = Ok final.
Proof.
  revert st. induction fuel as [| fuel IH]; intro st; simpl.
  - destruct (loop_guard st) eqn:Hguard; [discriminate|].
    intro H. destruct more; simpl; rewrite Hguard; exact H.
  - destruct (loop_guard st); [|auto].
    destruct (loop_body session_info topic_times weak st) as [st' | e];
      simpl; [apply IH | discriminate].
Qed.

End LoopRuns.

(** ** The day-by-day schedule *)

Section Schedule.

Variable strftime : Z -> string.
Variable current_date : Z.
Variable fuel : nat.

(** The learning phase appends one "Learning" day for every offset, and
    the days are the learning days of the specification. *)
Lemma learning_phase_run (session_info : SessionPattern)
    (topic_times : dict num) (daily_hours : num)
    (times_of_day weak : list string) (days : list Z) (c c' : Carry) :
  for_each (study_day strftime current_date fuel session_info topic_times
              daily_hours times_of_day weak) days c = Ok c' ->
  exists learned built_by_day,
    days_done c' = (days_done c ++ learned)%list
    /\ day_num c' = (day_num c + len days)%Z
    /\ Spec64.learning_days (session_length session_info)
         (break_length session_info) topic_times daily_hours
         (queue c) (progress c) built_by_day
    /\ List.length built_by_day = List.length days
    /\ List.length learned = List.length days
    /\ (forall k day_offset entry sessions_built,
          nth_error days k = Some day_offset ->
          nth_error learned k = Some entry ->
          nth_error built_by_day k = Some sessions_built ->
          day entry = (day_num c + Z.of_nat k + 1)%Z
          /\ Spec64.learning_day_of (date_after strftime current_date)
               times_of_day weak day_offset entry sessions_built).
Proof.
  revert c. induction days as [| d days IH]; intros c; simpl.
  - intro H. injection H as <-. exists [], [].
    rewrite app_nil_r. unfold len. simpl.
    split; [reflexivity|]. split; [lia|].
    split; [constructor|]. split; [reflexivity|]. split; [reflexivity|].
    intros k ? ? ? Hk. destruct k; discriminate Hk.
  - intro H. apply bind_ok in H. destruct H as (c1 & Hday & H).
    unfold study_day in Hday.
    apply bind_ok in Hday. destruct Hday as (date_text & Hdate & Hday).
    apply bind_ok in Hday. destruct Hday as (slot & Hslot & Hday).
    apply bind_ok in Hday. destruct Hday as (final & Hloop & Hday).
    injection Hday as <-.
    destruct (@while_loop_day_run session_info topic_times weak fuel _ final
                [] Hloop)
      as (built & Hrun & Hbuilt & Hhead); [constructor|].
    cbn [day_schedule sessions] in Hbuilt, Hhead.
    destruct Hhead as (Eday & Edate & Ephase & Eslot).
    cbn [day date phase preferred_time] in Eday, Edate, Ephase, Eslot.
    apply IH in H.
    destruct H as (learned & built_later & Hdone & Hnum & Hdays & Hlen1
                   & Hlen2 & Hall).
    cbn [days_done day_num queue progress] in Hdone, Hnum, Hdays, Hall.
    exists (day_schedule final :: learned), (built :: built_later).
    split; [rewrite Hdone, <- app_assoc; reflexivity|].
    split; [rewrite Hnum; unfold len; simpl List.length; lia|].
    split.
    { apply (Spec64.one_more_day
               (final := Spec64.desk_of final built)); assumption. }
    split; [simpl; congruence|]. split; [simpl; congruence|].
    intros k day_offset entry sessions_built Hk Hentry Hsessions.
    destruct k as [| k]; simpl in Hk, Hentry, Hsessions.
    + injection Hk as <-. injection Hentry as <-.
      injection Hsessions as <-.
      split; [rewrite Eday; lia|].
      unfold Spec64.learning_day_of.
      rewrite Ephase, Edate, Eslot.
      split; [reflexivity|]. split; [exact Hdate|].
      split; [exact Hslot | exact Hbuilt].
    + destruct (Hall k day_offset entry sessions_built Hk Hentry Hsessions)
        as [Hnumber Hof].
      split; [rewrite Hnumber; lia | exact Hof].
Qed.

(** The revision phase appends one day for every offset. *)
Lemma revision_phase_run (topics weak : list string) (daily_hours : num)
    (times_of_day : list string) (study_days revision_days : Z)
    (days : list Z) (c c' : Carry) :
  for_each (revision_day strftime current_date topics weak daily_hours
              times_of_day study_days revision_days) days c = Ok c' ->
  exists revised,
    days_done c' = (days_done c ++ revised)%list
    /\ List.length revised = List.length days
    /\ (forall k day_offset entry,
          nth_error days k = Some day_offset ->
          nth_error revised k = Some entry ->
          day entry = (day_num c + Z.of_nat k + 1)%Z
          /\ Spec64.revision_day_of
               (fun offset =>
                  date_after strftime current_date (study_days + offset))
               topics weak daily_hours times_of_day revision_days
               day_offset entry).
Proof.
  revert c. induction days as [| d days IH]; intros c; simpl.
  - intro H. injection H as <-. exists []. rewrite app_nil_r.
    split; [reflexivity|]. split; [reflexivity|].
    intros k ? ? Hk. destruct k; discriminate Hk.
  - intro H. apply bind_ok in H. destruct H as (c1 & Hday & H).
    unfold revision_day in Hday.
    apply bind_ok in Hday. destruct Hday as (date_text & Hdate & Hday).
    apply bind_ok in Hday. destruct Hday as (slot & Hslot & Hday).
    apply bind_ok in Hday. destruct Hday as (built & Hsessions & Hday).
    injection Hday as <-.
    apply IH in H. destruct H as (revised & Hdone & Hlen & Hall).
    cbn [days_done day_num] in Hdone, Hall.
    eexists (_ :: revised).
    split; [rewrite Hdone, <- app_assoc; reflexivity|].
    split; [simpl; congruence|].
    intros k day_offset entry Hk Hentry.
    destruct k as [| k]; simpl in Hk, Hentry.
    + injection Hk as <-. injection Hentry as <-.
      cbn [day]. split; [lia|].
      unfold Spec64.revision_day_of.
      cbn [phase date total_hours preferred_time sessions].
      repeat split; assumption.
    + destruct (Hall k day_offset entry Hk Hentry) as [Hnumber Hof].
      split; [rewrite Hnumber; lia | exact Hof].
Qed.

(** The number of revision days is the specification's. *)
Lemma revision_days_of_floor (deadline_days revision_days : Z) :
  revision_days_of deadline_days = Ok revision_days ->
  Spec64.revision_days deadline_days = Some revision_days
  /\ (2 <= revision_days)%Z.
Proof.
  unfold revision_days_of, Spec64.revision_days. intro H.
  apply bind_ok in H. destruct H as (fifth & Hfifth & H).
  apply bind_ok in H. destruct H as (whole & Hwhole & H).
  injection H as <-. rewrite Hfifth.
  split; [|lia].
  unfold num_mul in Hfifth.
  apply bind_ok in Hfifth. destruct Hfifth as (x & _ & Hfifth).
  simpl in Hfifth. injection Hfifth as <-.
  unfold int_of, int_of_float in Hwhole. unfold floor_of_float.
  destruct (Prim2SF (x * 0.2)) as [s | s | | [|] m e];
    try discriminate Hwhole; injection Hwhole as <-; simpl;
    try reflexivity.
  f_equal.
  assert (H1 : (0 <= Z.shiftl (Z.pos m) e)%Z)
    by (apply Z.shiftl_nonneg; lia).
  assert (H2 : (Z.shiftl (Z.neg m) e < 0)%Z).
  { destruct (Z.lt_ge_cases (Z.shiftl (Z.neg m) e) 0) as [Hlt | Hge];
      [exact Hlt|].
    apply Z.shiftl_nonneg in Hge. lia. }
  lia.
Qed.

(** The schedule is the learning days followed by the revision days, one
    entry for every pass of the two loops, numbered from 1. *)
Lemma create_daily_schedule_run (topics : list string)
    (topic_times : dict num) (deadline_days : Z) (daily_hours : num)
    (times_of_day : list string) (pattern : string) (weak : list string)
    (subject_name : string) (schedule : list DaySchedule) :
  _create_daily_schedule strftime current_date fuel topics topic_times
    deadline_days daily_hours times_of_day pattern weak subject_name
  = Ok schedule ->
  exists session_info revision_days learned revised built_by_day,
    dict_item self_session_patterns pattern = Ok session_info
    /\ Spec64.revision_days deadline_days = Some revision_days
    /\ schedule = (learned ++ revised)%list
    /\ List.length learned = Z.to_nat (deadline_days - revision_days)
    /\ List.length built_by_day = List.length learned
    /\ len revised = revision_days
    /\ Spec64.learning_days (session_length session_info)
         (break_length session_info) topic_times daily_hours topics
         (fold_left (fun d topic => dict_set d topic (PyInt 0)) topics [])
         built_by_day
    /\ (forall k entry sessions_built,
          nth_error learned k = Some entry ->
          nth_error built_by_day k = Some sessions_built ->
          day entry = (Z.of_nat k + 1)%Z
          /\ Spec64.learning_day_of (date_after strftime current_date)
               times_of_day weak (Z.of_nat k) entry sessions_built)
    /\ (forall k entry,
          nth_error revised k = Some entry ->
          day entry = (len learned + Z.of_nat k + 1)%Z
          /\ Spec64.revision_day_of
               (fun offset =>
                  date_after strftime current_date
                    (deadline_days - revision_days + offset))
               topics weak daily_hours times_of_day revision_days
               (Z.of_nat k) entry).
Proof.
  unfold _create_daily_schedule. intro H.
  apply bind_ok in H. destruct H as (session_info & Hinfo & H).
  apply bind_ok in H. destruct H as (revision_days & Hdays & H).
  apply bind_ok in H. destruct H as (after_learning & Hlearn & H).
  apply bind_ok in H. destruct H as (after_revision & Hrevise & H).
  injection H as <-.
  destruct (revision_days_of_floor _ Hdays) as [Hspec Htwo].
  apply learning_phase_run in Hlearn.
  destruct Hlearn as (learned & built_by_day & Hdone & Hnum & Hrun & Hlen1
                      & Hlen2 & Hlearned).
  cbn [days_done day_num queue progress] in Hdone, Hnum, Hrun, Hlearned.
  apply revision_phase_run in Hrevise.
  destruct Hrevise as (revised & Hdone' & Hlen3 & Hrevised).
  rewrite PlannerFacts.range_length in Hlen1, Hlen2, Hlen3.
  exists session_info, revision_days, learned, revised, built_by_day.
  split; [exact Hinfo|]. split; [exact Hspec|].
  split; [rewrite Hdone', Hdone; reflexivity|].
  split; [exact Hlen2|]. split; [congruence|].
  split; [unfold len; rewrite Hlen3; lia|].
  split; [exact Hrun|]. split.
  - intros k entry sessions_built Hentry Hbuilt.
    assert (Hk : nth_error (range (deadline_days - revision_days)) k
                 = Some (Z.of_nat k)).
    { destruct (nth_error (range (deadline_days - revision_days)) k)
        as [d |] eqn:E.
      - apply PlannerFacts.range_nth in E. destruct E as [-> _].
        reflexivity.
      - apply nth_error_None in E.
        rewrite PlannerFacts.range_length, <- Hlen2 in E.
        assert (Hsome : nth_error learned k <> None) by congruence.
        apply nth_error_Some in Hsome. lia. }
    destruct (Hlearned k _ entry sessions_built Hk Hentry Hbuilt)
      as [Hnumber Hof].
    split; [rewrite Hnumber; lia | exact Hof].
  - intros k entry Hentry.
    assert (Hk : nth_error (range revision_days) k = Some (Z.of_nat k)).
    { destruct (nth_error (range revision_days) k) as [d |] eqn:E.
      - apply PlannerFacts.range_nth in E. destruct E as [-> _].
        reflexivity.
      - apply nth_error_None in E.
        rewrite PlannerFacts.range_length, <- Hlen3 in E.
        assert (Hsome : nth_error revised k <> None) by congruence.
        apply nth_error_Some in Hsome. lia. }
    destruct (Hrevised k _ entry Hk Hentry) as [Hnumber Hof].
    split; [|exact Hof].
    rewrite Hnumber, Hnum. unfold len.
    rewrite PlannerFacts.range_length, Hlen2. lia.
Qed.

End Schedule.

End Planner64Facts.

(** * Properties of the planner's figures

    The claims that turn on the planner's arithmetic, over the planner
    with Python's own numbers. *)

Module Planner64Properties.
Import Floats.
Import Py.
Import Float64.
Import Planner64.
Import Float64Facts.
Import Planner64Facts.

#[local] Set Warnings "-inexact-float".

Section Claims.

Variable float_repr : float -> string.
Variable strftime : Z -> string.
Variable current_date : Z.
Variable deadline_now : Z.
Variable fuel : nat.

Lemma dict_get_listed {V : Type} (d : dict V) (k : string) :
  In k (map fst d) -> exists v, dict_get d k = Some v /\ In (k, v) d.
Proof.
  induction d as [| [k0 v0] d IH]; simpl; [contradiction|].
  intros [E | Hin].
  - subst k0. rewrite String.eqb_refl. exists v0.
    split; [reflexivity | left; reflexivity].
  - destruct (String.eqb k k0) eqn:Ek.
    + apply String.eqb_eq in Ek. subst k0. exists v0.
      split; [reflexivity | left; reflexivity].
    + destruct (IH Hin) as (v & Hget & Hv). exists v.
      split; [exact Hget | right; exact Hv].
Qed.

(** ** Allocation and feasibility *)

(** C1 (as amended): in a feasible plan every topic is allotted the
    pace's base hours (4, 2.5 or 1.5), times 1.5 for a weak area, then
    times 1.3 for a hard and 0.7 for an easy topic, rounded to one decimal;
    the reported [total_hours_needed] is the sum of the allocations of the
    distinct topics, a topic that is listed more than once counting once,
    times one plus the pace's revision ratio, rounded to one decimal; and
    a weak, hard topic at the moderate pace is allotted 4.9 hours. *)
Theorem total_hours_needed_formula (profile : StudentProfile)
    (subject_name : string) (topics : list string) (deadline_days : Z)
    (levels : option (dict string)) (plan : Plan) :
  generate_personalized_plan float_repr strftime current_date deadline_now
    fuel profile subject_name topics deadline_days levels = Ok plan ->
  feasible plan = Some true ->
  let pace := get_default (learning_pace profile) "moderate" in
  let weak := get_default (weak_areas profile) [] in
  exists base times needed,
    Spec64.base_hours pace = Some base
    /\ _calculate_topic_times topics pace weak levels = Ok times
    /\ (forall t, In t topics ->
        exists hours,
          dict_get times t = Some hours
          /\ Spec64.allocation base (str_in t weak)
               (Spec.difficulty_of levels t) = Ok hours)
    /\ Spec64.hours_needed (Measures.distinct topics) pace weak levels
       = Ok needed
    /\ total_hours_needed plan = Some (round1 needed)
    /\ (forall t weak' levels',
          str_in t weak' = true ->
          Spec.difficulty_of levels' t = Some "hard" ->
          topic_hours (PyFloat 2.5) weak' levels' t = Ok (PyFloat 4.9)).
Proof.
  intros Hgen Hfeasible pace weak.
  destruct (generate_branches _ _ _ _ _ _ _ _ _ _ Hgen)
    as (times & needed & available & Htimes & Hneeded & _ & Hcase).
  fold pace weak in Htimes, Hneeded.
  destruct (calculate_topic_times_entries _ _ _ _ Htimes)
    as (info & Hinfo & Hkeys & Hvalues & _).
  destruct (pace_lookup _ Hinfo) as [Hbase _].
  exists (hours_per_topic info), times, needed.
  split; [exact Hbase|]. split; [exact Htimes|]. split; [|split; [|split]].
  - intros t Ht.
    assert (Hin : In t (map fst times)).
    { rewrite Hkeys. apply PlannerInvariants.distinct_In. exact Ht. }
    destruct (dict_get_listed _ _ Hin) as (hours & Hget & Hentry).
    exists hours. split; [exact Hget|].
    rewrite <- topic_hours_allocation. apply Hvalues. exact Hentry.
  - exact Hneeded.
  - destruct Hcase as [[_ Hresponse] | (_ & schedule & date & buffer & Hplan)].
    + apply infeasible_response_fields in Hresponse.
      destruct Hresponse as (? & ? & ? & ? & ? & ? & ? & Hresponse).
      destruct Hresponse as (_ & _ & _ & _ & _ & _ & _ & ->).
      discriminate Hfeasible.
    + destruct Hplan as (_ & _ & _ & ->). reflexivity.
  - intros t weak' levels' Hweak Hhard.
    rewrite topic_hours_allocation, Hweak, Hhard. vm_compute. reflexivity.
Qed.

(** C2: a returned plan is infeasible exactly when the hours needed (the
    sum of the allocations times one plus the revision ratio, not rounded)
    are greater than the hours available ([deadline_days] times the daily
    hours), and feasible exactly when they are not; in particular, when
    the two are equal the plan is feasible. *)
Theorem infeasible_iff_needed_exceeds_available (profile : StudentProfile)
    (subject_name : string) (topics : list string) (deadline_days : Z)
    (levels : option (dict string)) (plan : Plan) :
  generate_personalized_plan float_repr strftime current_date deadline_now
    fuel profile subject_name topics deadline_days levels = Ok plan ->
  let pace := get_default (learning_pace profile) "moderate" in
  let weak := get_default (weak_areas profile) [] in
  let daily_hours := get_default (daily_available_hours profile) (PyInt 3) in
  exists total_needed total_available,
    Spec64.hours_needed (Measures.distinct topics) pace weak levels
    = Ok total_needed
    /\ Spec64.hours_available deadline_days daily_hours = Ok total_available
    /\ (feasible plan = Some false
        <-> num_gt total_needed total_available = true)
    /\ (feasible plan = Some true
        <-> num_gt total_needed total_available = false)
    /\ (num_eq total_needed total_available = true ->
        feasible plan = Some true).
Proof.
  intros Hgen pace weak daily_hours.
  destruct (generate_branches _ _ _ _ _ _ _ _ _ _ Hgen)
    as (times & needed & available & _ & Hneeded & Havailable & Hcase).
  exists needed, available.
  split; [exact Hneeded|]. split; [exact Havailable|].
  assert (Hflag : feasible plan = Some (negb (num_gt needed available))).
  { destruct Hcase as [[Hgt Hresponse] | (Hle & schedule & date & buffer & H)].
    - apply infeasible_response_fields in Hresponse.
      destruct Hresponse as (? & ? & ? & ? & ? & ? & ? & Hresponse).
      destruct Hresponse as (_ & _ & _ & _ & _ & _ & _ & ->).
      rewrite Hgt. reflexivity.
    - destruct H as (_ & _ & _ & ->). rewrite Hle. reflexivity. }
  rewrite Hflag. split; [|split].
  - destruct (num_gt needed available); simpl; split; congruence.
  - destruct (num_gt needed available); simpl; split; congruence.
  - intro Heq. rewrite (num_eq_not_gt _ _ Heq). reflexivity.
Qed.

(** C7 (as amended): a returned plan is either fully feasible or fully
    infeasible.  In a feasible plan the hours needed, not rounded, are not
    greater than the hours available (they are at most the hours available
    unless one of the two is a NaN), [total_hours_available] is the hours
    available and the reported [total_hours_needed] is the hours needed
    rounded to one decimal; in an infeasible plan the hours needed are
    greater than the hours available. *)
Theorem plan_is_feasible_or_infeasible (profile : StudentProfile)
    (subject_name : string) (topics : list string) (deadline_days : Z)
    (levels : option (dict string)) (plan : Plan) :
  generate_personalized_plan float_repr strftime current_date deadline_now
    fuel profile subject_name topics deadline_days levels = Ok plan ->
  let pace := get_default (learning_pace profile) "moderate" in
  let weak := get_default (weak_areas profile) [] in
  let daily_hours := get_default (daily_available_hours profile) (PyInt 3) in
  exists needed available,
    Spec64.hours_needed (Measures.distinct topics) pace weak levels
    = Ok needed
    /\ Spec64.hours_available deadline_days daily_hours = Ok available
    /\ ((Spec64.fully_feasible plan
         /\ num_gt needed available = false
         /\ (num_le needed available = true
             \/ unordered needed available = true)
         /\ total_hours_available plan = Some available
         /\ total_hours_needed plan = Some (round1 needed))
        \/ (Spec64.fully_infeasible plan
            /\ num_gt needed available = true)).
Proof.
  intros Hgen pace weak daily_hours.
  destruct (generate_branches _ _ _ _ _ _ _ _ _ _ Hgen)
    as (times & needed & available & _ & Hneeded & Havailable & Hcase).
  exists needed, available.
  split; [exact Hneeded|]. split; [exact Havailable|].
  destruct Hcase as [[Hgt Hresponse] | (Hle & schedule & date & buffer & H)].
  - right. split; [|exact Hgt].
    apply infeasible_response_fields in Hresponse.
    destruct Hresponse as (? & ? & ? & ? & ? & ? & ? & Hresponse).
    destruct Hresponse as (_ & _ & _ & _ & _ & _ & _ & ->).
    unfold Spec64.fully_infeasible. cbn.
    repeat split; try reflexivity; discriminate.
  - left. destruct H as (_ & _ & _ & ->).
    split; [|split; [exact Hle|split; [|split; reflexivity]]].
    + unfold Spec64.fully_feasible. cbn.
      repeat split; try reflexivity; discriminate.
    + destruct (num_gt_or_le needed available) as [E | Hnan].
      * left. rewrite Hle in E. destruct (num_le needed available);
          [reflexivity | discriminate].
      * right. exact Hnan.
Qed.

(** ** The infeasible response *)

(** C6: an infeasible plan, for positive daily hours, has [feasible] false
    and [hours_short] equal to the hours needed minus the hours available,
    rounded to one decimal.  Its suggestions are, in this order, the
    raise-daily-hours suggestion for the figure needed / deadline_days,
    present exactly when that figure is at most 12; the extend-deadline
    suggestion computed from floor(needed / daily hours) + 1 days; and the
    suggestion to consider the fast pace.  For three topics at the slow
    pace, a deadline of two days and three hours a day, the suggested
    daily hours are 8.4 and the suggested new deadline is 6. *)
Theorem infeasible_response_contents (profile : StudentProfile)
    (subject_name : string) (topics : list string) (deadline_days : Z)
    (levels : option (dict string)) (plan : Plan) :
  generate_personalized_plan float_repr strftime current_date deadline_now
    fuel profile subject_name topics deadline_days levels = Ok plan ->
  feasible plan = Some false ->
  let pace := get_default (learning_pace profile) "moderate" in
  let weak := get_default (weak_areas profile) [] in
  let daily_hours := get_default (daily_available_hours profile) (PyInt 3) in
  num_gt daily_hours (PyInt 0) = true ->
  (exists needed available short figure new_deadline,
     Spec64.hours_needed (Measures.distinct topics) pace weak levels
     = Ok needed
     /\ Spec64.hours_available deadline_days daily_hours = Ok available
     /\ num_gt needed available = true
     /\ num_sub needed available = Ok short
     /\ hours_short plan = Some (round1 short)
     /\ num_truediv needed (PyInt deadline_days) = Ok (PyFloat figure)
     /\ Spec64.new_deadline needed daily_hours = Some new_deadline
     /\ suggestions plan
        = Some
            ((if num_le (PyFloat figure) (PyInt 12) then
                [ ("Study " ++ float_fmt_1f figure
                     ++ " hours per day instead of "
                     ++ py_str float_repr daily_hours)%string ]
              else [])
               ++ [ ("Extend deadline by "
                       ++ str_of_Z (new_deadline - deadline_days)
                       ++ " days")%string;
                    "Consider switching to 'fast' learning pace if you're confident"
                  ])%list)
  /\ (Spec64.hours_needed Sample64.three_topics "slow" [] None
      = Ok (PyFloat 16.799999999999997)
      /\ num_truediv (PyFloat 16.799999999999997) (PyInt 2)
         = Ok (PyFloat 8.399999999999999)
      /\ float_fmt_1f 8.399999999999999 = "8.4"
      /\ Spec64.new_deadline (PyFloat 16.799999999999997) (PyInt 3) = Some 6%Z
      /\ feasible Sample64.slow_plan = Some false
      /\ hours_short Sample64.slow_plan = Some (PyFloat 10.8)
      /\ suggestions Sample64.slow_plan
         = Some [ "Study 8.4 hours per day instead of 3";
                  "Extend deadline by 4 days";
                  "Consider switching to 'fast' learning pace if you're confident"
                ]).
Proof.
  intros Hgen Hflag pace weak daily_hours Hdaily.
  split; [|repeat split; vm_compute; reflexivity].
  destruct (generate_branches _ _ _ _ _ _ _ _ _ _ Hgen)
    as (times & needed & available & _ & Hneeded & Havailable & Hcase).
  fold pace weak daily_hours in Hneeded, Havailable, Hcase.
  destruct Hcase as [[Hgt Hresponse] | (_ & schedule & date & buffer & H)].
  2:{ destruct H as (_ & _ & _ & ->). discriminate Hflag. }
  apply infeasible_response_fields in Hresponse.
  destruct Hresponse
    as (short & new_daily_hours & per_day & whole_days & needed_text
        & available_text & raise_hours & Hshort & Hnew & Hraise & Hper_day
        & Hwhole & _ & _ & ->).
  destruct (num_truediv_float _ _ Hnew) as (figure & ->).
  destruct (num_truediv_float _ _ Hper_day) as (quotient & ->).
  exists needed, available, short, figure, (whole_days + 1)%Z.
  split; [exact Hneeded|]. split; [exact Havailable|].
  split; [exact Hgt|]. split; [exact Hshort|]. split; [reflexivity|].
  split; [exact Hnew|]. split.
  - unfold Spec64.new_deadline. rewrite Hper_day.
    rewrite (int_of_float_floor quotient (whole := whole_days));
      [reflexivity | | exact Hwhole].
    apply (@num_truediv_sign needed daily_hours (PyFloat quotient));
      [| | exact Hper_day].
    + apply (hours_needed_sign _ _ _ _ Hneeded).
    + apply positive_not_negative. exact Hdaily.
  - cbn [suggestions]. f_equal. f_equal.
    destruct (num_le (PyFloat figure) (PyInt 12)).
    + destruct Hraise as (text & Htext & ->).
      unfold fmt_1f in Htext. simpl in Htext. injection Htext as <-.
      reflexivity.
    + exact Hraise.
Qed.

(** ** The schedule *)

Lemma nothing_logged_start (topics : list string) :
  fold_left (fun d topic => dict_set d topic (PyInt 0)) topics []
  = Spec64.nothing_logged topics.
Proof.
  apply (PlannerInvariants.fold_dict_set_seen (fun _ => PyInt 0) topics []).
Qed.

(** C5 (as amended): in a feasible plan the schedule is a run of
    "Learning" days followed by max(2, floor(0.2 * deadline_days)) revision
    days.  The last of these is the "Final Review & Mock Test" day with one
    session of int(daily hours * 30) minutes, the product truncated to a
    whole number, and a fixed list of three activities; the one before it
    is the "Intensive Revision" day with one session per weak area, each
    flagged as a weak area and each of (daily hours * 60) floor-divided by
    max(number of weak areas, 1) minutes; every earlier one is a "Revision"
    day with one session per topic of (daily hours * 60) floor-divided by
    the number of topics minutes.  With ten days there are two revision
    days. *)
Theorem revision_phase_layout (profile : StudentProfile)
    (subject_name : string) (topics : list string) (deadline_days : Z)
    (levels : option (dict string)) (plan : Plan) :
  generate_personalized_plan float_repr strftime current_date deadline_now
    fuel profile subject_name topics deadline_days levels = Ok plan ->
  feasible plan = Some true ->
  let weak := get_default (weak_areas profile) [] in
  let daily_hours := get_default (daily_available_hours profile) (PyInt 3) in
  (exists revision_days learned revised,
     Spec64.revision_days deadline_days = Some revision_days
     /\ daily_plan plan = Some (learned ++ revised)%list
     /\ List.length learned = Z.to_nat (deadline_days - revision_days)
     /\ Forall (fun entry => phase entry = "Learning") learned
     /\ len revised = revision_days
     /\ forall k entry,
         nth_error revised k = Some entry ->
         let offset := Z.of_nat k in
         ((offset = revision_days - 1)%Z ->
          phase entry = "Final Review & Mock Test"
          /\ exists half_minutes minutes,
               num_mul daily_hours (PyInt 30) = Ok half_minutes
               /\ int_of half_minutes = Ok minutes
               /\ sessions entry
                  = [ {| topic := "All Topics";
                         duration_minutes := PyInt minutes;
                         activities :=
                           [ "Quick review of all topics (1 hour)";
                             "Take full mock test (1.5 hours)";
                             "Review mistakes and weak areas (30 min)" ];
                         is_weak_area := None |} ])
         /\ ((offset = revision_days - 2)%Z ->
             phase entry = "Intensive Revision"
             /\ exists minutes share,
                  num_mul daily_hours (PyInt 60) = Ok minutes
                  /\ num_floordiv minutes (PyInt (Z.max (len weak) 1))
                     = Ok share
                  /\ map topic (sessions entry) = weak
                  /\ Forall
                       (fun session =>
                          is_weak_area session = Some true
                          /\ duration_minutes session = share)
                       (sessions entry))
         /\ ((offset < revision_days - 2)%Z ->
             phase entry = "Revision"
             /\ exists minutes share,
                  num_mul daily_hours (PyInt 60) = Ok minutes
                  /\ num_floordiv minutes (PyInt (len topics)) = Ok share
                  /\ map topic (sessions entry) = topics
                  /\ Forall (fun session => duration_minutes session = share)
                       (sessions entry)))
  /\ Spec64.revision_days 10 = Some 2%Z.
Proof.
  intros Hgen Hflag weak daily_hours. split; [|vm_compute; reflexivity].
  destruct (generate_branches _ _ _ _ _ _ _ _ _ _ Hgen)
    as (times & needed & available & _ & _ & _ & Hcase).
  fold weak daily_hours in Hcase.
  destruct Hcase as [[_ Hresponse] | (_ & schedule & ? & ? & Hs & _ & _ & ->)].
  { apply infeasible_response_fields in Hresponse.
    destruct Hresponse as (? & ? & ? & ? & ? & ? & ? & Hresponse).
    destruct Hresponse as (_ & _ & _ & _ & _ & _ & _ & ->).
    discriminate Hflag. }
  apply create_daily_schedule_run in Hs.
  destruct Hs as (session_info & revision_days & learned & revised
                  & built_by_day & _ & Hdays & -> & Hlen & Hlen' & Hrevised_len
                  & _ & Hlearned & Hrevised).
  exists revision_days, learned, revised.
  split; [exact Hdays|]. split; [reflexivity|]. split; [exact Hlen|].
  split.
  { apply Forall_forall. intros entry Hin.
    apply In_nth_error in Hin. destruct Hin as [k Hk].
    destruct (nth_error built_by_day k) as [sessions_built |] eqn:Hb.
    - destruct (Hlearned k entry sessions_built Hk Hb) as [_ [Hphase _]].
      exact Hphase.
    - apply nth_error_None in Hb.
      assert (Hsome : nth_error learned k <> None) by congruence.
      apply nth_error_Some in Hsome. lia. }
  split; [exact Hrevised_len|].
  intros k entry Hk offset.
  destruct (Hrevised k entry Hk) as [_ Hof]. fold offset in Hof.
  destruct Hof as (Hphase & _ & _ & _ & Hsessions).
  rewrite Hphase in Hsessions. unfold revision_phase_name in Hphase, Hsessions.
  destruct (Z.eqb_spec offset (revision_days - 1)) as [E1 | N1].
  { split; [|split]; intro Hoff; try (exfalso; lia).
    split; [exact Hphase|].
    unfold _generate_revision_sessions in Hsessions. simpl String.eqb in Hsessions.
    cbv iota in Hsessions.
    apply bind_ok in Hsessions.
    destruct Hsessions as (half_minutes & Hhalf & Hsessions).
    apply bind_ok in Hsessions.
    destruct Hsessions as (minutes & Hminutes & Hsessions).
    injection Hsessions as <-.
    exists half_minutes, minutes.
    split; [exact Hhalf|]. split; [exact Hminutes | reflexivity]. }
  destruct (Z.eqb_spec offset (revision_days - 2)) as [E2 | N2].
  { split; [|split]; intro Hoff; try (exfalso; lia).
    split; [exact Hphase|].
    unfold _generate_revision_sessions in Hsessions. simpl String.eqb in Hsessions.
    cbv iota in Hsessions.
    apply bind_ok in Hsessions.
    destruct Hsessions as (minutes & Hminutes & Hsessions).
    apply bind_ok in Hsessions.
    destruct Hsessions as (share & Hshare & Hsessions).
    injection Hsessions as <-.
    exists minutes, share.
    split; [exact Hminutes|]. split; [exact Hshare|]. split.
    - rewrite map_map. simpl. apply map_id.
    - apply Forall_forall. intros session Hin. apply in_map_iff in Hin.
      destruct Hin as (t & <- & _). split; reflexivity. }
  split; [|split]; intro Hoff; try (exfalso; lia).
  split; [exact Hphase|].
  unfold _generate_revision_sessions in Hsessions. simpl String.eqb in Hsessions.
  cbv iota in Hsessions.
  apply bind_ok in Hsessions.
  destruct Hsessions as (minutes & Hminutes & Hsessions).
  apply bind_ok in Hsessions.
  destruct Hsessions as (share & Hshare & Hsessions).
  injection Hsessions as <-.
  exists minutes, share.
  split; [exact Hminutes|]. split; [exact Hshare|]. split.
  - rewrite map_map. simpl. apply map_id.
  - apply Forall_forall. intros session Hin. apply in_map_iff in Hin.
    destruct Hin as (t & <- & _). reflexivity.
Qed.

(** C4: the sessions of the learning days are built as the specification
    describes.  In a feasible plan every learning day starts with the
    daily hours, the first one with the queue of all topics and nothing
    logged, every later one with the queue and the logged hours the day
    before left behind, and takes turns while hours remain and the queue is
    not empty.  A turn takes the topic at the front and computes the
    session length as the least of the pattern's session length in hours
    (25, 90 or 15 minutes over 60), the hours that remain and the topic's
    allotted hours less the hours logged for it.  When the length exceeds
    0.1 hour the turn builds a session for the topic, logs the length for
    it, takes the length off the hours that remain and, if hours still
    remain, the pattern's break (5, 20 or 5 minutes over 60) as well, and
    pops the topic exactly when its logged hours have reached its
    allocation; otherwise it pops the topic and builds nothing.  The
    sessions of each "Learning" day of the plan are those its day has
    built, in order. *)
Theorem learning_session_step (profile : StudentProfile)
    (subject_name : string) (topics : list string) (deadline_days : Z)
    (levels : option (dict string)) (plan : Plan) :
  generate_personalized_plan float_repr strftime current_date deadline_now
    fuel profile subject_name topics deadline_days levels = Ok plan ->
  feasible plan = Some true ->
  let pace := get_default (learning_pace profile) "moderate" in
  let pattern := get_default (study_pattern profile) "pomodoro" in
  let weak := get_default (weak_areas profile) [] in
  let daily_hours := get_default (daily_available_hours profile) (PyInt 3) in
  exists times pattern_minutes pause_minutes revision_days learned revised
         built_by_day,
    _calculate_topic_times topics pace weak levels = Ok times
    /\ Spec64.session_minutes pattern = Some pattern_minutes
    /\ Spec64.break_minutes pattern = Some pause_minutes
    /\ Spec64.revision_days deadline_days = Some revision_days
    /\ daily_plan plan = Some (learned ++ revised)%list
    /\ List.length learned = Z.to_nat (deadline_days - revision_days)
    /\ Spec64.learning_days pattern_minutes pause_minutes times daily_hours
         topics (Spec64.nothing_logged topics) built_by_day
    /\ Forall2
         (fun entry sessions_built =>
            phase entry = "Learning"
            /\ Forall2 (Spec64.recorded weak) (sessions entry) sessions_built)
         learned built_by_day.
Proof.
  intros Hgen Hflag pace pattern weak daily_hours.
  destruct (generate_branches _ _ _ _ _ _ _ _ _ _ Hgen)
    as (times & needed & available & Htimes & _ & _ & Hcase).
  fold pace pattern weak daily_hours in Htimes, Hcase.
  destruct Hcase as [[_ Hresponse] | (_ & schedule & ? & ? & Hs & _ & _ & ->)].
  { apply infeasible_response_fields in Hresponse.
    destruct Hresponse as (? & ? & ? & ? & ? & ? & ? & Hresponse).
    destruct Hresponse as (_ & _ & _ & _ & _ & _ & _ & ->).
    discriminate Hflag. }
  apply create_daily_schedule_run in Hs.
  destruct Hs as (session_info & revision_days & learned & revised
                  & built_by_day & Hinfo & Hdays & -> & Hlen & Hlen' & _
                  & Hrun & Hlearned & _).
  destruct (pattern_lookup _ Hinfo) as [Hsession Hbreak].
  exists times, (session_length session_info), (break_length session_info),
    revision_days, learned, revised, built_by_day.
  split; [exact Htimes|]. split; [exact Hsession|]. split; [exact Hbreak|].
  split; [exact Hdays|]. split; [reflexivity|]. split; [exact Hlen|].
  split; [rewrite <- nothing_logged_start; exact Hrun|].
  clear - Hlen' Hlearned.
  assert (Hshift : forall k entry sessions_built,
            nth_error learned k = Some entry ->
            nth_error built_by_day k = Some sessions_built ->
            phase entry = "Learning"
            /\ Forall2 (Spec64.recorded weak) (sessions entry) sessions_built).
  { intros k entry sessions_built Hk Hb.
    destruct (Hlearned k entry sessions_built Hk Hb)
      as [_ (Hphase & _ & _ & Hrecorded)].
    split; assumption. }
  clear Hlearned. revert built_by_day Hlen' Hshift.
  induction learned as [| entry learned IH]; intros built_by_day Hlen' Hshift.
  - destruct built_by_day; [constructor | discriminate].
  - destruct built_by_day as [| sessions_built later]; [discriminate|].
    constructor.
    + apply (Hshift 0%nat); reflexivity.
    + apply IH; [simpl in Hlen'; congruence|].
      intros k e b Hk Hb. apply (Hshift (S k)); assumption.
Qed.

End Claims.

(** ** Witnesses and counterexamples *)

(** The moderate learner's plan: the weak, hard topic gets 4.9 hours and
    the plan reports 4.9 * 1.3 = 6.4 hours. *)
Lemma total_hours_needed_formula_witness :
  exists times needed,
    _calculate_topic_times ["Recursion"] "moderate" ["Recursion"]
      Sample64.hard_recursion = Ok times
    /\ dict_get times "Recursion" = Some (PyFloat 4.9)
    /\ Spec64.hours_needed ["Recursion"] "moderate" ["Recursion"]
         Sample64.hard_recursion = Ok needed
    /\ total_hours_needed Sample64.moderate_plan = Some (round1 needed)
    /\ round1 needed = PyFloat 6.4.
Proof.
  destruct (@total_hours_needed_formula Sample64.float_repr
              Sample64.strftime Sample64.today Sample64.today Sample64.fuel
              Sample64.moderate_profile "Algorithms" ["Recursion"] 3
              Sample64.hard_recursion Sample64.moderate_plan)
    as (base & times & needed & Hbase & Htimes & Halloc & Hneeded & Hreported
        & _).
  - vm_compute. reflexivity.
  - reflexivity.
  - destruct (Halloc "Recursion" (or_introl eq_refl)) as (hours & Hget & Hh).
    injection Hbase as <-. vm_compute in Hh. injection Hh as <-.
    exists times, needed.
    split; [exact Htimes|]. split; [exact Hget|]. split; [exact Hneeded|].
    split; [exact Hreported|].
    vm_compute in Hneeded. injection Hneeded as <-. vm_compute. reflexivity.
Defined.

(** C1, as stated, fails: with "Sorting" listed twice the plan is feasible
    and reports 3.2 hours, the 2.5 hours of one "Sorting" with the
    revision, where the sum over the two topics of the list gives 6.5. *)
Lemma repeated_topic_counts_once :
  exists reported claimed,
    Sample64.plan_for Sample64.repeated_profile ["Sorting"; "Sorting"] 3 None
    = Ok Sample64.repeated_plan
    /\ feasible Sample64.repeated_plan = Some true
    /\ total_hours_needed Sample64.repeated_plan = Some reported
    /\ reported = PyFloat 3.2
    /\ Spec64.hours_needed ["Sorting"; "Sorting"] "moderate" [] None
       = Ok claimed
    /\ round1 claimed = PyFloat 6.5
    /\ num_eq reported (round1 claimed) = false.
Proof.
  exists (PyFloat 3.2), (PyFloat 6.5).
  repeat split; vm_compute; reflexivity.
Qed.

(** In binary64 the total of 8.5 hours of topics with the revision is
    8.5 * 1.3 = 11.050000000000001, which is reported as 11.1; the decimal
    11.05 would round to 11.0. *)
Example total_rounds_the_binary_product :
  Spec64.hours_needed Sample64.three_topics "moderate" ["Sorting"]
    Sample64.six_hours_levels = Ok (PyFloat 11.050000000000001)
  /\ total_hours_needed Sample64.six_hours_plan = Some (PyFloat 11.1)
  /\ buffer_hours Sample64.six_hours_plan = Some (PyFloat 0.9).
Proof. repeat split; vm_compute; reflexivity. Qed.

(** Equal hours: three plain topics at the moderate pace need 9.75 hours,
    three days of three and a quarter hours give 9.75, and the plan is
    feasible. *)
Lemma infeasible_iff_needed_exceeds_available_witness :
  exists total_needed total_available,
    Spec64.hours_needed Sample64.three_topics "moderate" [] None
    = Ok total_needed
    /\ Spec64.hours_available 3 (PyFloat 3.25) = Ok total_available
    /\ num_eq total_needed total_available = true
    /\ feasible Sample64.quarter_hours_plan = Some true.
Proof.
  destruct (@infeasible_iff_needed_exceeds_available Sample64.float_repr
              Sample64.strftime Sample64.today Sample64.today Sample64.fuel
              Sample64.quarter_hours_profile "Algorithms"
              Sample64.three_topics 3 None Sample64.quarter_hours_plan)
    as (needed & available & Hneeded & Havailable & _ & _ & Hequal).
  - vm_compute. reflexivity.
  - exists needed, available.
    split; [exact Hneeded|]. split; [exact Havailable|].
    assert (Heq : num_eq needed available = true).
    { vm_compute in Hneeded. injection Hneeded as <-.
      vm_compute in Havailable. injection Havailable as <-.
      vm_compute. reflexivity. }
    split; [exact Heq | exact (Hequal Heq)].
Defined.

(** The comparison is the one of the floats.  Two hard and two easy topics
    at the moderate pace are 3.2 + 3.2 + 1.8 + 1.8 hours, 10 on paper and
    13 with the revision; added up in binary64 they need
    13.000000000000004 hours, more than the 13 of thirteen days of one
    hour, and the plan is infeasible. *)
Example hours_needed_are_the_binary_sum :
  Spec64.hours_needed Sample64.thirteen_topics "moderate" []
    Sample64.thirteen_levels = Ok (PyFloat 13.000000000000004)
  /\ Spec64.hours_available 13 (PyInt 1) = Ok (PyInt 13)
  /\ num_gt (PyFloat 13.000000000000004) (PyInt 13) = true
  /\ feasible Sample64.thirteen_plan = Some false.
Proof. repeat split; vm_compute; reflexivity. Qed.

(** The moderate learner's plan is fully feasible. *)
Lemma plan_is_feasible_or_infeasible_witness :
  Spec64.fully_feasible Sample64.moderate_plan.
Proof.
  destruct (@plan_is_feasible_or_infeasible Sample64.float_repr
              Sample64.strftime Sample64.today Sample64.today Sample64.fuel
              Sample64.moderate_profile "Algorithms" ["Recursion"] 3
              Sample64.hard_recursion Sample64.moderate_plan)
    as (needed & available & _ & _ & [[Hfull _] | [Hnone _]]).
  - vm_compute. reflexivity.
  - exact Hfull.
  - destruct Hnone as [Hflag _]. discriminate Hflag.
Defined.

(** C7, as stated, fails: three topics at the moderate pace need 9.75
    hours and three days of three and a quarter hours give 9.75, so the
    plan is feasible; it reports 9.8 hours needed against 9.75
    available. *)
Lemma reported_hours_exceed_available :
  exists reported available,
    Sample64.plan_for Sample64.quarter_hours_profile Sample64.three_topics 3
      None = Ok Sample64.quarter_hours_plan
    /\ feasible Sample64.quarter_hours_plan = Some true
    /\ total_hours_needed Sample64.quarter_hours_plan = Some reported
    /\ total_hours_available Sample64.quarter_hours_plan = Some available
    /\ reported = PyFloat 9.8
    /\ available = PyFloat 9.75
    /\ num_le reported available = false.
Proof.
  exists (PyFloat 9.8), (PyFloat 9.75).
  repeat split; vm_compute; reflexivity.
Qed.

(** The slow learner's plan: 16.8 hours needed against 6, over two days of
    three hours. *)
Lemma infeasible_response_contents_witness :
  exists short new_deadline,
    hours_short Sample64.slow_plan = Some (round1 short)
    /\ round1 short = PyFloat 10.8
    /\ Spec64.new_deadline (PyFloat 16.799999999999997) (PyInt 3)
       = Some new_deadline
    /\ new_deadline = 6%Z.
Proof.
  destruct (@infeasible_response_contents Sample64.float_repr
              Sample64.strftime Sample64.today Sample64.today Sample64.fuel
              Sample64.slow_profile "Algorithms" Sample64.three_topics 2
              None Sample64.slow_plan)
    as [(needed & available & short & figure & new_deadline & Hneeded
         & Havailable & _ & Hshort & Hreported & _ & Hdeadline & _) _].
  - vm_compute. reflexivity.
  - reflexivity.
  - reflexivity.
  - vm_compute in Hneeded. injection Hneeded as <-.
    vm_compute in Havailable. injection Havailable as <-.
    exists short, new_deadline.
    split; [exact Hreported|].
    vm_compute in Hshort. injection Hshort as <-.
    split; [vm_compute; reflexivity|].
    split; [exact Hdeadline|].
    vm_compute in Hdeadline. injection Hdeadline as <-. reflexivity.
Defined.

(** The quotient is the one of the floats.  With 2.1 hours a day the slow
    learner's 16.799999999999997 hours make 7.999999999999998 days, whose
    whole part is 7: the response suggests a new deadline of 8 days, that
    is to extend the deadline of 2 days by 6, where 16.8 / 2.1 = 8 on
    paper would give 9 and 7. *)
Example new_deadline_floors_the_binary_quotient :
  num_truediv (PyFloat 16.799999999999997) (PyFloat 2.1)
  = Ok (PyFloat 7.999999999999998)
  /\ Spec64.new_deadline (PyFloat 16.799999999999997) (PyFloat 2.1)
     = Some 8%Z
  /\ suggestions Sample64.slow_short_plan
     = Some [ "Study 8.4 hours per day instead of 2.1";
              "Extend deadline by 6 days";
              "Consider switching to 'fast' learning pace if you're confident"
            ].
Proof. repeat split; vm_compute; reflexivity. Qed.

(** A fast learner with ten days: eight learning days, then the
    "Intensive Revision" day with a session for the weak area and the
    "Final Review & Mock Test" day with one session of 2 * 30 minutes. *)
Lemma revision_phase_layout_witness :
  exists learned intensive final,
    daily_plan Sample64.ten_days_plan
    = Some (learned ++ [intensive; final])%list
    /\ List.length learned = 8%nat
    /\ phase intensive = "Intensive Revision"
    /\ map topic (sessions intensive) = ["Graphs"]
    /\ phase final = "Final Review & Mock Test"
    /\ map duration_minutes (sessions final) = [PyInt 60].
Proof.
  destruct (@revision_phase_layout Sample64.float_repr Sample64.strftime
              Sample64.today Sample64.today Sample64.fuel
              Sample64.fast_profile "Algorithms" Sample64.three_topics 10
              None Sample64.ten_days_plan)
    as [(revision_days & learned & revised & Hdays & Hplan & Hlen & _
         & Hrevised & Hlayout) _].
  - vm_compute. reflexivity.
  - reflexivity.
  - vm_compute in Hdays. injection Hdays as <-.
    destruct revised as [| intensive [| final [| extra revised]]];
      try (unfold len in Hrevised; simpl in Hrevised; lia).
    exists learned, intensive, final.
    split; [exact Hplan|]. split; [exact Hlen|].
    destruct (Hlayout 0%nat intensive eq_refl) as (_ & Hintensive & _).
    destruct (Hintensive eq_refl)
      as (Hphase & ? & ? & _ & _ & Htopics & _).
    destruct (Hlayout 1%nat final eq_refl) as (Hfinal & _).
    destruct (Hfinal eq_refl)
      as (Hphase' & half & minutes & Hhalf & Hminutes & Hsessions).
    split; [exact Hphase|]. split; [exact Htopics|].
    split; [exact Hphase'|].
    rewrite Hsessions. simpl.
    vm_compute in Hhalf. injection Hhalf as <-.
    vm_compute in Hminutes. injection Hminutes as <-. reflexivity.
Defined.

(** C5, as stated, fails: with three and a quarter hours a day the plan is
    feasible and the session of the "Final Review & Mock Test" day has 97
    minutes, where the daily hours times 30 are 97.5. *)
Lemma final_review_minutes_are_truncated :
  exists schedule entry session claimed,
    Sample64.plan_for Sample64.quarter_hours_profile Sample64.three_topics 3
      None = Ok Sample64.quarter_hours_plan
    /\ feasible Sample64.quarter_hours_plan = Some true
    /\ daily_plan Sample64.quarter_hours_plan = Some schedule
    /\ nth_error schedule 2 = Some entry
    /\ len schedule = 3%Z
    /\ phase entry = "Final Review & Mock Test"
    /\ sessions entry = [session]
    /\ duration_minutes session = PyInt 97
    /\ num_mul (PyFloat 3.25) (PyInt 30) = Ok claimed
    /\ claimed = PyFloat 97.5
    /\ num_eq (duration_minutes session) claimed = false.
Proof.
  do 4 eexists.
  split; [vm_compute; reflexivity|]. split; [reflexivity|].
  split; [reflexivity|]. split; [reflexivity|]. split; [reflexivity|].
  split; [reflexivity|]. split; [reflexivity|]. split; [reflexivity|].
  split; [vm_compute; reflexivity|]. split; [reflexivity|].
  vm_compute. reflexivity.
Qed.

(** The minutes are those of the binary64 products.  With 4.1 hours a day
    the product 4.1 * 30 is 122.99999999999999 and the final review has
    122 minutes; the product 4.1 * 60 is 245.99999999999997 and its floor
    division by one weak area gives the float 245.0. *)
Example revision_minutes_floor_the_binary_product :
  num_mul (PyFloat 4.1) (PyInt 30) = Ok (PyFloat 122.99999999999999)
  /\ num_mul (PyFloat 4.1) (PyInt 60) = Ok (PyFloat 245.99999999999997)
  /\ feasible Sample64.odd_hours_plan = Some true
  /\ option_map
       (map (fun entry =>
               (phase entry, map duration_minutes (sessions entry))))
       (daily_plan Sample64.odd_hours_plan)
     = Some [ ("Intensive Revision", [PyFloat 245]);
              ("Final Review & Mock Test", [PyInt 122]) ].
Proof. repeat split; vm_compute; reflexivity. Qed.

(** The planner's defaults with three topics and six days: four learning
    days, each a run of the specification's turns with sessions of 25
    minutes and breaks of 5. *)
Lemma learning_session_step_witness :
  exists times built_by_day,
    _calculate_topic_times Sample64.three_topics "moderate" [] None
    = Ok times
    /\ Spec64.learning_days (PyInt 25) (PyInt 5) times (PyInt 3)
         Sample64.three_topics
         (Spec64.nothing_logged Sample64.three_topics) built_by_day
    /\ List.length built_by_day = 4%nat.
Proof.
  destruct (@learning_session_step Sample64.float_repr Sample64.strftime
              Sample64.today Sample64.today Sample64.fuel
              Sample64.default_profile "Algorithms" Sample64.three_topics 6
              None Sample64.default_plan)
    as (times & pattern_minutes & pause_minutes & revision_days & learned
        & revised & built_by_day & Htimes & Hsession & Hbreak & Hdays & _
        & Hlen & Hrun & Hlearned).
  - vm_compute. reflexivity.
  - reflexivity.
  - exists times, built_by_day.
    split; [exact Htimes|].
    vm_compute in Hsession. injection Hsession as <-.
    vm_compute in Hbreak. injection Hbreak as <-.
    split; [exact Hrun|].
    rewrite <- (Forall2_length Hlearned), Hlen.
    vm_compute in Hdays. injection Hdays as <-. reflexivity.
Defined.

(** The lengths are those of binary64.  On the first day of the default
    plan the first topic gets five sessions of 25 minutes and a sixth of
    24, the whole minutes in the 0.4166666666666665 hours it still needs.
    After that session and its break 9.7e-17 hours remain, which is more
    than 0: the loop goes on and pops the two other topics, whose session
    would be those 9.7e-17 hours long, and the later learning days find
    the queue empty. *)
Example learning_days_in_binary64 :
  option_map
    (map (fun entry => (phase entry, map duration_minutes (sessions entry))))
    (daily_plan Sample64.default_plan)
  = Some [ ("Learning",
            [PyInt 25; PyInt 25; PyInt 25; PyInt 25; PyInt 25; PyInt 24]);
           ("Learning", []); ("Learning", []); ("Learning", []);
           ("Intensive Revision", []);
           ("Final Review & Mock Test", [PyInt 90]) ].
Proof. vm_compute. reflexivity. Qed.

End Planner64Properties.

(** * Further properties of the planner over binary64 *)

Module Planner64Guarantees.
Import Floats.
Import Py.
Import Float64.
Import Planner64.
Import Float64Facts.
Import Planner64Facts.

#[local] Set Warnings "-inexact-float".

Section Guarantees.

Variable float_repr : float -> string.
Variable strftime : Z -> string.
Variable current_date : Z.
Variable deadline_now : Z.
Variable fuel : nat.

(** X19: the days of a feasible plan are numbered 1, 2, ... in list order,
    and entry k (from 0) is dated k + min(0, deadline_days -
    revision_days) days after the reading of the clock at the start of
    [_create_daily_schedule]; the deadline of the plan is dated
    deadline_days days after a second reading of the clock, taken once the
    schedule is built. *)
Theorem days_are_numbered_and_dated (profile : StudentProfile)
    (subject_name : string) (topics : list string) (deadline_days : Z)
    (levels : option (dict string)) (plan : Plan) :
  generate_personalized_plan float_repr strftime current_date deadline_now
    fuel profile subject_name topics deadline_days levels = Ok plan ->
  feasible plan = Some true ->
  exists schedule revision_days deadline_date,
    daily_plan plan = Some schedule
    /\ Spec64.revision_days deadline_days = Some revision_days
    /\ date_after strftime deadline_now deadline_days = Ok deadline_date
    /\ deadline plan = Some deadline_date
    /\ forall k entry,
         nth_error schedule k = Some entry ->
         day entry = (Z.of_nat k + 1)%Z
         /\ date_after strftime current_date
              (Z.of_nat k + Z.min 0 (deadline_days - revision_days))
            = Ok (date entry).
Proof.
  intros Hgen Hflag.
  destruct (generate_branches _ _ _ _ _ _ _ _ _ _ Hgen)
    as (times & needed & available & _ & _ & _ & Hcase).
  destruct Hcase
    as [[_ Hresponse]
       | (_ & schedule & deadline_date & ? & Hs & Hdate & _ & ->)].
  { apply infeasible_response_fields in Hresponse.
    destruct Hresponse as (? & ? & ? & ? & ? & ? & ? & Hresponse).
    destruct Hresponse as (_ & _ & _ & _ & _ & _ & _ & ->).
    discriminate Hflag. }
  apply create_daily_schedule_run in Hs.
  destruct Hs as (session_info & revision_days & learned & revised
                  & built_by_day & _ & Hdays & -> & Hlen & Hlen' & _ & _
                  & Hlearned & Hrevised).
  exists (learned ++ revised)%list, revision_days, deadline_date.
  split; [reflexivity|]. split; [exact Hdays|]. split; [exact Hdate|].
  split; [reflexivity|].
  intros k entry Hk.
  destruct (Nat.lt_ge_cases k (List.length learned)) as [Hlt | Hge].
  - rewrite nth_error_app1 in Hk by exact Hlt.
    destruct (nth_error built_by_day k) as [sessions_built |] eqn:Hb.
    + destruct (Hlearned k entry sessions_built Hk Hb)
        as [Hday (_ & Hdated & _)].
      split; [exact Hday|].
      replace (Z.of_nat k + Z.min 0 (deadline_days - revision_days))%Z
        with (Z.of_nat k) by lia.
      exact Hdated.
    + apply nth_error_None in Hb. lia.
  - rewrite nth_error_app2 in Hk by exact Hge.
    destruct (Hrevised _ entry Hk) as [Hday (_ & Hdated & _)].
    unfold len in Hday. split; [lia|].
    replace (Z.of_nat k + Z.min 0 (deadline_days - revision_days))%Z
      with (deadline_days - revision_days
            + Z.of_nat (k - List.length learned))%Z by lia.
    exact Hdated.
Qed.

End Guarantees.

(** The ten days of the fast learner are dated from one reading of the
    clock and the deadline from a later one, past midnight. *)
Lemma days_are_numbered_and_dated_witness :
  exists schedule,
    daily_plan Sample64.overnight_plan = Some schedule
    /\ deadline Sample64.overnight_plan = Some "day 739011"
    /\ map (fun entry => (day entry, date entry)) schedule
       = [ (1, "day 739000"); (2, "day 739001"); (3, "day 739002");
           (4, "day 739003"); (5, "day 739004"); (6, "day 739005");
           (7, "day 739006"); (8, "day 739007"); (9, "day 739008");
           (10, "day 739009") ]%Z.
Proof.
  destruct (@days_are_numbered_and_dated Sample64.float_repr
              Sample64.strftime Sample64.today (Sample64.today + 1)
              Sample64.fuel Sample64.fast_profile "Algorithms"
              Sample64.three_topics 10 None Sample64.overnight_plan)
    as (schedule & revision_days & deadline_date & Hplan & _ & Hdate
        & Hdeadline & _).
  - vm_compute. reflexivity.
  - reflexivity.
  - exists schedule. split; [exact Hplan|].
    vm_compute in Hdate. injection Hdate as <-.
    split; [exact Hdeadline|].
    vm_compute in Hplan. injection Hplan as <-. reflexivity.
Defined.

End Planner64Guarantees.

(** * Properties of the question-answering client *)

Module ChatbotProperties.
Import Text Chatbot.

Local Open Scope Z_scope.

(** [is_space] holds of the specification's whitespace characters and of
    no other code point. *)
Lemma is_space_whitespace (c : code_point) :
  is_space c = true <-> In c SpecText.whitespace.
Proof.
  split.
  - unfold is_space. intro H.
    repeat (apply orb_true_iff in H; destruct H as [H | H]);
      repeat match goal with
             | H : (_ && _)%bool = true |- _ =>
                 apply andb_true_iff in H; destruct H
             | H : (_ <=? _) = true |- _ => apply Z.leb_le in H
             | H : (_ =? _) = true |- _ => apply Z.eqb_eq in H
             end.
    + assert (E : c = 9 \/ c = 10 \/ c = 11 \/ c = 12 \/ c = 13) by lia.
      unfold SpecText.whitespace.
      repeat (destruct E as [E | E]; [subst c; simpl; tauto|]).
      subst c. simpl. tauto.
    + assert (E : c = 28 \/ c = 29 \/ c = 30 \/ c = 31 \/ c = 32) by lia.
      unfold SpecText.whitespace.
      repeat (destruct E as [E | E]; [subst c; simpl; tauto|]).
      subst c. simpl. tauto.
    + subst c. simpl. tauto.
    + subst c. simpl. tauto.
    + subst c. simpl. tauto.
    + assert (E : c = 8192 \/ c = 8193 \/ c = 8194 \/ c = 8195 \/ c = 8196
                  \/ c = 8197 \/ c = 8198 \/ c = 8199 \/ c = 8200
                  \/ c = 8201 \/ c = 8202) by lia.
      unfold SpecText.whitespace.
      repeat (destruct E as [E | E]; [subst c; simpl; tauto|]).
      subst c. simpl. tauto.
    + subst c. simpl. tauto.
    + subst c. simpl. tauto.
    + subst c. simpl. tauto.
    + subst c. simpl. tauto.
    + subst c. simpl. tauto.
  - unfold SpecText.whitespace. intro H. simpl in H.
    repeat (destruct H as [H | H]; [subst c; reflexivity|]).
    destruct H.
Qed.

Lemma not_space_whitespace (c : code_point) :
  is_space c = false <-> ~ In c SpecText.whitespace.
Proof.
  rewrite <- is_space_whitespace. destruct (is_space c); split; intro H.
  - discriminate H.
  - exfalso. apply H. reflexivity.
  - discriminate.
  - reflexivity.
Qed.

Lemma lstrip_spec (s : text) :
  exists before,
    s = (before ++ lstrip s)%list
    /\ SpecText.blank before
    /\ (forall c rest, lstrip s = c :: rest -> is_space c = false).
Proof.
  induction s as [| c s IH]; simpl.
  - exists []. split; [reflexivity|]. split; [constructor|]. discriminate.
  - destruct (is_space c) eqn:Hc.
    + destruct IH as (before & Hs & Hall & Hhead).
      exists (c :: before). split; [simpl; rewrite <- Hs; reflexivity|].
      split; [|exact Hhead].
      constructor; [apply is_space_whitespace; exact Hc | exact Hall].
    + exists []. split; [reflexivity|]. split; [constructor|].
      intros c' rest E. injection E as <- _. exact Hc.
Qed.

Lemma rstrip_spec (s : text) :
  exists after,
    s = (rstrip s ++ after)%list
    /\ SpecText.blank after
    /\ (forall front c,
          rstrip s = (front ++ [c])%list -> is_space c = false).
Proof.
  induction s as [| c s IH]; simpl.
  - exists []. split; [reflexivity|]. split; [constructor|].
    intros [| ? ?] ? E; discriminate E.
  - destruct IH as (after & Hs & Hall & Hlast).
    destruct (rstrip s) as [| c1 r1] eqn:Hr.
    + simpl in Hs. subst after. destruct (is_space c) eqn:Hc.
      * exists (c :: s). split; [reflexivity|]. split.
        -- constructor; [apply is_space_whitespace; exact Hc | exact Hall].
        -- intros [| ? ?] ? E; discriminate E.
      * exists s. split; [reflexivity|]. split; [exact Hall|].
        intros [| ? [| ? ?]] c' E; try discriminate E.
        injection E as <-. exact Hc.
    + exists after. split; [rewrite Hs at 1; reflexivity|].
      split; [exact Hall|].
      intros [| c0 front] c' E; [discriminate E|].
      injection E as <- E. apply (Hlast front c'). exact E.
Qed.

Lemma rstrip_keeps_head (s : text) (c : code_point) (rest : list code_point) :
  (forall c' rest', s = c' :: rest' -> is_space c' = false) ->
  rstrip s = c :: rest -> is_space c = false.
Proof.
  destruct s as [| c0 s]; simpl; [discriminate|].
  intros Hhead E. specialize (Hhead c0 s eq_refl).
  destruct (rstrip s).
  - rewrite Hhead in E. injection E as <- _. exact Hhead.
  - injection E as <- _. exact Hhead.
Qed.

(** [s.strip()] is [s] trimmed of the whitespace around it. *)
Lemma strip_trimmed (s : text) : SpecText.trimmed s (strip s).
Proof.
  unfold strip.
  destruct (lstrip_spec s) as (before & Hb & Hball & Hhead).
  destruct (rstrip_spec (lstrip s)) as (after & Ha & Haall & Hlast).
  exists before, after.
  split; [rewrite <- Ha; exact Hb|].
  split; [exact Hball|]. split; [exact Haall|]. split.
  - intros c rest E. apply not_space_whitespace.
    apply (@rstrip_keeps_head (lstrip s) c rest Hhead E).
  - intros front c E. apply not_space_whitespace.
    apply (Hlast front c E).
Qed.

Lemma error_text (description : text) :
  (literal "Error: " ++ description)%list
  = SpecText.error_message description.
Proof. reflexivity. Qed.

(** C9: when the remote call returns, [ask] returns the content of the
    response trimmed of the whitespace around it, the Unicode whitespace
    that [str.strip()] removes, and leaves the line "Processing: " with
    the question on the console; when the remote call raises an
    exception, [ask] raises nothing: it prints the question, the heading
    of the error report and the error text, writes the traceback to the
    standard error and returns the text "Error: " followed by the
    description of the exception.  A response of a no-break space, "Hi
    there", a line separator, an ideographic space and a line feed is
    answered "Hi there". *)
Theorem ask_returns_text_or_error (invoke : text -> text -> Outcome)
    (question context : text) (console : Console) :
  (forall content,
     invoke question context = Returned content ->
     exists answer,
       ask invoke question context console
       = (answer,
          {| stdout :=
               (stdout console
                ++ [(literal "Processing: " ++ question)%list])%list;
             stderr := stderr console |})
       /\ SpecText.trimmed content answer)
  /\ (forall description trace,
        invoke question context = Raised description trace ->
        ask invoke question context console
        = (SpecText.error_message description,
           {| stdout :=
                (stdout console
                 ++ [ (literal "Processing: " ++ question)%list;
                      (10 :: 10060 :: literal " FULL ERROR DETAILS:");
                      SpecText.error_message description ])%list;
              stderr := (stderr console ++ trace)%list |}))
  /\ fst (ask (fun _ _ =>
                 Returned
                   ([160] ++ literal "Hi there" ++ [8232; 12288; 10])%list)
            question context console)
     = literal "Hi there".
Proof.
  split; [|split].
  - intros content E. unfold ask. rewrite E.
    exists (strip content). split; [reflexivity | apply strip_trimmed].
  - intros description trace E. unfold ask. rewrite E.
    unfold print, print_exc, error_heading. simpl stdout. simpl stderr.
    rewrite error_text. rewrite <- !app_assoc. reflexivity.
  - reflexivity.
Qed.

(** A question answered with a sentence between a no-break space, a space
    and a line feed, and a question on which the chain times out. *)
Lemma ask_returns_text_or_error_witness :
  (exists answer,
     ask SampleChat.answering (literal "What is binary search?") []
       SampleChat.quiet
     = (answer,
        {| stdout := [literal "Processing: What is binary search?"];
           stderr := [] |})
     /\ SpecText.trimmed SampleChat.page answer
     /\ answer = literal "Binary search halves the range.")
  /\ ask SampleChat.timing_out (literal "What is a heap?") []
       SampleChat.quiet
     = (literal "Error: timed out",
        {| stdout := [ literal "Processing: What is a heap?";
                       (10 :: 10060 :: literal " FULL ERROR DETAILS:");
                       literal "Error: timed out" ];
           stderr := [literal "Traceback (most recent call last):"] |}).
Proof.
  split.
  - destruct (@ask_returns_text_or_error SampleChat.answering
                (literal "What is binary search?") [] SampleChat.quiet)
      as (Hreturned & _ & _).
    destruct (Hreturned SampleChat.page eq_refl)
      as (answer & Hask & Htrimmed).
    exists answer. split; [exact Hask|]. split; [exact Htrimmed|].
    vm_compute in Hask. injection Hask as <-. reflexivity.
  - destruct (@ask_returns_text_or_error SampleChat.timing_out
                (literal "What is a heap?") [] SampleChat.quiet)
      as (_ & Hraised & _).
    exact (Hraised (literal "timed out")
             [literal "Traceback (most recent call last):"] eq_refl).
Defined.

End ChatbotProperties.

(** * Further properties of the question-answering client *)

Module ChatbotGuarantees.
Import Text Chatbot.

Lemma blank_cons (c : code_point) (s : text) :
  SpecText.blank (c :: s) <-> is_space c = true /\ SpecText.blank s.
Proof.
  unfold SpecText.blank. split.
  - intro H. inversion H; subst. split; [|assumption].
    apply ChatbotProperties.is_space_whitespace. assumption.
  - intros [Hc Hs]. constructor; [|exact Hs].
    apply ChatbotProperties.is_space_whitespace. exact Hc.
Qed.

Lemma blank_lstrip (s : text) :
  SpecText.blank (lstrip s) <-> SpecText.blank s.
Proof.
  induction s as [| c s IH]; simpl; [tauto|].
  destruct (is_space c) eqn:Hc; [|tauto].
  rewrite IH, blank_cons. tauto.
Qed.

Lemma rstrip_empty_iff (s : text) : rstrip s = [] <-> SpecText.blank s.
Proof.
  induction s as [| c s IH]; simpl.
  - split; [constructor | reflexivity].
  - rewrite blank_cons. destruct (rstrip s) as [| c1 r1].
    + destruct (is_space c).
      * rewrite <- IH. tauto.
      * split; [discriminate | intros [H _]; discriminate H].
    + rewrite <- IH. split; [discriminate | intros [_ H]; discriminate H].
Qed.

Lemma strip_empty_iff (s : text) : strip s = [] <-> SpecText.blank s.
Proof. unfold strip. rewrite rstrip_empty_iff. apply blank_lstrip. Qed.

(** X26: [ask] returns the empty string exactly when the remote call
    returned a content made of whitespace only, the empty content
    included; the reply to a failed call is never empty.  A content of a
    no-break space and an ideographic space is answered with the empty
    string. *)
Theorem empty_answer_means_blank_content
    (invoke : text -> text -> Outcome) (question context : text)
    (console : Console) :
  (fst (ask invoke question context console) = []
   <-> exists content,
         invoke question context = Returned content
         /\ SpecText.blank content)
  /\ fst (ask (fun _ _ => Returned [160; 12288]%Z) question context console)
     = [].
Proof.
  split; [|reflexivity].
  unfold ask.
  destruct (invoke question context) as [content | description trace].
  - simpl fst. rewrite strip_empty_iff. split.
    + intro H. exists content. split; [reflexivity | exact H].
    + intros (content' & E & H). injection E as <-. exact H.
  - simpl. split; [discriminate|]. intros (content & E & _). discriminate.
Qed.

End ChatbotGuarantees.

(** * The worked examples in binary64

    The planner of [StudyPlanner] computes with exact rationals.  The
    figures on which its examples turn are recomputed here with the
    kernel's IEEE 754 binary64 numbers, the arithmetic of Python's [float]:
    on these inputs they come out on the same side of every comparison,
    and of every rounding, as the exact ones. *)

Module Binary64.
Import Floats.

Local Open Scope float_scope.
#[local] Set Warnings "-inexact-float".

(** [sum(topic_time_allocation.values()) * (1 + revision_ratio)]. *)
Definition total_with_revision (allocations : list float)
    (revision_ratio : float) : float :=
  fold_left PrimFloat.add allocations 0 * (1 + revision_ratio).

(** [deadline_days * daily_hours]. *)
Definition hours_available (deadline_days daily_hours : float) : float :=
  deadline_days * daily_hours.

(** [x] lies strictly between [low] and [high]. *)
Definition between (low x high : float) : bool :=
  PrimFloat.ltb low x && PrimFloat.ltb x high.

(** Three plain topics at the moderate pace against three days of three and
    a quarter hours: both sides are exactly 9.75, the plan is feasible, and
    9.75 rounds to 9.8 at one decimal, ties going to the even digit. *)
Example boundary_plan_binary64 :
  PrimFloat.eqb (total_with_revision [2.5; 2.5; 2.5] 0.3) 9.75 = true
  /\ PrimFloat.eqb (hours_available 3 3.25) 9.75 = true
  /\ PrimFloat.ltb (hours_available 3 3.25)
       (total_with_revision [2.5; 2.5; 2.5] 0.3) = false.
Proof. repeat split; vm_compute; reflexivity. Qed.

(** The final review of a day of three and a quarter hours: 97.5, which
    [int] cuts to 97. *)
Example final_review_binary64 : PrimFloat.eqb (3.25 * 30) 97.5 = true.
Proof. vm_compute. reflexivity. Qed.

(** One topic at the fast pace against one day of three hours is feasible,
    and a fifth of one day truncates to no day at all. *)
Example one_day_plan_binary64 :
  PrimFloat.ltb (hours_available 1 3) (total_with_revision [1.5] 0.2) = false
  /\ between 0 (1 * 0.2) 1 = true.
Proof. repeat split; vm_compute; reflexivity. Qed.

(** A weak, hard topic at the moderate pace: between 4.85 and 4.95, hence
    4.9 at one decimal; alone in a plan it needs between 6.35 and 6.45
    hours, hence 6.4. *)
Example weak_hard_allocation_binary64 :
  between 4.85 (2.5 * 1.5 * 1.3) 4.95 = true
  /\ between 6.35 (total_with_revision [4.9] 0.3) 6.45 = true.
Proof. repeat split; vm_compute; reflexivity. Qed.

(** Three topics at the slow pace against two days of three hours: the
    plan is infeasible, the hours needed print as 16.8, the shortfall as
    10.8, the daily hours to study as 8.4, and the new deadline is five
    whole days and one more. *)
Example shortfall_binary64 :
  let needed := total_with_revision [4; 4; 4] 0.4 in
  PrimFloat.ltb (hours_available 2 3) needed = true
  /\ between 16.75 needed 16.85 = true
  /\ between 10.75 (needed - hours_available 2 3) 10.85 = true
  /\ between 8.35 (needed / 2) 8.45 = true
  /\ PrimFloat.leb (needed / 2) 12 = true
  /\ between 5 (needed / 3) 6 = true.
Proof. repeat split; vm_compute; reflexivity. Qed.

End Binary64.

(** * A learning day in binary64

    One day of the learning loop, computed with the kernel's IEEE 754
    binary64 numbers and with the exact numbers of the planner above: three
    hours a day, the pomodoro pattern, a topic of two and a half hours.
    After six sessions and six breaks the exact hours that remain are 0
    and the loop ends; the binary64 hours are a little more than 0, so
    that Python's loop goes on with a leftover of less than 0.1 hour. *)

Module Binary64Day.
Import Floats.

Local Open Scope float_scope.
#[local] Set Warnings "-inexact-float".

(** [min(a, b, c)]: the first of the smallest arguments. *)
Definition min2 (m x : float) : float := if PrimFloat.ltb x m then x else m.
Definition min3 (a b c : float) : float := min2 (min2 a b) c.

(** [hours_remaining] and [topic_progress[current_topic]]. *)
Record Day : Type := { hours_left : float; logged : float }.

(** One pass of the loop body on a topic allotted [allotted] hours: the
    session length, the progress, and the hours left after the session and
    its break. *)
Definition pass (session_minutes break_minutes allotted : float) (d : Day)
  : Day :=
  let session_hours :=
    min3 (session_minutes / 60) (hours_left d) (allotted - logged d) in
  if PrimFloat.ltb 0.1 session_hours then
    let remaining := hours_left d - session_hours in
    {| hours_left :=
         if PrimFloat.ltb 0 remaining then remaining - break_minutes / 60
         else remaining;
       logged := logged d + session_hours |}
  else d.

Definition six_pomodoros : Day :=
  Nat.iter 6 (pass 25 5 2.5) {| hours_left := 3; logged := 0 |}.

(** In binary64 the topic is complete and a positive leftover below 0.1
    hour remains. *)
Example leftover_binary64 :
  PrimFloat.leb 2.5 (logged six_pomodoros) = true
  /\ PrimFloat.ltb 0 (hours_left six_pomodoros) = true
  /\ PrimFloat.leb (hours_left six_pomodoros) 0.1 = true.
Proof. repeat split; vm_compute; reflexivity. Qed.

(** In exact arithmetic the same day ends with no hours left. *)
Example leftover_exact :
  exists final,
    StudyPlanner.while_loop Sample.pomodoro Sample.sorting_times []
      (StudyPlanner.loop_measure Sample.first_morning)
      Sample.first_morning = Ok final
    /\ Py.num_Q (StudyPlanner.hours_remaining final) == 0%Q
    /\ List.length (StudyPlanner.sessions (StudyPlanner.day_schedule final))
       = 6%nat.
Proof. eexists. split; [vm_compute; reflexivity|]. split; reflexivity. Qed.

End Binary64Day.
